(* ===== verification/_CoqProject ===== *)
-Q . S2P
Prelude.v
PyStr.v
PyRe.v
PyJson.v
PyFloat.v
Subprocess.v
FileTree.v
Console.v
WebBorrow.v
DiarySync.v
DiaryTodos.v
DiaryEntries.v
DiaryStart.v
DiaryApp.v
DiaryRoutes.v
TimeTracker.v
MachineClean.v
MachineSummary.v
MachineCopy.v
WboxTest.v
DeployCheetah.v
