(* ===== verification/Prelude.v ===== *)
(** * ymoz-tools: a verification development

    The repository is a set of operational helper scripts written in Python:
    a web wrapper around an inventory tool, a diary kept in a git
    repository, a time tracker on SQLite, and scripts that clean, copy to and
    deploy on lab machines over SSH.  This library models them as executable
    Rocq definitions, translated from the sources under [src/], and proves
    the properties that make each one correct, or shows where it is not.

    ** The program and the files that model it

    - [src/webborrow/app.py], in [WebBorrow.v].  A Flask wrapper around the
      external tool [pyborrow.py].  [strip_ansi] removes the colour codes of
      the tool's output; [parse_machine_table] walks the text line by line
      with the three variables [current_section], [current_cluster] and
      [is_cluster_table] (the record [pstate], the header tests
      [section_step], the guard [skip_row], the row builder [parse_row]);
      [classify] derives the state of a machine from its status text;
      [parse_summary] finds the four numbers of the summary row; the
      handlers [get_machines], [borrow_machine], [free_machine] and
      [get_machine_details] are functions of the outcome of the subprocess
      they run.
    - [src/diary/app.py], in six files.
      [DiarySync.v]: [run_git_command], the dictionary [sync_state],
      [ensure_remote_configured] and [sync_with_remote], the latter both as
      a function and as a thread that takes one action at a time
      ([pc], [thread_step]) among other threads ([sys_step]).
      [DiaryStart.v]: [ensure_repo_exists], the loop of [background_sync]
      and the block under [__main__] ([diary_main]).
      [DiaryTodos.v]: the file [todos.json] and the operations
      [load_todos], [save_todos], [create_todo], [toggle_todo],
      [update_todo_text], [delete_todo], with the five todo routes.
      [DiaryEntries.v]: [create_entry], [delete_entry] and
      [get_all_entries] on the file tree of the repository, the header
      parser [parse_entry], and the three entry routes.
      [DiaryApp.v]: the process as a whole ([process]: the tree of the
      entries, [todos.json], the dictionary with the log of git, the calls
      of [sync_with_remote] under way).  [app_step] is what an [event]
      does: a request to a route (the handler of the file above, and the
      call it starts with [threading.Thread]), a turn of the periodic
      thread, or one action of one call ([thread_step]).
      [DiaryRoutes.v]: the todo routes as threads of that process, one
      access to [todos.json], to git or to the threads at a time ([rpc],
      [route_step]), among the other routes and the calls ([serve]).
    - [src/time_tracker/app.py], in [TimeTracker.v].  The tables [subjects]
      and [time_entries] as lists of rows with their [AUTOINCREMENT]
      counters ([db]); one definition for each handler; each SQL statement
      is the list function it denotes.
    - [src/cheetah/machine_clean.py], in [MachineClean.v].  The class
      [MachineCleanup]: its methods are computations in the monad [cleanup]
      over a [session] (the command lines sent, the texts printed, the
      client and its connection), on a remote machine [remote] that answers
      a command line with an exit status and its output, or raises.
      [run_command] with its sudo wrapping and filtering, the parsers of
      [df], [git_clean], [docker_cleanup], [get_remote_machine_var],
      [cleanup_nested_machine], and [run_full_cleanup] with its
      [try ... finally].  The functions below the class are in
      [MachineSummary.v]: [parse_size] and [format_size] on floats, the
      loop of [print_partition_summary] with its variable [total_freed]
      and its bare [except], [print_summary], and the [main] of the script
      ([clean_main]) with the status it gives to [sys.exit].
    - [src/machine_copy_files.py], in [MachineCopy.v].  The class
      [MachineCopyFiles]: [_remote_mkdir_p], [_copy_recursive] and
      [run_copy] with its [try ... except ... finally], on a local tree
      that is read and a remote tree that the calls of SFTP change
      ([sftp_stat], [sftp_mkdir], [sftp_put]), with the counters
      [files_copied] and [dirs_created] of the object (the record
      [copier]), and the [main] of the script ([copy_main]) with its
      status.
    - [src/deploy_cheetah.py], in [DeployCheetah.v].  [find_script_files]
      on a tree of files ([rglob], the [suffix] of [pathlib], the shebang
      test, the order of [sorted] on paths), [scp_files] with its loop
      ([scp_file], [scp_loop]) over the commands [ssh] and [scp], and the
      [main] of the script ([deploy_main]) with its three exit statuses.  A
      [deployment] holds the texts printed and the commands run.
    - [src/wbox_test.py], in [WboxTest.v].  The help texts, the three
      prompts [prompt_yes_no], [prompt_yes_no_exclude] and [prompt_string]
      as loops over the lines typed ([while_true] on a [terminal]),
      [build_command] and [main].

    ** Shared files

    - [Prelude.v] (this file): the tactics, the hint databases [py] and
      [pyrw], Python exceptions as values ([pyexn], [result] with the monad
      notation of stdpp), and the generic lemmas on lists the components
      share: runs at the ends of a list ([trim]), filters, and the stable
      insertion sort [sort_by] that models [sorted] and [ORDER BY].
    - [PyStr.v]: the [str] runtime.  A string is the list of its code
      points; [in], [split], [strip], [lower], [upper], [replace],
      [startswith], [int], [str] of a number and the order of strings are
      functions on such lists; [int(str(n)) == n].
    - [PyFloat.v]: the [float] runtime.  A float is a value of the
      Standard Library's [spec_float] at precision 53 (binary64), with its
      operations, which round to nearest even; [float_of_str] is [float]
      of a text, correctly rounded, and [format_1f] the format [.1f].
      Examples compare them with the floats of the machine.
    - [PyRe.v]: the fragment of [re] the scripts use, as a backtracking
      matcher with [re.search] and [re.sub] on top of it.
    - [PyJson.v]: the values of a JSON request body, [dict.get], truth
      value testing, and the [AttributeError] of a method call on a value
      that is not a string.
    - [Subprocess.v]: the three outcomes of [subprocess.run], and the
      operating system as an oracle that answers a command given the
      commands run before; theorems hold for every oracle.
    - [FileTree.v]: directories and files as a tree, with the operations of
      [pathlib] the diary calls, the resolution of [.] and [..], [mkdir]
      and [listdir], trees as values ([graft], [sorted_tree]), what lies
      below a directory ([rglob]) and the order of paths ([path_leb]).
    - [Console.v]: the monad [stex] of the command-line scripts (a state,
      and a value or an exception), [try_finally], [try_except] and
      [for_each]; the interface [Console] of a state that holds what was
      printed, with [print] and the methods [log], [log_verbose] and
      [log_section] that two classes share; the loop rule [for_each_inv]
      and the frame rules [preserves].

    ** What the theorems show

    - Inventory parser: the guard of the row loop never raises and the
      parser is total; the three loop variables stay consistent, and the
      loop refines the one-variable section automaton of the specification
      ([parse_lines_refines]); every record is well formed; the decision
      table of the status classifier; [strip_ansi] erases complete colour
      sequences and nothing else; and three places
      where the code departs from its specification (the box-drawing
      literals, sequences that one pass of [re.sub] leaves, empty cells).
    - Diary synchronisation: a thread that is not interrupted computes
      [sync_with_remote] within 13 actions; the result on every path; the
      git commands in their order; no error is ever recorded; under every
      interleaving the flag [syncing] is clear when no thread is
      synchronising, but it does not keep two threads apart.  Every
      action lowers the [rank] of its thread, so no call runs forever,
      whatever the interleaving ([sync_terminates]), and no call waits for
      another ([sync_thread_finishes]).
    - Diary start: what [ensure_repo_exists] does to a repository that is
      there and to one that is not, and when it raises.
    - Diary todos: stored texts stay non-empty and stripped; toggling twice
      is the identity; what deletion removes and when it writes; a refused
      request changes nothing.
    - The diary as one process: under every sequence of requests and
      actions the flag is set only while a call is in its section and the
      todos stay well formed ([app_invariant]); a request that changes
      anything starts a call ([change_starts_sync]); the actions of the
      calls are at most thirteen for each request ([app_acts_bounded]);
      and when the requests stop the calls all return, with the flag
      released and the repository untouched ([app_quiesces]).
    - The todo routes served at the same time: a route that is not
      interrupted does what the one step of the process does
      ([route_alone_is_atomic]); the invariant of the process holds under
      every interleaving of the accesses, also for what a route is about
      to write ([server_invariant]); a route answers within five accesses
      wherever the others are ([route_answers]); and two requests that
      overlap lose a todo that both were told is stored
      ([concurrent_creates_lose_one]).
    - Diary entries: what [create_entry] writes, [get_all_entries] lists
      and reads back; what [delete_entry] does on every path; and that its
      path can leave the repository.
    - Time tracker: the invariant of the tables under every handler; the
      cascade of [delete_subject]; entries of subjects that do not exist;
      the order, bound and content of the listing; the sum of the daily
      totals.
    - Machine cleanup: a small logic of the methods ([triple], with the
      rule of sequencing and the postcondition [outcome]) gives, for every
      machine, the command lines a run sends and their order
      ([cleanup_plan]); the connection is closed also when a command
      raises; the displayed texts do not show the password; the two
      parsers of [df] agree on a well-formed output and where they do not.
    - Sizes and summary: the divisions by 1024 of [format_size] are exact
      and as many as the exponent says ([format_size_exact]), so that the
      number printed is at most 1024.0, which it can be; a size of one
      decimal under K, M, G or T is read and printed again as the same text
      ([format_parse_roundtrip]), and B and P are not read at all; the
      summary never raises and its total is the sum over the partitions
      whose sizes could be read; the status of the script is 0 exactly
      after a run that sent the whole plan.
    - Machine copy: to a destination that is not there the copy writes
      the local tree, each directory in the order of its names, counts its
      files and directories and changes nothing else ([run_copy_fresh], by
      the loop invariant [copying]); [run_copy] never raises and closes
      the channel it opened; the status of the script is 0 exactly when it
      returned [True].
    - Deployment: [find_script_files] returns the scripts below the
      directory and nothing else, once each and in order, whatever the
      order in which the directories are listed; [scp_files] runs the
      commands of [scp_plan] and returns [True] exactly when the first
      [mkdir -p] and every [scp] of the log returned 0; the status and the
      commands of the script in each of its cases, the dry run included.
    - Command builder: [main] asks its seven questions in order, each
      until it is answered, prints the command [build_command] makes of
      the answers and runs it only when asked to; the command determines
      the answers; every prompt ends, with the first answer it
      understands or, when the input runs out, with [EOFError]
      ([prompts_terminate]).

    ** Bounds and fuel

    - [recursion_limit] bounds the nested calls of [_copy_recursive], as
      the interpreter does; a tree deeper than it makes the copy fail with
      [RecursionError], and the theorem of the copy asks for a tree that
      is not.
    - [while_true] takes at most one turn more than there are lines left
      to type: each turn of a prompt reads one line, and [input] raises
      [EOFError] when none is left ([while_true_eof]), so the bound is
      never what ends a loop; with more turns the loop does the same
      ([until_enough]).

    - The scanning loops of the runtime ([split], [re.sub]) cut the
      remainder after each match; their fuel is the length of the input,
      and [split_unfold] and [sub_unfold] show that it is enough.  The star
      of the matcher iterates at most once for each character left.
    - [sync_fuel] = 13 is the longest path of [thread_step] from [Guard] to
      [Done]; [run_thread_mono] shows that more fuel changes nothing, and
      [rank] gives the longest path from every program counter
      ([thread_step_rank]; the bound is reached, [rank_reached]).
    - In [DiaryApp.v] a route is one step: its writes and its two git
      commands are not interleaved with the actions of the calls, which
      interleave with each other and with the routes action by action.
      [DiaryRoutes.v] removes this for the todo routes, which read, change
      and write one file; the entry routes stay one step there: each
      writes or removes a file of its own.  A route has five accesses at
      most ([route_rank]).
      [todos.json] is kept beside the tree of the entries, whose routes
      cannot reach it.  [quiesce] gives each call as many actions as its
      [rank], which is enough ([run_thread_rank]).
    - [\d] and [str.isdigit] are modelled for the ASCII digits; [lower] for
      ASCII, Latin-1 and the two characters whose lower case is longer or
      shorter.  [strftime] is fixed-width decimal: years 1000 to 9999, the
      weekday names of the C locale.
    - [float] is modelled on texts of ASCII digits, with sign, point,
      exponent, underscores between digits, [inf] and [nan]; a text of more
      than 400 digits before or after the point is read as infinity or
      zero, which is what it rounds to.  [upper] is modelled for ASCII and
      Latin-1.  The round trip of sizes is proved for the numbers of one
      decimal from 1.0 to 1023.9: the quotient by ten has 53 or 54 bits
      and is rounded within two units of its last bit
      ([binary_round_aux_quotient]), which is far less than the half tenth
      that [format_1f] forgives ([float_of_tenths]); the multiplication by
      a power of 1024 is exact.  No axiom on floats is used: the machine
      floats appear in examples only.
    - The fuel of [str_of_N] is the number of bits of the number, which is
      never less than its number of digits ([str_of_N_spec]).
    - SQLite values are integers and texts; what column affinity does to
      them is the interface [Affinity] of [TimeTracker.v].

    ** What is not modelled

    Paths as texts (a path is the list of its components); the parsing of
    the command line by [argparse] ([deploy_main], [clean_main] and
    [copy_main] take the values parsed); what git writes into the
    repository (its answers are those of the operating system); files that cannot be read;
    [KeyboardInterrupt].
    Flask routing and templates, [app.run], what [git pull] writes into
    [todos.json] between two accesses of a route, the connection to SQLite
    ([get_db], [close_db], [init_db]: the tables are there from the
    start), [time.sleep], the programs the
    scripts run (their answers are parameters), the clock and the random
    identifiers (arguments), symbolic links and permissions of the file
    system, disk errors on write, JSON numbers with a fraction.

    ** Conventions

    - Python [None] is [option]'s [None]; an exception that the code can
      raise is a value of [result], never a missing case.
    - Loops over a list are structural recursion on the list.
    - String literals are written with [u "..."], which decodes the UTF-8
      bytes of a Rocq string into code points, so that a literal reads as it
      does in the source; the literals of a component are frozen with
      [Eval vm_compute] under the name of what they spell. *)

From Stdlib Require Import Ascii String.
From stdpp Require Import base tactics option list numbers sorting.

#[global] Open Scope list_scope.

(** ** Hint databases *)

(** [py] holds the resolution hints of the development; [pyrw] its rewrite
    rules (lengths, boolean reflections, unfolding equations). *)
Create HintDb py discriminated.
Create Rewrite HintDb pyrw.

(** ** Tactics *)

(** Case analysis on the scrutinee of the first [match] or [if] in the goal. *)
Ltac destr_goal :=
  match goal with
  | |- context [match ?x with _ => _ end] => destruct x eqn:?
  end.

(** Turn boolean connectives in hypotheses and goal into propositions. *)
Ltac bool_prop :=
  repeat match goal with
  | H : _ && _ = true |- _ => apply andb_true_iff in H; destruct H
  | H : _ || _ = false |- _ => apply orb_false_iff in H; destruct H
  | H : negb _ = true |- _ => apply negb_true_iff in H
  | H : negb _ = false |- _ => apply negb_false_iff in H
  | H : (_ =? _)%N = true |- _ => apply N.eqb_eq in H
  | H : (_ =? _)%N = false |- _ => apply N.eqb_neq in H
  | H : (_ <? _)%nat = true |- _ => apply Nat.ltb_lt in H
  | H : (_ <? _)%nat = false |- _ => apply Nat.ltb_ge in H
  | H : (_ <=? _)%nat = true |- _ => apply Nat.leb_le in H
  | H : (_ <=? _)%nat = false |- _ => apply Nat.leb_gt in H
  end.

(** Close a goal by splitting every boolean test it branches on. *)
Ltac split_ifs :=
  repeat (destr_goal; simpl in *; try congruence; try done).

(** ** Python exceptions as values *)

(** A computation that may raise: [Ok] carries its value, [Raise] the
    exception that leaves it.  The monad notation is stdpp's. *)
Inductive pyexn : Type :=
| AttributeError
| ValueError
| IndexError
| KeyError
| TypeError
| OSError
| IntegrityError
| InterfaceError
| OverflowError
| SSHException
| FileNotFoundError
| RecursionError
| EOFError.

Inductive result (A : Type) : Type :=
| Ok (a : A)
| Raise (e : pyexn).
Arguments Ok {A} a.
Arguments Raise {A} e.

#[export] Instance result_ret : MRet result := fun A a => Ok a.
#[export] Instance result_bind : MBind result := fun A B f m =>
  match m with
  | Ok a => f a
  | Raise e => Raise e
  end.
#[export] Instance result_fmap : FMap result := fun A B f m =>
  match m with
  | Ok a => Ok (f a)
  | Raise e => Raise e
  end.

(** [try: ... except: handler]. *)
Definition catch {A} (m : result A) (h : pyexn -> result A) : result A :=
  match m with
  | Ok a => Ok a
  | Raise e => h e
  end.

Definition is_Ok {A} (m : result A) : Prop := exists a, m = Ok a.

Lemma bind_Ok {A B} (f : A -> result B) (m : result A) b :
  m ≫= f = Ok b <-> exists a, m = Ok a /\ f a = Ok b.
Proof. destruct m; simpl; split; [eauto|intros (? & [= <-] & ?); done|done|intros (? & ? & _); done]. Qed.

Lemma is_Ok_bind {A B} (f : A -> result B) (m : result A) :
  is_Ok m -> (forall a, m = Ok a -> is_Ok (f a)) -> is_Ok (m ≫= f).
Proof. intros [a ->] H. by apply H. Qed.

#[export] Hint Resolve is_Ok_bind : py.

(** ** Generic functions on lists *)

Section ListOps.
Context {A : Type}.
Implicit Types (p : A -> bool) (l : list A).

(** The longest prefix whose elements satisfy [p], and what follows it. *)
Fixpoint take_while p l : list A :=
  match l with
  | x :: r => if p x then x :: take_while p r else []
  | [] => []
  end.

Fixpoint drop_while p l : list A :=
  match l with
  | x :: r => if p x then drop_while p r else l
  | [] => []
  end.

(** Python's [all(p(x) for x in l)] and [any(...)]. *)
Definition all_b p l : bool := forallb p l.
Definition any_b p l : bool := existsb p l.

(** [l[i] if len(l) > i else d]. *)
Definition get_or (d : A) l (i : nat) : A := nth i l d.

Lemma take_drop_while p l : take_while p l ++ drop_while p l = l.
Proof. induction l as [|x r IH]; simpl; [done|]. destruct (p x); simpl; congruence. Qed.

Lemma take_while_all p l : forallb p (take_while p l) = true.
Proof. induction l as [|x r IH]; simpl; [done|]. destruct (p x) eqn:E; simpl; [by rewrite E|done]. Qed.

Lemma drop_while_head p l x r : drop_while p l = x :: r -> p x = false.
Proof.
  induction l as [|y l IH]; simpl; [done|].
  destruct (p y) eqn:E; [done|]. intros [= -> _]. done.
Qed.

Lemma drop_while_length p l : length (drop_while p l) <= length l.
Proof. induction l as [|x r IH]; simpl; [lia|]. destruct (p x); simpl; lia. Qed.

Lemma drop_while_suffix p l : exists a, l = a ++ drop_while p l /\ forallb p a = true.
Proof. exists (take_while p l). split; [by rewrite take_drop_while|apply take_while_all]. Qed.

Lemma drop_while_idem p l : drop_while p (drop_while p l) = drop_while p l.
Proof.
  induction l as [|x r IH]; simpl; [done|].
  destruct (p x) eqn:E; [done|]. simpl. by rewrite E.
Qed.

Lemma drop_while_false p x r : p x = false -> drop_while p (x :: r) = x :: r.
Proof. simpl. by intros ->. Qed.

Lemma drop_while_all p l : forallb p l = true -> drop_while p l = [].
Proof.
  induction l as [|x r IH]; simpl; [done|].
  intros [-> H]%andb_true_iff. auto.
Qed.

Lemma drop_while_app_all p a l : forallb p a = true -> drop_while p (a ++ l) = drop_while p l.
Proof.
  induction a as [|x a IH]; simpl; [done|].
  intros [-> H]%andb_true_iff. auto.
Qed.

Lemma take_while_length_drop p l :
  take (length l - length (drop_while p l)) l = take_while p l.
Proof.
  rewrite <- (take_drop_while p l) at 1 3. rewrite length_app.
  replace (_ + _ - _) with (length (take_while p l)) by lia. by rewrite take_app_length.
Qed.

Lemma take_while_nil_inv p x r : take_while p (x :: r) = [] -> p x = false.
Proof. simpl. by destruct (p x). Qed.

Lemma forallb_rev p l : forallb p (rev l) = forallb p l.
Proof.
  induction l as [|x r IH]; simpl; [done|].
  rewrite forallb_app, IH. simpl. rewrite andb_true_r. apply andb_comm.
Qed.

Lemma get_or_Forall (P : A -> Prop) d l i : Forall P l -> P d -> P (get_or d l i).
Proof.
  intros Hl Hd. unfold get_or. destruct (nth_in_or_default i l d) as [H| ->]; [|done].
  rewrite List.Forall_forall in Hl. by apply Hl.
Qed.

Lemma get_or_In d l i : i < length l -> In (get_or d l i) l.
Proof. intros. unfold get_or. by apply nth_In. Qed.

Lemma get_or_lookup d l i : get_or d l i = default d (l !! i).
Proof.
  unfold get_or. revert i. induction l as [|x r IH]; intros [|i]; simpl; auto.
Qed.

Lemma get_or_ge d l i : length l <= i -> get_or d l i = d.
Proof. intros. unfold get_or. by apply nth_overflow. Qed.
End ListOps.

(** ** Trimming both ends of a list *)

Section Trim.
Context {A : Type} (p : A -> bool).
Implicit Types (l : list A).

Definition rdrop_while l : list A := rev (drop_while p (rev l)).
Definition trim l : list A := rdrop_while (drop_while p l).

(** A list neither end of which satisfies [p]. *)
Definition trimmed l : Prop := drop_while p l = l /\ rdrop_while l = l.

Lemma rdrop_while_prefix l : exists b, l = rdrop_while l ++ b /\ forallb p b = true.
Proof.
  unfold rdrop_while. destruct (drop_while_suffix p (rev l)) as (a & E & Ha).
  exists (rev a). split.
  - rewrite <- rev_app_distr, <- E. by rewrite rev_involutive.
  - by rewrite forallb_rev.
Qed.

Lemma rdrop_while_idem l : rdrop_while (rdrop_while l) = rdrop_while l.
Proof. unfold rdrop_while. by rewrite rev_involutive, drop_while_idem. Qed.

Lemma rdrop_while_length l : length (rdrop_while l) <= length l.
Proof.
  unfold rdrop_while. rewrite length_rev, <- (length_rev l). apply drop_while_length.
Qed.

Lemma drop_while_fix_prefix l t b : drop_while p l = l -> l = t ++ b -> drop_while p t = t.
Proof.
  destruct t as [|x t]; [done|]. intros H ->. simpl in *.
  destruct (p x) eqn:E; [|done].
  pose proof (drop_while_length p (t ++ b)) as L. rewrite H in L. simpl in L. lia.
Qed.

Lemma drop_while_app l b :
  drop_while p (l ++ b) = if forallb p l then drop_while p b else drop_while p l ++ b.
Proof.
  induction l as [|x l IH]; simpl; [done|]. destruct (p x); simpl; [apply IH|done].
Qed.

Lemma rdrop_while_app_all l b : forallb p b = true -> rdrop_while (l ++ b) = rdrop_while l.
Proof.
  intros H. unfold rdrop_while. rewrite rev_app_distr, drop_while_app_all; [done|].
  by rewrite forallb_rev.
Qed.

(** Trailing elements that satisfy [p] do not change the result. *)
Lemma trim_app_all l b : forallb p b = true -> trim (l ++ b) = trim l.
Proof.
  intros H. unfold trim. rewrite drop_while_app. destruct (forallb p l) eqn:E.
  - by rewrite (drop_while_all p b), (drop_while_all p l).
  - by apply rdrop_while_app_all.
Qed.

Lemma trim_trimmed l : trimmed (trim l).
Proof.
  unfold trimmed, trim. split; [|apply rdrop_while_idem].
  destruct (rdrop_while_prefix (drop_while p l)) as (b & E & _).
  eapply drop_while_fix_prefix; [apply drop_while_idem|exact E].
Qed.

Lemma trim_id l : trimmed l -> trim l = l.
Proof. unfold trimmed, trim. intros [-> ->]. done. Qed.

Lemma trim_idem l : trim (trim l) = trim l.
Proof. apply trim_id, trim_trimmed. Qed.

Lemma trim_blank_app a l : forallb p a = true -> trim (a ++ l) = trim l.
Proof. intros H. unfold trim. by rewrite drop_while_app_all. Qed.

(** A list whose first and last elements do not satisfy [p] is trimmed. *)
Lemma trim_fixed l x :
  head l = Some x -> p x = false -> p (List.last l x) = false -> trim l = l.
Proof.
  intros Hx Px Py. apply trim_id. split.
  - destruct l as [|x' l]; [done|]. injection Hx as ->. simpl. by rewrite Px.
  - unfold rdrop_while. rewrite <-(rev_involutive l) in Py.
    destruct (rev l) as [|y r] eqn:E.
    { apply (f_equal (@rev A)) in E. by rewrite rev_involutive in E. }
    cbn [rev] in Py. rewrite last_last in Py.
    simpl. by rewrite Py, <-E, rev_involutive.
Qed.

(** What trimming removes: a run before and a run after, all satisfying [p]. *)
Lemma trim_decomp l :
  exists a b, l = a ++ trim l ++ b /\ forallb p a = true /\ forallb p b = true.
Proof.
  destruct (drop_while_suffix p l) as (a & E & Ha).
  destruct (rdrop_while_prefix (drop_while p l)) as (b & E' & Hb).
  exists a, b. unfold trim. by rewrite <- E', <- E.
Qed.

Lemma trim_length l : length (trim l) <= length l.
Proof.
  unfold trim. etrans; [apply rdrop_while_length|apply drop_while_length].
Qed.

Lemma trim_all l : forallb p l = true -> trim l = [].
Proof. intros H. unfold trim. by rewrite drop_while_all. Qed.

Lemma trim_nil_inv l : trim l = [] -> forallb p l = true.
Proof.
  intros H. destruct (trim_decomp l) as (a & b & E & Ha & Hb).
  rewrite H in E. rewrite E, forallb_app. simpl. by rewrite Ha, Hb.
Qed.

Lemma trim_head l x r : trim l = x :: r -> p x = false.
Proof.
  intros H. destruct (trim_trimmed l) as [F _]. rewrite H in F.
  by eapply drop_while_head.
Qed.
End Trim.

(** Induction on the length of a list: the scanning loops recurse on a
    strictly shorter remainder. *)
Lemma length_ind {A} (P : list A -> Prop) :
  (forall l, (forall t, length t < length l -> P t) -> P l) -> forall l, P l.
Proof.
  intros H l. remember (length l) as n eqn:E. revert l E.
  induction (lt_wf n) as [n _ IH]. intros l ->. apply H. intros t Ht. by apply (IH (length t)).
Qed.

#[export] Hint Rewrite @take_drop_while @drop_while_idem @length_app @length_drop
  @length_take @length_rev @length_map : pyrw.
#[export] Hint Rewrite @trim_idem : pyrw.
#[export] Hint Resolve drop_while_length trim_length trim_trimmed : py.

Lemma sublist_Forall {A} (P : A -> Prop) (l1 l2 : list A) :
  sublist l1 l2 -> Forall P l2 -> Forall P l1.
Proof.
  intros S H. apply List.Forall_forall. intros x Hx%list_elem_of_In.
  rewrite List.Forall_forall in H. apply H, list_elem_of_In. by eapply elem_of_sublist.
Qed.

(** [filter] with a boolean test, the way a Python comprehension filters. *)
Abbreviation filter_b := List.filter.

Lemma filter_b_length {A} (p : A -> bool) l : length (filter_b p l) <= length l.
Proof. induction l as [|x r IH]; simpl; [lia|]. destruct (p x); simpl; lia. Qed.

Lemma filter_b_Forall {A} (p : A -> bool) l : Forall (fun x => p x = true) (filter_b p l).
Proof.
  induction l as [|x r IH]; simpl; [constructor|].
  destruct (p x) eqn:E; [constructor|]; done.
Qed.

Lemma filter_b_id {A} (p : A -> bool) l : forallb p l = true -> filter_b p l = l.
Proof.
  induction l as [|x r IH]; simpl; [done|].
  intros [-> H]%andb_true_iff. f_equal. auto.
Qed.

(** The truth value of a list. *)
Definition truthy_list {A} (l : list A) : bool := match l with [] => false | _ => true end.

(** A filter that drops nothing keeps every element. *)
Lemma filter_b_full {A} (p : A -> bool) l :
  length (filter_b p l) = length l -> forallb p l = true.
Proof.
  induction l as [|x r IH]; simpl; [done|]. pose proof (filter_b_length p r).
  destruct (p x); simpl; intros; [apply IH|]; lia.
Qed.

Lemma filter_b_keeps {A} (P : A -> Prop) (p : A -> bool) l :
  Forall P l -> Forall P (filter_b p l).
Proof. induction 1 as [|x r Hx Hr IH]; simpl; [constructor|]. destruct (p x); auto. Qed.

Lemma filter_b_none {A} (p : A -> bool) l : Forall (fun x => p x = false) l -> filter_b p l = [].
Proof. induction 1 as [|x r Hx Hr IH]; simpl; [done|]. by rewrite Hx. Qed.

Lemma filter_b_all {A} (p : A -> bool) l : Forall (fun x => p x = true) l -> filter_b p l = l.
Proof. induction 1 as [|x r Hx Hr IH]; simpl; [done|]. by rewrite Hx, IH. Qed.

Lemma filter_b_elem {A} (p : A -> bool) l x : x ∈ filter_b p l <-> x ∈ l /\ p x = true.
Proof. by rewrite !list_elem_of_In, filter_In. Qed.

Lemma filter_b_NoDup_fmap {A B} (f : A -> B) (p : A -> bool) l :
  NoDup (f <$> l) -> NoDup (f <$> filter_b p l).
Proof.
  induction l as [|x r IH]; simpl; [done|]. intros [Hx Hr]%list.NoDup_cons.
  destruct (p x); simpl; [|auto]. apply list.NoDup_cons. split; [|auto].
  intros (y & E & [Hy _]%filter_b_elem)%list_elem_of_fmap. apply Hx, list_elem_of_fmap. eauto.
Qed.

#[export] Hint Resolve filter_b_length filter_b_keeps : py.

Lemma fmap_pair_fst {A B} (f : A -> B) (l : list A) : ((fun x => (x, f x)) <$> l).*1 = l.
Proof. induction l as [|x r IH]; [done|]. cbn. by rewrite IH. Qed.

Lemma fmap_pair_snd {A B} (f : A -> B) (l : list A) : ((fun x => (x, f x)) <$> l).*2 = f <$> l.
Proof. induction l as [|x r IH]; [done|]. cbn. by rewrite IH. Qed.

(** ** Sorting *)

(** Insertion sort by a boolean order: what [ORDER BY] and [sorted] do to a
    list, elements that compare equal staying in their order. *)
Section Sort.
Context {A : Type} (le : A -> A -> bool).

Fixpoint insert_by (x : A) (l : list A) : list A :=
  match l with
  | [] => [x]
  | y :: r => if le x y then x :: l else y :: insert_by x r
  end.

Definition sort_by (l : list A) : list A := foldr insert_by [] l.

Lemma insert_by_Permutation x l : insert_by x l ≡ₚ x :: l.
Proof.
  induction l as [|y r IH]; simpl; [done|]. destruct (le x y); [done|].
  by rewrite IH, Permutation_swap.
Qed.

Lemma sort_by_Permutation l : sort_by l ≡ₚ l.
Proof.
  unfold sort_by. induction l as [|x r IH]; simpl; [done|].
  by rewrite insert_by_Permutation, IH.
Qed.

Lemma sort_by_elem x l : x ∈ sort_by l <-> x ∈ l.
Proof. by rewrite sort_by_Permutation. Qed.

Lemma sort_by_length l : length (sort_by l) = length l.
Proof. by rewrite sort_by_Permutation. Qed.

Lemma sort_by_Forall (P : A -> Prop) l : Forall P l -> Forall P (sort_by l).
Proof. by rewrite sort_by_Permutation. Qed.

Context (le_total : forall x y, le x y = true \/ le y x = true).

Lemma insert_by_Sorted x l :
  Sorted (fun a b => le a b = true) l -> Sorted (fun a b => le a b = true) (insert_by x l).
Proof.
  induction 1 as [|y r Hr IH Hy]; simpl; [by repeat constructor|].
  destruct (le x y) eqn:E; [by repeat constructor|].
  constructor; [done|]. destruct (le_total x y) as [?|T]; [congruence|].
  destruct Hy as [|z r' Hz]; simpl; [by constructor|]. destruct (le x z); by constructor.
Qed.

Lemma sort_by_Sorted l : Sorted (fun a b => le a b = true) (sort_by l).
Proof.
  unfold sort_by. induction l as [|x r IH]; simpl; [constructor|]. by apply insert_by_Sorted.
Qed.

End Sort.

(** Sorting commutes with a function that keeps the order. *)
Lemma insert_by_fmap {A B} (le : A -> A -> bool) (le' : B -> B -> bool) (g : A -> B) x l :
  (forall a b, le' (g a) (g b) = le a b) ->
  insert_by le' (g x) (g <$> l) = g <$> insert_by le x l.
Proof.
  intros Hg. induction l as [|y r IH]; cbn; [done|]. rewrite Hg.
  destruct (le x y); cbn; [done|]. by rewrite IH.
Qed.

Lemma sort_by_fmap {A B} (le : A -> A -> bool) (le' : B -> B -> bool) (g : A -> B) l :
  (forall a b, le' (g a) (g b) = le a b) ->
  sort_by le' (g <$> l) = g <$> sort_by le l.
Proof.
  intros Hg. unfold sort_by. induction l as [|x r IH]; cbn; [done|].
  by rewrite IH, (insert_by_fmap le).
Qed.

(** Two lists in the order of [le], without repetition and with the same
    elements, are one list. *)
Lemma Sorted_same_elements {A} (le : A -> A -> bool) l1 l2 :
  (forall x y z, le x y = true -> le y z = true -> le x z = true) ->
  (forall x y, le x y = true -> le y x = true -> x = y) ->
  Sorted (fun a b => le a b = true) l1 -> Sorted (fun a b => le a b = true) l2 ->
  NoDup l1 -> NoDup l2 -> (forall x, x ∈ l1 <-> x ∈ l2) ->
  l1 = l2.
Proof.
  intros Htrans Hanti S1 S2 N1 N2 Hin.
  assert (Transitive (fun a b => le a b = true)) by exact Htrans.
  assert (AntiSymm (=) (fun a b => le a b = true)) by exact Hanti.
  apply (StronglySorted_unique (fun a b => le a b = true));
    [by apply Sorted_StronglySorted..|by apply NoDup_Permutation].
Qed.

#[export] Hint Resolve sort_by_Sorted sort_by_Forall : py.
