(* ===== verification/PyStr.v ===== *)
(** * PyStr: the Python [str] runtime the scripts rely on

    A Python string is a sequence of Unicode code points; it is modelled as
    [list N].  This file defines the string operations the sources call
    ([in], [startswith], [endswith], [split], [join], [strip], [lower],
    [upper], [replace], [int], [str] of a number) and proves the lemmas the
    components use, among them that [int] reads what [str] writes.

    Two tables of the Unicode database are modelled on a range: [lower_char]
    knows the upper-case letters of ASCII and Latin-1 and the two code points
    outside ASCII whose lower case contains an ASCII letter (U+0130, U+212A),
    and [upper_char] the small letters of ASCII and Latin-1;
    [digit_val] knows the ASCII digits.  Whitespace ([is_space]) is the full
    set [str.isspace] accepts. *)

From Stdlib Require Import Ascii String.
From stdpp Require Import base tactics option list numbers.
From S2P Require Import Prelude.

Local Open Scope N_scope.

(** ** Strings and literals *)

(** [char] and [str] are abbreviations, so that the lemmas of the list
    library apply to strings as they are. *)
Abbreviation char := N.
Abbreviation str := (list N).

(** UTF-8 decoding of the bytes of a literal. *)
Fixpoint utf8_decode (bs : list N) : str :=
  match bs with
  | [] => []
  | b0 :: r0 =>
      if b0 <? 0x80 then b0 :: utf8_decode r0
      else match r0 with
      | [] => []
      | b1 :: r1 =>
          if b0 <? 0xE0 then ((b0 - 0xC0) * 64 + (b1 - 0x80)) :: utf8_decode r1
          else match r1 with
          | [] => []
          | b2 :: r2 =>
              if b0 <? 0xF0
              then ((b0 - 0xE0) * 4096 + (b1 - 0x80) * 64 + (b2 - 0x80)) :: utf8_decode r2
              else match r2 with
              | [] => []
              | b3 :: r3 =>
                  ((b0 - 0xF0) * 262144 + (b1 - 0x80) * 4096 + (b2 - 0x80) * 64
                   + (b3 - 0x80)) :: utf8_decode r3
              end
          end
      end
  end.

Definition u (s : string) : str :=
  utf8_decode (map N_of_ascii (list_ascii_of_string s)).
Arguments u s%_string.

(** ** Character classes *)

(** [str.isspace] on one code point. *)
Definition is_space (c : char) : bool :=
  ((0x09 <=? c) && (c <=? 0x0D)) || ((0x1C <=? c) && (c <=? 0x20))
  || (c =? 0x85) || (c =? 0xA0) || (c =? 0x1680)
  || ((0x2000 <=? c) && (c <=? 0x200A))
  || (c =? 0x2028) || (c =? 0x2029) || (c =? 0x202F) || (c =? 0x205F) || (c =? 0x3000).

(** The value of a decimal digit. *)
Definition digit_val (c : char) : option N :=
  if (0x30 <=? c) && (c <=? 0x39) then Some (c - 0x30) else None.

Definition is_digit (c : char) : bool := (0x30 <=? c) && (c <=? 0x39).

(** [str.lower] on one code point. *)
Definition lower_char (c : char) : str :=
  if (0x41 <=? c) && (c <=? 0x5A) then [c + 32]
  else if (0xC0 <=? c) && (c <=? 0xDE) && negb (c =? 0xD7) then [c + 32]
  else if c =? 0x130 then [0x69; 0x307]
  else if c =? 0x212A then [0x6B]
  else [c].

(** ** Operations *)

(** [s.lower()]. *)
Definition lower (s : str) : str := flat_map lower_char s.

(** [str.upper] on one code point: the letters of ASCII and Latin-1, with
    the three of them whose capital is elsewhere or longer. *)
Definition upper_char (c : char) : str :=
  if (0x61 <=? c) && (c <=? 0x7A) then [c - 32]
  else if (0xE0 <=? c) && (c <=? 0xFE) && negb (c =? 0xF7) then [c - 32]
  else if c =? 0xDF then [0x53; 0x53]
  else if c =? 0xFF then [0x178]
  else if c =? 0xB5 then [0x39C]
  else [c].

(** [s.upper()]. *)
Definition upper (s : str) : str := flat_map upper_char s.

(** [s.startswith(p)]. *)
Fixpoint startswith (p s : str) : bool :=
  match p, s with
  | [], _ => true
  | a :: p', b :: s' => (a =? b) && startswith p' s'
  | _ :: _, [] => false
  end.

(** [s.endswith(p)]. *)
Definition endswith (p s : str) : bool := startswith (rev p) (rev s).

(** [n in h]. *)
Fixpoint contains (n h : str) : bool :=
  startswith n h || match h with [] => false | _ :: h' => contains n h' end.

(** [s.lstrip()], [s.rstrip()], [s.strip()]. *)
Definition lstrip (s : str) : str := drop_while is_space s.
Definition rstrip (s : str) : str := rdrop_while is_space s.
Definition strip (s : str) : str := rstrip (lstrip s).

(** The first occurrence of [sep]: what precedes it and what follows it
    ([s.partition(sep)] when it is found). *)
Fixpoint find (sep s : str) : option (str * str) :=
  if startswith sep s then Some ([], drop (length sep) s)
  else match s with
       | [] => None
       | c :: r => match find sep r with
                   | Some (b, a) => Some (c :: b, a)
                   | None => None
                   end
       end.

(** [s.split(sep)] for a non-empty [sep]: cut at each occurrence, left to
    right, occurrences not overlapping. *)
Fixpoint split_fuel (n : nat) (sep s : str) : list str :=
  match find sep s with
  | None => [s]
  | Some (b, a) =>
      match n with
      | O => [s]
      | S n' => b :: split_fuel n' sep a
      end
  end.

Definition split (sep s : str) : list str := split_fuel (length s) sep s.

(** [s.split(sep, maxsplit)] for a non-empty [sep]: at most [maxsplit] cuts. *)
Fixpoint splitn (maxsplit : nat) (sep s : str) : list str :=
  match maxsplit with
  | O => [s]
  | S n =>
      match find sep s with
      | None => [s]
      | Some (b, a) => b :: splitn n sep a
      end
  end.

(** [sep.join(l)]. *)
Fixpoint join (sep : str) (l : list str) : str :=
  match l with
  | [] => []
  | [x] => x
  | x :: r => x ++ sep ++ join sep r
  end.

(** [s.replace(old, new)] for a non-empty [old]. *)
Definition replace (old new s : str) : str := join new (split old s).

(** [s.replace(old, new)] for any [old]: an empty [old] matches before every
    character and at the end. *)
Definition replace_any (old new s : str) : str :=
  match old with
  | [] => new ++ flat_map (fun c => c :: new) s
  | _ => replace old new s
  end.

(** The line boundaries of [str.splitlines]. *)
Definition is_linebreak (c : char) : bool :=
  ((0x0A <=? c) && (c <=? 0x0D)) || ((0x1C <=? c) && (c <=? 0x1E))
  || (c =? 0x85) || (c =? 0x2028) || (c =? 0x2029).

(** [s.splitlines()]: cut at every line boundary, a carriage return followed
    by a line feed being one; no empty last line. *)
Fixpoint splitlines_go (acc : str) (s : str) : list str :=
  match s with
  | [] => match acc with [] => [] | _ => [rev acc] end
  | c :: r =>
      if is_linebreak c
      then match c, r with
           | 0x0D, 0x0A :: r' => rev acc :: splitlines_go [] r'
           | _, _ => rev acc :: splitlines_go [] r
           end
      else splitlines_go (c :: acc) r
  end.

Definition splitlines (s : str) : list str := splitlines_go [] s.

(** [str(n)] for an integer: its decimal digits, most significant first. *)
Fixpoint decimal_go (fuel : nat) (n : N) (acc : str) : str :=
  let acc' := (0x30 + n mod 10) :: acc in
  match fuel with
  | O => acc'
  | S f => if n / 10 =? 0 then acc' else decimal_go f (n / 10) acc'
  end.

Definition str_of_N (n : N) : str := decimal_go (N.to_nat (N.log2 n)) n [].

Definition str_of_Z (z : Z) : str :=
  match z with
  | Zneg p => 0x2D :: str_of_N (Npos p)
  | _ => str_of_N (Z.to_N z)
  end.

(** [s.split()]: cut at runs of whitespace, no empty piece. *)
Fixpoint split_ws_go (acc : str) (s : str) : list str :=
  match s with
  | [] => match acc with [] => [] | _ => [rev acc] end
  | c :: r =>
      if is_space c
      then match acc with [] => split_ws_go [] r | _ => rev acc :: split_ws_go [] r end
      else split_ws_go (c :: acc) r
  end.

Definition split_ws (s : str) : list str := split_ws_go [] s.

(** [s.split('\n')]. *)
Definition NL : str := [0x0A].
Definition lines_of (s : str) : list str := split NL s.

(** Truthiness of a string: it is not empty. *)
Definition truthy (s : str) : bool := match s with [] => false | _ => true end.

(** Equality test [a == b]. *)
Definition str_eqb (a b : str) : bool := bool_decide (a = b).

(** ** [int(s)] *)

(** The digits of a literal, with single underscores allowed between digits. *)
Fixpoint digits_go (acc : N) (prev_digit : bool) (s : str) : option N :=
  match s with
  | [] => if prev_digit then Some acc else None
  | c :: r =>
      match digit_val c with
      | Some d => digits_go (acc * 10 + d) true r
      | None => if (c =? 0x5F) && prev_digit
                then match r with
                     | [] => None
                     | _ => digits_go acc false r
                     end
                else None
      end
  end.

(** [int(s)]: [None] models [ValueError]. *)
Definition int_of_str (s : str) : option Z :=
  match strip s with
  | [] => None
  | c :: r =>
      if c =? 0x2D then (fun n => (- Z.of_N n)%Z) <$> digits_go 0 false r
      else if c =? 0x2B then Z.of_N <$> digits_go 0 false r
      else Z.of_N <$> digits_go 0 false (c :: r)
  end.

(** [a <= b] on strings: the order of the code points, the shorter string
    first when it is a prefix. *)
Fixpoint str_leb (a b : str) : bool :=
  match a, b with
  | [], _ => true
  | _ :: _, [] => false
  | x :: a', y :: b' => (x <? y) || ((x =? y) && str_leb a' b')
  end.

(** [s.isdigit()], for the ASCII digits. *)
Definition isdigit (s : str) : bool := truthy s && forallb is_digit s.

Local Close Scope N_scope.

(** ** Lemmas: prefixes and containment *)

Section Containment.
Implicit Types (p n h s t a b sep : str).

Lemma startswith_spec p s : startswith p s = true <-> exists t, s = p ++ t.
Proof.
  revert s. induction p as [|c p IH]; intros s; simpl.
  - split; eauto.
  - destruct s as [|d s]; [split; [done|intros [t [=]]]|].
    rewrite andb_true_iff, N.eqb_eq, IH. split.
    + intros [-> [t ->]]. eauto.
    + intros [t [= -> ->]]. eauto.
Qed.

Lemma startswith_app p t : startswith p (p ++ t) = true.
Proof. apply startswith_spec. eauto. Qed.

Lemma startswith_nil p : startswith p [] = true -> p = [].
Proof. by destruct p. Qed.

Lemma startswith_length p s : startswith p s = true -> length p <= length s.
Proof. intros [t ->]%startswith_spec. rewrite length_app. lia. Qed.

Lemma startswith_drop p s : startswith p s = true -> s = p ++ drop (length p) s.
Proof. intros [t ->]%startswith_spec. by rewrite drop_app_length. Qed.

Lemma contains_spec n h : contains n h = true <-> exists a b, h = a ++ n ++ b.
Proof.
  induction h as [|c h IH]; simpl.
  - rewrite orb_false_r, startswith_spec. split.
    + intros [t E]. exists [], t. done.
    + intros (a & b & E). symmetry in E.
      apply app_eq_nil in E as [-> [-> ->]%app_eq_nil]. by exists [].
  - rewrite orb_true_iff, startswith_spec, IH. split.
    + intros [[t ->]|(a & b & ->)]; [by exists [], t|by exists (c :: a), b].
    + intros ([|d a] & b & E); simpl in E; [left; eauto|].
      injection E as -> ->. right. eauto.
Qed.

Lemma contains_app n a b : contains n (a ++ n ++ b) = true.
Proof. apply contains_spec. eauto. Qed.

Lemma contains_refl n : contains n n = true.
Proof. apply contains_spec. exists [], []. by rewrite app_nil_r. Qed.

Lemma contains_nil_l h : contains [] h = true.
Proof. by destruct h. Qed.

Lemma contains_length n h : contains n h = true -> length n <= length h.
Proof. intros (a & b & ->)%contains_spec. rewrite !length_app. lia. Qed.

Lemma contains_app_l n a b : contains n a = true -> contains n (a ++ b) = true.
Proof.
  intros (x & y & ->)%contains_spec. apply contains_spec.
  exists x, (y ++ b). by rewrite <- !app_assoc.
Qed.

Lemma contains_app_r n a b : contains n b = true -> contains n (a ++ b) = true.
Proof.
  intros (x & y & ->)%contains_spec. apply contains_spec.
  exists (a ++ x), y. by rewrite <- !app_assoc.
Qed.

Lemma contains_cons n c h : contains n h = true -> contains n (c :: h) = true.
Proof. intros H. simpl. rewrite H. apply orb_true_r. Qed.

Lemma contains_false_app n a b :
  contains n (a ++ b) = false -> contains n a = false /\ contains n b = false.
Proof.
  intros H. split; apply not_true_is_false; intros E;
    [apply (contains_app_l _ _ b) in E|apply (contains_app_r _ a) in E]; congruence.
Qed.

Lemma contains_trans n m h : contains n m = true -> contains m h = true -> contains n h = true.
Proof.
  intros (a & b & ->)%contains_spec (x & y & ->)%contains_spec. apply contains_spec.
  exists (x ++ a), (b ++ y). by rewrite <- !app_assoc.
Qed.

Lemma startswith_contains p s : startswith p s = true -> contains p s = true.
Proof. intros [t ->]%startswith_spec. apply contains_spec. by exists [], t. Qed.
End Containment.

#[export] Hint Resolve startswith_app contains_app contains_refl contains_nil_l
  contains_app_l contains_app_r contains_cons startswith_contains : py.

(** A string that avoids a character, as a test that computes. *)
Definition avoids (x : char) (s : str) : bool := forallb (fun c => negb (c =? x)%N) s.

Lemma avoids_sound x s : avoids x s = true -> Forall (fun c => c <> x) s.
Proof.
  unfold avoids. rewrite forallb_forall. intros H. apply List.Forall_forall.
  intros c Hc ->. apply H in Hc. by rewrite N.eqb_refl in Hc.
Qed.

Lemma avoids_not_In x s : avoids x s = true -> ~ In x s.
Proof. intros H%avoids_sound Hin. rewrite List.Forall_forall in H. by apply H in Hin. Qed.

(** ** Lemmas: [find], [split], [join] *)

Section Split.
Implicit Types (s a b sep : str) (l : list str).

Lemma find_Some sep s b a : find sep s = Some (b, a) -> s = b ++ sep ++ a.
Proof.
  revert b. induction s as [|c r IH]; intros b; simpl.
  - destruct (startswith sep []) eqn:E; [|done].
    intros [= <- <-]. apply startswith_nil in E as ->. done.
  - destruct (startswith sep (c :: r)) eqn:E.
    + intros [= <- <-]. by apply startswith_drop in E.
    + destruct (find sep r) as [[b0 a0]|]; [|done].
      intros [= <- <-]. simpl. f_equal. by apply IH.
Qed.

Lemma find_None sep s : find sep s = None <-> contains sep s = false.
Proof.
  induction s as [|c r IH]; simpl.
  - rewrite orb_false_r. by destruct (startswith sep []).
  - destruct (startswith sep (c :: r)); simpl; [done|].
    rewrite <- IH. by destruct (find sep r) as [[? ?]|].
Qed.

Lemma find_shrinks sep s b a : sep <> [] -> find sep s = Some (b, a) -> length a < length s.
Proof.
  intros Hne ->%find_Some. rewrite !length_app. destruct sep; [done|simpl; lia].
Qed.

(** The occurrence [find] returns is the leftmost one. *)
Lemma find_leftmost sep s b a b' a' :
  find sep s = Some (b, a) -> s = b' ++ sep ++ a' -> length b <= length b'.
Proof.
  revert b b'. induction s as [|c r IH]; intros b b'; simpl.
  - destruct (startswith sep []); [|done]. intros [= <- _] _. simpl. lia.
  - destruct (startswith sep (c :: r)) eqn:E; [intros [= <- _] _; simpl; lia|].
    destruct (find sep r) as [[b0 a0]|] eqn:F; [|done].
    intros [= <- <-] Hs. destruct b' as [|d b'']; simpl in Hs.
    + rewrite Hs, startswith_app in E. done.
    + injection Hs as -> ->. simpl. apply le_n_S. by eapply IH.
Qed.

Lemma find_before_clean sep s b a :
  sep <> [] -> find sep s = Some (b, a) -> contains sep b = false.
Proof.
  intros Hne F. apply not_true_is_false. intros (x & y & ->)%contains_spec.
  pose proof (find_Some _ _ _ _ F) as Hs.
  rewrite <- !app_assoc in Hs. apply (find_leftmost _ _ _ _ _ _ F) in Hs.
  rewrite !length_app in Hs. destruct sep; [done|simpl in Hs; lia].
Qed.

Lemma find_nil sep : sep <> [] -> find sep [] = None.
Proof. by destruct sep. Qed.

Lemma split_fuel_nil sep n : sep <> [] -> split_fuel n sep [] = [[]].
Proof. intros H. destruct n; unfold split_fuel; by rewrite find_nil. Qed.

Lemma split_fuel_irrel sep n m s :
  sep <> [] -> length s <= n -> length s <= m -> split_fuel n sep s = split_fuel m sep s.
Proof.
  intros Hne. revert m s. induction n as [|n IH]; intros m s Hn Hm.
  - destruct s; [|simpl in Hn; lia]. by rewrite !split_fuel_nil.
  - destruct m as [|m].
    + destruct s; [|simpl in Hm; lia]. by rewrite !split_fuel_nil.
    + cbn [split_fuel]. destruct (find sep s) as [[b a]|] eqn:F; [|done]. f_equal.
      pose proof (find_shrinks _ _ _ _ Hne F). apply IH; lia.
Qed.

(** The unfolding equation of [split]: the fuel is enough. *)
Lemma split_unfold sep s :
  sep <> [] ->
  split sep s = match find sep s with
                | None => [s]
                | Some (b, a) => b :: split sep a
                end.
Proof.
  intros Hne. unfold split. destruct s as [|c r].
  - by rewrite split_fuel_nil, find_nil.
  - cbn [length split_fuel]. destruct (find sep (c :: r)) as [[b a]|] eqn:E; [|done].
    f_equal. pose proof (find_shrinks _ _ _ _ Hne E) as L. cbn [length] in L.
    apply split_fuel_irrel; [done|lia|lia].
Qed.

Lemma split_not_nil sep s : split sep s <> [].
Proof. unfold split. destruct (length s); cbn [split_fuel]; by destruct (find sep s) as [[? ?]|]. Qed.

Lemma split_absent sep s : contains sep s = false -> split sep s = [s].
Proof.
  intros H%find_None. unfold split. destruct (length s); cbn [split_fuel]; by rewrite H.
Qed.

Lemma join_cons sep x l : l <> [] -> join sep (x :: l) = x ++ sep ++ join sep l.
Proof. by destruct l. Qed.

(** Round trip: joining the pieces with the separator gives the string back. *)
Lemma join_split sep s : sep <> [] -> join sep (split sep s) = s.
Proof.
  intros Hne. induction s as [s IH] using length_ind.
  rewrite split_unfold by done. destruct (find sep s) as [[b a]|] eqn:F; [|done].
  rewrite join_cons by apply split_not_nil.
  rewrite IH by (by eapply find_shrinks). symmetry. by apply find_Some.
Qed.

(** No piece contains the separator. *)
Lemma split_pieces_clean sep s :
  sep <> [] -> Forall (fun p => contains sep p = false) (split sep s).
Proof.
  intros Hne. induction s as [s IH] using length_ind.
  rewrite split_unfold by done. destruct (find sep s) as [[b a]|] eqn:F.
  - constructor; [by eapply find_before_clean|]. apply IH. by eapply find_shrinks.
  - constructor; [by apply find_None|done].
Qed.

Lemma find_unfold sep s :
  find sep s = if startswith sep s then Some ([], drop (length sep) s)
               else match s with
                    | [] => None
                    | c :: r => '(b, a) ← find sep r; Some (c :: b, a)
                    end.
Proof. destruct s; simpl; repeat destr_goal; done. Qed.

(** When the first character of the separator does not occur before an
    occurrence, that occurrence is the leftmost one. *)
Lemma find_fresh c sep b a :
  ~ In c b -> find (c :: sep) (b ++ (c :: sep) ++ a) = Some (b, a).
Proof.
  induction b as [|x b IH]; intros Hc.
  - rewrite find_unfold, app_nil_l, startswith_app. by rewrite drop_app_length.
  - rewrite find_unfold.
    change ((x :: b) ++ (c :: sep) ++ a) with (x :: (b ++ (c :: sep) ++ a)).
    cbn [startswith]. destruct (N.eqb_spec c x) as [->|_]; [destruct Hc; by left|].
    cbn [andb]. rewrite IH; [done|]. intros ?. apply Hc. by right.
Qed.

Lemma split_cons_fresh c sep b a :
  ~ In c b -> split (c :: sep) (b ++ (c :: sep) ++ a) = b :: split (c :: sep) a.
Proof. intros. by rewrite split_unfold, find_fresh. Qed.

Lemma contains_head_absent c n h : ~ In c h -> contains (c :: n) h = false.
Proof.
  intros H. apply not_true_is_false. intros (a & b & ->)%contains_spec.
  apply H, in_app_iff. right. by left.
Qed.

(** Round trip, the other way, for a one-character separator: cutting the
    join of pieces that do not contain it gives the pieces back. *)
Lemma split_join_char c l :
  l <> [] -> Forall (fun p => ~ In c p) l -> split [c] (join [c] l) = l.
Proof.
  intros Hne F. induction F as [|x l Hx F IH]; [done|]. destruct l as [|y l].
  - cbn [join]. by rewrite split_absent by (by apply contains_head_absent).
  - rewrite join_cons, split_cons_fresh by done. f_equal. by apply IH.
Qed.

Lemma join_Forall (P : N -> Prop) sep l :
  Forall P (join sep l) -> Forall (Forall P) l.
Proof.
  induction l as [|x l IH]; [done|]. destruct l as [|y l].
  - cbn [join]. by constructor.
  - rewrite join_cons by done. intros [? [_ ?]%Forall_app]%Forall_app. constructor; auto.
Qed.

Lemma split_Forall (P : N -> Prop) sep s :
  sep <> [] -> Forall P s -> Forall (Forall P) (split sep s).
Proof. intros Hne H. apply (join_Forall P sep). by rewrite join_split. Qed.

Lemma replace_absent old new s : contains old s = false -> replace old new s = s.
Proof. intros H. unfold replace. by rewrite split_absent. Qed.

Lemma replace_same old s : old <> [] -> replace old old s = s.
Proof. intros. by apply join_split. Qed.

(** A text that has no character of [n] keeps the occurrences of [n] on
    its two sides apart. *)
Lemma startswith_app_char c n t b :
  ~ In c n -> startswith n (t ++ c :: b) = true -> startswith n t = true.
Proof.
  revert t. induction n as [|x n IH]; intros t Hc; [done|].
  destruct t as [|y t]; cbn [app startswith].
  - intros [->%N.eqb_eq _]%andb_prop. destruct Hc. by left.
  - intros [-> H]%andb_prop. cbn [andb]. apply IH; [|done]. intros ?. apply Hc. by right.
Qed.

Lemma contains_app_char c n a b :
  ~ In c n -> contains n (a ++ c :: b) = true ->
  contains n a = true \/ contains n b = true.
Proof.
  intros Hc. induction a as [|x a IH]; cbn [app contains].
  - destruct n as [|y n]; [by left|]. cbn [startswith].
    destruct (N.eqb_spec y c) as [->|_]; [destruct Hc; by left|]. by right.
  - intros [H|H]%orb_prop.
    + left. apply (startswith_app_char c n (x :: a) b Hc) in H. by rewrite H.
    + destruct (IH H) as [->|?]; [left; apply orb_true_r|by right].
Qed.

Lemma contains_app_fresh n sep a b :
  Forall (fun c => ~ In c n) sep -> sep <> [] ->
  contains n (a ++ sep ++ b) = true -> contains n a = true \/ contains n b = true.
Proof.
  intros Hf. revert a. induction Hf as [|c sep Hc _ IH]; intros a Hne; [done|].
  intros [H|H]%(contains_app_char c n a (sep ++ b) Hc); [by left|].
  destruct sep as [|d sep]; [by right|].
  destruct (IH [] ltac:(done) H) as [H'|H']; [|by right].
  left. destruct n; [apply contains_nil_l|done].
Qed.

Lemma contains_join_fresh n sep l :
  Forall (fun c => ~ In c n) sep -> sep <> [] -> n <> [] ->
  Forall (fun p => contains n p = false) l -> contains n (join sep l) = false.
Proof.
  intros Hf Hs Hn. induction 1 as [|p l Hp Hl IH]; [by destruct n|].
  destruct l as [|q l]; [done|]. rewrite join_cons by done.
  apply not_true_is_false. intros [H|H]%contains_app_fresh; [congruence|congruence|done..].
Qed.

Lemma contains_char_In c h : contains [c] h = false -> ~ In c h.
Proof.
  induction h as [|x h IH]; [by intros _ []|]. cbn [contains startswith].
  destruct (N.eqb_spec c x) as [->|Hne]; [done|]. cbn [andb orb].
  intros H [?|?]; [done|by apply IH].
Qed.

(** A blank text has no field. *)
Lemma split_ws_blank s : forallb is_space s = true -> split_ws s = [].
Proof.
  unfold split_ws. induction s as [|c s IH]; [done|]. cbn [forallb split_ws_go].
  intros [-> H]%andb_prop. by apply IH.
Qed.

(** After [replace], the text replaced is gone when the replacement is not
    empty and shares no character with it. *)
Lemma replace_hides old new s :
  old <> [] -> new <> [] -> Forall (fun c => ~ In c old) new ->
  contains old (replace old new s) = false.
Proof.
  intros Ho Hn Hf. apply contains_join_fresh; [done..|]. by apply split_pieces_clean.
Qed.
End Split.

#[export] Hint Resolve split_not_nil split_pieces_clean : py.
#[export] Hint Rewrite join_split using done : pyrw.

(** ** Lemmas: [strip] *)

Section Strip.
Implicit Types (s n : str).

Lemma strip_trim s : strip s = trim is_space s.
Proof. done. Qed.

Lemma strip_idem s : strip (strip s) = strip s.
Proof. apply trim_idem. Qed.

Lemma strip_length s : length (strip s) <= length s.
Proof. apply trim_length. Qed.

Lemma strip_decomp s :
  exists a b, s = a ++ strip s ++ b /\ forallb is_space a = true /\ forallb is_space b = true.
Proof. apply trim_decomp. Qed.

Lemma strip_blank s : forallb is_space s = true -> strip s = [].
Proof. apply trim_all. Qed.

Lemma strip_nil_inv s : strip s = [] -> forallb is_space s = true.
Proof. apply trim_nil_inv. Qed.

Lemma strip_head s c r : strip s = c :: r -> is_space c = false.
Proof. apply trim_head. Qed.

(** Stripping removes characters only: what the result contains, the input contained. *)
Lemma contains_strip n s : contains n (strip s) = true -> contains n s = true.
Proof.
  intros H. destruct (strip_decomp s) as (a & b & E & _). rewrite E.
  auto with py.
Qed.

Lemma strip_nil : strip [] = [].
Proof. done. Qed.
End Strip.

(** Trailing whitespace does not change the result. *)
Lemma strip_app_blank s b : forallb is_space b = true -> strip (s ++ b) = strip s.
Proof. apply trim_app_all. Qed.

Lemma strip_blank_app b s : forallb is_space b = true -> strip (b ++ s) = strip s.
Proof. apply trim_blank_app. Qed.

Lemma strip_fixed s x :
  head s = Some x -> is_space x = false -> is_space (List.last s x) = false -> strip s = s.
Proof. apply trim_fixed. Qed.

#[export] Hint Rewrite strip_idem strip_nil : pyrw.
#[export] Hint Resolve strip_length contains_strip : py.

(** ** Lemmas: [lower] *)

(** Case analysis on every comparison of code points in sight, pruning the
    impossible combinations as they arise. *)
Ltac n_cases :=
  repeat (match goal with
          | |- context [(?a <=? ?b)%N] => destruct (N.leb_spec a b)
          | |- context [(?a <? ?b)%N] => destruct (N.ltb_spec a b)
          | |- context [(?a =? ?b)%N] => destruct (N.eqb_spec a b)
          end; try (exfalso; lia); cbn [andb orb negb]);
  try done; try lia.

Section Lower.
Implicit Types (s a b : str) (c : char).

(** A code point [lower] leaves alone. *)
Definition lower_fixed c : bool :=
  negb ((0x41 <=? c) && (c <=? 0x5A))%N
  && negb ((0xC0 <=? c) && (c <=? 0xDE) && negb (c =? 0xD7))%N
  && negb (c =? 0x130)%N && negb (c =? 0x212A)%N.

Lemma lower_char_fixed c : lower_fixed c = true -> lower_char c = [c].
Proof. unfold lower_fixed, lower_char. n_cases. Qed.

Lemma lower_char_lower c : forallb lower_fixed (lower_char c) = true.
Proof. unfold lower_char. n_cases; cbn [forallb]; unfold lower_fixed; n_cases. Qed.

Lemma lower_app a b : lower (a ++ b) = lower a ++ lower b.
Proof. apply flat_map_app. Qed.

Lemma lower_fixed_id s : forallb lower_fixed s = true -> lower s = s.
Proof.
  induction s as [|c s IH]; simpl; [done|].
  intros [Hc Hs]%andb_true_iff. rewrite lower_char_fixed by done. simpl. f_equal. auto.
Qed.

Lemma lower_lower_fixed s : forallb lower_fixed (lower s) = true.
Proof.
  induction s as [|c s IH]; simpl; [done|].
  rewrite forallb_app, lower_char_lower. done.
Qed.

(** [s.lower().lower() == s.lower()]. *)
Lemma lower_idem s : lower (lower s) = lower s.
Proof. apply lower_fixed_id, lower_lower_fixed. Qed.
End Lower.

#[export] Hint Rewrite lower_app lower_idem : pyrw.

(** ** Lemmas: [upper] *)

Section Upper.
Local Open Scope N_scope.

(** [upper] leaves alone what comes before the small letters: digits,
    punctuation and capitals. *)
Lemma upper_char_fixed (c : char) : c < 0x61 -> upper_char c = [c].
Proof. intros Hc. unfold upper_char. n_cases. Qed.

Lemma upper_fixed_id (s : str) : forallb (fun c => c <? 0x61) s = true -> upper s = s.
Proof.
  unfold upper. induction s as [|c s IH]; [done|]. cbn [forallb flat_map].
  intros [Hc Hs]%andb_true_iff. apply N.ltb_lt in Hc.
  by rewrite upper_char_fixed, IH.
Qed.

(** A text ends with a character when that is its last one. *)
Lemma endswith_last (k : char) (body : str) (c : char) :
  endswith [k] (body ++ [c]) = (k =? c).
Proof. unfold endswith. rewrite rev_app_distr. cbn. apply andb_true_r. Qed.

End Upper.

(** ** Lemmas: [str] of a number *)

Section Decimal.
Local Open Scope N_scope.
Implicit Types (n : N) (c : char) (acc ds : str).

(** The ten digits. *)
Lemma is_digit_char k : k < 10 -> is_digit (0x30 + k) = true /\ 0x30 + k - 0x30 = k.
Proof.
  intros Hk. unfold is_digit. split; [|lia]. apply andb_true_iff. split; apply N.leb_le; lia.
Qed.

Lemma is_digit_fixed c : is_digit c = true -> c < 0x61 /\ is_space c = false /\ lower_fixed c = true.
Proof.
  unfold is_digit. intros [H1%N.leb_le H2%N.leb_le]%andb_true_iff.
  split; [lia|]. unfold is_space, lower_fixed. split; n_cases.
Qed.

(** The loop of [str] puts the digits of [n] before what it has, at most
    one for each turn, and they read as [n]. *)
Lemma decimal_go_spec fuel n acc :
  n < 2 ^ N.of_nat (S fuel) ->
  exists ds, decimal_go fuel n acc = ds ++ acc
    /\ forallb is_digit ds = true
    /\ (0 < length ds <= S fuel)%nat
    /\ foldl (fun a c => a * 10 + (c - 0x30)) 0 ds = n.
Proof.
  assert (forall k acc, k < 10 -> exists ds, (0x30 + k mod 10) :: acc = ds ++ acc
    /\ forallb is_digit ds = true /\ (0 < length ds <= 1)%nat
    /\ foldl (fun a c => a * 10 + (c - 0x30)) 0 ds = k) as Hone.
  { intros k acc' Hk. exists [0x30 + k mod 10]. rewrite N.mod_small by done.
    destruct (is_digit_char k Hk) as [H1 H2]. cbn. rewrite H1.
    split_and!; [done|done|lia|lia|lia]. }
  revert n acc. induction fuel as [|fuel IH]; intros n acc Hn; cbn [decimal_go].
  { apply Hone. change (2 ^ N.of_nat 1) with 2 in Hn. lia. }
  destruct (N.eqb_spec (n / 10) 0) as [Hz|Hz].
  { destruct (Hone n acc) as (ds & ? & ? & ? & ?);
      [|exists ds; split_and!; [done|done|lia|lia|done]].
    apply N.div_small_iff in Hz; lia. }
  destruct (IH (n / 10) ((0x30 + n mod 10) :: acc)) as (ds & -> & Hdig & Hlen & Hval).
  { rewrite Nat2N.inj_succ, N.pow_succ_r' in Hn.
    pose proof (N.Div0.div_le_mono n (2 * 2 ^ N.of_nat (S fuel) - 1) 2 ltac:(lia)).
    assert (n / 10 <= n / 2) by (apply N.div_le_compat_l; lia).
    assert ((2 * 2 ^ N.of_nat (S fuel) - 1) / 2 < 2 ^ N.of_nat (S fuel))
      by (apply N.Div0.div_lt_upper_bound; lia). lia. }
  exists (ds ++ [0x30 + n mod 10]).
  destruct (is_digit_char (n mod 10)) as [H1 H2]; [by apply N.mod_lt|].
  rewrite <- app_assoc, forallb_app, Hdig, foldl_app, length_app, Hval. cbn. rewrite H1, H2.
  split_and!; [done|done|lia|lia|]. pose proof (N.div_mod n 10). lia.
Qed.

(** [str(n)] is a text of digits, not empty and not longer than [n] has
    bits, and reads as [n]: the fuel of [str_of_N] is enough. *)
Lemma str_of_N_spec n :
  forallb is_digit (str_of_N n) = true
  /\ (0 < length (str_of_N n) <= S (N.to_nat (N.log2 n)))%nat
  /\ foldl (fun a c => a * 10 + (c - 0x30)) 0 (str_of_N n) = n.
Proof.
  destruct (decimal_go_spec (N.to_nat (N.log2 n)) n []) as (ds & E & H).
  - rewrite Nat2N.inj_succ, N2Nat.id. destruct n as [|p]; [done|].
    apply N.log2_spec. lia.
  - unfold str_of_N. by rewrite E, app_nil_r.
Qed.

Lemma str_of_N_digit n : n < 10 -> str_of_N n = [0x30 + n].
Proof.
  intros Hn. unfold str_of_N. assert (n / 10 = 0) as Hz by (by apply N.div_small).
  assert (n mod 10 = n) as Hm by (by apply N.mod_small).
  destruct (N.to_nat (N.log2 n)); cbn [decimal_go]; by rewrite ?Hz, Hm.
Qed.

(** A text of digits is stripped. *)
Lemma strip_digits ds : forallb is_digit ds = true -> strip ds = ds.
Proof.
  intros Hd. destruct ds as [|c ds]; [done|]. apply (strip_fixed _ c); [done|..].
  - apply andb_true_iff in Hd as [Hc _]. by apply is_digit_fixed.
  - apply is_digit_fixed. rewrite forallb_forall in Hd. apply Hd.
    destruct (exists_last (l := c :: ds) ltac:(done)) as (l & x & E).
    rewrite E, last_last. apply in_app_iff. right. by left.
Qed.

(** [int(str(n)) == n]. *)
Lemma digits_go_digits ds (k : N) b :
  forallb is_digit ds = true -> ds <> [] \/ b = true ->
  digits_go k b ds = Some (foldl (fun a c => a * 10 + (c - 0x30)) k ds).
Proof.
  revert k b. induction ds as [|c ds IH]; intros k b Hd Hb; cbn [digits_go foldl].
  { by destruct Hb as [| ->]. }
  cbn [forallb] in Hd. apply andb_true_iff in Hd as [Hc Hd].
  unfold digit_val. unfold is_digit in Hc. rewrite Hc. apply IH; auto.
Qed.

Lemma int_of_str_of_N n : int_of_str (str_of_N n) = Some (Z.of_N n).
Proof.
  destruct (str_of_N_spec n) as (Hd & Hl & Hv). unfold int_of_str.
  rewrite strip_digits by done.
  destruct (str_of_N n) as [|c ds] eqn:E; [cbn in Hl; lia|].
  pose proof Hd as [Hc _]%andb_true_iff. unfold is_digit in Hc.
  apply andb_true_iff in Hc as [H1%N.leb_le H2%N.leb_le].
  destruct (N.eqb_spec c 0x2D); [lia|]. destruct (N.eqb_spec c 0x2B); [lia|].
  rewrite digits_go_digits by (done || by left). by rewrite Hv.
Qed.

End Decimal.

(** ** The order on strings *)

Section Order.
Implicit Types (a b c : str).

Lemma str_leb_refl a : str_leb a a = true.
Proof. induction a as [|x a IH]; [done|]. cbn. by rewrite N.eqb_refl, IH, orb_true_r. Qed.

Lemma str_leb_total a b : str_leb a b = true \/ str_leb b a = true.
Proof.
  revert b. induction a as [|x a IH]; intros [|y b]; cbn; auto.
  destruct (N.ltb_spec x y), (N.ltb_spec y x), (N.eqb_spec x y), (N.eqb_spec y x);
    cbn; auto; lia.
Qed.

Lemma str_leb_antisym a b : str_leb a b = true -> str_leb b a = true -> a = b.
Proof.
  revert b. induction a as [|x a IH]; intros [|y b]; cbn; try done.
  destruct (N.ltb_spec x y), (N.ltb_spec y x), (N.eqb_spec x y), (N.eqb_spec y x);
    cbn; try done; try lia. intros. subst. f_equal. auto.
Qed.

Lemma str_leb_trans a b c : str_leb a b = true -> str_leb b c = true -> str_leb a c = true.
Proof.
  revert b c. induction a as [|x a IH]; intros [|y b] [|z c]; cbn; try done.
  destruct (N.ltb_spec x y), (N.ltb_spec y z), (N.ltb_spec x z),
    (N.eqb_spec x y), (N.eqb_spec y z), (N.eqb_spec x z); cbn; try done; try lia.
  apply IH.
Qed.

End Order.

#[export] Hint Resolve str_leb_refl : py.

(** ** Cutting at the first occurrence *)

Lemma startswith_cons x p y s : startswith (x :: p) (y :: s) = (x =? y)%N && startswith p s.
Proof. done. Qed.

(** Past a stretch that has no two [c] in a row and ends before a character
    other than [c], the search for a separator that starts with two [c]
    goes on. *)
Lemma find_skip c d sep ts rest :
  c <> d -> contains [c; c] ts = false ->
  find (c :: c :: sep) (ts ++ d :: rest)
  = '(b, a) ← find (c :: c :: sep) (d :: rest); Some (ts ++ b, a).
Proof.
  intros Hcd. induction ts as [|t ts IH]; intros H.
  - cbn [app]. by destruct (find _ _) as [[??]|].
  - rewrite find_unfold. change ((t :: ts) ++ d :: rest) with (t :: (ts ++ d :: rest)).
    rewrite startswith_cons.
    assert (contains [c; c] ts = false) as H'.
    { apply not_true_is_false. intros E. by rewrite (contains_cons _ t _ E) in H. }
    assert (((c =? t)%N && startswith (c :: sep) (ts ++ d :: rest)) = false) as ->.
    { destruct (N.eqb_spec c t) as [<-|]; [|done]. cbn [andb].
      destruct ts as [|t' ts]; cbn [app]; rewrite startswith_cons.
      - by rewrite (proj2 (N.eqb_neq c d) Hcd).
      - destruct (N.eqb_spec c t') as [<-|]; [|done].
        cbn in H. by rewrite !N.eqb_refl in H. }
    rewrite IH by done. by destruct (find _ (d :: rest)) as [[??]|].
Qed.

Lemma splitn_S n sep s :
  splitn (S n) sep s
  = match find sep s with None => [s] | Some (b, a) => b :: splitn n sep a end.
Proof. done. Qed.
