(* ===== verification/PyRe.v ===== *)
(** * PyRe: the fragment of Python's [re] module the scripts use

    A regular expression is a value of [re]; [rmatch] is a backtracking
    matcher in continuation-passing style that tries alternatives in
    Python's priority order (greedy repetition first, left alternative
    first) and records capture groups.  [search] finds the leftmost
    position at which the expression matches, [sub] replaces every
    non-overlapping match from left to right.

    Repetition carries fuel equal to the length of its input: an iteration
    that consumes nothing is refused, so a repetition iterates at most once
    per character and the fuel is never the reason it stops.  The
    expressions of the sources never match the empty string, which is the
    one case where [re.sub] does more than cut and continue. *)

From Stdlib Require Import Ascii String.
From stdpp Require Import base tactics option list numbers.
From S2P Require Import Prelude PyStr.

(** ** Syntax *)

Inductive re : Type :=
| Eps
| Chr (c : char)
| Cls (p : char -> bool)
| Cat (a b : re)
| Alt (a b : re)
| Star (a : re)
| Group (i : nat) (a : re)
| Backref (i : nat).

(** [a+] and [a?]. *)
Definition Plus (a : re) : re := Cat a (Star a).
Definition Opt (a : re) : re := Alt a Eps.

(** A literal string. *)
Fixpoint Lit (s : str) : re :=
  match s with
  | [] => Eps
  | c :: r => Cat (Chr c) (Lit r)
  end.

(** The captured groups, most recent first. *)
Definition groups : Type := list (nat * str).

(** [m.group(i)]; [None] when the group did not take part in the match. *)
Fixpoint group (g : groups) (i : nat) : option str :=
  match g with
  | [] => None
  | (j, s) :: r => if Nat.eqb i j then Some s else group r i
  end.

(** ** Matching *)

(** Greedy repetition of [step]: one more iteration first, the continuation
    when that fails.  An iteration that consumes nothing is refused. *)
Fixpoint star_loop {A}
    (step : groups -> str -> (groups -> str -> option A) -> option A)
    (k : groups -> str -> option A) (n : nat) (g : groups) (s : str) : option A :=
  match n with
  | O => k g s
  | S n' =>
      match step g s (fun g' s' =>
              if length s' <? length s then star_loop step k n' g' s' else None) with
      | Some x => Some x
      | None => k g s
      end
  end.

Fixpoint rmatch {A} (r : re) (g : groups) (s : str)
    (k : groups -> str -> option A) {struct r} : option A :=
  match r with
  | Eps => k g s
  | Chr c =>
      match s with
      | x :: s' => if N.eqb x c then k g s' else None
      | [] => None
      end
  | Cls p =>
      match s with
      | x :: s' => if p x then k g s' else None
      | [] => None
      end
  | Cat a b => rmatch a g s (fun g' s' => rmatch b g' s' k)
  | Alt a b =>
      match rmatch a g s k with
      | Some x => Some x
      | None => rmatch b g s k
      end
  | Star a => star_loop (fun g' s' k' => rmatch a g' s' k') k (length s) g s
  | Group i a =>
      rmatch a g s (fun g' s' => k ((i, take (length s - length s') s) :: g') s')
  | Backref i =>
      match group g i with
      | Some t => if startswith t s then k g (drop (length t) s) else None
      | None => None
      end
  end.

(** [pattern.match(s)]: the groups and what follows the match. *)
Definition match_at (r : re) (s : str) : option (groups * str) :=
  rmatch r [] s (fun g t => Some (g, t)).

(** [pattern.search(s)]: what precedes the leftmost match, its groups, and
    what follows it. *)
Fixpoint search (r : re) (s : str) : option (str * groups * str) :=
  match match_at r s with
  | Some (g, t) => Some ([], g, t)
  | None =>
      match s with
      | [] => None
      | c :: s' =>
          match search r s' with
          | Some (b, g, t) => Some (c :: b, g, t)
          | None => None
          end
      end
  end.

(** [pattern.sub(repl, s)] for a pattern that never matches the empty string. *)
Fixpoint sub_fuel (n : nat) (r : re) (repl s : str) : str :=
  match search r s with
  | None => s
  | Some (b, _, t) =>
      match n with
      | O => s
      | S n' => b ++ repl ++ sub_fuel n' r repl t
      end
  end.

Definition sub (r : re) (repl s : str) : str := sub_fuel (length s) r repl s.

(** ** Literals and repeated character classes *)

Section Classes.
Context {A : Type}.
Implicit Types (p : char -> bool) (k : groups -> str -> option A) (g : groups) (s t : str).

(** The defining equations of [rmatch], for rewriting. *)
Lemma rmatch_Cat a b g s k :
  rmatch (Cat a b) g s k = rmatch a g s (fun g' s' => rmatch b g' s' k).
Proof. done. Qed.

Lemma rmatch_Chr_cons c x g s k :
  rmatch (Chr c) g (x :: s) k = if N.eqb x c then k g s else None.
Proof. done. Qed.

Lemma rmatch_Cls_cons p x g s k :
  rmatch (Cls p) g (x :: s) k = if p x then k g s else None.
Proof. done. Qed.

Lemma rmatch_Cls_nil p g k : rmatch (Cls p) g [] k = None.
Proof. done. Qed.

Lemma rmatch_Chr_nil c g k : rmatch (Chr c) g [] k = None.
Proof. done. Qed.

Lemma rmatch_Group i a g s k :
  rmatch (Group i a) g s k
  = rmatch a g s (fun g' s' => k ((i, take (length s - length s') s) :: g') s').
Proof. done. Qed.

Lemma rmatch_Star a g s k :
  rmatch (Star a) g s k = star_loop (fun g' s' k' => rmatch a g' s' k') k (length s) g s.
Proof. done. Qed.

Lemma rmatch_Lit t g s k :
  rmatch (Lit t) g s k = if startswith t s then k g (drop (length t) s) else None.
Proof.
  revert s. induction t as [|c t IH]; intros s; simpl; [done|].
  destruct s as [|x s]; [done|]. rewrite (N.eqb_sym c x).
  destruct (N.eqb x c); simpl; [apply IH|done].
Qed.

(** A greedy run of a class, when the continuation refuses every string that
    starts in the class: the run is the longest one, and nothing is retried. *)
Lemma star_cls_exclusive p k n g s :
  (forall x s', p x = true -> k g (x :: s') = None) ->
  length s <= n ->
  star_loop (fun g' s' k' => rmatch (Cls p) g' s' k') k n g s = k g (drop_while p s).
Proof.
  intros Hk. revert s. induction n as [|n IH]; intros s Hn.
  - destruct s; [done|simpl in Hn; lia].
  - cbn [star_loop rmatch]. destruct s as [|x s]; [done|]. simpl.
    destruct (p x) eqn:Hp; [|done].
    rewrite (proj2 (Nat.ltb_lt _ _)) by (simpl; lia). simpl in Hn.
    rewrite IH by lia. destruct (k g (drop_while p s)) eqn:E; [done|]. by rewrite Hk.
Qed.

(** A greedy run of a class, when the continuation accepts what follows the
    longest run. *)
Lemma star_cls_accept p k n g s :
  is_Some (k g (drop_while p s)) ->
  length s <= n ->
  star_loop (fun g' s' k' => rmatch (Cls p) g' s' k') k n g s = k g (drop_while p s).
Proof.
  revert s. induction n as [|n IH]; intros s [v Hv] Hn.
  - destruct s; [done|simpl in Hn; lia].
  - cbn [star_loop rmatch]. destruct s as [|x s]; [done|]. simpl in *.
    destruct (p x) eqn:Hp; [|done].
    rewrite (proj2 (Nat.ltb_lt _ _)) by lia.
    rewrite IH by (eauto; lia). by rewrite Hv.
Qed.
Lemma rmatch_Star_Cls_exclusive p k g s :
(forall x s', p x = true -> k g (x :: s') = None) ->
rmatch (Star (Cls p)) g s k = k g (drop_while p s).
Proof. intros. rewrite rmatch_Star. by apply star_cls_exclusive. Qed.

Lemma rmatch_Star_Cls_accept p k g s :
is_Some (k g (drop_while p s)) ->
rmatch (Star (Cls p)) g s k = k g (drop_while p s).
Proof. intros. rewrite rmatch_Star. by apply star_cls_accept. Qed.
End Classes.

#[export] Hint Rewrite @rmatch_Cat @rmatch_Chr_cons @rmatch_Cls_cons @rmatch_Cls_nil
  @rmatch_Chr_nil @rmatch_Group @rmatch_Lit : pyrw.

(** ** Matchers that consume input *)

(** [r] is productive when every match of it, wherever it starts, leaves a
    proper suffix of its input. *)
Definition productive (r : re) : Prop :=
  forall s g t, match_at r s = Some (g, t) -> exists w, w <> [] /\ s = w ++ t.

Section Search.
Context (r : re).
Implicit Types (s b t repl : str) (g : groups).

Lemma search_Some s b g t :
  search r s = Some (b, g, t) -> match_at r (drop (length b) s) = Some (g, t) /\ b = take (length b) s.
Proof.
  revert b. induction s as [|c s IH]; intros b; simpl.
  - destruct (match_at r []) as [[g0 t0]|] eqn:E; [|done]. by intros [= <- <- <-].
  - destruct (match_at r (c :: s)) as [[g0 t0]|] eqn:E; [by intros [= <- <- <-]|].
    destruct (search r s) as [[[b0 g0] t0]|]; [|done].
    intros [= <- <- <-]. destruct (IH b0 eq_refl) as [H1 H2]. simpl. split; [done|by f_equal].
Qed.

(** No match starts inside what [search] skips. *)
Lemma search_leftmost s b g t i :
  search r s = Some (b, g, t) -> i < length b -> match_at r (drop i s) = None.
Proof.
  revert b i. induction s as [|c s IH]; intros b i; simpl.
  - destruct (match_at r []) as [[g0 t0]|]; [|done]. intros [= <- _ _]. simpl. lia.
  - destruct (match_at r (c :: s)) as [[g0 t0]|] eqn:E; [intros [= <- _ _]; simpl; lia|].
    destruct (search r s) as [[[b0 g0] t0]|] eqn:F; [|done].
    intros [= <- <- <-] Hi. destruct i as [|i]; [done|]. simpl in *. eapply IH; [done|lia].
Qed.

Lemma search_None s i : search r s = None -> match_at r (drop i s) = None.
Proof.
  revert i. induction s as [|c s IH]; intros i; simpl.
  - destruct (match_at r []) as [[g0 t0]|] eqn:E; [done|]. by rewrite drop_nil.
  - destruct (match_at r (c :: s)) as [[g0 t0]|] eqn:E; [done|].
    destruct (search r s) as [[[b0 g0] t0]|] eqn:F; [done|].
    intros _. destruct i; simpl; auto.
Qed.

Context (Hprod : productive r).

Lemma search_split s b g t :
  search r s = Some (b, g, t) -> exists w, w <> [] /\ s = b ++ w ++ t.
Proof.
  intros [M B]%search_Some. destruct (Hprod _ _ _ M) as (w & Hw & E).
  exists w. split; [done|]. rewrite <- E, B at 1. by rewrite take_drop.
Qed.

Lemma search_shrinks s b g t : search r s = Some (b, g, t) -> length t < length s.
Proof.
  intros (w & Hw & ->)%search_split. rewrite !length_app. destruct w; [done|simpl; lia].
Qed.

Lemma sub_fuel_irrel repl n m s :
  length s <= n -> length s <= m -> sub_fuel n r repl s = sub_fuel m r repl s.
Proof.
  revert m s. induction n as [|n IH]; intros m s Hn Hm.
  - destruct s; [|simpl in Hn; lia]. destruct m; cbn [sub_fuel];
      destruct (search r []) as [[[b g] t]|] eqn:F; try done.
    apply search_shrinks in F. simpl in F. lia.
  - destruct m as [|m]; cbn [sub_fuel];
      destruct (search r s) as [[[b g] t]|] eqn:F; try done.
    + apply search_shrinks in F. lia.
    + do 2 f_equal. apply search_shrinks in F. apply IH; lia.
Qed.

(** The unfolding equation of [sub]: the fuel is enough. *)
Lemma sub_unfold repl s :
  sub r repl s = match search r s with
                 | None => s
                 | Some (b, _, t) => b ++ repl ++ sub r repl t
                 end.
Proof.
  unfold sub. destruct (search r s) as [[[b g] t]|] eqn:F.
  - pose proof (search_shrinks _ _ _ _ F) as L.
    destruct (length s) as [|n] eqn:E; [lia|]. cbn [sub_fuel]. rewrite F.
    do 2 f_equal. apply sub_fuel_irrel; lia.
  - destruct (length s); cbn [sub_fuel]; by rewrite F.
Qed.

Lemma sub_no_match repl s : search r s = None -> sub r repl s = s.
Proof. intros H. by rewrite sub_unfold, H. Qed.

(** Deleting the matches leaves a subsequence of the input. *)
Lemma sub_empty_sublist s : sublist (sub r [] s) s.
Proof.
  induction s as [s IH] using length_ind. rewrite sub_unfold.
  destruct (search r s) as [[[b g] t]|] eqn:F; [|done].
  destruct (search_split _ _ _ _ F) as (w & _ & E). rewrite E. simpl.
  apply sublist_app; [done|]. apply sublist_inserts_l, IH. by eapply search_shrinks.
Qed.

Lemma sub_empty_length s : length (sub r [] s) <= length s.
Proof. apply sublist_length, sub_empty_sublist. Qed.
End Search.
