(* ===== verification/PyJson.v ===== *)
(** * PyJson: the values of a JSON request body

    The handlers read their arguments from [request.json], a dictionary
    whose values are whatever the client sent.  [json] is the type of those
    values ([JNum] holds the integers; a number with a fraction or an
    exponent is not modelled); [dict_get] is [dict.get] with its default;
    [as_str] is the attribute lookup of a [str] method, which raises
    [AttributeError] on everything that is not a string. *)

From Stdlib Require Import Ascii String.
From stdpp Require Import base tactics option list numbers.
From S2P Require Import Prelude PyStr.

#[warnings="-register-all"] Inductive json : Type :=
| JNull
| JBool (b : bool)
| JNum (n : Z)
| JStr (s : str)
| JArr (l : list json)
| JObj (l : list (str * json)).

(** A dictionary with string keys. *)
Abbreviation dict := (list (str * json)).

(** [d[k]] when the key is there. *)
Fixpoint dict_lookup (d : dict) (k : str) : option json :=
  match d with
  | [] => None
  | (k', v) :: d' => if str_eqb k' k then Some v else dict_lookup d' k
  end.

(** [d.get(k, dflt)]. *)
Definition dict_get (d : dict) (k : str) (dflt : json) : json :=
  default dflt (dict_lookup d k).

(** Truth value testing. *)
Definition json_truthy (v : json) : bool :=
  match v with
  | JNull => false
  | JBool b => b
  | JNum n => negb (n =? 0)%Z
  | JStr s => truthy s
  | JArr l => match l with [] => false | _ => true end
  | JObj l => match l with [] => false | _ => true end
  end.

(** The receiver of a [str] method call. *)
Definition as_str (v : json) : result str :=
  match v with
  | JStr s => Ok s
  | _ => Raise AttributeError
  end.

(** [d.get(k, '').strip()]. *)
Definition get_stripped (d : dict) (k : str) : result str :=
  match as_str (dict_get d k (JStr [])) with
  | Ok s => Ok (strip s)
  | Raise e => Raise e
  end.

Lemma get_stripped_Ok d k s :
  get_stripped d k = Ok s ->
  strip s = s /\ (dict_lookup d k = None /\ s = []
                  \/ exists raw, dict_lookup d k = Some (JStr raw) /\ s = strip raw).
Proof.
  unfold get_stripped, dict_get. destruct (dict_lookup d k) as [[]|]; cbn; intros; simplify_eq.
  - split; [apply strip_idem|]. right. by eexists.
  - rewrite strip_nil. split; [done|]. by left.
Qed.

Lemma get_stripped_Raise d k e :
  get_stripped d k = Raise e ->
  e = AttributeError /\ exists v, dict_lookup d k = Some v /\ forall s, v <> JStr s.
Proof.
  unfold get_stripped, dict_get. destruct (dict_lookup d k) as [v|]; cbn; [|done].
  destruct v; cbn; intros; simplify_eq; split; try done; eexists; split; try done.
Qed.
