(* ===== verification/PyFloat.v ===== *)
(** * PyFloat: the [float] runtime

    A Python [float] is an IEEE 754 binary64 number.  This file models it
    as the [spec_float] of the Standard Library with the precision and the
    exponent range of binary64, so that every operation rounds as the
    machine does.

    - [fmul], [fadd], [fsub], [fdiv], [fabs], [flt], [fgt] and [fne] are the
      operators the scripts use; [float_of_Z] is the conversion of an [int]
      operand.
    - [float_of_str] is [float(s)]: the grammar of a float literal (sign,
      digits with single underscores between them, fraction, exponent,
      [inf] and [nan] in any case), [ValueError] for every other text, and
      the nearest float to the decimal number, ties to even
      ([float_of_decimal]).
    - [format_1f] is [f"{x:.1f}"]: the exact value of the float rounded to
      one decimal, ties to even ([tenths]).

    The lemmas show which divisions and products are exact, how far the
    rounding of a quotient can move it ([binary_round_aux_quotient]), and
    that a decimal with one digit after the point, read and printed again
    with one decimal, is the same ([float_of_tenths],
    [float_of_str_decimal]).  The examples at the end compare the
    definitions with the floats of the machine on literals that are hard
    to round.  Digits are the ASCII digits. *)

From Stdlib Require Import Ascii String ZArith Lia.
From Stdlib Require Import Floats.SpecFloat Floats.PrimFloat Floats.FloatOps.
From stdpp Require Import base tactics option list numbers.
From S2P Require Import Prelude PyStr.

Local Open Scope N_scope.
Local Arguments u : simpl never.

(** ** Floats and their operators *)

Abbreviation pyfloat := spec_float.

#[export] Instance spec_float_eq_dec : EqDecision spec_float.
Proof. solve_decision. Defined.

Definition fmul (x y : pyfloat) : pyfloat := SFmul prec emax x y.
Definition fadd (x y : pyfloat) : pyfloat := SFadd prec emax x y.
Definition fsub (x y : pyfloat) : pyfloat := SFsub prec emax x y.
Definition fdiv (x y : pyfloat) : pyfloat := SFdiv prec emax x y.
Definition fabs (x : pyfloat) : pyfloat := SFabs x.

(** [x < y], [x > y] and [x != y]: false, false and true when one of them
    is not a number. *)
Definition flt (x y : pyfloat) : bool := SFltb x y.
Definition fgt (x y : pyfloat) : bool := SFltb y x.
Definition fne (x y : pyfloat) : bool := negb (SFeqb x y).

(** The float of an [int]. *)
Definition float_of_Z (z : Z) : pyfloat := binary_normalize prec emax z 0 false.

Definition fzero : pyfloat := S754_zero false.

(** ** [float(s)] *)

(** The nearest float to [m * 10 ^ e10], with the sign [neg].  A number
    of [d] digits times [10 ^ e10] is at least [10 ^ (e10 + d - 1)] and
    below [10 ^ (e10 + d)]: beyond 400 it is above every float, below -400
    it is under half of the least one. *)
Definition float_of_decimal (neg : bool) (m : N) (e10 : Z) : pyfloat :=
  match m with
  | N0 => S754_zero neg
  | Npos p =>
      let d := Z.of_nat (length (str_of_N m)) in
      if (400 <? e10 + d)%Z then S754_infinity neg
      else if (e10 + d <? -400)%Z then S754_zero neg
      else if (0 <=? e10)%Z then binary_round prec emax neg (p * Z.to_pos (10 ^ e10)) 0
      else
        let '(q, e, l) := SFdiv_core_binary prec emax (Zpos p) 0 (10 ^ (- e10)) 0 in
        binary_round_aux prec emax neg q e l
  end.

(** A run of digits with single underscores between them: its digits, and
    what follows it. *)
Fixpoint digitpart (after_digit : bool) (s : str) : list N * str :=
  match s with
  | [] => ([], [])
  | c :: r =>
      match digit_val c with
      | Some d => let (ds, rest) := digitpart true r in (d :: ds, rest)
      | None =>
          if (c =? 0x5F) && after_digit
             && match r with
                | c' :: _ => is_digit c'
                | [] => false
                end
          then digitpart false r
          else ([], s)
      end
  end.

(** The number of a list of digits. *)
Definition number_of (ds : list N) : N := foldl (fun acc d => acc * 10 + d) 0 ds.

(** An optional sign: whether it is a minus, and what follows it. *)
Definition signpart (s : str) : bool * str :=
  match s with
  | 0x2D :: r => (true, r)
  | 0x2B :: r => (false, r)
  | _ => (false, s)
  end.

(** The exponent of a literal: nothing, or [e], a sign and digits up to
    the end of the text. *)
Definition exponentpart (s : str) : option Z :=
  match s with
  | [] => Some 0%Z
  | c :: r =>
      if (c =? 0x65) || (c =? 0x45) then
        let (neg, r') := signpart r in
        match digitpart false r' with
        | ((_ :: _) as ds, []) =>
            Some (if neg then - Z.of_N (number_of ds) else Z.of_N (number_of ds))%Z
        | _ => None
        end
      else None
  end.

Definition float_of_str (s : str) : result pyfloat :=
  let (neg, body) := signpart (strip s) in
  if bool_decide (lower body ∈ [u "inf"; u "infinity"]) then Ok (S754_infinity neg)
  else if bool_decide (lower body = u "nan") then Ok S754_nan
  else
    let (int_digits, s1) := digitpart false body in
    let (frac_digits, s2) :=
      match s1 with
      | 0x2E :: r => digitpart false r
      | _ => ([], s1)
      end in
    if negb (truthy_list int_digits) && negb (truthy_list frac_digits) then Raise ValueError
    else
      match exponentpart s2 with
      | Some e =>
          Ok (float_of_decimal neg (number_of (int_digits ++ frac_digits))
                               (e - Z.of_nat (length frac_digits)))
      | None => Raise ValueError
      end.

(** ** [f"{x:.1f}"] *)

(** The tenths of the absolute value of a float, rounded to the nearest
    integer, ties to even. *)
Definition tenths (x : pyfloat) : N :=
  match x with
  | S754_finite _ m e =>
      match e with
      | Zneg k =>
          let den := 2 ^ Npos k in
          let (q, r) := N.div_eucl (Npos m * 10) den in
          if (den <? 2 * r) || ((2 * r =? den) && N.odd q) then q + 1 else q
      | _ => Npos m * 10 * 2 ^ Z.to_N e
      end
  | _ => 0
  end.

Definition is_negative (x : pyfloat) : bool :=
  match x with
  | S754_zero s | S754_infinity s | S754_finite s _ _ => s
  | S754_nan => false
  end.

Definition format_1f (x : pyfloat) : str :=
  match x with
  | S754_nan => u "nan"
  | S754_infinity s => (if s then u "-" else []) ++ u "inf"
  | _ =>
      (if is_negative x then u "-" else [])
      ++ str_of_N (tenths x / 10) ++ u "." ++ str_of_N (tenths x mod 10)
  end.

(** ** Floats that the machine has *)

(** The floats of binary64 among the values of [spec_float], and the
    mantissas of the normal ones. *)
Definition valid (x : pyfloat) : Prop := valid_binary prec emax x = true.

Definition normal (m : positive) : Prop := digits2_pos m = 53%positive.

(** [1024.0]. *)
Definition f1024 : pyfloat := Eval vm_compute in float_of_Z 1024.

(** The float [x / 1024 ^ k], when it is one. *)
Definition shifted (k : nat) (x : pyfloat) : pyfloat :=
  match x with
  | S754_finite s m e => S754_finite s m (e - 10 * Z.of_nat k)
  | _ => x
  end.

(** The end of [binary_round_aux], after the mantissa was rounded. *)
Definition finish (s : bool) (r : Z) (e : Z) : pyfloat :=
  let '(mrs, e') := shr_fexp prec emax r e loc_Exact in
  match shr_m mrs with
  | Z0 => S754_zero s
  | Zpos m => if (e' <=? emax - prec)%Z then S754_finite s m e' else S754_infinity s
  | _ => S754_nan
  end.

Section Exact.
Local Open Scope Z_scope.
Implicit Types (m : positive) (e : Z) (s : bool) (x : pyfloat).

Lemma digits2_pos_spec m :
  2 ^ (Z.pos (digits2_pos m) - 1) <= Z.pos m < 2 ^ Z.pos (digits2_pos m).
Proof.
  induction m as [m IH|m IH|]; cbn [digits2_pos]; [| |done];
    rewrite Pos2Z.inj_succ, Z.pow_succ_r by lia;
    replace (Z.succ (Z.pos (digits2_pos m)) - 1) with (Z.succ (Z.pos (digits2_pos m) - 1))
      by lia;
    rewrite Z.pow_succ_r by lia; lia.
Qed.

(** The number of bits of a mantissa is the only [d] with
    [2 ^ (d - 1) <= m < 2 ^ d]. *)
Lemma digits2_pos_unique m d :
  2 ^ (Z.pos d - 1) <= Z.pos m < 2 ^ Z.pos d -> digits2_pos m = d.
Proof.
  intros [H1 H2]. pose proof (digits2_pos_spec m) as [H3 H4].
  assert (Z.pos (digits2_pos m) = Z.pos d) as [= E]; [|exact E].
  destruct (Z.lt_trichotomy (Z.pos (digits2_pos m)) (Z.pos d)) as [H|[H|H]]; [|done|].
  - assert (2 ^ Z.pos (digits2_pos m) <= 2 ^ (Z.pos d - 1)) by (apply Z.pow_le_mono_r; lia). lia.
  - assert (2 ^ Z.pos d <= 2 ^ (Z.pos (digits2_pos m) - 1)) by (apply Z.pow_le_mono_r; lia). lia.
Qed.

(** A normal mantissa is between [2 ^ 52] and [2 ^ 53]. *)
Lemma normal_bounds m : normal m -> 4503599627370496 <= Z.pos m < 9007199254740992.
Proof. intros Hm. pose proof (digits2_pos_spec m) as H. rewrite Hm in H. exact H. Qed.

Lemma bounds_normal m : 4503599627370496 <= Z.pos m < 9007199254740992 -> normal m.
Proof. intros H. by apply digits2_pos_unique. Qed.

Lemma valid_finite s m e :
  valid (S754_finite s m e) <->
  -1074 <= e <= 971 /\ Z.pos (digits2_pos m) <= 53 /\ (-1074 < e -> normal m).
Proof.
  unfold valid, valid_binary, bounded, canonical_mantissa, fexp, emin, prec, emax, normal.
  rewrite andb_true_iff, Z.eqb_eq, Z.leb_le. split; [intros [H1 H2]|intros (H1 & H2 & H3)].
  - split_and!; [lia..|]. intros He.
    assert (Z.pos (digits2_pos m) = Z.pos 53) as [= E] by lia. exact E.
  - split; [|lia]. destruct (Z.eq_dec e (-1074)) as [->|]; [lia|]. rewrite H3 by lia. lia.
Qed.

(** A float of an exponent above the least one is normal. *)
Lemma valid_normal s m e : valid (S754_finite s m e) -> -1074 < e -> normal m.
Proof. intros (_ & _ & H)%valid_finite. exact H. Qed.

Lemma normal_valid s m e : normal m -> -1074 <= e <= 971 -> valid (S754_finite s m e).
Proof. intros Hm He. apply valid_finite. rewrite Hm. split_and!; [lia..|done]. Qed.

Lemma div_eucl_mul a b : 0 < b -> Z.div_eucl (a * b) b = (a, 0).
Proof.
  intros Hb. pose proof (Z.div_eucl_eq (a * b) b ltac:(lia)) as E.
  pose proof (Z.mod_pos_bound (a * b) b Hb) as B. unfold Z.modulo in B.
  destruct (Z.div_eucl (a * b) b) as [q r]. cbn in *.
  assert (r = 0 /\ q = a) as [-> ->]; [|done].
  assert (b * (a - q) = r) by lia.
  assert (a - q = 0) by nia. split; nia.
Qed.

(** The quotient of a normal float by [1024.0], before it is rounded. *)
Lemma div_1024_core m e :
  normal m -> -1063 <= e ->
  SFdiv_core_binary prec emax (Z.pos m) e 4503599627370496 (-42)
  = (Z.pos m~0, e - 11, loc_Exact).
Proof.
  intros Hm He. unfold SFdiv_core_binary. cbv zeta. cbn [Zdigits2]. rewrite Hm.
  change (digits2_pos 4503599627370496) with 53%positive.
  replace (fexp prec emax (53 + e - (53 + -42))) with (e - 11)
    by (unfold fexp, emin, prec, emax; lia).
  replace (Z.min (e - 11) (e - -42)) with (e - 11) by lia.
  replace (e - -42 - (e - 11)) with 53 by lia.
  cbv iota. rewrite Z.shiftl_mul_pow2 by lia.
  replace (Z.pos m * 2 ^ 53) with (Z.pos m~0 * 4503599627370496) by lia.
  rewrite div_eucl_mul by lia. reflexivity.
Qed.

(** Rounding a normal mantissa with one more bit, which is 0. *)
Lemma round_even_mantissa s m e :
  normal m -> -1064 <= e -> e <= 981 ->
  binary_round_aux prec emax s (Z.pos m~0) (e - 11) loc_Exact = S754_finite s m (e - 10).
Proof.
  intros Hm He He'. unfold binary_round_aux, shr_fexp. cbn [Zdigits2 digits2_pos]. rewrite Hm.
  replace (fexp prec emax (Z.pos (Pos.succ 53) + (e - 11)) - (e - 11)) with 1
    by (unfold fexp, emin, prec, emax; lia).
  cbn [shr SpecFloat.iter_pos shr_record_of_loc shr_1 shr_m loc_of_shr_record
       round_nearest_even Zdigits2 orb].
  rewrite Hm.
  replace (fexp prec emax (53 + (e - 11 + 1)) - (e - 11 + 1)) with 0
    by (unfold fexp, emin, prec, emax; lia).
  cbn [shr shr_m]. replace (e - 11 + 1) with (e - 10) by lia.
  unfold emax, prec. destruct (Z.leb_spec (e - 10) (1024 - 53)); [done|lia].
Qed.

(** The division of a normal float by [1024.0] is exact: the mantissa
    stays, the exponent loses 10. *)
Lemma fdiv_1024 s m e :
  normal m -> -1063 <= e -> e <= 981 ->
  fdiv (S754_finite s m e) f1024 = S754_finite s m (e - 10).
Proof.
  intros Hm He He'. unfold fdiv, f1024, SFdiv. rewrite div_1024_core by done.
  rewrite xorb_false_r. by apply round_even_mantissa; [|lia|].
Qed.

(** The product of a normal float and a power of two is exact: the
    mantissa stays, the exponents add. *)
Lemma fmul_pow2 s m e e2 :
  normal m -> -1074 <= e + e2 + 52 <= 971 ->
  fmul (S754_finite s m e) (S754_finite false 4503599627370496 e2)
  = S754_finite s m (e + e2 + 52).
Proof.
  intros Hm He. unfold fmul, SFmul. rewrite xorb_false_r, Pos.mul_comm.
  unfold binary_round_aux, shr_fexp. cbv [Pos.mul]. cbn [Zdigits2 digits2_pos]. rewrite Hm.
  cbn [Pos.succ].
  match goal with
  | |- context [fexp prec emax (?d + (e + e2)) - (e + e2)] =>
      replace (fexp prec emax (d + (e + e2)) - (e + e2)) with 52
        by (unfold fexp, emin, prec, emax; lia)
  end.
  cbn [shr SpecFloat.iter_pos shr_record_of_loc shr_1 shr_m loc_of_shr_record
       round_nearest_even Zdigits2 orb].
  rewrite Hm.
  replace (fexp prec emax (53 + (e + e2 + 52)) - (e + e2 + 52)) with 0
    by (unfold fexp, emin, prec, emax; lia).
  cbn [shr shr_m].
  unfold emax, prec. destruct (Z.leb_spec (e + e2 + 52) (1024 - 53)); [done|lia].
Qed.

(** A float is below [1024.0] in absolute value when its exponent is below
    that of [1024.0]. *)
Lemma below_1024 s m e :
  valid (S754_finite s m e) -> flt (fabs (S754_finite s m e)) f1024 = (e <? -42).
Proof.
  intros Hv. unfold flt, fabs, f1024, SFltb, SFabs, SFcompare.
  destruct (Z.compare_spec e (-42)) as [->|He|He].
  - apply valid_normal, normal_bounds in Hv; [|lia].
    rewrite Pos.compare_cont_spec.
    destruct (Pos.compare_spec m 4503599627370496) as [|H|]; [done| |done].
    apply Pos2Z.pos_lt_pos in H. lia.
  - symmetry. by apply Z.ltb_lt.
  - symmetry. apply Z.ltb_ge. lia.
Qed.

(** The number that is printed is the nearest to ten times the float: the
    distance is at most a half. *)
Lemma tenths_nearest s m k :
  2 * Z.abs (10 * Z.pos m - Z.of_N (tenths (S754_finite s m (Z.neg k))) * 2 ^ Z.pos k)
  <= 2 ^ Z.pos k.
Proof.
  cbn [tenths]. pose proof (N.div_eucl_spec (N.pos m * 10) (2 ^ N.pos k)) as E.
  pose proof (N.mod_lt (N.pos m * 10) (2 ^ N.pos k)) as B. unfold N.modulo in B.
  destruct (N.div_eucl (N.pos m * 10) (2 ^ N.pos k)) as [q r]. cbn [snd] in B.
  assert (Z.of_N (2 ^ N.pos k) = 2 ^ Z.pos k) as <- by (by rewrite N2Z.inj_pow).
  assert (2 ^ N.pos k <> 0)%N as Hk by (by apply N.pow_nonzero).
  specialize (B Hk). generalize dependent (2 ^ N.pos k)%N. intros d E B Hk.
  destruct (N.ltb_spec d (2 * r)); cbn [orb]; [lia|].
  destruct (N.eqb_spec (2 * r) d); cbn [andb]; [destruct (N.odd q)|]; lia.
Qed.

(** Below [1024.0] the number that is printed is at most [1024.0]. *)
Lemma tenths_below s m e :
  valid (S754_finite s m e) -> e < -42 -> (tenths (S754_finite s m e) <= 10240)%N.
Proof.
  intros (_ & Hd & _)%valid_finite He. destruct e as [|e|k]; [lia..|]. cbn [tenths].
  pose proof (digits2_pos_spec m) as [_ Hm].
  assert (Z.pos m < 2 ^ 53) as Hm53.
  { eapply Z.lt_le_trans; [done|]. apply Z.pow_le_mono_r; lia. }
  change (2 ^ 53) with 9007199254740992 in Hm53.
  assert (2 ^ 43 <= 2 ^ Z.pos k) as Hk by (apply Z.pow_le_mono_r; lia).
  change (2 ^ 43) with 8796093022208 in Hk.
  pose proof (N.div_eucl_spec (N.pos m * 10) (2 ^ N.pos k)) as E.
  destruct (N.div_eucl (N.pos m * 10) (2 ^ N.pos k)) as [q r].
  assert (Z.of_N (2 ^ N.pos k) = 2 ^ Z.pos k) as Hp by (by rewrite N2Z.inj_pow).
  generalize dependent (2 ^ Z.pos k). intros d' Hk Hp.
  generalize dependent (2 ^ N.pos k)%N. intros d E Hp.
  assert (q < 10240)%N by nia.
  destruct (_ || _); lia.
Qed.

(** A mantissa of 53 bits is kept; [2 ^ 53] becomes [2 ^ 52] with the next
    exponent. *)
Lemma finish_spec s r e :
  4503599627370496 <= r <= 9007199254740992 -> -1074 <= e <= 970 ->
  exists m e2, finish s r e = S754_finite s m e2 /\ normal m
    /\ Z.pos m * 2 ^ (e2 - e) = r
    /\ e <= e2 <= e + 1 /\ (r < 9007199254740992 -> e2 = e).
Proof.
  intros Hr He. destruct r as [|r|r]; [lia| |lia]. unfold finish, shr_fexp. cbn [Zdigits2].
  destruct (Z.eq_dec (Z.pos r) 9007199254740992) as [[= ->]|Hne].
  - change (digits2_pos 9007199254740992) with 54%positive.
    replace (fexp prec emax (54 + e) - e) with 1 by (unfold fexp, emin, prec, emax; lia).
    cbn [shr SpecFloat.iter_pos shr_record_of_loc shr_1 shr_m orb]. unfold emax, prec.
    destruct (Z.leb_spec (e + 1) (1024 - 53)); [|lia].
    exists 4503599627370496%positive, (e + 1). split_and!; [done|done| |lia|lia|lia].
    by replace (e + 1 - e) with 1 by lia.
  - assert (normal r) as Hn by (apply bounds_normal; lia). rewrite Hn.
    replace (fexp prec emax (53 + e) - e) with 0 by (unfold fexp, emin, prec, emax; lia).
    cbn [shr shr_record_of_loc shr_m]. unfold emax, prec.
    destruct (Z.leb_spec e (1024 - 53)); [|lia].
    exists r, e. split_and!; [done|done| |lia|lia|done]. rewrite Z.sub_diag. lia.
Qed.

Lemma loc_of_shr_record_of_loc r l : loc_of_shr_record (shr_record_of_loc r l) = l.
Proof. by destruct l as [|[]]. Qed.

Lemma round_nearest_even_near r l : r <= round_nearest_even r l <= r + 1.
Proof. destruct l as [|[]]; cbn; [lia| |lia|lia]. destruct (Z.even r); lia. Qed.

(** Rounding a quotient of 53 or 54 bits. *)
Lemma binary_round_aux_quotient s q e l :
  4503599627370496 <= Z.pos q < 18014398509481984 -> -1074 <= e <= 969 ->
  exists m e2, binary_round_aux prec emax s (Z.pos q) e l = S754_finite s m e2
    /\ normal m
    /\ Z.pos q - 1 <= Z.pos m * 2 ^ (e2 - e) <= Z.pos q + 2
    /\ e <= e2 <= e + 2
    /\ (9007199254740992 <= Z.pos q -> e + 1 <= e2)
    /\ (Z.pos q + 1 < 9007199254740992 -> e2 = e)
    /\ (Z.pos q + 2 < 18014398509481984 -> e2 <= e + 1).
Proof.
  intros Hq He.
  change (binary_round_aux prec emax s (Z.pos q) e l) with
    (let '(mrs', e') := shr_fexp prec emax (Z.pos q) e l in
     finish s (round_nearest_even (shr_m mrs') (loc_of_shr_record mrs')) e').
  unfold shr_fexp. cbn [Zdigits2].
  destruct (Z.lt_ge_cases (Z.pos q) 9007199254740992) as [Hlt|Hge].
  - assert (normal q) as Hn by (apply bounds_normal; lia). rewrite Hn.
    replace (fexp prec emax (53 + e) - e) with 0 by (unfold fexp, emin, prec, emax; lia).
    cbn [shr]. rewrite loc_of_shr_record_of_loc.
    replace (shr_m (shr_record_of_loc (Z.pos q) l)) with (Z.pos q) by (by destruct l as [|[]]).
    pose proof (round_nearest_even_near (Z.pos q) l) as Hr.
    destruct (finish_spec s (round_nearest_even (Z.pos q) l) e) as (m & e2 & -> & Hm & Hv & He2 & Hs);
      [lia..|].
    exists m, e2. split_and!; [done|done|lia..].
  - assert (digits2_pos q = 54%positive) as -> by (apply digits2_pos_unique; lia).
    replace (fexp prec emax (54 + e) - e) with 1 by (unfold fexp, emin, prec, emax; lia).
    cbn [shr SpecFloat.iter_pos].
    set (mrs := shr_1 (shr_record_of_loc (Z.pos q) l)).
    assert (2 * shr_m mrs <= Z.pos q <= 2 * shr_m mrs + 1) as Hh
      by (subst mrs; destruct l as [|[]], q; cbn; lia).
    pose proof (round_nearest_even_near (shr_m mrs) (loc_of_shr_record mrs)) as Hr.
    destruct (finish_spec s (round_nearest_even (shr_m mrs) (loc_of_shr_record mrs)) (e + 1))
      as (m & e2 & -> & Hm & Hv & He2 & Hs); [lia..|].
    exists m, e2. split_and!; [done|done| | |lia..].
    + replace (e2 - e) with (e2 - (e + 1) + 1) by lia. rewrite Z.pow_add_r by lia. lia.
    + replace (e2 - e) with (e2 - (e + 1) + 1) by lia. rewrite Z.pow_add_r by lia. lia.
Qed.

Lemma match_pos {A} (z : Z) (a b c : A) :
  0 < z -> match z with Z.pos _ => a | 0 => b | Z.neg _ => c end = a.
Proof. by destruct z. Qed.

(** The quotient of a number of tenths by ten, before it is rounded: 57
    bits of the number divided by ten. *)
Lemma tenth_core p :
  Z.pos (digits2_pos p) <= 56 ->
  exists (a r : Z) l,
    SFdiv_core_binary prec emax (Z.pos p) 0 10 0 = (a, Z.pos (digits2_pos p) - 57, l)
    /\ Z.pos p * 2 ^ (57 - Z.pos (digits2_pos p)) = 10 * a + r /\ 0 <= r < 10.
Proof.
  intros Hd. unfold SFdiv_core_binary. cbv zeta. change (Zdigits2 10) with 4. cbn [Zdigits2].
  replace (Z.min (fexp prec emax (Z.pos (digits2_pos p) + 0 - (4 + 0))) (0 - 0))
    with (Z.pos (digits2_pos p) - 57) by (unfold fexp, emin, prec, emax; lia).
  rewrite match_pos by lia.
  replace (0 - 0 - (Z.pos (digits2_pos p) - 57)) with (57 - Z.pos (digits2_pos p)) by lia.
  rewrite Z.shiftl_mul_pow2 by lia.
  pose proof (Z.div_eucl_eq (Z.pos p * 2 ^ (57 - Z.pos (digits2_pos p))) 10 ltac:(lia)) as E.
  pose proof (Z.mod_pos_bound (Z.pos p * 2 ^ (57 - Z.pos (digits2_pos p))) 10 ltac:(lia)) as B.
  unfold Z.modulo in B. destruct (Z.div_eucl _ 10) as [a r]. by exists a, r, (new_location 10 r).
Qed.

(** [float] of a decimal with one digit after the point, from 1.0 to
    1023.9: a normal float from 1 to 1024, whose nearest number of tenths
    is the one that was read. *)
Lemma float_of_tenths (t : N) :
  (10 <= t < 10240)%N ->
  exists m e, float_of_decimal false t (-1) = S754_finite false m e
    /\ normal m /\ -52 <= e <= -43 /\ tenths (S754_finite false m e) = t.
Proof.
  intros Ht. destruct t as [|p]; [lia|]. unfold float_of_decimal.
  destruct (str_of_N_spec (N.pos p)) as (_ & Hlen & _).
  assert (N.log2 (N.pos p) < 14)%N by (apply N.log2_lt_pow2; lia).
  destruct (Z.ltb_spec 400 (-1 + Z.of_nat (length (str_of_N (N.pos p))))); [lia|].
  destruct (Z.ltb_spec (-1 + Z.of_nat (length (str_of_N (N.pos p)))) (-400)); [lia|].
  change (0 <=? -1) with false. change (10 ^ (- -1)) with 10. cbv iota.
  pose proof (digits2_pos_spec p) as [Hd1 Hd2]. set (d := Z.pos (digits2_pos p)) in *.
  assert (4 <= d <= 14) as Hd.
  { split.
    - destruct (Z.le_gt_cases 4 d); [done|].
      assert (2 ^ d <= 2 ^ 3) by (apply Z.pow_le_mono_r; lia). lia.
    - destruct (Z.le_gt_cases d 14); [done|].
      assert (2 ^ 14 <= 2 ^ (d - 1)) by (apply Z.pow_le_mono_r; lia). lia. }
  destruct (tenth_core p) as (a & r & l & -> & E & Hr); [lia|]. fold d in E |- *.
  clearbody d. set (P := 2 ^ (57 - d)) in *.
  assert (2 ^ (d - 1) * P = 72057594037927936) as Hp
    by (subst P; rewrite <- Z.pow_add_r by lia; by replace (d - 1 + (57 - d)) with 56 by lia).
  assert (2 ^ d = 2 * 2 ^ (d - 1)) as Hp2
    by (rewrite <- Z.pow_succ_r by lia; f_equal; lia).
  assert (72057594037927936 <= Z.pos p * P < 144115188075855872) as Hb by nia.
  destruct a as [|q|q]; [lia| |lia].
  destruct (binary_round_aux_quotient false q (d - 57) l) as (m & e & -> & Hm & Hv & He & Hq1 & Hq2 & Hq3);
    [lia..|].
  exists m, e. split; [done|]. split; [done|].
  assert (d = 4 -> P = 9007199254740992) as Hd4 by (intros ->; change (2 ^ (4 - 1)) with 8 in Hp; lia).
  assert (d = 14 -> P = 8796093022208) as Hd14
    by (intros ->; change (2 ^ (14 - 1)) with 8192 in Hp; lia).
  assert (-52 <= e <= -43) as Hrange.
  { split.
    - destruct (Z.eq_dec d 4) as [E4|]; [|lia]. specialize (Hd4 E4). lia.
    - destruct (Z.eq_dec d 14) as [E14|]; [|lia]. specialize (Hd14 E14). lia. }
  split; [done|]. destruct e as [|e|k]; [lia..|].
  pose proof (tenths_nearest false m k) as Hn.
  assert (P = 2 ^ Z.pos k * 2 ^ (Z.neg k - (d - 57))) as HPK
    by (subst P; rewrite <- Z.pow_add_r by lia; f_equal; lia).
  assert (8796093022208 <= 2 ^ Z.pos k) as HK
    by (change 8796093022208 with (2 ^ 43); apply Z.pow_le_mono_r; lia).
  assert (2 ^ (Z.neg k - (d - 57)) = 1 \/ 2 ^ (Z.neg k - (d - 57)) = 2
          \/ 2 ^ (Z.neg k - (d - 57)) = 4) as HJ.
  { assert (Z.neg k - (d - 57) = 0 \/ Z.neg k - (d - 57) = 1 \/ Z.neg k - (d - 57) = 2)
      as [E0|[E0|E0]] by lia; rewrite E0; auto. }
  clearbody P. generalize dependent (2 ^ (Z.neg k - (d - 57))). intros J Hv HPK HJ.
  generalize dependent (2 ^ Z.pos k). intros K Hn HPK HK.
  generalize dependent (tenths (S754_finite false m (Z.neg k))). intros T Hn.
  assert (Z.of_N T = Z.pos p) as HT; [|lia].
  subst P. clear -E Hr Hv HJ HPK Hn.
  destruct HJ as [-> |[-> | ->]]; nia.
Qed.

End Exact.

(** ** Reading a decimal *)

Section Reading.
Local Open Scope N_scope.
Implicit Types (ds rest : str) (c : char).

(** [digitpart] takes a run of digits up to a character that is neither a
    digit nor an underscore. *)
Lemma digitpart_digits b ds rest :
  forallb is_digit ds = true ->
  match rest with c :: _ => is_digit c = false /\ c <> 0x5F | [] => True end ->
  digitpart b (ds ++ rest) = ((fun c => c - 0x30) <$> ds, rest).
Proof.
  intros Hd Hr. revert b. induction ds as [|c ds IH]; intros b.
  - destruct rest as [|c rest]; [done|]. destruct Hr as [Hc Hu]. cbn [app digitpart].
    unfold digit_val. unfold is_digit in Hc. rewrite Hc.
    by destruct (N.eqb_spec c 0x5F).
  - cbn [forallb] in Hd. apply andb_true_iff in Hd as [Hc Hd]. cbn [app digitpart].
    unfold digit_val. unfold is_digit in Hc. rewrite Hc, IH by done. done.
Qed.

Lemma number_of_digits ds :
  number_of ((fun c => c - 0x30) <$> ds) = foldl (fun a c => a * 10 + (c - 0x30)) 0 ds.
Proof. unfold number_of. generalize 0. induction ds; naive_solver. Qed.

Lemma digits_lower_fixed ds : forallb is_digit ds = true -> forallb lower_fixed ds = true.
Proof. rewrite !forallb_forall. intros H x Hx. by apply is_digit_fixed, H. Qed.

(** A text that starts with a digit has no sign and is no name of a
    float. *)
Lemma signpart_digit c rest : is_digit c = true -> signpart (c :: rest) = (false, c :: rest).
Proof.
  unfold is_digit. intros [H1%N.leb_le H2%N.leb_le]%andb_true_iff.
  assert (c ∈ N.of_nat <$> seq 48 10) as Hc.
  { apply list_elem_of_fmap. exists (N.to_nat c). split; [lia|].
    apply list_elem_of_In, in_seq. lia. }
  cbn in Hc. repeat (apply elem_of_cons in Hc as [-> |Hc]; [done|]). by apply elem_of_nil in Hc.
Qed.

(** [float] of a number with one digit after the point. *)
Lemma float_of_str_decimal n d :
  d < 10 ->
  float_of_str (str_of_N n ++ u "." ++ str_of_N d)
  = Ok (float_of_decimal false (n * 10 + d) (-1)).
Proof.
  intros Hd. rewrite (str_of_N_digit d Hd). destruct (str_of_N_spec n) as (Hn & Hl & Hv).
  destruct (is_digit_char d Hd) as [Hd1 Hd2]. unfold float_of_str.
  destruct (str_of_N n) as [|c ds] eqn:E; [cbn in Hl; lia|].
  pose proof Hn as [Hc _]%andb_true_iff. destruct (is_digit_fixed c Hc) as (_ & Hsp & Hlo).
  rewrite (strip_fixed _ c) by (done || (rewrite app_assoc, last_last; by apply is_digit_fixed)).
  cbn [app]. rewrite signpart_digit by done.
  rewrite lower_fixed_id.
  2: { change (c :: ds ++ u "." ++ [0x30 + d]) with ((c :: ds) ++ u "." ++ [0x30 + d]).
       rewrite !forallb_app, digits_lower_fixed by done. cbn.
       by rewrite (proj2 (proj2 (is_digit_fixed _ Hd1))). }
  unfold is_digit in Hc. apply andb_true_iff in Hc as [Hc1%N.leb_le Hc2%N.leb_le].
  rewrite !bool_decide_eq_false_2.
  2: { intros [= -> _]. lia. }
  2: { rewrite !elem_of_cons, elem_of_nil. intros [[= -> _]|[[= -> _]|[]]]; lia. }
  change (c :: ds ++ u "." ++ [0x30 + d]) with ((c :: ds) ++ 0x2E :: [0x30 + d]).
  rewrite (digitpart_digits false (c :: ds)) by done.
  pose proof (digitpart_digits false [0x30 + d] []) as Hfrac. cbn [app forallb] in Hfrac.
  cbv beta iota. rewrite Hfrac by (by rewrite ?Hd1).
  rewrite <- fmap_app, number_of_digits, foldl_app, Hv.
  cbn [truthy_list fmap list_fmap negb andb exponentpart length foldl]. by rewrite Hd2.
Qed.

End Reading.

(** ** The definitions and the machine *)

(** The literals of Rocq are rounded by the machine: [float_of_str] gives
    the same floats, also next to a tie ([1e23]), at the ends of the range
    and below it. *)
#[warnings="-inexact-float"] Example float_of_str_machine :
  float_of_str (u "0.1") = Ok (Prim2SF 0.1%float)
  /\ float_of_str (u "4.3") = Ok (Prim2SF 4.3%float)
  /\ float_of_str (u " -1_024.5e-1 ") = Ok (Prim2SF (-102.45)%float)
  /\ float_of_str (u "1e23") = Ok (Prim2SF 1e23%float)
  /\ float_of_str (u "9007199254740993") = Ok (Prim2SF 9007199254740992%float)
  /\ float_of_str (u "1.7976931348623157e308") = Ok (Prim2SF 0x1.fffffffffffffp+1023%float)
  /\ float_of_str (u "1.7976931348623159e308") = Ok (S754_infinity false)
  /\ float_of_str (u "5e-324") = Ok (Prim2SF 0x1p-1074%float)
  /\ float_of_str (u "2e-324") = Ok (S754_zero false)
  /\ float_of_str (u "2.2250738585072011e-308") = Ok (Prim2SF 0x0.fffffffffffffp-1022%float)
  /\ float_of_str (u "-Infinity") = Ok (S754_infinity true)
  /\ float_of_str (u "1e999999999999") = Ok (S754_infinity false)
  /\ float_of_str (u ".5") = Ok (Prim2SF 0.5%float)
  /\ float_of_str (u "5.") = Ok (Prim2SF 5%float).
Proof. vm_compute. repeat split. Qed.

(** What [float] refuses. *)
Example float_of_str_refuses :
  Forall (fun s => float_of_str (u s) = Raise ValueError)
    [""; "."; "e5"; "1e"; "1_"; "_1"; "1__0"; "1_.5"; "1._5"; "1e_5"; "4.3G"; "4,3";
     "0x10"; "1 2"; "--1"; "in_f"; "?"]%string.
Proof. repeat (constructor; [by vm_compute|]). constructor. Qed.

(** The operators are those of the machine. *)
#[warnings="-inexact-float"] Example operators_machine :
  fmul (Prim2SF 4.3%float) (float_of_Z (1024 ^ 3)) = Prim2SF (4.3 * 1073741824)%float
  /\ fsub (Prim2SF 0.3%float) (Prim2SF 0.1%float) = Prim2SF (0.3 - 0.1)%float
  /\ fadd (Prim2SF 0.1%float) (Prim2SF 0.2%float) = Prim2SF (0.1 + 0.2)%float
  /\ fdiv (Prim2SF 1e10%float) (float_of_Z 1024) = Prim2SF (1e10 / 1024)%float
  /\ fdiv (Prim2SF 1%float) (float_of_Z 3) = Prim2SF (1 / 3)%float.
Proof. vm_compute. repeat split. Qed.

(** One decimal, ties to even on the exact value: [0.25] is a tie, [0.35]
    is below [0.35]. *)
#[warnings="-inexact-float"] Example format_1f_examples :
  format_1f (Prim2SF 0.25%float) = u "0.2"
  /\ format_1f (Prim2SF 0.35%float) = u "0.3"
  /\ format_1f (Prim2SF 0.75%float) = u "0.8"
  /\ format_1f (Prim2SF 1023.96%float) = u "1024.0"
  /\ format_1f (Prim2SF (-0.01)%float) = u "-0.0"
  /\ format_1f (Prim2SF 1e22%float) = u "10000000000000000000000.0"
  /\ format_1f (Prim2SF 0x1p-1074%float) = u "0.0"
  /\ format_1f S754_nan = u "nan"
  /\ format_1f (S754_infinity true) = u "-inf".
Proof. vm_compute. repeat split. Qed.
