(* ===== verification/Subprocess.v ===== *)
(** * Subprocess: what the scripts see of the programs they run

    Every script of the repository shells out: to the inventory tool, to
    git, to ssh and scp.  The programs themselves are outside the model.  A
    call of [subprocess.run] has one of three outcomes ([proc_outcome]); the
    operating system is an [oracle] that answers a command given the
    commands that ran before it, and a script that runs several commands
    threads the log of what it ran ([run_cmd]).  Theorems about a script
    hold for every oracle. *)

From Stdlib Require Import Ascii String.
From stdpp Require Import base tactics option list numbers.
From S2P Require Import Prelude PyStr.

(** What [subprocess.run] does: it completes, times out, or raises
    something else. *)
Inductive proc_outcome : Type :=
| Completed (stdout stderr : str) (returncode : Z)
| TimeoutExpired
| OtherException (msg : str).

Abbreviation command := (list str).

(** The answer to a command, given the commands run so far. *)
Definition oracle : Type := list command -> command -> proc_outcome.

(** Running a command: its outcome, and the log with the command added. *)
Definition run_cmd (os : oracle) (c : command) (log : list command)
  : proc_outcome * list command :=
  (os log c, log ++ [c]).

Lemma run_cmd_log os c log : (run_cmd os c log).2 = log ++ [c].
Proof. done. Qed.

Lemma run_cmd_extends os c log : prefix log (run_cmd os c log).2.
Proof. by apply prefix_app_r. Qed.

#[export] Hint Resolve run_cmd_extends : py.
