(* ===== verification/FileTree.v ===== *)
(** * FileTree: the files and directories the scripts read and write

    A directory is the list of its entries under their names, in the order
    the operating system lists them; a file is its text.  A path is the list
    of its components.  The operations are those of [pathlib] that the
    sources call: [get] is the lookup behind [exists], [is_dir] and
    [read_text]; [mkdirs] is [mkdir(parents=True, exist_ok=True)]; [write] is
    [write_text]; [unlink] removes a file; [resolve] follows a path that may
    hold [.] and [..] the way the kernel does (there are no symbolic links in
    the model); [sorted_desc] is [sorted(..., reverse=True)] on the entries
    of one directory.  What the system calls refuse is [Raise OSError]. *)

From Stdlib Require Import Ascii String.
From stdpp Require Import base tactics option list numbers sorting.
From S2P Require Import Prelude PyStr.

(** ** Association lists *)

Section Alist.
Context {A : Type}.
Implicit Types (l : list (str * A)) (k : str) (v : A).

Fixpoint alookup k l : option A :=
  match l with
  | [] => None
  | (k', v) :: r => if str_eqb k' k then Some v else alookup k r
  end.

(** Replace the entry of [k] where it stands, or add it at the end. *)
Fixpoint aset k v l : list (str * A) :=
  match l with
  | [] => [(k, v)]
  | (k', v') :: r => if str_eqb k' k then (k, v) :: r else (k', v') :: aset k v r
  end.

(** Remove the entry of [k]. *)
Fixpoint aremove k l : list (str * A) :=
  match l with
  | [] => []
  | (k', v') :: r => if str_eqb k' k then aremove k r else (k', v') :: aremove k r
  end.

Lemma alookup_aset k v l : alookup k (aset k v l) = Some v.
Proof.
  induction l as [|[k' v'] r IH]; cbn; unfold str_eqb.
  - by rewrite bool_decide_true.
  - case_bool_decide; cbn; unfold str_eqb.
    + by rewrite bool_decide_true.
    + by rewrite bool_decide_false.
Qed.

Lemma alookup_aset_ne k k' v l : k <> k' -> alookup k' (aset k v l) = alookup k' l.
Proof.
  intros Hne. induction l as [|[k0 v0] r IH]; cbn; unfold str_eqb.
  - by rewrite bool_decide_false.
  - case_bool_decide as E; cbn; unfold str_eqb.
    + subst. by rewrite !bool_decide_false.
    + by rewrite IH.
Qed.

Lemma aset_same k v l : alookup k l = Some v -> aset k v l = l.
Proof.
  induction l as [|[k0 v0] r IH]; cbn; [done|]. unfold str_eqb.
  case_bool_decide; [by intros [= ->]; subst|]. intros. f_equal. auto.
Qed.

Lemma alookup_In k v l : alookup k l = Some v -> (k, v) ∈ l.
Proof.
  induction l as [|[k0 v0] r IH]; cbn; [done|]. unfold str_eqb.
  case_bool_decide; [intros [= ->]; subst; apply list_elem_of_here|].
  intros. apply list_elem_of_further. auto.
Qed.

Lemma alookup_aremove k l : alookup k (aremove k l) = None.
Proof.
  induction l as [|[k0 v0] r IH]; cbn; [done|]. unfold str_eqb.
  case_bool_decide as E; cbn; [done|]. unfold str_eqb. by rewrite bool_decide_false.
Qed.

Lemma alookup_aremove_ne k k' l : k <> k' -> alookup k' (aremove k l) = alookup k' l.
Proof.
  intros Hne. induction l as [|[k0 v0] r IH]; cbn; [done|]. unfold str_eqb.
  case_bool_decide as E; cbn; unfold str_eqb.
  - subst. by rewrite bool_decide_false.
  - by rewrite IH.
Qed.

End Alist.

(** ** Trees *)

#[warnings="-register-all"] Inductive node : Type :=
| File (content : str)
| Dir (children : list (str * node)).

Abbreviation path := (list str).

Definition s_dot : str := Eval vm_compute in u ".".
Definition s_dotdot : str := Eval vm_compute in u "..".
Definition s_slash : str := Eval vm_compute in u "/".

Fixpoint get (n : node) (p : path) : option node :=
  match p with
  | [] => Some n
  | c :: p' =>
      match n with
      | Dir es => e ← alookup c es; get e p'
      | File _ => None
      end
  end.

Definition is_dir (n : option node) : bool :=
  match n with Some (Dir _) => true | _ => false end.

(** [mkdir(parents=True, exist_ok=True)]. *)
Fixpoint mkdirs (p : path) (n : node) : result node :=
  match n with
  | File _ => Raise OSError
  | Dir es =>
      match p with
      | [] => Ok n
      | c :: p' =>
          match mkdirs p' (default (Dir []) (alookup c es)) with
          | Ok e => Ok (Dir (aset c e es))
          | Raise x => Raise x
          end
      end
  end.

(** [write_text]: the directory must be there, and the name must not be
    that of a directory. *)
Fixpoint write (p : path) (content : str) (n : node) : result node :=
  match n, p with
  | Dir es, [c] =>
      match alookup c es with
      | Some (Dir _) => Raise OSError
      | _ => Ok (Dir (aset c (File content) es))
      end
  | Dir es, c :: p' =>
      match alookup c es with
      | Some e =>
          match write p' content e with
          | Ok e' => Ok (Dir (aset c e' es))
          | Raise x => Raise x
          end
      | None => Raise OSError
      end
  | _, _ => Raise OSError
  end.

(** [mkdir]: the parent must be a directory, and the name must be free. *)
Fixpoint mkdir (p : path) (n : node) : result node :=
  match n, p with
  | Dir es, [c] =>
      match alookup c es with
      | None => Ok (Dir (aset c (Dir []) es))
      | Some _ => Raise OSError
      end
  | Dir es, c :: p' =>
      match alookup c es with
      | Some e =>
          match mkdir p' e with
          | Ok e' => Ok (Dir (aset c e' es))
          | Raise x => Raise x
          end
      | None => Raise FileNotFoundError
      end
  | _, _ => Raise OSError
  end.

(** [os.listdir]: the names of a directory, in the order of the system. *)
Definition listdir (n : option node) : result (list str) :=
  match n with
  | Some (Dir es) => Ok es.*1
  | Some (File _) => Raise OSError
  | None => Raise FileNotFoundError
  end.

(** The number of files of a tree: what [os.walk] lists as files. *)
Fixpoint count_files (n : node) : nat :=
  match n with
  | File _ => 1
  | Dir es => list_sum (map (fun e => count_files e.2) es)
  end.

(** The number of directories below the root of a tree. *)
Fixpoint count_dirs (n : node) : nat :=
  match n with
  | File _ => 0
  | Dir es =>
      list_sum (map (fun e => match e.2 with
                              | Dir _ => S (count_dirs e.2)
                              | File _ => 0
                              end) es)
  end.

(** The number of nested directories: what a recursive walk needs of the
    stack. *)
Fixpoint height (n : node) : nat :=
  match n with
  | File _ => 0
  | Dir es => S (list_max (map (fun e => height e.2) es))
  end.

(** [unlink]: the name must be that of a file. *)
Fixpoint unlink (p : path) (n : node) : result node :=
  match n, p with
  | Dir es, [c] =>
      match alookup c es with
      | Some (File _) => Ok (Dir (aremove c es))
      | _ => Raise OSError
      end
  | Dir es, c :: p' =>
      match alookup c es with
      | Some e =>
          match unlink p' e with
          | Ok e' => Ok (Dir (aset c e' es))
          | Raise x => Raise x
          end
      | None => Raise OSError
      end
  | _, _ => Raise OSError
  end.

(** One component of a path, from the directory [cur]. *)
Definition enter (cur : path) (c : str) : path :=
  if str_eqb c s_dotdot then removelast cur
  else if str_eqb c s_dot then cur
  else cur ++ [c].

(** The path without [.] and [..] that the components lead to from [cur];
    every directory on the way must be there. *)
Fixpoint resolve (root : node) (cur : path) (comps : path) : option path :=
  match comps with
  | [] => Some cur
  | c :: rest =>
      if is_dir (get root cur) then resolve root (enter cur c) rest else None
  end.

(** [Path.exists]. *)
Definition exists_at (root : node) (p : path) : bool :=
  match resolve root [] p with
  | Some q => bool_decide (is_Some (get root q))
  | None => false
  end.

(** ** Listing a directory *)

(** The order of a listing sorted with [reverse=True]: the greater name
    first. *)
Definition name_geb (a b : str * node) : bool := str_leb b.1 a.1.

(** [sorted(..., reverse=True)] on entries with distinct names. *)
Definition sorted_desc (l : list (str * node)) : list (str * node) := sort_by name_geb l.

(** The text of a path from the root. *)
Definition show_path (p : path) : str :=
  match p with
  | [] => s_slash
  | _ => List.concat (map (fun c => s_slash ++ c) p)
  end.

(** [Path.rglob('*')]: what is below a directory, with its path from
    there. *)
Fixpoint rglob (n : node) : list (path * node) :=
  match n with
  | File _ => []
  | Dir es =>
      flat_map (fun e => ([e.1], e.2) :: map (fun q => (e.1 :: q.1, q.2)) (rglob e.2)) es
  end.

(** The order of [pathlib] on paths: component by component. *)
Fixpoint path_leb (p q : path) : bool :=
  match p, q with
  | [], _ => true
  | _ :: _, [] => false
  | a :: p', b :: q' => if str_eqb a b then path_leb p' q' else str_leb a b
  end.

(** ** Trees as values *)

(** [graft p t n]: the tree [n] with [t] in the place of what is at [p]. *)
Fixpoint graft (p : path) (t : node) (n : node) : node :=
  match p with
  | [] => t
  | c :: p' =>
      match n with
      | Dir es => Dir (aset c (graft p' t (default (Dir []) (alookup c es))) es)
      | File _ => n
      end
  end.

(** The order of a listing sorted by name. *)
Definition name_leb (a b : str * node) : bool := str_leb a.1 b.1.

(** The tree with every directory listed in the order of the names. *)
Fixpoint sorted_tree (n : node) : node :=
  match n with
  | File content => File content
  | Dir es => Dir (sort_by name_leb (map (fun e => (e.1, sorted_tree e.2)) es))
  end.

(** No directory has two entries of one name. *)
Fixpoint wf_tree (n : node) : Prop :=
  match n with
  | File _ => True
  | Dir es => NoDup es.*1 /\ foldr (fun e rest => wf_tree e.2 /\ rest) True es
  end.

(** ** Facts about trees *)

Lemma aset_new {A} k (v : A) l : alookup k l = None -> aset k v l = l ++ [(k, v)].
Proof.
  induction l as [|[k' v'] r IH]; cbn; [done|]. unfold str_eqb.
  case_bool_decide; [done|]. intros. f_equal. auto.
Qed.

Lemma aset_aset {A} k (v w : A) l : aset k w (aset k v l) = aset k w l.
Proof.
  induction l as [|[k' v'] r IH]; cbn; unfold str_eqb.
  - by rewrite bool_decide_true.
  - case_bool_decide as E; cbn; unfold str_eqb.
    + by rewrite bool_decide_true.
    + rewrite bool_decide_false by done. by rewrite IH.
Qed.

Lemma alookup_app_new {A} k (v : A) l : alookup k l = None -> alookup k (l ++ [(k, v)]) = Some v.
Proof. intros H. by rewrite <- (aset_new k v l H), alookup_aset. Qed.

Lemma alookup_None {A} k (l : list (str * A)) : alookup k l = None <-> k ∉ l.*1.
Proof.
  induction l as [|[k' v'] r IH]; cbn; [split; [intros _; apply not_elem_of_nil|done]|].
  unfold str_eqb. rewrite not_elem_of_cons.
  case_bool_decide; [split; [done|by intros []]|]. rewrite IH.
  split; [intros; split; [by intros ->|done]|by intros [_ ?]].
Qed.

Lemma alookup_NoDup {A} k (v : A) l : NoDup l.*1 -> (k, v) ∈ l -> alookup k l = Some v.
Proof.
  induction l as [|[k' v'] r IH]; cbn; [by intros _ ?%elem_of_nil|].
  intros [Hk Hr]%list.NoDup_cons [[= -> ->]|Hin]%elem_of_cons; unfold str_eqb.
  - by rewrite bool_decide_true.
  - rewrite bool_decide_false; [by apply IH|]. intros ->. apply Hk.
    by apply (list_elem_of_fmap_2 fst) in Hin.
Qed.

Lemma get_app n p q : get n (p ++ q) = e ← get n p; get e q.
Proof.
  revert n. induction p as [|c p IH]; intros n; [done|]. cbn.
  destruct n as [|es]; [done|]. destruct (alookup c es); cbn; [apply IH|done].
Qed.

Lemma get_File_nil content p e : get (File content) p = Some e -> p = [].
Proof. by destruct p. Qed.

Lemma graft_graft p t1 t2 n : graft p t2 (graft p t1 n) = graft p t2 n.
Proof.
  revert n. induction p as [|c p IH]; intros [|es]; cbn; [done..|].
  rewrite alookup_aset, aset_aset. cbn. by rewrite IH.
Qed.

Lemma get_graft p t n : is_Some (get n p) -> get (graft p t n) p = Some t.
Proof.
  revert n. induction p as [|c p IH]; intros n; [done|]. cbn.
  destruct n as [|es]; [by intros [? [=]]|]. cbn. rewrite alookup_aset. cbn.
  destruct (alookup c es) as [e|]; cbn; [apply IH|by intros [? [=]]].
Qed.

Lemma graft_app p q t n sub :
  get n p = Some sub -> graft (p ++ q) t n = graft p (graft q t sub) n.
Proof.
  revert n. induction p as [|c p IH]; intros n; cbn; [by intros [= ->]|].
  destruct n as [|es]; [done|]. destruct (alookup c es) as [e|] eqn:L; cbn; [|done].
  intros G. by rewrite (IH e G).
Qed.

Lemma graft_same p n sub : get n p = Some sub -> graft p sub n = n.
Proof.
  revert n. induction p as [|c p IH]; intros n; cbn; [by intros [= ->]|].
  destruct n as [|es]; [done|]. destruct (alookup c es) as [e|] eqn:L; cbn; [|done].
  intros G. by rewrite (IH e G), aset_same.
Qed.

(** A new entry of the directory at [p]. *)
Lemma graft_child p c t t' es n :
  is_Some (get n p) -> alookup c es = None ->
  graft (p ++ [c]) t (graft p (Dir (es ++ [(c, t')])) n)
  = graft p (Dir (es ++ [(c, t)])) n.
Proof.
  intros Hp Hc. rewrite (graft_app p [c] t _ _ (get_graft p _ n Hp)), graft_graft.
  cbn. rewrite <- (aset_new c t' es Hc), aset_aset. by rewrite (aset_new c t es Hc).
Qed.

Lemma mkdir_child p c es n :
  get n p = Some (Dir es) -> alookup c es = None ->
  mkdir (p ++ [c]) n = Ok (graft p (Dir (es ++ [(c, Dir [])])) n).
Proof.
  revert n. induction p as [|c' p IH]; intros n; cbn -[mkdir].
  - intros [= ->] Hc. cbn. by rewrite Hc, aset_new.
  - destruct n as [|es']; [done|]. destruct (alookup c' es') as [e|] eqn:L; [|done].
    cbn -[mkdir]. intros G Hc. cbn. rewrite L. cbn.
    rewrite (IH e G Hc). by destruct (p ++ [c]) eqn:E; [destruct p|].
Qed.

Lemma write_child p c content es n :
  get n p = Some (Dir es) -> alookup c es = None ->
  write (p ++ [c]) content n = Ok (graft p (Dir (es ++ [(c, File content)])) n).
Proof.
  revert n. induction p as [|c' p IH]; intros n; cbn -[write].
  - intros [= ->] Hc. cbn. by rewrite Hc, aset_new.
  - destruct n as [|es']; [done|]. destruct (alookup c' es') as [e|] eqn:L; [|done].
    cbn -[write]. intros G Hc. cbn. rewrite L. cbn.
    rewrite (IH e G Hc). by destruct (p ++ [c]) eqn:E; [destruct p|].
Qed.

Lemma wf_tree_Dir es :
  wf_tree (Dir es) <-> NoDup es.*1 /\ forall e, e ∈ es -> wf_tree e.2.
Proof.
  cbn [wf_tree]. apply and_iff_compat_l. induction es as [|e es IH]; cbn [foldr].
  - split; [by intros _ e ?%elem_of_nil|done].
  - rewrite IH. split.
    + intros [He Hes] e' [->|?]%elem_of_cons; auto.
    + intros H. split; [apply H, list_elem_of_here|]. intros e' ?.
      by apply H, list_elem_of_further.
Qed.

Lemma height_child e es : e ∈ es -> (height e.2 < height (Dir es))%nat.
Proof.
  intros He. cbn [height]. apply Nat.lt_succ_r.
  assert (Forall (fun k => k <= list_max (map (fun e => height e.2) es))%nat
                 (map (fun e => height e.2) es)) as H by (by apply list_max_le).
  rewrite Forall_forall in H. by apply H, (list_elem_of_fmap_2 (fun e => height e.2)).
Qed.

(** The listing by name of a directory without two entries of one name is
    the listing of its names. *)
Lemma sort_names es : sort_by str_leb es.*1 = (sort_by name_leb es).*1.
Proof. by apply (sort_by_fmap name_leb str_leb fst). Qed.

Lemma sorted_tree_Dir es :
  sorted_tree (Dir es) = Dir ((fun e => (e.1, sorted_tree e.2)) <$> sort_by name_leb es).
Proof.
  cbn [sorted_tree]. f_equal.
  by apply (sort_by_fmap name_leb name_leb (fun e => (e.1, sorted_tree e.2))).
Qed.

Lemma count_files_sorted es :
  list_sum (map (fun e => count_files e.2) (sort_by name_leb es)) = count_files (Dir es).
Proof. cbn [count_files]. by rewrite sort_by_Permutation. Qed.

Lemma count_dirs_sorted es :
  list_sum (map (fun e => match e.2 with
                          | Dir _ => S (count_dirs e.2)
                          | File _ => 0%nat
                          end) (sort_by name_leb es)) = count_dirs (Dir es).
Proof. cbn [count_dirs]. by rewrite sort_by_Permutation. Qed.

(** What was written is what is read. *)
Lemma write_get p content n n' : write p content n = Ok n' -> get n' p = Some (File content).
Proof.
  revert n n'. induction p as [|c p IH]; intros [|es] n'; cbn; try done.
  destruct p as [|c' p].
  - destruct (alookup c es) as [[]|]; intros [= <-]; cbn; by rewrite alookup_aset.
  - destruct (alookup c es) as [e|]; [|done].
    destruct (write (c' :: p) content e) as [e'|] eqn:W; intros [= <-].
    cbn [get]. rewrite alookup_aset. cbn. by eapply IH.
Qed.

(** The directory is there after [mkdirs]. *)
Lemma mkdirs_get p n n' : mkdirs p n = Ok n' -> is_dir (get n' p) = true.
Proof.
  revert n n'. induction p as [|c p IH]; intros [|es] n'; cbn; try done.
  - by intros [= <-].
  - destruct (mkdirs p _) as [e|] eqn:M; intros [= <-].
    cbn. rewrite alookup_aset. cbn. by eapply IH.
Qed.

(** What was unlinked is gone. *)
Lemma unlink_get p n n' : unlink p n = Ok n' -> get n' p = None.
Proof.
  revert n n'. induction p as [|c p IH]; intros [|es] n'; cbn; try done.
  destruct p as [|c' p].
  - destruct (alookup c es) as [[]|]; intros [= <-]; cbn. by rewrite alookup_aremove.
  - destruct (alookup c es) as [e|]; [|done].
    destruct (unlink (c' :: p) e) as [e'|] eqn:W; intros [= <-].
    cbn [get]. rewrite alookup_aset. cbn. by eapply IH.
Qed.

(** Only a file can be unlinked. *)
Lemma unlink_Ok p n n' : unlink p n = Ok n' -> exists content, get n p = Some (File content).
Proof.
  revert n n'. induction p as [|c p IH]; intros [|es] n'; cbn; try done.
  destruct p as [|c' p].
  - destruct (alookup c es) as [[content|]|]; intros [= <-]; cbn. by exists content.
  - destruct (alookup c es) as [e|]; [|done].
    destruct (unlink (c' :: p) e) as [e'|] eqn:W; intros [= <-]. cbn. by eapply IH.
Qed.

(** What [unlink] refuses: the root, a name that is not there, a directory. *)
Lemma unlink_Raise p n e :
  unlink p n = Raise e -> e = OSError /\ (p = [] \/ get n p = None \/ is_dir (get n p) = true).
Proof.
  revert n. induction p as [|c p IH]; intros [|es]; cbn; try (intros [= <-]; by auto).
  destruct p as [|c' p].
  - destruct (alookup c es) as [[|]|]; intros [= <-]; cbn; auto.
  - destruct (alookup c es) as [n1|]; [|intros [= <-]; cbn; auto].
    destruct (unlink (c' :: p) n1) as [?|e'] eqn:U; intros [= <-]. cbn [mbind option_bind].
    destruct (IH _ U) as [-> [?|?]]; [done|auto].
Qed.

Lemma unlink_file p n content : get n p = Some (File content) -> p <> [] -> is_Ok (unlink p n).
Proof.
  revert n. induction p as [|c p IH]; intros [|es]; cbn; try done.
  destruct (alookup c es) as [e|] eqn:L; cbn; [|done]. intros G _. destruct p as [|c' p].
  - cbn in G. injection G as ->. by eexists.
  - destruct (IH e G) as [e' ->]; [done|]. by eexists.
Qed.

(** ** Facts about the listing *)

(** Sorting loses and invents nothing. *)
Lemma sorted_desc_elem x l : x ∈ sorted_desc l <-> x ∈ l.
Proof. apply sort_by_elem. Qed.

(** The names of a listing go down. *)
Definition descending (l : list (str * node)) : Prop :=
  Sorted (fun a b => name_geb a b = true) l.

Lemma sorted_desc_sorted l : descending (sorted_desc l).
Proof. apply sort_by_Sorted. intros x y. apply str_leb_total. Qed.

#[export] Hint Resolve sorted_desc_sorted : py.
#[export] Hint Rewrite @alookup_aset @alookup_aremove : pyrw.

(** ** Facts about resolution *)

(** A component that is a name. *)
Definition plain (c : str) : bool := negb (str_eqb c s_dotdot) && negb (str_eqb c s_dot).

Lemma enter_plain cur c : plain c = true -> enter cur c = cur ++ [c].
Proof. unfold plain, enter. by destruct (str_eqb c s_dotdot), (str_eqb c s_dot). Qed.

Lemma enter_dot cur : enter cur s_dot = cur.
Proof. done. Qed.

Lemma enter_dotdot cur c : enter (cur ++ [c]) s_dotdot = cur.
Proof. unfold enter. cbn. apply removelast_last. Qed.

(** What lies on the way to a node is a directory. *)
Lemma get_prefix_dir n p c q e : get n (p ++ c :: q) = Some e -> is_dir (get n p) = true.
Proof.
  rewrite get_app. by destruct (get n p) as [[|es]|].
Qed.

(** Names that lead to a directory resolve to themselves. *)
Lemma resolve_plain root cur p rest :
  forallb plain p = true -> is_dir (get root (cur ++ p)) = true ->
  resolve root cur (p ++ rest) = resolve root (cur ++ p) rest.
Proof.
  revert cur. induction p as [|c p IH]; intros cur; cbn [forallb app resolve].
  - by rewrite app_nil_r.
  - intros [Hc Hp]%andb_true_iff Hd.
    assert (is_dir (get root cur) = true) as ->.
    { destruct (get root (cur ++ c :: p)) as [e|] eqn:G; [|done]. by eapply get_prefix_dir. }
    rewrite enter_plain by done. rewrite IH; rewrite <-?app_assoc; done.
Qed.

(** A path of names leads where [get] looks, or nowhere. *)
Lemma resolve_get root cur p :
  forallb plain p = true ->
  match resolve root cur p with
  | Some q => q = cur ++ p
  | None => get root (cur ++ p) = None
  end.
Proof.
  revert cur. induction p as [|c p IH]; intros cur; cbn [forallb resolve].
  - intros _. by rewrite app_nil_r.
  - intros [Hc Hp]%andb_true_iff. rewrite enter_plain by done.
    destruct (is_dir (get root cur)) eqn:D.
    + specialize (IH (cur ++ [c]) Hp). by rewrite <- app_assoc in IH.
    + destruct (get root (cur ++ c :: p)) as [e|] eqn:G; [|done].
      apply get_prefix_dir in G. congruence.
Qed.

(** [exists] on a path of names is the lookup. *)
Lemma exists_at_plain root p :
  forallb plain p = true -> exists_at root p = bool_decide (is_Some (get root p)).
Proof.
  intros Hp. unfold exists_at. pose proof (resolve_get root [] p Hp) as H.
  destruct (resolve root [] p) as [q|]; cbn [app] in H; [by subst|].
  rewrite H. symmetry. apply bool_decide_eq_false. by intros [??].
Qed.

(** [mkdirs] of a path that is not there makes an empty directory. *)
Lemma mkdirs_empty p n' : mkdirs p (Dir []) = Ok n' -> get n' p = Some (Dir []).
Proof.
  revert n'. induction p as [|c p IH]; intros n'; cbn [mkdirs]; [by intros [= <-]|].
  cbn [alookup default]. destruct (mkdirs p (Dir [])) as [e|] eqn:M; intros [= <-].
  cbn [get]. change [(c, e)] with (aset c e []). rewrite alookup_aset. cbn. by apply IH.
Qed.

Lemma mkdirs_new p n n' : get n p = None -> mkdirs p n = Ok n' -> get n' p = Some (Dir []).
Proof.
  revert n n'. induction p as [|c p IH]; intros [|es] n'; cbn; try done.
  destruct (alookup c es) as [e|] eqn:L; cbn.
  - intros G. destruct (mkdirs p e) as [e'|] eqn:M; intros [= <-].
    cbn. rewrite alookup_aset. cbn. by eapply IH.
  - intros _. destruct (mkdirs p (Dir [])) as [e'|] eqn:M; intros [= <-].
    cbn. rewrite alookup_aset. cbn. by apply mkdirs_empty.
Qed.

(** Writing and making directories raise nothing but the error of the
    file system. *)
Lemma write_Raise p content n e : write p content n = Raise e -> e = OSError.
Proof.
  revert n. induction p as [|c p IH]; intros [|es]; cbn; try congruence.
  destruct p as [|c' p].
  - destruct (alookup c es) as [[]|]; congruence.
  - destruct (alookup c es) as [e'|]; [|congruence].
    destruct (write (c' :: p) content e') eqn:W; [congruence|]. intros [= <-]. by eapply IH.
Qed.

Lemma mkdirs_Raise p n e : mkdirs p n = Raise e -> e = OSError.
Proof.
  revert n. induction p as [|c p IH]; intros [|es]; cbn; try congruence.
  destruct (mkdirs p _) eqn:M; [congruence|]. intros [= <-]. by eapply IH.
Qed.

(** ** Everything below a directory *)

(** Induction on trees, with the property for every entry of a
    directory. *)
Lemma node_ind' (P : node -> Prop) :
  (forall content, P (File content)) ->
  (forall es, Forall (fun e => P e.2) es -> P (Dir es)) ->
  forall n, P n.
Proof.
  intros Hf Hd. fix IH 1. intros [content|es]; [apply Hf|]. apply Hd.
  induction es as [|[k e] es IHes]; constructor; [apply IH|apply IHes].
Qed.

Lemma rglob_Dir q x es :
  (q, x) ∈ rglob (Dir es) <->
  exists e, e ∈ es /\
    ((q = [e.1] /\ x = e.2) \/ exists q', q = e.1 :: q' /\ (q', x) ∈ rglob e.2).
Proof.
  cbn [rglob]. rewrite list_elem_of_In, in_flat_map. setoid_rewrite <- list_elem_of_In.
  apply exist_proper. intros e. apply and_iff_compat_l.
  rewrite elem_of_cons. change (map ?f ?l) with (f <$> l). rewrite list_elem_of_fmap.
  split.
  - intros [[= -> ->]|([q' x'] & [= -> ->] & ?)]; [by left|right; by exists q'].
  - intros [[-> ->]|(q' & -> & ?)]; [by left|right; by exists (q', x)].
Qed.

(** The paths of [rglob] are those of [get], the directory itself apart. *)
Lemma rglob_get n q x : wf_tree n -> (q, x) ∈ rglob n <-> q <> [] /\ get n q = Some x.
Proof.
  revert n x. induction q as [|c q IH]; intros [content|es] x Hwf.
  - split; [by intros ?%elem_of_nil|by intros []].
  - rewrite rglob_Dir. split; [|by intros []].
    by intros (e & _ & [[? _]|(q' & ? & _)]).
  - split; [by intros ?%elem_of_nil|by intros []].
  - apply wf_tree_Dir in Hwf as [Hnd Hes]. rewrite rglob_Dir. cbn [get]. split.
    + intros ([k e] & He & H). cbn in H.
      destruct H as [[[= -> ->] ->]|(q' & [= -> ->] & Hin)];
        rewrite (alookup_NoDup _ _ _ Hnd He); [done|].
      split; [done|]. by apply (IH e), Hin; apply (Hes (k, e)).
    + intros [_ H]. destruct (alookup c es) as [e|] eqn:L; [|done]. cbn in H.
      exists (c, e). split; [by apply alookup_In|]. cbn.
      destruct q as [|d q]; [left; cbn in H; by simplify_eq|right].
      exists (d :: q). split; [done|].
      apply IH; [by apply (Hes (c, e)), alookup_In|done].
Qed.

Lemma rglob_cons e es :
  (rglob (Dir (e :: es))).*1
  = ([e.1] :: (cons e.1 <$> (rglob e.2).*1)) ++ (rglob (Dir es)).*1.
Proof.
  cbn [rglob flat_map]. rewrite fmap_app, fmap_cons. cbn. do 2 f_equal.
  change (map ?f ?l) with (f <$> l). rewrite <- !list_fmap_compose. done.
Qed.

(** A path below a directory starts with the name of one of its entries. *)
Lemma rglob_head q es : q ∈ (rglob (Dir es)).*1 -> exists c q', q = c :: q' /\ c ∈ es.*1.
Proof.
  intros ([q0 x] & -> & (e & He & H)%rglob_Dir)%list_elem_of_fmap. cbn.
  assert (e.1 ∈ es.*1) by (by apply list_elem_of_fmap_2).
  destruct H as [[-> _]|(q' & -> & _)]; eauto.
Qed.

Lemma rglob_nonempty n : [] ∉ (rglob n).*1.
Proof.
  destruct n as [content|es]; [apply not_elem_of_nil|].
  by intros (c & q' & ? & _)%rglob_head.
Qed.

(** In a tree without two entries of one name, [rglob] gives every path
    once. *)
Lemma rglob_NoDup n : wf_tree n -> NoDup (rglob n).*1.
Proof.
  induction n as [content|es IH] using node_ind'; [constructor|].
  intros [Hnd Hes]%wf_tree_Dir. induction es as [|e es IHes]; [constructor|].
  apply Forall_cons in IH as [IHe IH]. apply NoDup_cons in Hnd as [Hne Hnd].
  rewrite rglob_cons. apply list.NoDup_app. split_and!.
  - apply NoDup_cons. split.
    + intros (q & [=] & Hq)%list_elem_of_fmap. subst q. by apply rglob_nonempty in Hq.
    + apply (NoDup_fmap_2 _). apply IHe, Hes, list_elem_of_here.
  - intros q Hq (c & q' & -> & Hc)%rglob_head.
    apply elem_of_cons in Hq as [[= -> _]|(? & [= -> _] & _)%list_elem_of_fmap]; done.
  - apply IHes; [done|done|]. intros e' ?. by apply Hes, list_elem_of_further.
Qed.

(** The order of a listing without two entries of one name does not
    matter to a lookup. *)
Lemma alookup_Permutation {A} k (l l' : list (str * A)) :
  NoDup l.*1 -> l ≡ₚ l' -> alookup k l = alookup k l'.
Proof.
  intros Hnd Hp. destruct (alookup k l) as [v|] eqn:L; symmetry.
  - apply alookup_NoDup; [by rewrite <- Hp|]. rewrite <- Hp. by apply alookup_In.
  - apply alookup_None. rewrite <- Hp. by apply alookup_None.
Qed.

(** What is in a tree without two entries of one name is such a tree. *)
Lemma wf_tree_get n p e : wf_tree n -> get n p = Some e -> wf_tree e.
Proof.
  revert n. induction p as [|c p IH]; intros n Hwf G; [by simplify_eq/=|].
  destruct n as [content|es]; [done|]. cbn in G.
  destruct (alookup c es) as [e'|] eqn:L; [|done].
  apply wf_tree_Dir in Hwf as [_ Hes]. by apply (IH e'), G; apply (Hes (c, e')), alookup_In.
Qed.

(** ** The order of paths *)

Lemma path_leb_cons a p b q :
  path_leb (a :: p) (b :: q) = if decide (a = b) then path_leb p q else str_leb a b.
Proof. cbn. unfold str_eqb. by case_bool_decide; case_decide. Qed.

Lemma path_leb_refl p : path_leb p p = true.
Proof. induction p as [|a p IH]; [done|]. rewrite path_leb_cons. by case_decide. Qed.

Lemma path_leb_total p q : path_leb p q = true \/ path_leb q p = true.
Proof.
  revert q. induction p as [|a p IH]; intros [|b q]; [auto..|].
  rewrite !path_leb_cons. repeat case_decide; subst; auto using str_leb_total.
Qed.

Lemma path_leb_antisym p q : path_leb p q = true -> path_leb q p = true -> p = q.
Proof.
  revert q. induction p as [|a p IH]; intros [|b q]; try done.
  rewrite !path_leb_cons. repeat case_decide; subst; try done.
  - intros. f_equal. auto.
  - intros H1 H2. by apply str_leb_antisym in H1.
Qed.

Lemma path_leb_trans p q r :
  path_leb p q = true -> path_leb q r = true -> path_leb p r = true.
Proof.
  revert q r. induction p as [|a p IH]; intros [|b q] [|c r]; try done.
  rewrite !path_leb_cons. repeat case_decide; subst; try done; try apply IH.
  - intros H1 H2. by apply str_leb_antisym in H1.
  - apply str_leb_trans.
Qed.
