(* ===== verification/Console.v ===== *)
(** * Console: scripts that print, keep a state and raise

    The command-line scripts of the repository are sequences of statements
    that print to the terminal, change the attributes of an object and call
    a remote machine, a file system or a subprocess, any of which may
    raise.  This file holds what their models share.

    - [stex St A] is a computation on a state [St] that returns an [A] or
      raises: the state comes back in both cases, since what was printed or
      sent before an exception stays printed or sent.  The notations are
      those of stdpp ([x ← m; k], [m;; k]).  [try_finally] and [try_except]
      are the two compound statements of Python; [for_each] is a [for] loop
      whose body may raise.
    - [Console St] says that a state holds the texts printed so far: [emit]
      adds texts at the end.  [print] is the function of Python, one text
      for each call; [log], [log_verbose] and [log_section] are the three
      methods that [MachineCleanup] and [MachineCopyFiles] both define.
    - [prints m a lines] says that [m] does nothing but print [lines] and
      return [a]; [silent m] that it does so for some lines; [outputs m r
      lines] allows the result [r] to be an exception.  The hints of the
      database [console] prove [silent] for sequences of prints. *)

From Stdlib Require Import Ascii String.
From stdpp Require Import base tactics option list numbers.
From S2P Require Import Prelude PyStr.

Local Open Scope N_scope.
Local Arguments u : simpl never.

(** ** The monad *)

Definition stex (St A : Type) : Type := St -> result A * St.

Section Monad.
Context {St : Type}.

Definition stex_ret {A} (a : A) : stex St A := fun s => (Ok a, s).

Definition stex_bind {A B} (k : A -> stex St B) (m : stex St A) : stex St B :=
  fun s =>
    match m s with
    | (Ok a, s') => k a s'
    | (Raise e, s') => (Raise e, s')
    end.

#[export] Instance stex_mret : MRet (stex St) := @stex_ret.
#[export] Instance stex_mbind : MBind (stex St) := @stex_bind.

Definition raise {A} (e : pyexn) : stex St A := fun s => (Raise e, s).

Definition modify (f : St -> St) : stex St unit := fun s => (Ok tt, f s).

(** The value of an attribute. *)
Definition gets {A} (f : St -> A) : stex St A := fun s => (Ok (f s), s).

(** A call that returns or raises and leaves the state as it is. *)
Definition lift {A} (r : result A) : stex St A := fun s => (r, s).

(** [try: body finally: handler]: the handler runs in both cases; the
    exception of the body is raised again after it. *)
Definition try_finally {A} (body : stex St A) (handler : stex St unit) : stex St A :=
  fun s =>
    let (r, s') := body s in
    match handler s' with
    | (Ok _, s'') => (r, s'')
    | (Raise e, s'') => (Raise e, s'')
    end.

(** [try: body except Exception as e: handler(e)]. *)
Definition try_except {A} (body : stex St A) (handler : pyexn -> stex St A) : stex St A :=
  fun s =>
    match body s with
    | (Ok a, s') => (Ok a, s')
    | (Raise e, s') => handler e s'
    end.

(** [for x in l: body(x)]. *)
Fixpoint for_each {A} (body : A -> stex St unit) (l : list A) : stex St unit :=
  match l with
  | [] => mret tt
  | x :: r => body x ≫= fun _ => for_each body r
  end.

(** [if b: m]. *)
Definition when (b : bool) (m : stex St unit) : stex St unit :=
  if b then m else mret tt.

(** One step of a sequence. *)
Lemma bind_run {A B} (m : stex St A) (k : A -> stex St B) s :
  (m ≫= k) s = match m s with
               | (Ok a, s') => k a s'
               | (Raise e, s') => (Raise e, s')
               end.
Proof. done. Qed.

Lemma for_each_fmap {A B} (g : A -> B) (body : B -> stex St unit) l :
  for_each body (g <$> l) = for_each (fun x => body (g x)) l.
Proof. induction l as [|x l IH]; cbn; [done|]. by rewrite IH. Qed.

(** A loop whose body never raises keeps an invariant [I] of the elements
    done and the state. *)
Lemma for_each_inv {A} (I : list A -> St -> Prop) (body : A -> stex St unit) l s :
  I [] s ->
  (forall done x rest s,
     l = done ++ x :: rest -> I done s ->
     exists s', body x s = (Ok tt, s') /\ I (done ++ [x]) s') ->
  exists s', for_each body l s = (Ok tt, s') /\ I l s'.
Proof.
  intros H0 Hstep.
  assert (forall todo done s, l = done ++ todo -> I done s ->
            exists s', for_each body todo s = (Ok tt, s') /\ I l s') as H.
  { induction todo as [|x todo IH]; intros done s1 E Hd.
    - exists s1. rewrite app_nil_r in E. by subst.
    - destruct (Hstep done x todo s1 E Hd) as (s2 & Hb & Hi).
      destruct (IH (done ++ [x]) s2) as (s3 & Hf & Hl); [by rewrite <- app_assoc|done|].
      exists s3. cbn [for_each]. by rewrite bind_run, Hb. }
  by apply (H l []).
Qed.

(** [preserves f m]: [m] leaves the attribute [f] as it is, also when it
    raises. *)
Definition preserves {A B} (f : St -> B) (m : stex St A) : Prop :=
  forall s, f (m s).2 = f s.

Lemma preserves_ret {A B} (f : St -> B) (a : A) : preserves f (mret a).
Proof. done. Qed.

Lemma preserves_bind {A B C} (f : St -> C) (m : stex St A) (k : A -> stex St B) :
  preserves f m -> (forall a, preserves f (k a)) -> preserves f (m ≫= k).
Proof.
  intros Hm Hk s. rewrite bind_run. specialize (Hm s).
  destruct (m s) as [[a|e] s1]; [|done]. cbn in Hm. by rewrite Hk.
Qed.

Lemma preserves_for_each {A C} (f : St -> C) (body : A -> stex St unit) l :
  (forall x, preserves f (body x)) -> preserves f (for_each body l).
Proof.
  intros Hb. induction l as [|x l IH]; [done|]. cbn [for_each].
  by apply preserves_bind.
Qed.

Lemma preserves_when {C} (f : St -> C) b m : preserves f m -> preserves f (when b m).
Proof. by destruct b. Qed.

Lemma preserves_if {A C} (f : St -> C) (b : bool) (m1 m2 : stex St A) :
  preserves f m1 -> preserves f m2 -> preserves f (if b then m1 else m2).
Proof. by destruct b. Qed.

Lemma preserves_lift {A C} (f : St -> C) (r : result A) : preserves f (lift r).
Proof. done. Qed.

Lemma preserves_gets {A C} (f : St -> C) (g : St -> A) : preserves f (gets g).
Proof. done. Qed.

Lemma preserves_raise {A C} (f : St -> C) e : preserves f (raise e : stex St A).
Proof. done. Qed.

Lemma preserves_try_except {A C} (f : St -> C) (m : stex St A) h :
  preserves f m -> (forall e, preserves f (h e)) -> preserves f (try_except m h).
Proof.
  intros Hm Hh s. unfold try_except. specialize (Hm s).
  destruct (m s) as [[a|e] s1]; [done|]. cbn in Hm. by rewrite Hh.
Qed.

End Monad.

(** ** States with a console *)

Class Console (St : Type) := {
  emit : list str -> St -> St;
  emit_nil s : emit [] s = s;
  emit_emit l1 l2 s : emit l2 (emit l1 s) = emit (l1 ++ l2) s }.

(** The emoji of the messages the scripts share, as code points. *)
Definition e_glass : str := [0x1F50D].
Definition e_diamond : str := [0x1F537].
Definition e_plug : str := [0x1F50C].
Definition e_check : str := [0x2705].
Definition e_cross : str := [0x274C].
Definition e_chart : str := [0x1F4CA].

Section Print.
Context {St : Type} `{!Console St}.

Definition print (text : str) : stex St unit := fun s => (Ok tt, emit [text] s).

(** ["  " * indent]. *)
Definition indentation (indent : nat) : str := List.concat (repeat (u "  ") indent).

Definition log (emoji message : str) (indent : nat) : stex St unit :=
  print (indentation indent ++ emoji ++ u " " ++ message).

Definition log_verbose (verbose : bool) (message : str) (indent : nat) : stex St unit :=
  when verbose (print (indentation indent ++ e_glass ++ u " [VERBOSE] " ++ message)).

Definition log_section (title : str) : stex St unit :=
  print [];;
  print (repeat 0x3D 60);;
  print (e_diamond ++ u " " ++ title);;
  print (repeat 0x3D 60).

(** [prints m a lines]: [m] returns [a] and does nothing but print [lines]. *)
Definition prints {A} (m : stex St A) (a : A) (lines : list str) : Prop :=
  forall s, m s = (Ok a, emit lines s).

(** [silent m]: [m] does nothing but print, and does not raise. *)
Definition silent (m : stex St unit) : Prop := exists lines, prints m tt lines.

Lemma prints_ret {A} (a : A) : prints (mret a) a [].
Proof. intros s. by rewrite emit_nil. Qed.

Lemma prints_bind {A B} (m : stex St A) (k : A -> stex St B) a b l1 l2 :
  prints m a l1 -> prints (k a) b l2 -> prints (m ≫= k) b (l1 ++ l2).
Proof. intros Hm Hk s. by rewrite bind_run, Hm, Hk, emit_emit. Qed.

Lemma prints_print text : prints (print text) tt [text].
Proof. done. Qed.

(** [outputs m r lines]: [m] ends in [r], which may be an exception, and
    does nothing but print [lines]. *)
Definition outputs {A} (m : stex St A) (r : result A) (lines : list str) : Prop :=
  forall s, m s = (r, emit lines s).

Lemma outputs_lift {A} (r : result A) : outputs (lift r) r [].
Proof. intros s. unfold lift. by rewrite emit_nil. Qed.

Lemma outputs_bind_Ok {A B} (m : stex St A) (k : A -> stex St B) a r l1 l2 :
  outputs m (Ok a) l1 -> outputs (k a) r l2 -> outputs (m ≫= k) r (l1 ++ l2).
Proof. intros Hm Hk s. by rewrite bind_run, Hm, Hk, emit_emit. Qed.

Lemma outputs_bind_Raise {A B} (m : stex St A) (k : A -> stex St B) e l :
  outputs m (Raise e) l -> outputs (m ≫= k) (Raise e) l.
Proof. intros Hm s. by rewrite bind_run, Hm. Qed.

Lemma outputs_try_except_Ok {A} (m : stex St A) h a l :
  outputs m (Ok a) l -> outputs (try_except m h) (Ok a) l.
Proof. intros Hm s. unfold try_except. by rewrite Hm. Qed.

Lemma outputs_try_except_Raise {A} (m : stex St A) h e r l1 l2 :
  outputs m (Raise e) l1 -> outputs (h e) r l2 -> outputs (try_except m h) r (l1 ++ l2).
Proof. intros Hm Hh s. unfold try_except. by rewrite Hm, Hh, emit_emit. Qed.

(** A call of [print], then the rest. *)
Lemma print_then {A} text (k : unit -> stex St A) s :
  (print text ≫= k) s = k tt (emit [text] s).
Proof. done. Qed.

Lemma silent_ret : silent (mret tt).
Proof. eexists. apply prints_ret. Qed.

Lemma silent_print text : silent (print text).
Proof. eexists. apply prints_print. Qed.

Lemma silent_bind (m : stex St unit) (k : unit -> stex St unit) :
  silent m -> silent (k tt) -> silent (m ≫= k).
Proof. intros [l1 H1] [l2 H2]. eexists. by eapply prints_bind. Qed.

(** A computation that prints and returns, then one that only prints. *)
Lemma silent_prints_then {A} (m : stex St A) a lines (k : A -> stex St unit) :
  prints m a lines -> silent (k a) -> silent (m ≫= k).
Proof. intros Hm [l Hk]. eexists. by eapply prints_bind. Qed.

Lemma silent_when b m : silent m -> silent (when b m).
Proof. destruct b; [done|]. intros _. apply silent_ret. Qed.

Lemma silent_if (b : bool) (m1 m2 : stex St unit) :
  silent m1 -> silent m2 -> silent (if b then m1 else m2).
Proof. by destruct b. Qed.

Lemma silent_for_each {A} (body : A -> stex St unit) l :
  (forall x, silent (body x)) -> silent (for_each body l).
Proof.
  intros Hb. induction l as [|x l IH]; [apply silent_ret|].
  cbn [for_each]. by apply silent_bind.
Qed.

Lemma silent_for_each_Forall {A} (body : A -> stex St unit) l :
  Forall (fun x => silent (body x)) l -> silent (for_each body l).
Proof.
  induction 1 as [|x l Hx _ IH]; [apply silent_ret|].
  cbn [for_each]. by apply silent_bind.
Qed.

Lemma silent_log emoji message indent : silent (log emoji message indent).
Proof. apply silent_print. Qed.

Lemma silent_log_verbose verbose message indent :
  silent (log_verbose verbose message indent).
Proof. apply silent_when, silent_print. Qed.

Lemma silent_log_section title : silent (log_section title).
Proof. unfold log_section. repeat apply silent_bind; apply silent_print. Qed.

(** A method that only prints, then the rest: the rest runs on the state
    with the lines added. *)
Lemma silent_run {A} (m : stex St unit) (k : unit -> stex St A) :
  silent m -> exists lines, forall s, (m ≫= k) s = k tt (emit lines s).
Proof. intros [l Hm]. exists l. intros s. by rewrite bind_run, Hm. Qed.

End Print.

Lemma preserves_print {St C} `{!Console St} (f : St -> C) text :
  (forall l s, f (emit l s) = f s) -> preserves f (print text).
Proof. intros Hf s. apply Hf. Qed.

Lemma preserves_silent {St C} `{!Console St} (f : St -> C) m :
  (forall l s, f (emit l s) = f s) -> silent m -> preserves f m.
Proof. intros Hf [l Hm] s. rewrite Hm. apply Hf. Qed.

Create HintDb console discriminated.
#[export] Hint Resolve silent_ret silent_print silent_bind silent_when silent_if
  silent_for_each silent_log silent_log_verbose silent_log_section : console.
#[export] Hint Resolve preserves_ret preserves_bind preserves_for_each preserves_when
  preserves_if preserves_lift preserves_gets preserves_raise preserves_try_except
  : console.
