(* ===== verification/WebBorrow.v ===== *)
(** * WebBorrow: the inventory table parser of [src/webborrow/app.py]

    The web wrapper runs the external inventory tool, removes ANSI colour
    codes from its output and scrapes the box-drawn tables it prints.

    - [strip_ansi] is [re.sub] of the SGR pattern by the empty string.
    - [parse_machine_table] walks the lines with the state [pstate]: the
      three local variables [current_section], [current_cluster] and
      [is_cluster_table].  [section_step] is the chain of header tests that
      end in [continue]; [skip_row] is the guard that lets only the
      stand-alone and cluster sections yield rows, written with the
      short-circuit evaluation of the source, where the call
      [current_section.startswith] on [None] would raise; [parse_row] cuts a
      line into cells and builds the record; [classify] derives the state and
      the borrower from the status text.
    - [parse_summary] takes the first line that has four numeric cells between
      double bars, with total at least free.
    - The handlers [get_machines], [borrow_machine], [free_machine] and
      [get_machine_details] are functions of the outcome of the one
      subprocess each of them runs.

    The theorems show: the guard never raises and the parser is total; the
    three state variables stay consistent, so that the state machine refines
    the one-variable section automaton of the specification; what every
    emitted record satisfies; the decision table of the status classifier;
    the invariant of the summary; and where the code departs from its
    specification. *)

From Stdlib Require Import Ascii String.
From stdpp Require Import base tactics option list numbers.
From S2P Require Import Prelude PyStr PyRe Subprocess.

(** ** Literals of the source *)

(** The box-drawing literals, as the source file spells them. *)
Definition HRULE : str := Eval vm_compute in u "‚îÄ".
Definition VBAR : str := Eval vm_compute in u "‚îÇ".
Definition TOPLEFT : str := Eval vm_compute in u "‚îå".
Definition BOTLEFT : str := Eval vm_compute in u "‚îî".
Definition LEFTTEE : str := Eval vm_compute in u "‚îú".
Definition DHRULE : str := Eval vm_compute in u "‚ïê".
Definition DVBAR : str := Eval vm_compute in u "‚ïë".

Definition s_standalone : str := Eval vm_compute in u "standalone".
Definition s_cluster_ : str := Eval vm_compute in u "cluster_".
Definition s_ixia : str := Eval vm_compute in u "ixia".
Definition s_summary : str := Eval vm_compute in u "summary".
Definition s_wbox_name : str := Eval vm_compute in u "wbox_name".
Definition s_deploy_paren : str := Eval vm_compute in u "(deploy)".

(** The literals stay folded under [simpl]. *)
Arguments HRULE : simpl never.
Arguments VBAR : simpl never.
Arguments TOPLEFT : simpl never.
Arguments BOTLEFT : simpl never.
Arguments LEFTTEE : simpl never.
Arguments DHRULE : simpl never.
Arguments DVBAR : simpl never.
Arguments s_standalone : simpl never.
Arguments s_cluster_ : simpl never.
Arguments s_ixia : simpl never.
Arguments s_summary : simpl never.
Arguments s_wbox_name : simpl never.
Arguments s_deploy_paren : simpl never.

(** ** ANSI stripping *)

(** The parameter bytes of an SGR sequence: [[0-9;]]. *)
Definition is_sgr_param (c : char) : bool := is_digit c || (c =? 0x3B)%N.

(** [r'\x1b\[[0-9;]*m']. *)
Definition ansi_pattern : re :=
  Cat (Chr 0x1B) (Cat (Chr 0x5B) (Cat (Star (Cls is_sgr_param)) (Chr 0x6D))).

Definition strip_ansi (text : str) : str := sub ansi_pattern [] text.

(** ** Running the tool *)

Section RunPyborrow.
(** [sys.executable], [str(PYBORROW_PATH)] and the operating system. *)
Context (executable pyborrow_path : str).
Context (subprocess_run : list str -> proc_outcome).

Definition in_args (x : str) (args : list str) : bool := existsb (str_eqb x) args.

Definition pyborrow_cmd (args : option (list str)) : list str :=
  let cmd := [executable; pyborrow_path] in
  let args' := default [] args in
  let cmd := cmd ++ args' in
  if in_args (u "-b") args' || in_args (u "-f") args'
     || in_args (u "--borrow") args' || in_args (u "--free") args'
  then cmd ++ [u "-q"] else cmd.

Definition run_pyborrow (args : option (list str)) : str * str * Z :=
  match subprocess_run (pyborrow_cmd args) with
  | Completed stdout stderr returncode => (stdout, stderr, returncode)
  | TimeoutExpired => ([], u "Command timed out", 1%Z)
  | OtherException msg => ([], msg, 1%Z)
  end.
End RunPyborrow.

(** ** The machine table *)

Record pstate : Type := {
  current_section : option str;
  current_cluster : option str;
  is_cluster_table : bool;
}.

Definition init_state : pstate :=
  {| current_section := None; current_cluster := None; is_cluster_table := false |}.

(** [r'Cluster\s+(\d+)']. *)
Definition cluster_pattern : re :=
  Cat (Lit (u "Cluster")) (Cat (Plus (Cls is_space)) (Group 1 (Plus (Cls is_digit)))).

(** The header tests: [Some st'] when the line is a section header (the state
    after it, the loop continues), [None] when it is not. *)
Definition section_step (st : pstate) (line : str) : option pstate :=
  if contains (u "Stand alone") line then
    Some {| current_section := Some s_standalone;
            is_cluster_table := false;
            current_cluster := None |}
  else if contains (u "Cluster") line && negb (contains HRULE line) then
    match search cluster_pattern line with
    | Some (_, g, _) =>
        let id := default [] (group g 1) in
        Some {| current_cluster := Some id;
                current_section := Some (s_cluster_ ++ id);
                is_cluster_table := true |}
    | None => Some st
    end
  else if contains (u "DP IXIAs") line then
    Some {| current_section := Some s_ixia;
            current_cluster := current_cluster st;
            is_cluster_table := is_cluster_table st |}
  else if contains (u "Total") line && contains (u "Free") line
          && contains (u "Taken") line then
    Some {| current_section := Some s_summary;
            current_cluster := current_cluster st;
            is_cluster_table := is_cluster_table st |}
  else None.

(** Truthiness of a value that is a string or [None]. *)
Definition truthy_opt (cs : option str) : bool :=
  match cs with
  | Some s => truthy s
  | None => false
  end.

(** [cs.startswith(p)]; on [None] the attribute lookup raises. *)
Definition opt_startswith (cs : option str) (p : str) : result bool :=
  match cs with
  | Some s => Ok (startswith p s)
  | None => Raise AttributeError
  end.

(** The guard before the row tests: [Ok true] when the line is skipped. *)
Definition skip_row (cs : option str) : result bool :=
  outer ← (if negb (bool_decide (cs = Some s_standalone)) && negb (truthy_opt cs)
           then Ok true
           else b ← opt_startswith cs s_cluster_; Ok (eqb b false));
  if outer : bool then
    if negb (bool_decide (cs = Some s_standalone)) then
      inner ← (if truthy_opt cs then opt_startswith cs s_cluster_ else Ok false);
      Ok (negb inner)
    else Ok false
  else Ok false.

Record row : Type := {
  nce_id : option str;
  vendor : str;
  type : str;
  revision : str;
  name : str;
  baseos_version : str;
  status : str;
  borrow_uptime : str;
  git_branch : str;
  last_connection : str;
  comment : str;
  cluster : option str;
}.

Inductive mstate : Type :=
| available
| offline
| no_ssh
| no_cheetah
| deployed
| borrowed.

#[export] Instance mstate_eq_dec : EqDecision mstate.
Proof. solve_decision. Defined.

Record machine : Type := {
  info : row;
  state : mstate;
  borrower : option str;
}.

(** The cells of a line: cut at the bar, strip each, drop the empty ones. *)
Definition cells (bar line : str) : list str :=
  filter_b (fun p => negb (str_eqb p [])) (map strip (split bar line)).

(** The row dictionary, by the kind of table. *)
Definition build_row (st : pstate) (parts : list str) : option row :=
  let at_ := get_or [] parts in
  if is_cluster_table st && (10 <=? length parts) then
    Some {| nce_id := Some (at_ 0); vendor := at_ 1; type := at_ 2; revision := at_ 3;
            name := at_ 4; baseos_version := at_ 5; status := at_ 6;
            borrow_uptime := at_ 7; git_branch := at_ 8; last_connection := at_ 9;
            comment := at_ 10; cluster := current_cluster st |}
  else if negb (is_cluster_table st) && (6 <=? length parts) then
    Some {| nce_id := None; vendor := at_ 0; type := at_ 1; revision := at_ 2;
            name := at_ 3; baseos_version := at_ 4; status := at_ 5;
            borrow_uptime := at_ 6; git_branch := at_ 7; last_connection := at_ 8;
            comment := at_ 9; cluster := None |}
  else None.

(** The state and the borrower, from the status text. *)
Definition classify (status : str) : mstate * option str :=
  let status_lower := lower status in
  if contains (u "available") status_lower then (available, None)
  else if contains (u "no ping") status_lower then (offline, None)
  else if contains (u "no ssh") status_lower then (no_ssh, None)
  else if contains (u "no cheetah") status_lower then (no_cheetah, None)
  else if contains (u "deploy") status_lower && negb (contains (u "(") status_lower)
  then (deployed, None)
  else
    let borrower := strip (replace s_deploy_paren [] status) in
    (borrowed, Some (if truthy borrower then borrower else status)).

(** One line inside a section: the record it yields, if any. *)
Definition parse_row (st : pstate) (line : str) : option machine :=
  if negb (contains VBAR line) then None
  else if contains HRULE line || contains TOPLEFT line || contains BOTLEFT line
          || contains LEFTTEE line || contains DHRULE line then None
  else if contains s_wbox_name line
          || (contains (u "vendor") line && contains (u "type") line
              && contains (u "revision") line) then None
  else
    let parts := cells VBAR line in
    if length parts <? 6 then None
    else
      match build_row st parts with
      | None => None
      | Some r =>
          if negb (truthy (name r)) then None
          else if str_eqb (name r) s_wbox_name then None
          else if negb (truthy (name r)) && negb (truthy (vendor r)) then None
          else
            let (s, b) := classify (status r) in
            Some {| info := r; state := s; borrower := b |}
      end.

(** The loop over the lines. *)
Fixpoint parse_lines (st : pstate) (lines : list str) : result (list machine) :=
  match lines with
  | [] => Ok []
  | line :: rest =>
      match section_step st line with
      | Some st' => parse_lines st' rest
      | None =>
          skip ← skip_row (current_section st);
          if skip : bool then parse_lines st rest
          else
            match parse_row st line with
            | None => parse_lines st rest
            | Some m => ms ← parse_lines st rest; Ok (m :: ms)
            end
      end
  end.

Definition parse_machine_table (output : str) : result (list machine) :=
  let clean_output := strip_ansi output in
  let lines := split NL clean_output in
  parse_lines init_state lines.

(** ** The summary *)

Record summary : Type := {
  total : Z;
  free : Z;
  taken : Z;
  taken_not_used : Z;
}.

Definition summary_zero : summary :=
  {| total := 0; free := 0; taken := 0; taken_not_used := 0 |}.

(** [[int(p) for p in parts]]: the first cell that is not a number raises. *)
Fixpoint ints_of (parts : list str) : result (list Z) :=
  match parts with
  | [] => Ok []
  | p :: r =>
      match int_of_str p with
      | Some v => vs ← ints_of r; Ok (v :: vs)
      | None => Raise ValueError
      end
  end.

(** What one line does to the scan: [Some s] ends it with the summary [s]. *)
Definition summary_of_line (line : str) : option summary :=
  if contains DVBAR line && negb (contains DHRULE line) then
    let parts := filter_b truthy (map strip (split DVBAR line)) in
    if length parts =? 4 then
      match ints_of parts with
      | Ok vals =>
          if forallb (fun v => 0 <=? v)%Z vals
             && (get_or 0 vals 1 <=? get_or 0 vals 0)%Z
          then Some {| total := get_or 0%Z vals 0; free := get_or 0%Z vals 1;
                       taken := get_or 0%Z vals 2; taken_not_used := get_or 0%Z vals 3 |}
          else None
      | Raise _ => None
      end
    else None
  else None.

Fixpoint scan_summary (lines : list str) : summary :=
  match lines with
  | [] => summary_zero
  | line :: rest =>
      match summary_of_line line with
      | Some s => s
      | None => scan_summary rest
      end
  end.

Definition parse_summary (output : str) : summary :=
  let clean_output := strip_ansi output in
  scan_summary (split NL clean_output).

(** ** The handlers *)

(** The JSON body and the status code of a response. *)
Inductive machines_body : Type :=
| MachinesError (error : str)
| MachinesList (machines : list machine) (summ : summary) (count : nat).

Record action_body : Type := {
  success : bool;
  message : str;
  output : str;
  error : option str;
}.

Record details_body : Type := {
  d_name : str;
  details : str;
  d_success : bool;
}.

Section Handlers.
Context (executable pyborrow_path : str).
Context (subprocess_run : list str -> proc_outcome).

Let run := run_pyborrow executable pyborrow_path subprocess_run.

Definition get_machines : result (machines_body * Z) :=
  let '(stdout, stderr, code) := run None in
  if negb (code =? 0)%Z && negb (truthy stdout) then
    Ok (MachinesError (u "Failed to fetch machines: " ++ stderr), 500%Z)
  else
    machines ← parse_machine_table stdout;
    let summ := parse_summary stdout in
    Ok (MachinesList machines summ (length machines), 200%Z).

Definition borrow_machine (machine_name : str) : action_body * Z :=
  let '(stdout, stderr, code) := run (Some [u "-b"; machine_name]) in
  let clean_stdout := strip_ansi stdout in
  let clean_stderr := strip_ansi stderr in
  if (code =? 0)%Z || contains (u "borrowed") (lower clean_stdout) then
    ({| success := true;
        message := u "Successfully borrowed " ++ machine_name;
        output := clean_stdout; error := None |}, 200%Z)
  else
    ({| success := false;
        message := u "Failed to borrow " ++ machine_name;
        output := clean_stdout; error := Some clean_stderr |}, 400%Z).

Definition free_machine (machine_name : str) : action_body * Z :=
  let '(stdout, stderr, code) := run (Some [u "-f"; machine_name]) in
  let clean_stdout := strip_ansi stdout in
  let clean_stderr := strip_ansi stderr in
  if (code =? 0)%Z || contains (u "freed") (lower clean_stdout) then
    ({| success := true;
        message := u "Successfully freed " ++ machine_name;
        output := clean_stdout; error := None |}, 200%Z)
  else
    ({| success := false;
        message := u "Failed to free " ++ machine_name;
        output := clean_stdout; error := Some clean_stderr |}, 400%Z).

Definition get_machine_details (machine_name : str) : details_body * Z :=
  let '(stdout, stderr, code) := run (Some [machine_name]) in
  let clean_stdout := strip_ansi stdout in
  ({| d_name := machine_name; details := clean_stdout; d_success := (code =? 0)%Z |}, 200%Z).
End Handlers.

(** * Theorems *)

(** ** The guard *)

(** The sections whose lines are read as rows. *)
Definition yields_rows (cs : option str) : bool :=
  match cs with
  | Some s => str_eqb s s_standalone || startswith s_cluster_ s
  | None => false
  end.

Lemma standalone_not_cluster : startswith s_cluster_ s_standalone = false.
Proof. reflexivity. Qed.

(** The three nested tests amount to one. *)
Lemma skip_row_spec (cs : option str) : skip_row cs = Ok (negb (yields_rows cs)).
Proof.
  destruct cs as [s|]; [|reflexivity].
  unfold skip_row, yields_rows, opt_startswith, truthy_opt, str_eqb.
  destruct (decide (s = s_standalone)) as [->|Hne]; [reflexivity|].
  rewrite !bool_decide_eq_false_2 by congruence.
  destruct s as [|c s]; [reflexivity|]. cbn [truthy negb andb orb mbind result_bind].
  by destruct (startswith s_cluster_ (c :: s)).
Qed.

Lemma yields_rows_iff cs :
  yields_rows cs = true
  <-> cs = Some s_standalone \/ exists id, cs = Some (s_cluster_ ++ id).
Proof.
  destruct cs as [s|]; cbn [yields_rows]; [|split; [done|by intros [|[? ?]]]].
  rewrite orb_true_iff, startswith_spec. unfold str_eqb. rewrite bool_decide_eq_true.
  split; (intros [H|[id H]]; [left|right; exists id]); congruence.
Qed.

(** The guard of lines 97-100 never raises, although it calls
    [startswith] on a variable that may be [None]: the short-circuit
    evaluation keeps the call away from [None].  It lets a line through
    exactly when the section is "standalone" or starts with "cluster_". *)
Theorem skip_row_never_raises (cs : option str) :
  exists skip, skip_row cs = Ok skip
    /\ (skip = false <-> cs = Some s_standalone \/ exists id, cs = Some (s_cluster_ ++ id)).
Proof.
  exists (negb (yields_rows cs)). split; [apply skip_row_spec|].
  rewrite negb_false_iff. apply yields_rows_iff.
Qed.

(** ** Totality of the parser *)

Lemma parse_lines_is_Ok st lines : is_Ok (parse_lines st lines).
Proof.
  revert st. induction lines as [|line rest IH]; intros st; cbn [parse_lines]; [by eexists|].
  destruct (section_step st line) as [st'|]; [done|].
  rewrite skip_row_spec. cbn [mbind result_bind].
  destruct (negb _); [done|]. destruct (parse_row st line); [|done].
  destruct (IH st) as [ms ->]. by eexists.
Qed.

(** C4: the parser returns a list of records on every input; no exception
    leaves it. *)
Theorem parse_machine_table_total (output : str) :
  exists machines, parse_machine_table output = Ok machines.
Proof. apply parse_lines_is_Ok. Qed.

(** ** The two patterns, as direct scanners *)

(** What the SGR pattern matches at the start of a string: ESC, an opening
    bracket, the longest run of parameter bytes, and the letter m.  The
    result is what follows. *)
Definition ansi_prefix (s : str) : option str :=
  match s with
  | a :: b :: r =>
      if (a =? 0x1B)%N && (b =? 0x5B)%N then
        match drop_while is_sgr_param r with
        | x :: t => if (x =? 0x6D)%N then Some t else None
        | [] => None
        end
      else None
  | _ => None
  end.

Lemma ansi_match_spec s : match_at ansi_pattern s = (fun t => ([], t)) <$> ansi_prefix s.
Proof.
  unfold match_at, ansi_pattern, ansi_prefix.
  destruct s as [|a [|b r]]; autorewrite with pyrw; [done|by destruct (a =? 27)%N|].
  destruct (a =? 27)%N; [|done]. autorewrite with pyrw. destruct (b =? 91)%N; [|done].
  rewrite rmatch_Star_Cls_exclusive.
  - destruct (drop_while is_sgr_param r) as [|x t]; autorewrite with pyrw; [done|].
    by destruct (x =? 109)%N.
  - intros x s' Hx. autorewrite with pyrw. by destruct (N.eqb_spec x 109) as [->|].
Qed.

Lemma ansi_prefix_Some s t :
  ansi_prefix s = Some t ->
  exists ps, s = [0x1B; 0x5B]%N ++ ps ++ [0x6D]%N ++ t /\ forallb is_sgr_param ps = true.
Proof.
  unfold ansi_prefix. destruct s as [|a [|b r]]; [done|done|].
  destruct (N.eqb_spec a 27) as [->|]; [|done]. destruct (N.eqb_spec b 91) as [->|]; [|done].
  cbn [andb]. destruct (drop_while is_sgr_param r) as [|x t'] eqn:E; [done|].
  destruct (N.eqb_spec x 109) as [->|]; [|done]. intros [= <-].
  exists (take_while is_sgr_param r). split; [|apply take_while_all].
  simpl. do 2 f_equal. by rewrite <- E, take_drop_while.
Qed.

Lemma ansi_productive : productive ansi_pattern.
Proof.
  intros s g t. rewrite ansi_match_spec. destruct (ansi_prefix s) as [t'|] eqn:E; [|done].
  intros [= <- <-]. apply ansi_prefix_Some in E as (ps & -> & _).
  exists ([27; 91]%N ++ ps ++ [109]%N). split; [done|]. by rewrite <- !app_assoc.
Qed.

(** What the cluster pattern matches at the start of a string: the word, a
    run of whitespace, and the longest run of digits, which is the id. *)
Definition cluster_prefix (s : str) : option str :=
  if startswith (u "Cluster") s then
    match drop 7 s with
    | c :: r =>
        if is_space c then
          match drop_while is_space r with
          | d :: r' => if is_digit d then Some (d :: take_while is_digit r') else None
          | [] => None
          end
        else None
    | [] => None
    end
  else None.

Lemma space_not_digit c : is_space c = true -> is_digit c = false.
Proof. unfold is_space, is_digit. n_cases. Qed.

Lemma cluster_match_spec s :
  match_at cluster_pattern s
  = (fun id => ([(1, id)], drop_while is_digit (drop_while is_space (drop 7 s))))
      <$> cluster_prefix s.
Proof.
  unfold match_at, cluster_pattern, cluster_prefix, Plus. autorewrite with pyrw.
  destruct (startswith _ s); [|done]. change (length (u "Cluster")) with 7.
  destruct (drop 7 s) as [|c r]; autorewrite with pyrw; [done|].
  cbn [drop_while]. destruct (is_space c) eqn:Hc; [|done].
  rewrite rmatch_Star_Cls_exclusive;
    [|intros x s' Hx; autorewrite with pyrw; by rewrite space_not_digit].
  autorewrite with pyrw.
  destruct (drop_while is_space r) as [|d r'] eqn:E; autorewrite with pyrw; [done|].
  cbn [drop_while]. destruct (is_digit d) eqn:Hd; [|done].
  rewrite rmatch_Star_Cls_accept by done. cbn [fmap option_fmap option_map].
  pose proof (take_while_length_drop is_digit (d :: r')) as T.
  cbn [take_while drop_while] in T. rewrite Hd in T. by rewrite T.
Qed.

Lemma cluster_prefix_id s id :
  cluster_prefix s = Some id -> id <> [] /\ forallb is_digit id = true.
Proof.
  unfold cluster_prefix. repeat (destr_goal; try done). intros [= <-]. split; [done|].
  simpl. rewrite take_while_all. by rewrite andb_true_r.
Qed.

(** The id that [re.search] captures is a non-empty run of digits. *)
Lemma cluster_search_id line b g t :
  search cluster_pattern line = Some (b, g, t) ->
  exists id, group g 1 = Some id /\ id <> [] /\ forallb is_digit id = true.
Proof.
  intros [M _]%search_Some. rewrite cluster_match_spec in M.
  destruct (cluster_prefix _) as [id|] eqn:E; [|done]. injection M as <- <-.
  exists id. split; [done|]. by eapply cluster_prefix_id.
Qed.

(** ** The section automaton of the specification *)

(** The specification keeps one enumerated section, with the cluster id as
    its payload. *)
Inductive section : Type :=
| SecNone
| SecStandalone
| SecCluster (id : str)
| SecIxia
| SecSummary.

(** The id on a cluster header, if the line carries one. *)
Definition cluster_id (line : str) : option str :=
  match search cluster_pattern line with
  | Some (_, g, _) => group g 1
  | None => None
  end.

(** The transition rules of the specification, in priority order. *)
Definition spec_step (sec : section) (line : str) : option section :=
  if contains (u "Stand alone") line then Some SecStandalone
  else if contains (u "Cluster") line && negb (contains HRULE line) then
    Some (from_option SecCluster sec (cluster_id line))
  else if contains (u "DP IXIAs") line then Some SecIxia
  else if contains (u "Total") line && contains (u "Free") line
          && contains (u "Taken") line then Some SecSummary
  else None.

(** How the three variables of the code represent a section. *)
Definition represents (st : pstate) (sec : section) : Prop :=
  match sec with
  | SecNone => current_section st = None
  | SecStandalone =>
      current_section st = Some s_standalone
      /\ is_cluster_table st = false /\ current_cluster st = None
  | SecCluster id =>
      current_section st = Some (s_cluster_ ++ id)
      /\ is_cluster_table st = true /\ current_cluster st = Some id
      /\ id <> [] /\ forallb is_digit id = true
  | SecIxia => current_section st = Some s_ixia
  | SecSummary => current_section st = Some s_summary
  end.

Lemma represents_init : represents init_state SecNone.
Proof. done. Qed.

Lemma cluster_id_digits line id :
  cluster_id line = Some id -> id <> [] /\ forallb is_digit id = true.
Proof.
  unfold cluster_id. destruct (search _ line) as [[[b g] t]|] eqn:S; [|done].
  destruct (cluster_search_id _ _ _ _ S) as (id' & -> & H). by intros [= <-].
Qed.

Lemma cluster_id_None line : cluster_id line = None -> search cluster_pattern line = None.
Proof.
  unfold cluster_id. destruct (search _ line) as [[[b g] t]|] eqn:S; [|done].
  destruct (cluster_search_id _ _ _ _ S) as (id' & -> & H). done.
Qed.

(** Simulation: each header transition of the three-variable state of the
    code is a transition of the one-variable automaton of the specification,
    and a line is a header for the one exactly when it is for the other. *)
Lemma section_step_sim st sec line :
  represents st sec ->
  match section_step st line with
  | Some st' => exists sec', spec_step sec line = Some sec' /\ represents st' sec'
  | None => spec_step sec line = None
  end.
Proof.
  intros R. unfold section_step, spec_step.
  destruct (contains (u "Stand alone") line); [by eexists|].
  destruct (contains (u "Cluster") line && negb (contains HRULE line)).
  - destruct (cluster_id line) as [id|] eqn:C.
    + pose proof (cluster_id_digits _ _ C) as [? ?]. unfold cluster_id in C.
      destruct (search cluster_pattern line) as [[[b g] t]|]; [|done].
      rewrite C. by eexists.
    + rewrite (cluster_id_None _ C). by eexists.
  - destruct (contains (u "DP IXIAs") line); [by eexists|].
    destruct (_ && _); [by eexists|done].
Qed.

(** The states the loop can be in. *)
Inductive reachable : pstate -> Prop :=
| reach_init : reachable init_state
| reach_step st line st' :
    reachable st -> section_step st line = Some st' -> reachable st'.

(** Every state the loop reaches represents a section of the specification. *)
Lemma reachable_represents st : reachable st -> exists sec, represents st sec.
Proof.
  induction 1 as [|st line st' _ [sec R] Hstep]; [by exists SecNone|].
  pose proof (section_step_sim st sec line R) as H. rewrite Hstep in H.
  destruct H as (sec' & _ & R'). by exists sec'.
Qed.

(** What the three variables satisfy together. *)
Definition consistent (st : pstate) : Prop :=
  (is_cluster_table st = true <-> is_Some (current_cluster st))
  /\ (current_section st = Some s_standalone -> is_cluster_table st = false)
  /\ (forall id, current_section st = Some (s_cluster_ ++ id) ->
                 current_cluster st = Some id /\ id <> [] /\ forallb is_digit id = true)
  /\ (current_section st = None -> st = init_state).

Lemma section_literals_distinct id :
  s_standalone <> s_cluster_ ++ id /\ s_ixia <> s_cluster_ ++ id /\ s_summary <> s_cluster_ ++ id.
Proof. done. Qed.

(** Building the invariant for a state whose fields are known. *)
Lemma consistent_intro cs cc ict :
  (ict = true <-> is_Some cc) ->
  (cs = Some s_standalone -> ict = false) ->
  (forall id, cs = Some (s_cluster_ ++ id) -> cc = Some id /\ id <> [] /\ forallb is_digit id = true) ->
  cs <> None ->
  consistent {| current_section := cs; current_cluster := cc; is_cluster_table := ict |}.
Proof.
  intros H1 H2 H3 H4. split; [exact H1|]. split; [exact H2|]. split; [exact H3|].
  intros E. by destruct H4.
Qed.

Lemma section_step_consistent st line st' :
  consistent st -> section_step st line = Some st' -> consistent st'.
Proof.
  intros (C1 & C2 & C3 & C4). unfold section_step.
  destruct (contains (u "Stand alone") line).
  { intros [= <-].
    apply consistent_intro; [split; [done|by intros [? ?]]|done| |done].
    by intros id [=]. }
  destruct (_ && _).
  { destruct (search cluster_pattern line) as [[[b g] t]|] eqn:Hs; [|by intros [= <-]].
    destruct (cluster_search_id _ _ _ _ Hs) as (id0 & -> & Hid). intros [= <-].
    apply consistent_intro; [split; [by eexists|done]|discriminate| |done].
    by intros id [= ->]. }
  assert (forall s, s = s_ixia \/ s = s_summary ->
    consistent {| current_section := Some s; current_cluster := current_cluster st;
                  is_cluster_table := is_cluster_table st |}) as K.
  { intros s Hs. apply consistent_intro; [done| | |done].
    - intros [= ->]. by destruct Hs.
    - intros id [= ->]. destruct (section_literals_distinct id) as (_ & ? & ?).
      by destruct Hs. }
  destruct (contains (u "DP IXIAs") line); [intros [= <-]; apply K; by left|].
  destruct (_ && _); [intros [= <-]; apply K; by right|done].
Qed.

(** C3: invariant of the loop.  In every state it reaches, the flag
    [is_cluster_table] is set exactly when [current_cluster] holds an id; in
    the stand-alone section the flag is clear; in a section "cluster_<id>"
    the variable [current_cluster] holds that id, a non-empty run of digits;
    and the section is [None] only before the first header. *)
Theorem section_state_consistent st : reachable st -> consistent st.
Proof.
  induction 1 as [|st line st' _ IH Hstep]; [|by eapply section_step_consistent].
  repeat split; try done. by intros [? ?].
Qed.

Lemma section_state_consistent_witness :
  consistent {| current_cluster := Some (u "27");
                current_section := Some (s_cluster_ ++ u "27");
                is_cluster_table := true |}.
Proof.
  apply section_state_consistent.
  apply (reach_step init_state (u "== Cluster 27 ==")); [constructor|by vm_compute].
Defined.

(** ** The parser of the specification *)

(** A rule or border line, and a repeated header row. *)
Definition decorative (line : str) : bool :=
  contains HRULE line || contains TOPLEFT line || contains BOTLEFT line
  || contains LEFTTEE line || contains DHRULE line.

Definition header_row (line : str) : bool :=
  contains s_wbox_name line
  || (contains (u "vendor") line && contains (u "type") line && contains (u "revision") line).

(** The column mapping of a section. *)
Definition spec_build (sec : section) (parts : list str) : option row :=
  let at_ := get_or [] parts in
  match sec with
  | SecStandalone =>
      if 6 <=? length parts then
        Some {| nce_id := None; vendor := at_ 0; type := at_ 1; revision := at_ 2;
                name := at_ 3; baseos_version := at_ 4; status := at_ 5;
                borrow_uptime := at_ 6; git_branch := at_ 7; last_connection := at_ 8;
                comment := at_ 9; cluster := None |}
      else None
  | SecCluster id =>
      if 10 <=? length parts then
        Some {| nce_id := Some (at_ 0); vendor := at_ 1; type := at_ 2; revision := at_ 3;
                name := at_ 4; baseos_version := at_ 5; status := at_ 6;
                borrow_uptime := at_ 7; git_branch := at_ 8; last_connection := at_ 9;
                comment := at_ 10; cluster := Some id |}
      else None
  | _ => None
  end.

(** A row becomes a record when it has a name that is not the header's. *)
Definition finish (r : row) : option machine :=
  if truthy (name r) && negb (str_eqb (name r) s_wbox_name) then
    Some {| info := r; state := (classify (status r)).1; borrower := (classify (status r)).2 |}
  else None.

Definition spec_row (sec : section) (line : str) : option machine :=
  if contains VBAR line && negb (decorative line) && negb (header_row line) then
    spec_build sec (cells VBAR line) ≫= finish
  else None.

Fixpoint spec_parse (sec : section) (lines : list str) : list machine :=
  match lines with
  | [] => []
  | line :: rest =>
      match spec_step sec line with
      | Some sec' => spec_parse sec' rest
      | None =>
          match spec_row sec line with
          | Some m => m :: spec_parse sec rest
          | None => spec_parse sec rest
          end
      end
  end.

(** The sections of the specification that yield rows. *)
Definition row_section (sec : section) : bool :=
  match sec with
  | SecStandalone | SecCluster _ => true
  | _ => false
  end.

Lemma represents_yields st sec :
  represents st sec -> yields_rows (current_section st) = row_section sec.
Proof.
  destruct sec; cbn [represents row_section]; try (intros ->; reflexivity).
  - by intros [-> _].
  - intros [-> _]. cbn [yields_rows]. by rewrite startswith_app, orb_true_r.
Qed.

Lemma spec_build_no_rows sec parts : row_section sec = false -> spec_build sec parts = None.
Proof. by destruct sec. Qed.

Lemma build_row_refines st sec parts :
  represents st sec -> row_section sec = true -> 6 <= length parts ->
  build_row st parts = spec_build sec parts.
Proof.
  unfold build_row, spec_build. destruct sec; try done.
  - intros (_ & -> & ->) _ L. cbn [andb negb]. by rewrite (leb_correct _ _ L).
  - intros (_ & -> & -> & _) _ L. cbn [andb negb]. by destruct (10 <=? length parts).
Qed.

Lemma spec_build_short sec parts : length parts < 6 -> spec_build sec parts = None.
Proof.
  intros L. unfold spec_build. destruct sec; try done.
  - by rewrite leb_correct_conv.
  - rewrite leb_correct_conv; [done|lia].
Qed.

Lemma parse_row_refines st sec line :
  represents st sec -> row_section sec = true -> parse_row st line = spec_row sec line.
Proof.
  intros R Y. unfold parse_row, spec_row. fold (decorative line) (header_row line).
  destruct (contains VBAR line); [|done]. destruct (decorative line); [done|].
  destruct (header_row line); [done|]. cbn [negb andb].
  destruct (Nat.ltb_spec (length (cells VBAR line)) 6) as [L|L].
  { by rewrite spec_build_short. }
  rewrite (build_row_refines st sec) by done.
  destruct (spec_build sec _) as [r|]; [|done]. cbn [mbind option_bind]. unfold finish.
  destruct (truthy (name r)); [|done]. destruct (str_eqb _ _); [done|].
  cbn [negb andb]. by destruct (classify _).
Qed.

Lemma spec_row_no_rows sec line : row_section sec = false -> spec_row sec line = None.
Proof.
  intros H. unfold spec_row. rewrite spec_build_no_rows by done. by destruct (_ && _).
Qed.

(** From a state that represents a section, the loop of the code returns,
    without raising, the records the parser of the specification computes
    from that section. *)
Lemma parse_lines_spec st sec lines :
  represents st sec -> parse_lines st lines = Ok (spec_parse sec lines).
Proof.
  revert st sec. induction lines as [|line rest IH]; intros st sec R; [done|].
  cbn [parse_lines spec_parse]. pose proof (section_step_sim st sec line R) as H.
  destruct (section_step st line) as [st'|].
  { destruct H as (sec' & -> & R'). by apply IH. }
  rewrite H, skip_row_spec, (represents_yields _ _ R). cbn [mbind result_bind].
  destruct (row_section sec) eqn:Y; cbn [negb].
  - rewrite (parse_row_refines st sec) by done.
    destruct (spec_row sec line); rewrite (IH st sec R); done.
  - rewrite spec_row_no_rows by done. by apply IH.
Qed.

(** C1: refinement.  In every state the loop can reach, the three variables
    of the code represent one section of the specification's automaton, and
    from there the loop returns, without raising, exactly the records the
    specification's parser yields on the remaining lines. *)
Theorem parse_lines_refines st :
  reachable st ->
  exists sec, represents st sec
              /\ forall lines, parse_lines st lines = Ok (spec_parse sec lines).
Proof.
  intros [sec R]%reachable_represents. exists sec. split; [done|].
  intros lines. by apply parse_lines_spec.
Qed.

Lemma parse_lines_refines_witness :
  exists sec, represents init_state sec
              /\ forall lines, parse_lines init_state lines = Ok (spec_parse sec lines).
Proof. apply parse_lines_refines. constructor. Defined.

Corollary parse_machine_table_spec output :
  parse_machine_table output = Ok (spec_parse SecNone (split NL (strip_ansi output))).
Proof. apply parse_lines_spec, represents_init. Qed.

(** ** What every record satisfies *)

(** A cell as the tokenizer leaves it: stripped, and free of the separator. *)
Definition clean_cell (c : str) : Prop := strip c = c /\ contains VBAR c = false.

Lemma clean_cell_nil : clean_cell [].
Proof. done. Qed.

Lemma cells_clean line : Forall (fun c => c <> [] /\ clean_cell c) (cells VBAR line).
Proof.
  unfold cells. rewrite List.Forall_forall. intros c [Hin Hne]%filter_In.
  apply in_map_iff in Hin as (p & <- & Hp). split.
  - intros E. by rewrite E in Hne.
  - split; [apply strip_idem|]. apply not_true_is_false. intros H%contains_strip.
    pose proof (split_pieces_clean VBAR line ltac:(done)) as F.
    rewrite List.Forall_forall in F. rewrite (F _ Hp) in H. done.
Qed.

Lemma cells_get_clean line i : clean_cell (get_or [] (cells VBAR line) i).
Proof.
  apply (get_or_Forall clean_cell); [|done].
  eapply List.Forall_impl; [|apply cells_clean]. by intros c [_ ?].
Qed.

Lemma cells_get_nonempty line i : i < length (cells VBAR line) -> get_or [] (cells VBAR line) i <> [].
Proof.
  intros L%(get_or_In []). pose proof (cells_clean line) as F.
  rewrite List.Forall_forall in F. by apply F in L as [? _].
Qed.

(** The state is [borrowed] exactly when there is a borrower. *)
Lemma classify_borrower_iff s : (classify s).1 = borrowed <-> (classify s).2 <> None.
Proof. unfold classify. repeat (destr_goal; simpl); split; done. Qed.

Lemma classify_borrower_nonempty s : s <> [] -> (classify s).2 <> Some [].
Proof.
  intros Hs. unfold classify. repeat (destr_goal; simpl); try done; intros [= E]; try done.
  destruct (strip _); done.
Qed.

(** The text fields of a row. *)
Definition fields (r : row) : list str :=
  [vendor r; type r; revision r; name r; baseos_version r; status r;
   borrow_uptime r; git_branch r; last_connection r; comment r].

Record wf_machine (m : machine) : Prop := {
  wf_name : name (info m) <> [] /\ name (info m) <> s_wbox_name;
  wf_status : status (info m) <> [];
  wf_origin : nce_id (info m) = None <-> cluster (info m) = None;
  wf_cluster : forall id, cluster (info m) = Some id -> id <> [] /\ forallb is_digit id = true;
  wf_classified : (state m, borrower m) = classify (status (info m));
  wf_borrowed : state m = borrowed <-> borrower m <> None;
  wf_borrower : borrower m <> Some [];
  wf_fields : Forall clean_cell (fields (info m));
}.

(** The section a state of the specification's parser can be in: a cluster
    id is a non-empty run of digits. *)
Definition wf_section (sec : section) : Prop :=
  match sec with
  | SecCluster id => id <> [] /\ forallb is_digit id = true
  | _ => True
  end.

Lemma spec_step_wf sec line sec' : wf_section sec -> spec_step sec line = Some sec' -> wf_section sec'.
Proof.
  intros W. unfold spec_step. repeat (destr_goal; try done); intros [= <-]; try done.
  destruct (cluster_id line) as [id|] eqn:C; [|done]. by apply cluster_id_digits in C.
Qed.

Lemma spec_build_fields sec line r :
  spec_build sec (cells VBAR line) = Some r ->
  Forall clean_cell (fields r) /\ status r <> []
  /\ (nce_id r = None <-> cluster r = None) /\ (forall id, cluster r = Some id -> sec = SecCluster id).
Proof.
  unfold spec_build. destruct sec; try done; destr_goal; try done; intros [= <-];
    bool_prop; cbn [fields vendor type revision name baseos_version status borrow_uptime
                    git_branch last_connection comment nce_id cluster];
    (split; [repeat constructor; apply cells_get_clean|]);
    (split; [apply cells_get_nonempty; lia|]); split; try done; by intros ? [= ->].
Qed.

Lemma spec_row_wf sec line m : wf_section sec -> spec_row sec line = Some m -> wf_machine m.
Proof.
  intros W. unfold spec_row. destruct (_ && _); [|done].
  destruct (spec_build sec _) as [r|] eqn:B; [|done]. cbn [mbind option_bind]. unfold finish.
  destruct (truthy (name r)) eqn:T; [|done]. destruct (str_eqb (name r) s_wbox_name) eqn:E; [done|].
  intros [= <-]. destruct (spec_build_fields _ _ _ B) as (F & S & O & C).
  constructor; cbn [info state borrower]; try done.
  - split; [by destruct (name r)|]. by apply bool_decide_eq_false in E.
  - intros id ->%C. exact W.
  - by destruct (classify (status r)).
  - apply classify_borrower_iff.
  - by apply classify_borrower_nonempty.
Qed.

Lemma spec_parse_wf sec lines : wf_section sec -> Forall wf_machine (spec_parse sec lines).
Proof.
  revert sec. induction lines as [|line rest IH]; intros sec W; cbn [spec_parse]; [done|].
  destruct (spec_step sec line) as [sec'|] eqn:S; [by eapply IH, spec_step_wf|].
  destruct (spec_row sec line) as [m|] eqn:R; [|by apply IH].
  constructor; [by eapply spec_row_wf|by apply IH].
Qed.

(** C2: every record the parser returns is well formed: it has a name that
    is not the header's, a status, a state and a borrower that are the
    classification of that status, a borrower exactly when the state is
    [borrowed], a cluster (a non-empty run of digits) exactly when it has an
    [nce_id], and stripped, separator-free cells. *)
Theorem parse_machine_table_wf output machines :
  parse_machine_table output = Ok machines -> Forall wf_machine machines.
Proof.
  rewrite parse_machine_table_spec. intros [= <-]. by apply spec_parse_wf.
Qed.

Lemma parse_machine_table_wf_witness :
  Forall wf_machine
    [ {| info := {| nce_id := None; vendor := u "acme"; type := u "x86"; revision := u "r1";
                    name := u "wbox1"; baseos_version := u "1.2"; status := u "john (deploy)";
                    borrow_uptime := []; git_branch := []; last_connection := [];
                    comment := []; cluster := None |};
         state := borrowed; borrower := Some (u "john") |} ].
Proof.
  apply (parse_machine_table_wf
           (join NL [u "Stand alone";
                     VBAR ++ u " acme " ++ VBAR ++ u " x86 " ++ VBAR ++ u " r1 " ++ VBAR
                     ++ u " wbox1 " ++ VBAR ++ u " 1.2 " ++ VBAR ++ u " john (deploy) " ++ VBAR])).
  by vm_compute.
Defined.

Lemma parse_lines_wf lines machines :
  parse_lines init_state lines = Ok machines -> Forall wf_machine machines.
Proof.
  rewrite (parse_lines_spec _ SecNone) by done. intros [= <-]. by apply spec_parse_wf.
Qed.

(** ** ANSI stripping *)

Definition ESC : char := 0x1B%N.

Lemma strip_ansi_unfold text :
  strip_ansi text = match search ansi_pattern text with
                    | None => text
                    | Some (b, _, t) => b ++ strip_ansi t
                    end.
Proof. unfold strip_ansi. rewrite (sub_unfold _ ansi_productive) at 1. done. Qed.

Lemma ansi_prefix_head s : is_Some (ansi_prefix s) -> exists r, s = ESC :: r.
Proof.
  intros [t (ps & -> & _)%ansi_prefix_Some]. by eexists.
Qed.

Lemma match_at_ansi_None s : ~ (exists r, s = ESC :: r) -> match_at ansi_pattern s = None.
Proof.
  intros H. rewrite ansi_match_spec. destruct (ansi_prefix s) eqn:E; [|done].
  destruct H. apply ansi_prefix_head. by rewrite E.
Qed.

Lemma search_ansi_plain s : Forall (fun c => c <> ESC) s -> search ansi_pattern s = None.
Proof.
  induction 1 as [|c s Hc _ IH]; cbn [search].
  - by rewrite match_at_ansi_None by (by intros [? ?]).
  - rewrite match_at_ansi_None by (intros [? [= -> _]]; done). by rewrite IH.
Qed.

(** A text without the escape character is returned as it is. *)
Theorem strip_ansi_plain text :
  Forall (fun c => c <> ESC) text -> strip_ansi text = text.
Proof. intros H. by rewrite strip_ansi_unfold, search_ansi_plain. Qed.

Lemma strip_ansi_plain_witness : strip_ansi (u "wbox1 Available") = u "wbox1 Available".
Proof. apply strip_ansi_plain, avoids_sound. by vm_compute. Defined.

(** [erased s o]: [o] is [s] with some SGR sequences deleted, every other
    character kept in its place. *)
Inductive erased : str -> str -> Prop :=
| erased_nil : erased [] []
| erased_keep c s o : erased s o -> erased (c :: s) (c :: o)
| erased_seq ps s o :
    forallb is_sgr_param ps = true ->
    erased s o -> erased ([ESC; 0x5B%N] ++ ps ++ [0x6D%N] ++ s) o.

Lemma erased_refl s : erased s s.
Proof. induction s; by constructor. Qed.

Lemma erased_app_keep b s o : erased s o -> erased (b ++ s) (b ++ o).
Proof. intros. induction b; simpl; [done|by constructor]. Qed.

Lemma search_ansi_Some s b g t :
  search ansi_pattern s = Some (b, g, t) ->
  exists ps, s = b ++ [ESC; 0x5B%N] ++ ps ++ [0x6D%N] ++ t /\ forallb is_sgr_param ps = true.
Proof.
  intros [M B]%search_Some. rewrite ansi_match_spec in M.
  destruct (ansi_prefix _) as [t'|] eqn:E; [|done]. injection M as _ <-.
  apply ansi_prefix_Some in E as (ps & E & Hps). exists ps. split; [|done].
  rewrite <- E, B at 1. by rewrite take_drop.
Qed.

(** The normalizer deletes SGR sequences and nothing else: its output is
    the input with some sequences ESC [ params m removed, all other
    characters, line breaks included, kept in order. *)
Theorem strip_ansi_erases text : erased text (strip_ansi text).
Proof.
  induction text as [text IH] using length_ind. rewrite strip_ansi_unfold.
  destruct (search ansi_pattern text) as [[[b g] t]|] eqn:S; [|apply erased_refl].
  pose proof (search_shrinks _ ansi_productive _ _ _ _ S) as L.
  apply search_ansi_Some in S as (ps & -> & Hps).
  apply erased_app_keep, erased_seq; [done|by apply IH].
Qed.


Lemma Forall_not_ESC_app a b :
  Forall (fun c => c <> ESC) a -> Forall (fun c => c <> ESC) b -> Forall (fun c => c <> ESC) (a ++ b).
Proof. intros. by apply Forall_app. Qed.

(** Every escape character of [s] starts an SGR sequence. *)
Definition sgr_only (s : str) : Prop :=
  forall a b, s = a ++ ESC :: b -> is_Some (ansi_prefix (ESC :: b)).

(** The same, as a test. *)
Fixpoint sgr_only_b (s : str) : bool :=
  match s with
  | [] => true
  | c :: r => (negb (c =? ESC)%N || bool_decide (is_Some (ansi_prefix s))) && sgr_only_b r
  end.

Lemma sgr_only_b_sound s : sgr_only_b s = true -> sgr_only s.
Proof.
  induction s as [|c r IH]; intros H a b E; [by destruct a|].
  cbn [sgr_only_b] in H. apply andb_true_iff in H as [H1 H2].
  destruct a as [|x a]; simplify_eq/=; [|by eapply IH].
  by apply bool_decide_eq_true in H1.
Qed.

Lemma sgr_only_suffix a s : sgr_only (a ++ s) -> sgr_only s.
Proof. intros H x y ->. apply (H (a ++ x) y). by rewrite <- app_assoc. Qed.

Lemma search_skips_plain s b g t :
  sgr_only s -> search ansi_pattern s = Some (b, g, t) -> Forall (fun c => c <> ESC) b.
Proof.
  intros W Hs. apply List.Forall_forall. intros c Hc%list_elem_of_In ->.
  apply list_elem_of_lookup in Hc as [i Hi].
  pose proof (lookup_lt_Some _ _ _ Hi) as Li.
  pose proof (search_leftmost _ _ _ _ _ i Hs Li) as M.
  destruct (search_Some _ _ _ _ _ Hs) as [_ B]. rewrite B in Hi.
  apply lookup_take_Some in Hi as [Hi _].
  destruct (W (take i s) (drop (S i) s)) as [t' E].
  { by rewrite <- (drop_S _ _ _ Hi), take_drop. }
  rewrite (drop_S _ _ _ Hi), ansi_match_spec, E in M. done.
Qed.

(** When every escape character of the input starts an SGR sequence,
    the output contains no escape character at all. *)
Theorem strip_ansi_clean text :
  sgr_only text -> Forall (fun c => c <> ESC) (strip_ansi text).
Proof.
  induction text as [text IH] using length_ind. intros W. rewrite strip_ansi_unfold.
  destruct (search ansi_pattern text) as [[[b g] t]|] eqn:S.
  - pose proof (search_shrinks _ ansi_productive _ _ _ _ S) as L.
    apply Forall_not_ESC_app; [by eapply search_skips_plain|]. apply IH; [done|].
    apply search_ansi_Some in S as (ps & E & _). rewrite E in W.
    apply sgr_only_suffix in W. apply (sgr_only_suffix ([ESC; 91%N] ++ ps ++ [109%N])).
    by rewrite <- !app_assoc.
  - apply List.Forall_forall. intros c Hc%list_elem_of_In ->.
    apply list_elem_of_split in Hc as (a & b & E).
    destruct (W a b E) as [t' Ht]. pose proof (search_None _ _ (length a) S) as M.
    rewrite E, drop_app_length, ansi_match_spec, Ht in M. done.
Qed.

Lemma strip_ansi_clean_witness :
  Forall (fun c => c <> ESC)
    (strip_ansi ([ESC; 0x5B; 0x33; 0x31; 0x6D] ++ u "red" ++ [ESC; 0x5B; 0x30; 0x6D])%N).
Proof. apply strip_ansi_clean, sgr_only_b_sound. by vm_compute. Defined.

(** ** The status classifier *)

(** The rules of the specification: the first predicate the lower-cased
    status satisfies decides the state. *)
Definition rules : list ((str -> bool) * mstate) :=
  [ (contains (u "available"), available);
    (contains (u "no ping"), offline);
    (contains (u "no ssh"), no_ssh);
    (contains (u "no cheetah"), no_cheetah);
    (fun s => contains (u "deploy") s && negb (contains (u "(") s), deployed) ].

Fixpoint first_rule (rs : list ((str -> bool) * mstate)) (s : str) : option mstate :=
  match rs with
  | [] => None
  | (p, st) :: rest => if p s then Some st else first_rule rest s
  end.

(** C28: the chain of tests is the ordered rule list of the specification,
    evaluated top to bottom on the lower-cased status, with [borrowed] as the
    outcome when no rule applies; a borrower is reported in that case only. *)
Theorem classify_rules status :
  (classify status).1 = default borrowed (first_rule rules (lower status))
  /\ ((classify status).2 = None <-> is_Some (first_rule rules (lower status))).
Proof.
  unfold classify, rules. cbn [first_rule].
  repeat (destr_goal; cbn [fst snd default]); (split; [done|]); split; try done;
    by intros [? ?].
Qed.

(** The state depends on the status up to case only. *)
Lemma classify_case_insensitive status :
  (classify (lower status)).1 = (classify status).1.
Proof. unfold classify. rewrite lower_idem. by repeat destr_goal. Qed.

(** The four markers that take precedence over a borrower's name. *)
Definition marker_free (s : str) : bool :=
  negb (contains (u "available") s) && negb (contains (u "no ping") s)
  && negb (contains (u "no ssh") s) && negb (contains (u "no cheetah") s).

Lemma contains_paren_In n : contains (u "(") n = false -> ~ In 0x28%N n.
Proof.
  intros H Hin. apply in_split in Hin as (a & b & ->).
  exact (eq_true_false_abs _ (contains_app [0x28%N] a b) H).
Qed.

Lemma replace_deploy_suffix n :
  contains (u "(") n = false ->
  replace s_deploy_paren [] (n ++ u " (deploy)") = n ++ u " ".
Proof.
  intros H. unfold replace.
  change (n ++ u " (deploy)") with (n ++ u " " ++ s_deploy_paren ++ []).
  rewrite app_assoc. unfold s_deploy_paren at 1 2. rewrite split_cons_fresh.
  - cbn [join]. by rewrite !app_nil_r.
  - intros [Hin|[Hin|[]]]%in_app_iff; [by apply contains_paren_In in H|done].
Qed.

(** A status of the form "<name> (deploy)", where the name has no
    parenthesis and no marker applies, is classified as [borrowed] with the
    stripped name as the borrower. *)
Theorem classify_deploy_suffix n :
  contains (u "(") n = false ->
  strip n <> [] ->
  marker_free (lower (n ++ u " (deploy)")) = true ->
  classify (n ++ u " (deploy)") = (borrowed, Some (strip n)).
Proof.
  intros Hp Hn Hm. unfold marker_free in Hm.
  repeat (apply andb_true_iff in Hm as [Hm ?]). bool_prop.
  unfold classify.
  repeat match goal with H : contains ?m ?s = false |- context [contains ?m ?s] => rewrite H end.
  assert (contains (u "(") (lower (n ++ u " (deploy)")) = true) as ->.
  { rewrite lower_app. by apply contains_app_r. }
  rewrite andb_false_r, replace_deploy_suffix by done.
  rewrite strip_app_blank by done. by destruct (strip n).
Qed.

Lemma classify_deploy_suffix_witness :
  classify (u "john" ++ u " (deploy)") = (borrowed, Some (strip (u "john"))).
Proof. by apply classify_deploy_suffix. Defined.

(** The examples of the specification: "Available" is [available] with
    no borrower, "deploy" is [deployed], "(deploy)" alone falls to the
    borrower rule and keeps the raw status as the borrower. *)
Theorem classify_examples :
  classify (u "Available") = (available, None)
  /\ classify (u "john (deploy)") = (borrowed, Some (u "john"))
  /\ classify (u "deploy") = (deployed, None)
  /\ classify (u "(deploy)") = (borrowed, Some (u "(deploy)"))
  /\ classify (u "No Ping (deploy)") = (offline, None).
Proof. by vm_compute. Qed.

(** ** The summary *)

(** The invariant of a summary: counts are not negative and free is at most
    total. *)
Definition summary_ok (s : summary) : Prop :=
  (0 <= free s <= total s)%Z /\ (0 <= taken s)%Z /\ (0 <= taken_not_used s)%Z.

Lemma ints_of_length parts vals : ints_of parts = Ok vals -> length vals = length parts.
Proof.
  revert vals. induction parts as [|p r IH]; intros vals; cbn [ints_of]; [by intros [= <-]|].
  destruct (int_of_str p); [|done]. destruct (ints_of r) as [vs|]; [|done].
  intros [= <-]. cbn [length]. f_equal. by apply IH.
Qed.

Lemma summary_of_line_ok line s : summary_of_line line = Some s -> summary_ok s.
Proof.
  unfold summary_of_line. destruct (_ && _); [|done].
  destruct (Nat.eqb_spec (length (filter_b truthy (map strip (split DVBAR line)))) 4)
    as [L|]; [|done].
  destruct (ints_of _) as [vals|] eqn:E; [|done].
  apply ints_of_length in E. rewrite L in E.
  destruct vals as [|a [|b [|c [|d [|]]]]]; try done.
  cbn [forallb get_or nth]. destruct (_ && _) eqn:H; [|done]. intros [= <-].
  repeat (apply andb_true_iff in H as [H ?]). unfold summary_ok; cbn. lia.
Qed.

Lemma scan_summary_ok lines : summary_ok (scan_summary lines).
Proof.
  induction lines as [|line rest IH]; cbn [scan_summary]; [by unfold summary_ok; cbn|].
  destruct (summary_of_line line) eqn:E; [by eapply summary_of_line_ok|done].
Qed.

(** Whatever the tool printed, the summary that is returned has
    non-negative counts and a total that is at least the free count. *)
Theorem parse_summary_ok output : summary_ok (parse_summary output).
Proof. apply scan_summary_ok. Qed.

Lemma scan_summary_first pre line post s :
  Forall (fun l => summary_of_line l = None) pre ->
  summary_of_line line = Some s ->
  scan_summary (pre ++ line :: post) = s.
Proof.
  intros F H. induction F as [|l pre Hl _ IH]; cbn [app scan_summary]; [by rewrite H|].
  by rewrite Hl.
Qed.

Lemma scan_summary_none lines :
  Forall (fun l => summary_of_line l = None) lines -> scan_summary lines = summary_zero.
Proof. induction 1 as [|l ls Hl _ IH]; cbn [scan_summary]; [done|by rewrite Hl]. Qed.

(** A line of plain text: no escape character and no line break. *)
Definition plain_line (l : str) : Prop := Forall (fun c => c <> ESC) l /\ ~ In 0x0A%N l.

Definition plain_line_b (l : str) : bool := avoids ESC l && avoids 0x0A%N l.

Lemma plain_line_sound l : plain_line_b l = true -> plain_line l.
Proof.
  intros [H1 H2]%andb_true_iff. split; [by apply avoids_sound|by apply avoids_not_In].
Qed.

Lemma plain_lines_sound ls : forallb plain_line_b ls = true -> Forall plain_line ls.
Proof.
  rewrite forallb_forall. intros H. apply List.Forall_forall. intros l Hl.
  by apply plain_line_sound, H.
Qed.

Lemma parse_summary_lines lines :
  lines <> [] -> Forall plain_line lines ->
  parse_summary (join NL lines) = scan_summary lines.
Proof.
  intros Hne F. unfold parse_summary. rewrite strip_ansi_unfold, search_ansi_plain.
  - unfold NL. rewrite split_join_char; [done|done|].
    eapply List.Forall_impl; [|exact F]. by intros l [_ ?].
  - clear Hne. induction F as [|l ls [Hl _] _ IH]; [done|]. destruct ls as [|l' ls]; [done|].
    rewrite join_cons by done. apply Forall_app. split; [done|].
    apply Forall_app. split; [by repeat constructor|done].
Qed.

(** First match wins.  The summary is read from the first line that has
    the shape of a summary row; the lines before it that do not have it are
    skipped, the lines after it are not looked at.  When no line has the
    shape, the summary is all zeros. *)
Theorem parse_summary_first pre line post s :
  Forall plain_line (pre ++ line :: post) ->
  Forall (fun l => summary_of_line l = None) pre ->
  summary_of_line line = Some s ->
  parse_summary (join NL (pre ++ line :: post)) = s.
Proof.
  intros P F H. rewrite parse_summary_lines; [by apply scan_summary_first| |done].
  by destruct pre.
Qed.

(** The example of the specification, with the double bar as the source
    spells it: the candidate whose free count exceeds its total is skipped,
    the next one is taken. *)
Definition summary_row (a b c d : str) : str :=
  DVBAR ++ u " " ++ a ++ u " " ++ DVBAR ++ u " " ++ b ++ u " " ++ DVBAR
  ++ u " " ++ c ++ u " " ++ DVBAR ++ u " " ++ d ++ u " " ++ DVBAR.

Lemma parse_summary_first_witness :
  parse_summary (join NL ([u "Total Free Taken"; summary_row (u "3") (u "10") (u "0") (u "0")]
                          ++ summary_row (u "10") (u "3") (u "7") (u "2")
                          :: [summary_row (u "1") (u "1") (u "0") (u "0")]))
  = {| total := 10; free := 3; taken := 7; taken_not_used := 2 |}.
Proof.
  apply parse_summary_first.
  - apply plain_lines_sound. by vm_compute.
  - repeat (constructor; [by vm_compute|]). constructor.
  - by vm_compute.
Defined.

Lemma summary_of_line_unbarred line : contains DVBAR line = false -> summary_of_line line = None.
Proof. intros H. unfold summary_of_line. by rewrite H. Qed.

(** ** The separators of the source *)

Lemma spec_parse_unbarred sec lines :
  Forall (fun l => contains VBAR l = false) lines -> spec_parse sec lines = [].
Proof.
  intros F. revert sec. induction F as [|l ls Hl _ IH]; intros sec; cbn [spec_parse]; [done|].
  destruct (spec_step sec l); [apply IH|]. unfold spec_row. rewrite Hl. apply IH.
Qed.

Lemma clean_lines_of (P : N -> Prop) output :
  Forall P output -> Forall (Forall P) (split NL (strip_ansi output)).
Proof.
  intros H. apply split_Forall; [done|].
  eapply sublist_Forall; [apply (sub_empty_sublist _ ansi_productive)|done].
Qed.

Lemma no_quote_unbarred bar l :
  Forall (fun c => c <> 0x201A%N) l -> contains (0x201A%N :: bar) l = false.
Proof.
  intros H. apply contains_head_absent. intros Hin.
  rewrite List.Forall_forall in H. by apply H in Hin.
Qed.

(** C31: the separators the parser searches for are the three-code-point
    strings the source file spells (U+201A U+00EE U+00C7 for the bar of a
    row, U+201A U+00EF U+00EB for the bar of the summary), not the
    box-drawing characters.  On every output that has no U+201A, tables
    drawn with box-drawing characters among them, the parser returns no
    record and the summary is all zeros. *)
Theorem separators_never_match output :
  Forall (fun c => c <> 0x201A%N) output ->
  parse_machine_table output = Ok [] /\ parse_summary output = summary_zero.
Proof.
  intros H%clean_lines_of. split.
  - rewrite parse_machine_table_spec. f_equal. apply spec_parse_unbarred.
    eapply List.Forall_impl; [|exact H]. intros l. apply no_quote_unbarred.
  - apply scan_summary_none. eapply List.Forall_impl; [|exact H].
    intros l Hl. apply summary_of_line_unbarred. by apply no_quote_unbarred.
Qed.

Lemma separators_never_match_witness :
  let output := join NL [u "Stand alone";
                         u "│ acme │ x86 │ r1 │ wbox1 │ 1.2 │ Available │ 1d │ main │ now │ ok │";
                         u "║ 10 ║ 3 ║ 7 ║ 2 ║"] in
  parse_machine_table output = Ok [] /\ parse_summary output = summary_zero.
Proof. apply separators_never_match, avoids_sound. by vm_compute. Defined.


(** ** Running the tool, and the handlers *)

Section HandlerFacts.
Context (executable pyborrow_path : str).
Context (subprocess_run : list str -> proc_outcome).

Abbreviation run := (run_pyborrow executable pyborrow_path subprocess_run).
Abbreviation cmd := (pyborrow_cmd executable pyborrow_path).

(** What a handler sees of the subprocess: a timeout or a failure to start
    is an empty output with exit code 1. *)
Definition observed (o : proc_outcome) : str * str * Z :=
  match o with
  | Completed stdout stderr returncode => (stdout, stderr, returncode)
  | TimeoutExpired => ([], u "Command timed out", 1%Z)
  | OtherException msg => ([], msg, 1%Z)
  end.

Lemma run_pyborrow_observed args : run args = observed (subprocess_run (cmd args)).
Proof. done. Qed.

Lemma in_args_cons x y args : in_args x (y :: args) = str_eqb x y || in_args x args.
Proof. done. Qed.

(** The quiet flag is appended exactly when the arguments hold one of the
    four borrow and free flags; the command is the interpreter, the script,
    the arguments, and then the flag. *)
Lemma pyborrow_cmd_quiet args :
  cmd args
  = [executable; pyborrow_path] ++ default [] args
    ++ (if existsb (fun a => in_args a (default [] args))
             [u "-b"; u "-f"; u "--borrow"; u "--free"]
        then [u "-q"] else []).
Proof.
  unfold pyborrow_cmd. cbn [existsb]. rewrite orb_false_r, !orb_assoc.
  destruct (_ || _); by rewrite <- ?app_assoc, ?app_nil_r.
Qed.

Lemma in_args_head x args : in_args x (x :: args) = true.
Proof. unfold in_args, str_eqb. cbn [existsb]. by rewrite bool_decide_eq_true_2. Qed.

Lemma cmd_borrow machine_name :
  cmd (Some [u "-b"; machine_name]) = [executable; pyborrow_path; u "-b"; machine_name; u "-q"].
Proof. unfold pyborrow_cmd. cbv zeta. cbn [default from_option id]. by rewrite in_args_head. Qed.

Lemma cmd_free machine_name :
  cmd (Some [u "-f"; machine_name]) = [executable; pyborrow_path; u "-f"; machine_name; u "-q"].
Proof. unfold pyborrow_cmd. cbv zeta. cbn [default from_option id]. by rewrite in_args_head, orb_true_r. Qed.

(** The listing handler never fails.  It answers 500 with an error
    body exactly when the tool gave a non-zero exit code and no output (a
    timeout included); otherwise it answers 200 with well-formed records,
    their number as the count, and a summary that satisfies its invariant. *)
Theorem get_machines_response :
  exists body code,
    get_machines executable pyborrow_path subprocess_run = Ok (body, code) /\
    let '(stdout, stderr, rc) := observed (subprocess_run (cmd None)) in
    if negb (rc =? 0)%Z && negb (truthy stdout)
    then code = 500%Z /\ body = MachinesError (u "Failed to fetch machines: " ++ stderr)
    else code = 200%Z /\ exists machines,
           body = MachinesList machines (parse_summary stdout) (length machines)
           /\ parse_machine_table stdout = Ok machines
           /\ Forall wf_machine machines /\ summary_ok (parse_summary stdout).
Proof.
  unfold get_machines. rewrite run_pyborrow_observed.
  destruct (observed _) as [[stdout stderr] rc].
  destruct (negb (rc =? 0)%Z && negb (truthy stdout)).
  { eexists _, _. split; [reflexivity|]. split; reflexivity. }
  destruct (parse_lines_is_Ok init_state (split NL (strip_ansi stdout))) as [ms E].
  unfold parse_machine_table. rewrite E.
  eexists _, _. split; [reflexivity|]. split; [reflexivity|]. exists ms.
  split; [reflexivity|]. split; [done|].
  split; [by eapply parse_lines_wf|apply scan_summary_ok].
Qed.

(** The outcome of a borrow or free request. *)
Definition action_ok (keyword : str) (o : proc_outcome) : bool :=
  let '(stdout, _, rc) := observed o in
  (rc =? 0)%Z || contains keyword (lower (strip_ansi stdout)).

(** Borrowing and freeing succeed (status 200, no error field) exactly
    when the tool exits with code 0 or its stripped output mentions the
    keyword in any case; otherwise the answer is 400 with the stripped
    standard error.  The tool is run with the flag, the machine name and
    the quiet flag, in this order. *)
Theorem action_handlers_response machine_name :
  let b := borrow_machine executable pyborrow_path subprocess_run machine_name in
  let f := free_machine executable pyborrow_path subprocess_run machine_name in
  let out_b := subprocess_run [executable; pyborrow_path; u "-b"; machine_name; u "-q"] in
  let out_f := subprocess_run [executable; pyborrow_path; u "-f"; machine_name; u "-q"] in
  success b.1 = action_ok (u "borrowed") out_b
  /\ success f.1 = action_ok (u "freed") out_f
  /\ b.2 = (if action_ok (u "borrowed") out_b then 200 else 400)%Z
  /\ f.2 = (if action_ok (u "freed") out_f then 200 else 400)%Z
  /\ error b.1 = (if action_ok (u "borrowed") out_b then None
                  else Some (strip_ansi (observed out_b).1.2))
  /\ output b.1 = strip_ansi (observed out_b).1.1
  /\ output f.1 = strip_ansi (observed out_f).1.1.
Proof.
  cbv zeta. unfold borrow_machine, free_machine, action_ok.
  rewrite !run_pyborrow_observed, cmd_borrow, cmd_free.
  destruct (observed (subprocess_run [_; _; u "-b"; _; _])) as [[o1 e1] c1].
  destruct (observed (subprocess_run [_; _; u "-f"; _; _])) as [[o2 e2] c2].
  destruct (_ || _); destruct (_ || _); done.
Qed.

(** A request whose subprocess times out fails with status 400 and the
    message of the timeout as its error; nothing is parsed. *)
Theorem borrow_timeout machine_name :
  subprocess_run [executable; pyborrow_path; u "-b"; machine_name; u "-q"] = TimeoutExpired ->
  borrow_machine executable pyborrow_path subprocess_run machine_name
  = ({| success := false; message := u "Failed to borrow " ++ machine_name;
        output := []; error := Some (u "Command timed out") |}, 400%Z).
Proof.
  intros H. unfold borrow_machine. rewrite run_pyborrow_observed, cmd_borrow, H. done.
Qed.
End HandlerFacts.

Lemma borrow_timeout_witness :
  borrow_machine (u "python3") (u "pyborrow.py") (fun _ => TimeoutExpired) (u "wbox1")
  = ({| success := false; message := u "Failed to borrow " ++ u "wbox1";
        output := []; error := Some (u "Command timed out") |}, 400%Z).
Proof. by apply borrow_timeout. Defined.
