(* ===== verification/DiarySync.v ===== *)
(** * DiarySync: git and the synchronisation of [src/diary/app.py]

    The diary keeps its entries in a git repository and synchronises it with
    a remote: once every [SYNC_INTERVAL] seconds in a background thread, after
    every change in a thread started by the handler, and on request.

    - [run_git_command] is one git command: its outcome as the pair of the
      source, and the command added to the log.
    - [sync_state] is the module-level dictionary of that name; [gstate]
      pairs it with the log of the git commands run.
    - [ensure_remote_configured] and [sync_with_remote] are the functions of
      the source, run without interruption.
    - A call of [sync_with_remote] in a thread is a program counter [pc]: one
      constructor for each access to the shared dictionary and each git
      command, with the local variables [success] and [output] it holds.
      [thread_step] is one atomic action; [sys_step] interleaves the threads
      of a [sys].

    The theorems show: a thread that runs alone takes at most [sync_fuel]
    steps and computes [sync_with_remote]; what a call leaves in the
    dictionary; which commands it runs, in which order; that the flag
    [syncing] is never left set when no thread is synchronising; that it
    does not keep two threads from synchronising at once; that every
    action lowers the [rank] of its thread, so that the calls end under
    every interleaving; and that a thread which is given its turns returns,
    whatever the others do. *)

From Stdlib Require Import Ascii String.
From stdpp Require Import base tactics option list numbers relations.
From S2P Require Import Prelude PyStr Subprocess.

(** ** Literals of the source *)

Definition s_git : str := Eval vm_compute in u "git".
Definition s_origin : str := Eval vm_compute in u "origin".
Definition s_no_read : str := Eval vm_compute in u "Could not read from remote".
Definition s_timed_out : str := Eval vm_compute in u "Git command timed out".
Definition s_in_progress : str := Eval vm_compute in u "Sync already in progress".
Definition s_local_only : str := Eval vm_compute in u "No remote configured - local only mode".
Definition s_complete : str := Eval vm_compute in u "Sync complete".
Definition s_pull_failed : str := Eval vm_compute in u "Pull failed: ".
Definition s_push_failed : str := Eval vm_compute in u "Push failed: ".

Definition cmd_get_url : command := Eval vm_compute in [u "remote"; u "get-url"; u "origin"].
Definition cmd_set_url (url : str) : command := [u "remote"; u "set-url"; u "origin"; url].
Definition cmd_add_remote (url : str) : command := [u "remote"; u "add"; u "origin"; url].
Definition cmd_remote_v : command := Eval vm_compute in [u "remote"; u "-v"].
Definition cmd_pull_main : command :=
  Eval vm_compute in [u "pull"; u "--rebase"; u "origin"; u "main"].
Definition cmd_pull_master : command :=
  Eval vm_compute in [u "pull"; u "--rebase"; u "origin"; u "master"].
Definition cmd_push : command := Eval vm_compute in [u "push"; u "origin"; u "HEAD"].

Arguments s_git : simpl never.
Arguments s_origin : simpl never.
Arguments s_no_read : simpl never.
Arguments s_timed_out : simpl never.
Arguments s_in_progress : simpl never.
Arguments s_local_only : simpl never.
Arguments s_complete : simpl never.
Arguments s_pull_failed : simpl never.
Arguments s_push_failed : simpl never.
Arguments cmd_get_url : simpl never.
Arguments cmd_remote_v : simpl never.
Arguments cmd_pull_main : simpl never.
Arguments cmd_pull_master : simpl never.
Arguments cmd_push : simpl never.

(** ** The shared state *)

(** The dictionary [sync_state]. *)
Record sync_state : Type := {
  last_sync : option str;
  last_error : option str;
  syncing : bool;
}.

Definition sync_state_init : sync_state :=
  {| last_sync := None; last_error := None; syncing := false |}.

(** The dictionary and the git commands run so far. *)
Record gstate : Type := {
  sync : sync_state;
  log : list command;
}.

Definition set_syncing (b : bool) (g : gstate) : gstate :=
  {| sync := {| last_sync := last_sync (sync g); last_error := last_error (sync g);
                syncing := b |};
     log := log g |}.

Definition set_last_error (e : option str) (g : gstate) : gstate :=
  {| sync := {| last_sync := last_sync (sync g); last_error := e;
                syncing := syncing (sync g) |};
     log := log g |}.

Definition set_last_sync (t : option str) (g : gstate) : gstate :=
  {| sync := {| last_sync := t; last_error := last_error (sync g);
                syncing := syncing (sync g) |};
     log := log g |}.

(** The test [not success and 'Could not read from remote' not in output]. *)
Definition reportable (success : bool) (output : str) : bool :=
  negb success && negb (contains s_no_read output).

(** The test [not success or 'origin' not in output]. *)
Definition no_remote (success : bool) (output : str) : bool :=
  negb success || negb (contains s_origin output).

Section Git.
(** The operating system and the value of [DIARY_REMOTE_URL]. *)
Context (os : oracle) (DIARY_REMOTE_URL : str).

(** ** Git commands *)

Definition run_git_command (args : command) (lg : list command)
  : (bool * str) * list command :=
  let '(o, lg') := run_cmd os (s_git :: args) lg in
  (match o with
   | Completed stdout stderr returncode => ((returncode =? 0)%Z, stdout ++ stderr)
   | TimeoutExpired => (false, s_timed_out)
   | OtherException msg => (false, msg)
   end, lg').

(** A git command on the shared state. *)
Definition git (args : command) (g : gstate) : (bool * str) * gstate :=
  let '(r, lg) := run_git_command args (log g) in
  (r, {| sync := sync g; log := lg |}).

(** The command that repairs the remote after [get-url] answered. *)
Definition fix_remote (success : bool) (output : str) : option command :=
  if success then
    if negb (str_eqb (strip output) DIARY_REMOTE_URL)
    then Some (cmd_set_url DIARY_REMOTE_URL) else None
  else Some (cmd_add_remote DIARY_REMOTE_URL).

Definition ensure_remote_configured (g : gstate) : gstate :=
  if negb (truthy DIARY_REMOTE_URL) then g
  else
    let '((success, output), g) := git cmd_get_url g in
    match fix_remote success output with
    | Some c => (git c g).2
    | None => g
    end.

(** ** Synchronisation, run without interruption *)

Definition sync_with_remote (now : str) (g : gstate) : (bool * str) * gstate :=
  if syncing (sync g) then ((false, s_in_progress), g)
  else
    let g := set_syncing true g in
    let g := ensure_remote_configured g in
    let '((success, output), g) := git cmd_remote_v g in
    if no_remote success output then
      let g := set_syncing false g in
      ((true, s_local_only), set_syncing false g)
    else
      let '((success, output), g) := git cmd_pull_main g in
      let '((success, output), g) :=
        if negb success then git cmd_pull_master g else ((success, output), g) in
      let g := if reportable success output
               then set_last_error (Some (s_pull_failed ++ output)) g else g in
      let '((success, output), g) := git cmd_push g in
      let g := if reportable success output
               then set_last_error (Some (s_push_failed ++ output)) g else g in
      let g := set_last_sync (Some now) g in
      let g := set_last_error None g in
      ((true, s_complete), set_syncing false g).

(** The answer of [POST /api/sync]. *)
Record sync_body : Type := {
  sb_success : bool;
  sb_message : str;
  sb_sync_state : sync_state;
}.

Definition api_sync (now : str) (g : gstate) : sync_body * gstate :=
  let '((success, message), g) := sync_with_remote now g in
  ({| sb_success := success; sb_message := message; sb_sync_state := sync g |}, g).

Definition api_status (g : gstate) : sync_state := sync g.

(** ** Synchronisation, one action at a time *)

(** Where a thread is in [sync_with_remote]: the next access to the shared
    state, with the locals it depends on. *)
Inductive pc : Type :=
| Guard
| SetFlag
| GetUrl
| FixRemote (c : command)
| RemoteV
| ClearFlagEarly
| PullMain
| PullMaster
| PullError (output : str)
| Push
| PushError (output : str)
| StampSync
| ClearError
| Finally (r : bool * str)
| Done (r : bool * str).

(** After a pull has answered. *)
Definition after_pull (success : bool) (output : str) : pc :=
  if reportable success output then PullError output else Push.

Definition thread_step (now : str) (p : pc) (g : gstate) : option (pc * gstate) :=
  match p with
  | Guard =>
      Some (if syncing (sync g) then Done (false, s_in_progress) else SetFlag, g)
  | SetFlag =>
      Some (if negb (truthy DIARY_REMOTE_URL) then RemoteV else GetUrl,
            set_syncing true g)
  | GetUrl =>
      let '((success, output), g) := git cmd_get_url g in
      Some (match fix_remote success output with
            | Some c => FixRemote c
            | None => RemoteV
            end, g)
  | FixRemote c => Some (RemoteV, (git c g).2)
  | RemoteV =>
      let '((success, output), g) := git cmd_remote_v g in
      Some (if no_remote success output then ClearFlagEarly else PullMain, g)
  | ClearFlagEarly => Some (Finally (true, s_local_only), set_syncing false g)
  | PullMain =>
      let '((success, output), g) := git cmd_pull_main g in
      Some (if negb success then PullMaster else after_pull success output, g)
  | PullMaster =>
      let '((success, output), g) := git cmd_pull_master g in
      Some (after_pull success output, g)
  | PullError output =>
      Some (Push, set_last_error (Some (s_pull_failed ++ output)) g)
  | Push =>
      let '((success, output), g) := git cmd_push g in
      Some (if reportable success output then PushError output else StampSync, g)
  | PushError output =>
      Some (StampSync, set_last_error (Some (s_push_failed ++ output)) g)
  | StampSync => Some (ClearError, set_last_sync (Some now) g)
  | ClearError => Some (Finally (true, s_complete), set_last_error None g)
  | Finally r => Some (Done r, set_syncing false g)
  | Done _ => None
  end.

(** A thread run alone for at most [n] actions. *)
Fixpoint run_thread (now : str) (n : nat) (p : pc) (g : gstate) : pc * gstate :=
  match n with
  | 0 => (p, g)
  | S n' =>
      match thread_step now p g with
      | Some (p', g') => run_thread now n' p' g'
      | None => (p, g)
      end
  end.

(** The longest path from [Guard] to [Done]. *)
Definition sync_fuel : nat := 13.

(** The threads of the process and what they share. *)
Record sys : Type := {
  shared : gstate;
  threads : list pc;
}.

(** One thread takes one action, or a handler (or the background loop)
    starts another call of [sync_with_remote]. *)
Inductive sys_step : sys -> sys -> Prop :=
| step_thread i now p p' g g' ts :
    ts !! i = Some p ->
    thread_step now p g = Some (p', g') ->
    sys_step {| shared := g; threads := ts |}
             {| shared := g'; threads := <[i := p']> ts |}
| step_spawn g ts :
    sys_step {| shared := g; threads := ts |}
             {| shared := g; threads := ts ++ [Guard] |}.

End Git.

(** ** Facts about the shared state *)

Section GitFacts.
Context (os : oracle) (URL : str).

Lemma run_git_command_log c lg : (run_git_command os c lg).2 = lg ++ [s_git :: c].
Proof. unfold run_git_command. by destruct (os lg (s_git :: c)). Qed.

Lemma git_sync c g : sync (git os c g).2 = sync g.
Proof. unfold git, run_git_command. by destruct (os (log g) (s_git :: c)). Qed.

Lemma git_log c g : log (git os c g).2 = log g ++ [s_git :: c].
Proof. unfold git, run_git_command. by destruct (os (log g) (s_git :: c)). Qed.

Lemma git_eq c g r g' : git os c g = (r, g') -> sync g' = sync g /\ log g' = log g ++ [s_git :: c].
Proof. intros E. by rewrite <-(git_sync c g), <-(git_log c g), E. Qed.

Lemma ensure_remote_sync g : sync (ensure_remote_configured os URL g) = sync g.
Proof.
  unfold ensure_remote_configured. destruct (negb (truthy URL)); [done|].
  destruct (git os cmd_get_url g) as [[s o] g1] eqn:E. apply git_eq in E as [E _].
  destruct (fix_remote URL s o); [by rewrite git_sync|done].
Qed.

(** The commands [ensure_remote_configured] may run. *)
Definition remote_fixes : list (list command) :=
  [ []; [cmd_get_url]; [cmd_get_url; cmd_set_url URL]; [cmd_get_url; cmd_add_remote URL] ].

Lemma fix_remote_cases s o c :
  fix_remote URL s o = Some c -> c = cmd_set_url URL \/ c = cmd_add_remote URL.
Proof. unfold fix_remote. repeat case_match; naive_solver. Qed.

Lemma ensure_remote_log g :
  exists cs, cs ∈ remote_fixes
    /\ log (ensure_remote_configured os URL g) = log g ++ (cons s_git <$> cs).
Proof.
  unfold ensure_remote_configured, remote_fixes. destruct (negb (truthy URL)).
  { exists []. rewrite app_nil_r. split; [repeat constructor|done]. }
  destruct (git os cmd_get_url g) as [[s o] g1] eqn:E. apply git_eq in E as [_ E].
  destruct (fix_remote URL s o) as [c|] eqn:F.
  - rewrite git_log, E, <-app_assoc.
    exists [cmd_get_url; c]. split; [|done].
    apply fix_remote_cases in F as [-> | ->]; repeat constructor.
  - exists [cmd_get_url]. split; [repeat constructor|done].
Qed.

End GitFacts.

#[export] Hint Rewrite run_git_command_log git_sync git_log ensure_remote_sync : pyrw.

(** ** The phases of a synchronisation *)

Section Phases.
Context (os : oracle) (URL : str).

(** Lines 133, 134 and the [finally] clause. *)
Definition finish_sync (now : str) (g : gstate) : gstate :=
  set_syncing false (set_last_error None (set_last_sync (Some now) g)).

(** Lines 125-126 and 130-131. *)
Definition note_error (prefix : str) (success : bool) (output : str) (g : gstate) : gstate :=
  if reportable success output then set_last_error (Some (prefix ++ output)) g else g.

Definition push_tail (now : str) (g : gstate) : (bool * str) * gstate :=
  let '((success, output), g) := git os cmd_push g in
  ((true, s_complete), finish_sync now (note_error s_push_failed success output g)).

Definition pull_tail (now : str) (g : gstate) : (bool * str) * gstate :=
  let '((success, output), g) := git os cmd_pull_main g in
  let '((success, output), g) :=
    if negb success then git os cmd_pull_master g else ((success, output), g) in
  push_tail now (note_error s_pull_failed success output g).

Definition remote_tail (now : str) (g : gstate) : (bool * str) * gstate :=
  let '((success, output), g) := git os cmd_remote_v g in
  if no_remote success output
  then ((true, s_local_only), set_syncing false (set_syncing false g))
  else pull_tail now g.

Lemma sync_with_remote_unfold now g :
  sync_with_remote os URL now g
  = if syncing (sync g) then ((false, s_in_progress), g)
    else remote_tail now (ensure_remote_configured os URL (set_syncing true g)).
Proof.
  unfold sync_with_remote, remote_tail, pull_tail, push_tail, note_error, finish_sync.
  destruct (syncing (sync g)); [done|].
  destruct (git os cmd_remote_v _) as [[s o] g1], (no_remote s o); [done|].
  destruct (git os cmd_pull_main g1) as [[s1 o1] g2].
  destruct (if negb s1 then _ else _) as [[s2 o2] g3].
  by destruct (reportable s2 o2), (git os cmd_push _) as [[s3 o3] g4], (reportable s3 o3).
Qed.

Lemma note_error_log pre s o g : log (note_error pre s o g) = log g.
Proof. unfold note_error. by destruct (reportable s o). Qed.

Lemma note_error_syncing pre s o g :
  syncing (sync (note_error pre s o g)) = syncing (sync g).
Proof. unfold note_error. by destruct (reportable s o). Qed.

(** What is in the dictionary after a synchronisation that reached the
    remote. *)
Definition synced (now : str) : sync_state :=
  {| last_sync := Some now; last_error := None; syncing := false |}.

Lemma push_tail_spec now g :
  exists g', push_tail now g = ((true, s_complete), g')
    /\ sync g' = synced now /\ log g' = log g ++ [s_git :: cmd_push].
Proof.
  unfold push_tail. destruct (git os cmd_push g) as [[s o] g1] eqn:E.
  apply git_eq in E as [_ E]. eexists. split; [done|].
  by rewrite <-E, <-(note_error_log s_push_failed s o g1).
Qed.

(** The commands of the pull phase. *)
Definition pulls : list (list command) :=
  [ [cmd_pull_main; cmd_push]; [cmd_pull_main; cmd_pull_master; cmd_push] ].

Lemma pull_tail_spec now g :
  exists g' cs, pull_tail now g = ((true, s_complete), g')
    /\ sync g' = synced now /\ cs ∈ pulls /\ log g' = log g ++ (cons s_git <$> cs).
Proof.
  unfold pull_tail, pulls. destruct (git os cmd_pull_main g) as [[s1 o1] g1] eqn:E1.
  apply git_eq in E1 as [_ E1]. destruct s1; cbn [negb].
  - destruct (push_tail_spec now (note_error s_pull_failed true o1 g1)) as (g' & -> & ? & L).
    exists g', [cmd_pull_main; cmd_push]. rewrite L, note_error_log, E1, <-app_assoc.
    repeat split; [done|repeat constructor].
  - destruct (git os cmd_pull_master g1) as [[s2 o2] g2] eqn:E2.
    apply git_eq in E2 as [_ E2].
    destruct (push_tail_spec now (note_error s_pull_failed s2 o2 g2)) as (g' & -> & ? & L).
    exists g', [cmd_pull_main; cmd_pull_master; cmd_push].
    rewrite L, note_error_log, E2, E1, <-!app_assoc. repeat split; [done|repeat constructor].
Qed.

(** The commands after [ensure_remote_configured]. *)
Definition remote_cmds : list (list command) := [cmd_remote_v] :: (cons cmd_remote_v <$> pulls).

Lemma remote_tail_spec now g :
  exists r g' cs, remote_tail now g = (r, g')
    /\ cs ∈ remote_cmds /\ log g' = log g ++ (cons s_git <$> cs)
    /\ (r = (true, s_local_only)
          /\ last_sync (sync g') = last_sync (sync g)
          /\ last_error (sync g') = last_error (sync g) /\ syncing (sync g') = false
        \/ r = (true, s_complete) /\ sync g' = synced now).
Proof.
  unfold remote_tail, remote_cmds. destruct (git os cmd_remote_v g) as [[s o] g1] eqn:E.
  apply git_eq in E as [Es E]. destruct (no_remote s o).
  - eexists _, _, [cmd_remote_v]. split; [done|]. cbn. rewrite Es.
    split; [repeat constructor|]. split; [done|]. by left.
  - destruct (pull_tail_spec now g1) as (g' & cs & -> & ? & Hcs & L).
    exists (true, s_complete), g', (cmd_remote_v :: cs). split; [done|].
    split; [apply elem_of_cons; right; by apply list_elem_of_fmap_2|].
    split; [by rewrite L, E, <-app_assoc|]. by right.
Qed.

End Phases.

(** ** A thread run alone *)

Section Threads.
Context (os : oracle) (URL : str).

Abbreviation tstep := (thread_step os URL).
Abbreviation trun := (run_thread os URL).

Lemma run_thread_S now n p g :
  trun now (S n) p g
  = match tstep now p g with Some (p', g') => trun now n p' g' | None => (p, g) end.
Proof. done. Qed.

Lemma run_thread_Done now n r g : trun now n (Done r) g = (Done r, g).
Proof. by destruct n. Qed.

(** More fuel does not change the result of a thread that has finished. *)
Lemma run_thread_mono now n m p g r g' :
  trun now n p g = (Done r, g') -> n <= m -> trun now m p g = (Done r, g').
Proof.
  revert m p g. induction n as [|n IH]; intros m p g E Hm.
  - cbn in E. simplify_eq. apply run_thread_Done.
  - destruct m as [|m]; [lia|]. rewrite run_thread_S in *.
    destruct (tstep now p g) as [[p' g1]|]; [|done]. apply IH; [done|lia].
Qed.

(** [runs n p g res]: from [p] the thread finishes within [n] actions with
    the result and the state [res]. *)
Definition runs (now : str) (n : nat) (p : pc) (g : gstate) (res : (bool * str) * gstate) : Prop :=
  trun now n p g = (Done res.1, res.2).

Lemma runs_mono now n m p g res : runs now n p g res -> n <= m -> runs now m p g res.
Proof. apply run_thread_mono. Qed.

Lemma runs_step now n p g p' g' res :
  tstep now p g = Some (p', g') -> runs now n p' g' res -> runs now (S n) p g res.
Proof. unfold runs. intros E H. by rewrite run_thread_S, E. Qed.

Lemma runs_stamp now g : runs now 3 StampSync g ((true, s_complete), finish_sync now g).
Proof. done. Qed.

Lemma runs_push now g : runs now 5 Push g (push_tail os now g).
Proof.
  unfold push_tail, note_error.
  destruct (git os cmd_push g) as [[s o] g1] eqn:E, (reportable s o) eqn:R;
    eapply runs_step; try (cbn [thread_step]; by rewrite E, R).
  - by eapply runs_step.
  - eapply runs_mono; [apply runs_stamp|lia].
Qed.

Lemma runs_after_pull now s o g :
  runs now 6 (after_pull s o) g (push_tail os now (note_error s_pull_failed s o g)).
Proof.
  unfold after_pull, note_error. destruct (reportable s o).
  - eapply runs_step; [done|apply runs_push].
  - eapply runs_mono; [apply runs_push|lia].
Qed.

Lemma runs_pull now g : runs now 8 PullMain g (pull_tail os now g).
Proof.
  unfold pull_tail. destruct (git os cmd_pull_main g) as [[[] o] g1] eqn:E; cbn [negb].
  - eapply runs_step; [cbn [thread_step]; by rewrite E|].
    eapply runs_mono; [apply runs_after_pull|lia].
  - eapply runs_step; [cbn [thread_step]; by rewrite E|]. cbn [negb].
    destruct (git os cmd_pull_master g1) as [[s2 o2] g2] eqn:E2.
    eapply runs_step; [cbn [thread_step]; by rewrite E2|]. apply runs_after_pull.
Qed.

Lemma runs_remote_v now g : runs now 9 RemoteV g (remote_tail os now g).
Proof.
  unfold remote_tail. destruct (git os cmd_remote_v g) as [[s o] g1] eqn:E, (no_remote s o) eqn:R;
    eapply runs_step; try (cbn [thread_step]; by rewrite E, R).
  - by do 2 (eapply runs_step; [done|]).
  - apply runs_pull.
Qed.

Lemma runs_ensure now g :
  runs now 11 (if negb (truthy URL) then RemoteV else GetUrl) g
       (remote_tail os now (ensure_remote_configured os URL g)).
Proof.
  unfold ensure_remote_configured. destruct (negb (truthy URL)).
  { eapply runs_mono; [apply runs_remote_v|lia]. }
  destruct (git os cmd_get_url g) as [[s o] g1] eqn:E, (fix_remote URL s o) as [c|] eqn:F;
    eapply runs_step; try (cbn [thread_step]; by rewrite E, F).
  - eapply runs_step; [done|apply runs_remote_v].
  - eapply runs_mono; [apply runs_remote_v|lia].
Qed.

Lemma runs_sync now g : runs now sync_fuel Guard g (sync_with_remote os URL now g).
Proof.
  rewrite sync_with_remote_unfold. unfold sync_fuel.
  destruct (syncing (sync g)) eqn:F.
  - eapply runs_step; [cbn [thread_step]; by rewrite F|]. apply run_thread_Done.
  - eapply runs_step; [cbn [thread_step]; by rewrite F|].
    eapply runs_step; [done|apply runs_ensure].
Qed.

(** A thread is stuck only when it has returned. *)
Lemma thread_step_None now p g : tstep now p g = None <-> exists r, p = Done r.
Proof.
  split; [|by intros [r ->]]. destruct p; cbn [thread_step]; try done; eauto;
    by destruct (git os _ g) as [[??]?].
Qed.

End Threads.

(** ** Threads that interleave *)

(** A thread is in the section between the write of line 107 and the write of
    the [finally] clause. *)
Definition in_section (p : pc) : bool :=
  match p with
  | Guard | SetFlag | Done _ => false
  | _ => true
  end.

(** The process at start: the dictionary as the module defines it, no git
    command run, no thread. *)
Definition sys_init : sys :=
  {| shared := {| sync := sync_state_init; log := [] |}; threads := [] |}.

(** While the flag is set, some thread is in the section. *)
Definition flag_inv (s : sys) : Prop :=
  syncing (sync (shared s)) = true -> Exists (fun p => in_section p = true) (threads s).

(** The actions a thread has left at most: the length of the longest path
    of [thread_step] from a program counter to [Done]. *)
Definition rank (p : pc) : nat :=
  match p with
  | Guard => 13 | SetFlag => 12 | GetUrl => 11 | FixRemote _ => 10 | RemoteV => 9
  | PullMain => 8 | PullMaster => 7 | PullError _ => 6 | Push => 5 | PushError _ => 4
  | StampSync => 3 | ClearError => 2 | ClearFlagEarly => 2 | Finally _ => 1 | Done _ => 0
  end.

(** The actions the threads of a process have left at most. *)
Definition weight (s : sys) : nat := sum_list_with rank (threads s).

Section Interleaving.
Context (os : oracle) (URL : str).

Abbreviation sstep := (sys_step os URL).

(** The first action of the section. *)
Definition entry : pc := if negb (truthy URL) then RemoteV else GetUrl.

Lemma entry_in_section : in_section entry = true.
Proof. unfold entry. by destruct (negb (truthy URL)). Qed.

Lemma thread_step_flag now p g p' g' :
  thread_step os URL now p g = Some (p', g') ->
  syncing (sync g') = true ->
  in_section p' = true \/ syncing (sync g) = true /\ in_section p = false.
Proof.
  destruct p; cbn [thread_step]; intros E F; simplify_eq; try (by left); try done.
  - right. by destruct (syncing (sync g')).
  - left. apply entry_in_section.
  - left. destruct (git os cmd_get_url g) as [[s o] g1]. simplify_eq. by destruct fix_remote.
  - left. destruct (git os cmd_remote_v g) as [[s o] g1]. simplify_eq. by destruct no_remote.
  - left. destruct (git os cmd_pull_main g) as [[s o] g1]. simplify_eq.
    unfold after_pull. by destruct (negb s), (reportable s o).
  - left. destruct (git os cmd_pull_master g) as [[s o] g1]. simplify_eq.
    unfold after_pull. by destruct (reportable s o).
  - left. destruct (git os cmd_push g) as [[s o] g1]. simplify_eq. by destruct (reportable s o).
Qed.

Lemma Exists_insert_other {A} (P : A -> Prop) l i x y :
  l !! i = Some x -> ~ P x -> Exists P l -> Exists P (<[i := y]> l).
Proof.
  intros Hi Hx. rewrite !Exists_exists. intros (z & Hz & Pz).
  apply list_elem_of_lookup in Hz as [j Hj]. exists z. split; [|done].
  apply list_elem_of_lookup. exists j. rewrite list_lookup_insert_ne; [done|].
  intros ->. naive_solver.
Qed.

Lemma Exists_insert_here {A} (P : A -> Prop) (l : list A) i x y :
  l !! i = Some x -> P y -> Exists P (<[i := y]> l).
Proof.
  intros Hi Py. apply Exists_exists. exists y. split; [|done].
  apply list_elem_of_lookup. exists i. apply list_lookup_insert_eq. by eapply lookup_lt_Some.
Qed.

Lemma flag_inv_step s s' : sstep s s' -> flag_inv s -> flag_inv s'.
Proof.
  unfold flag_inv. destruct 1 as [i now p p' g g' ts Hi E | g ts]; cbn; intros I F.
  - destruct (thread_step_flag _ _ _ _ _ E F) as [H | [Fg H]].
    + by eapply Exists_insert_here.
    + eapply Exists_insert_other; [done| |by apply I]. by rewrite H.
  - apply Exists_app. left. by apply I.
Qed.

Lemma flag_inv_reachable s : rtc sstep sys_init s -> flag_inv s.
Proof.
  intros R. apply rtc_nsteps in R as [n R]. revert s R.
  induction n as [|n IH]; intros s R.
  - inversion R; subst. by intros ?.
  - apply nsteps_inv_r in R as (s1 & R & Hs). eapply flag_inv_step; eauto.
Qed.

(** A run of one thread is a run of the process. *)
Lemma sys_run_thread now n i p g ts :
  ts !! i = Some p ->
  rtc sstep {| shared := g; threads := ts |}
            {| shared := (run_thread os URL now n p g).2;
               threads := <[i := (run_thread os URL now n p g).1]> ts |}.
Proof.
  revert p g ts. induction n as [|n IH]; intros p g ts Hi.
  { cbn. by rewrite list_insert_id. }
  rewrite run_thread_S. destruct (thread_step os URL now p g) as [[p' g']|] eqn:E.
  - eapply rtc_l; [by eapply (step_thread os URL i now)|].
    specialize (IH p' g' (<[i := p']> ts)). rewrite list_insert_insert_eq in IH.
    apply IH, list_lookup_insert_eq. by eapply lookup_lt_Some.
  - cbn. by rewrite list_insert_id.
Qed.

(** *** Termination *)

(** Every action brings a thread nearer to its end, whatever the shared
    state is and whatever git answers. *)
Lemma thread_step_rank now p g p' g' :
  thread_step os URL now p g = Some (p', g') -> rank p' < rank p.
Proof.
  destruct p; cbn [thread_step]; intros E; simplify_eq; cbn [rank]; try lia.
  - destruct (syncing (sync g')); cbn; lia.
  - destruct (negb (truthy URL)); cbn; lia.
  - destruct (git os cmd_get_url g) as [[s o] g1]. simplify_eq. destruct fix_remote; cbn; lia.
  - destruct (git os cmd_remote_v g) as [[s o] g1]. simplify_eq. destruct no_remote; cbn; lia.
  - destruct (git os cmd_pull_main g) as [[s o] g1]. simplify_eq.
    unfold after_pull. destruct (negb s), (reportable s o); cbn; lia.
  - destruct (git os cmd_pull_master g) as [[s o] g1]. simplify_eq.
    unfold after_pull. destruct (reportable s o); cbn; lia.
  - destruct (git os cmd_push g) as [[s o] g1]. simplify_eq.
    destruct (reportable s o); cbn; lia.
Qed.

Lemma rank_0 p : rank p = 0 -> exists r, p = Done r.
Proof. destruct p; cbn; try lia. eauto. Qed.

(** A thread that is given as many turns as its rank has returned. *)
Lemma run_thread_rank now n p g :
  rank p <= n -> exists r, (run_thread os URL now n p g).1 = Done r.
Proof.
  revert p g. induction n as [|n IH]; intros p g Hn.
  - cbn. apply rank_0. lia.
  - rewrite run_thread_S. destruct (thread_step os URL now p g) as [[p' g']|] eqn:E.
    + apply IH. apply thread_step_rank in E. lia.
    + by apply thread_step_None in E.
Qed.

(** The action that leaves the section clears the flag. *)
Lemma thread_step_exit now p g p' g' :
  thread_step os URL now p g = Some (p', g') -> in_section p = true ->
  in_section p' = true \/ (exists r, p' = Done r) /\ syncing (sync g') = false.
Proof.
  destruct p; cbn [thread_step]; intros E F; simplify_eq; try (by left); eauto.
  - left. destruct (git os cmd_get_url g) as [[s o] g1]. simplify_eq. by destruct fix_remote.
  - left. destruct (git os cmd_remote_v g) as [[s o] g1]. simplify_eq. by destruct no_remote.
  - left. destruct (git os cmd_pull_main g) as [[s o] g1]. simplify_eq.
    unfold after_pull. by destruct (negb s), (reportable s o).
  - left. destruct (git os cmd_pull_master g) as [[s o] g1]. simplify_eq.
    unfold after_pull. by destruct (reportable s o).
  - left. destruct (git os cmd_push g) as [[s o] g1]. simplify_eq. by destruct (reportable s o).
Qed.

Lemma run_thread_exit now n p g :
  in_section p = true -> rank p <= n -> syncing (sync (run_thread os URL now n p g).2) = false.
Proof.
  revert p g. induction n as [|n IH]; intros p g Hp Hn.
  - destruct (rank_0 p) as [r ->]; [lia|done].
  - rewrite run_thread_S. destruct (thread_step os URL now p g) as [[p' g']|] eqn:E.
    + pose proof (thread_step_rank _ _ _ _ _ E).
      destruct (thread_step_exit _ _ _ _ _ E Hp) as [H'|[[r ->] H']]; [apply IH; [done|lia]|].
      by rewrite run_thread_Done.
    + apply thread_step_None in E as [r ->]. done.
Qed.

(** Arithmetic with sums of ranks, which [lia] takes as unknowns. *)
Ltac sum_lia :=
  repeat match goal with
         | |- context [sum_list_with ?f ?l] => generalize (sum_list_with f l); intro
         end;
  lia.

(** The weight of a process when one thread moves. *)
Lemma weight_insert g g' ts i p p' :
  ts !! i = Some p ->
  weight {| shared := g'; threads := <[i := p']> ts |} + rank p
  = weight {| shared := g; threads := ts |} + rank p'.
Proof.
  unfold weight. cbn [threads]. revert i. induction ts as [|q ts IH]; intros [|i] Hi; try done.
  - cbn in Hi. simplify_eq.
    change (sum_list_with rank (<[0:=p']> (p :: ts))) with (rank p' + sum_list_with rank ts).
    change (sum_list_with rank (p :: ts)) with (rank p + sum_list_with rank ts). sum_lia.
  - cbn in Hi. specialize (IH i Hi). revert IH.
    change (sum_list_with rank (<[S i:=p']> (q :: ts)))
      with (rank q + sum_list_with rank (<[i:=p']> ts)).
    change (sum_list_with rank (q :: ts)) with (rank q + sum_list_with rank ts). sum_lia.
Qed.

(** A step of the process is an action of a thread, which takes from the
    weight, or a new call, which adds the rank of [Guard]. *)
Lemma sys_step_weight s s' :
  sstep s s' ->
  weight s' < weight s /\ length (threads s') = length (threads s)
  \/ weight s' = weight s + rank Guard /\ length (threads s') = S (length (threads s)).
Proof.
  destruct 1 as [i now p p' g g' ts Hi E | g ts].
  - left. pose proof (thread_step_rank _ _ _ _ _ E).
    pose proof (weight_insert g g' ts i p p' Hi). cbn [threads].
    rewrite length_insert. lia.
  - right. unfold weight. cbn [threads]. rewrite sum_list_with_app, length_app. cbn. lia.
Qed.

End Interleaving.

(** ** What a synchronisation does *)

Section SyncFacts.
Context (os : oracle) (URL : str).

(** Every path of [sync_with_remote] that passes the guard. *)
Lemma sync_with_remote_spec now g :
  syncing (sync g) = false ->
  exists r g' pre cs,
    sync_with_remote os URL now g = (r, g')
    /\ pre ∈ remote_fixes URL /\ cs ∈ remote_cmds
    /\ log g' = log g ++ (cons s_git <$> pre ++ cs)
    /\ (r = (true, s_local_only) /\ sync g' = sync g
        \/ r = (true, s_complete) /\ sync g' = synced now).
Proof.
  intros F. rewrite sync_with_remote_unfold, F.
  destruct (ensure_remote_log os URL (set_syncing true g)) as (pre & Hpre & L1).
  destruct (remote_tail_spec os now (ensure_remote_configured os URL (set_syncing true g)))
    as (r & g' & cs & -> & Hcs & L2 & H).
  exists r, g', pre, cs. rewrite L2, L1, fmap_app, <-app_assoc.
  do 4 (split; [done|]). rewrite !ensure_remote_sync in H.
  destruct H as [(-> & H1 & H2 & H3) | H]; [left|by right]. split; [done|].
  cbn in H1, H2. destruct (sync g') as [a b c], (sync g) as [a' b' c']. by simplify_eq/=.
Qed.

(** C5: A thread that runs [sync_with_remote] without interruption finishes
    within [sync_fuel] actions, with the result and the state that the
    function computes; more fuel changes nothing. *)
Theorem thread_computes_sync now k g :
  run_thread os URL now (sync_fuel + k) Guard g
  = (Done (sync_with_remote os URL now g).1, (sync_with_remote os URL now g).2).
Proof. eapply run_thread_mono; [apply runs_sync|lia]. Qed.

(** C33: The result of [sync_with_remote] on every path: refused with the
    state untouched when a synchronisation is in progress; otherwise success,
    with the dictionary unchanged in local-only mode, and with the time of the
    synchronisation, no error and the flag cleared when the remote was
    reached. *)
Theorem sync_with_remote_result now g :
  let res := sync_with_remote os URL now g in
  if syncing (sync g) then res = ((false, s_in_progress), g)
  else res.1 = (true, s_local_only) /\ sync res.2 = sync g
       \/ res.1 = (true, s_complete) /\ sync res.2 = synced now.
Proof.
  cbv zeta. destruct (syncing (sync g)) eqn:F.
  - by rewrite sync_with_remote_unfold, F.
  - destruct (sync_with_remote_spec now g F) as (r & g' & pre & cs & -> & _ & _ & _ & H).
    naive_solver.
Qed.

(** C34: [sync_with_remote] never records an error: an error found in the
    dictionary after the call was there before it, whatever git answered to
    the pull and to the push. *)
Theorem sync_never_records_error now g e :
  last_error (sync (sync_with_remote os URL now g).2) = Some e -> last_error (sync g) = Some e.
Proof.
  destruct (syncing (sync g)) eqn:F.
  - by rewrite sync_with_remote_unfold, F.
  - destruct (sync_with_remote_spec now g F) as (r & g' & pre & cs & -> & _ & _ & _ & H).
    cbn. by destruct H as [[_ ->] | [_ ->]].
Qed.

(** The git commands of a synchronisation, in order: the repair of the
    remote (nothing, [get-url], or [get-url] and then [set-url] or [add]),
    then [remote -v], then nothing more or the pull of [main], the pull of
    [master] if there is one, and the push. *)
Theorem sync_with_remote_commands now g :
  syncing (sync g) = false ->
  exists pre cs,
    pre ∈ remote_fixes URL /\ cs ∈ remote_cmds
    /\ log (sync_with_remote os URL now g).2 = log g ++ (cons s_git <$> pre ++ cs).
Proof.
  intros F. destruct (sync_with_remote_spec now g F) as (r & g' & pre & cs & -> & ? & ? & ? & _).
  by exists pre, cs.
Qed.

(** C8: The flag is never left set: in every state the process reaches,
    whatever the interleaving of its threads, if no thread is between the
    write of the flag and its [finally] clause then [syncing] is false. *)
Theorem syncing_flag_released s :
  rtc (sys_step os URL) sys_init s ->
  Forall (fun p => in_section p = false) (threads s) ->
  syncing (sync (shared s)) = false.
Proof.
  intros R H. apply flag_inv_reachable in R. destruct (syncing _) eqn:F; [|done].
  pose proof (R F) as (p & Hp & Pp)%Exists_exists.
  by rewrite (proj1 (Forall_forall _ _) H p Hp) in Pp.
Qed.

(** C35: The flag does not keep two threads apart: two calls that start
    while no synchronisation is in progress can both pass the guard and
    be in the section together; and when the first of them has finished the
    flag is clear although the second is still in the section. *)
Theorem guard_admits_two_threads (now : str) g :
  syncing (sync g) = false ->
  exists g1 g2 r,
    rtc (sys_step os URL) {| shared := g; threads := [Guard; Guard] |}
                          {| shared := g1; threads := [entry URL; entry URL] |}
    /\ rtc (sys_step os URL) {| shared := g1; threads := [entry URL; entry URL] |}
                             {| shared := g2; threads := [Done r; entry URL] |}
    /\ in_section (entry URL) = true /\ syncing (sync g2) = false.
Proof.
  intros F. set (g1 := set_syncing true (set_syncing true g)).
  destruct (remote_tail_spec os now (ensure_remote_configured os URL g1))
    as (r & g2 & cs & E & _ & _ & H).
  exists g1, g2, r. split; [|split; [|split; [apply entry_in_section|]]].
  - eapply rtc_l; [eapply (step_thread os URL 0 now); [done|cbn [thread_step]; by rewrite F]|].
    eapply rtc_l; [eapply (step_thread os URL 1 now); [done|cbn [thread_step]; by rewrite F]|].
    eapply rtc_l; [by eapply (step_thread os URL 0 now)|].
    eapply rtc_l; [by eapply (step_thread os URL 1 now)|]. exact (rtc_refl _ _).
  - pose proof (runs_ensure os URL now g1) as Hr. unfold runs in Hr. rewrite E in Hr.
    pose proof (sys_run_thread os URL now 11 0 (entry URL) g1 [entry URL; entry URL] eq_refl) as S.
    fold (entry URL) in Hr. rewrite Hr in S. exact S.
  - destruct H as [(_ & _ & _ & H) | [_ ->]]; [|done]. by rewrite H.
Qed.

(** C9: No call of [sync_with_remote] runs forever, whatever the
    interleaving: in a run of [n] steps of the process, [n] is at most the
    actions the threads had left at the start ([weight]) and 14 for each
    call that was started during the run, one step for the start and 13
    for its actions.  So a run in which no call is started has at most
    [weight] steps. *)
Theorem sync_terminates n s s' :
  nsteps (sys_step os URL) n s s' ->
  n + weight s' + 14 * length (threads s) <= weight s + 14 * length (threads s').
Proof.
  induction 1 as [s|n s s1 s' Hstep _ IH]; [lia|].
  destruct (sys_step_weight os URL s s1 Hstep) as [[Hw Hl]|[Hw Hl]]; cbn [rank] in *; lia.
Qed.

(** C10: A thread is never kept waiting: from every state of the process,
    whatever the other threads have done to the dictionary, the thread
    that is given its turns returns within [rank] actions, the other
    threads stay where they are, and when it was in the section the flag
    is clear when it returns. *)
Theorem sync_thread_finishes now i p g ts :
  ts !! i = Some p ->
  exists r g',
    rtc (sys_step os URL) {| shared := g; threads := ts |}
                          {| shared := g'; threads := <[i := Done r]> ts |}
    /\ run_thread os URL now (rank p) p g = (Done r, g')
    /\ (in_section p = true -> syncing (sync g') = false).
Proof.
  intros Hi. destruct (run_thread_rank os URL now (rank p) p g) as [r Hr]; [done|].
  pose proof (run_thread_exit os URL now (rank p) p g) as Hx.
  pose proof (sys_run_thread os URL now (rank p) i p g ts Hi) as Hrun.
  destruct (run_thread os URL now (rank p) p g) as [p' g']. cbn [fst snd] in *. subst p'.
  exists r, g'. split_and!; [done|done|]. intros Hp. by apply Hx.
Qed.

End SyncFacts.

(** ** The theorems at concrete inputs *)

(** A repository without a remote: every command succeeds and prints
    nothing. *)
Definition quiet_os : oracle := fun _ _ => Completed [] [] 0.

(** A remote that refuses: [remote -v] lists [origin], everything else
    fails. *)
Definition failing_os : oracle := fun _ c =>
  if bool_decide (c = s_git :: cmd_remote_v)
  then Completed (u "origin  git@example:diary.git (fetch)") [] 0
  else Completed [] (u "fatal: rejected") 1.

Definition url0 : str := u "git@example:diary.git".

Definition g_failed : gstate :=
  {| sync := {| last_sync := None; last_error := Some (u "boom"); syncing := false |};
     log := [] |}.

Definition g_idle : gstate := {| sync := sync_state_init; log := [] |}.

Lemma sync_never_records_error_witness : last_error (sync g_failed) = Some (u "boom").
Proof. apply (sync_never_records_error quiet_os url0 [] g_failed). by vm_compute. Defined.

Lemma sync_with_remote_commands_witness :
  exists pre cs,
    pre ∈ remote_fixes url0 /\ cs ∈ remote_cmds
    /\ log (sync_with_remote failing_os url0 (u "2024-03-04T10:00:00") g_idle).2
       = log g_idle ++ (cons s_git <$> pre ++ cs).
Proof. by apply sync_with_remote_commands. Defined.

Lemma syncing_flag_released_witness :
  syncing (sync (shared {| shared := g_idle; threads := [Guard] |})) = false.
Proof.
  apply (syncing_flag_released quiet_os url0).
  - apply rtc_once, (step_spawn quiet_os url0 g_idle []).
  - by repeat constructor.
Defined.

Lemma guard_admits_two_threads_witness :
  exists g1 g2 r,
    rtc (sys_step failing_os url0) {| shared := g_idle; threads := [Guard; Guard] |}
                                   {| shared := g1; threads := [entry url0; entry url0] |}
    /\ rtc (sys_step failing_os url0) {| shared := g1; threads := [entry url0; entry url0] |}
                                      {| shared := g2; threads := [Done r; entry url0] |}
    /\ in_section (entry url0) = true /\ syncing (sync g2) = false.
Proof. by apply (guard_admits_two_threads failing_os url0 (u "2024-03-04T10:00:00")). Defined.

(** A remote that rejects the pull of both branches and the push: the call
    reports success and leaves no error behind. *)
Example sync_hides_failures :
  let res := sync_with_remote failing_os url0 (u "2024-03-04T10:00:00") g_idle in
  res.1 = (true, s_complete) /\ last_error (sync res.2) = None
  /\ log res.2 = cons s_git <$> [cmd_get_url; cmd_add_remote url0; cmd_remote_v;
                                 cmd_pull_main; cmd_pull_master; cmd_push].
Proof. by vm_compute. Qed.

Lemma sync_terminates_witness :
  2 + weight {| shared := g_idle; threads := [SetFlag] |} + 14 * length (threads sys_init)
  <= weight sys_init + 14 * length (threads {| shared := g_idle; threads := [SetFlag] |}).
Proof.
  apply (sync_terminates quiet_os url0).
  eapply nsteps_l; [apply (step_spawn quiet_os url0 g_idle [])|].
  eapply nsteps_l; [|apply nsteps_O].
  by apply (step_thread quiet_os url0 0 [] Guard SetFlag g_idle g_idle [Guard]).
Defined.

Lemma sync_thread_finishes_witness :
  exists r g',
    rtc (sys_step failing_os url0) {| shared := g_failed; threads := [Push; PullMain] |}
                                   {| shared := g'; threads := <[1%nat := Done r]> [Push; PullMain] |}
    /\ run_thread failing_os url0 [] (rank PullMain) PullMain g_failed = (Done r, g')
    /\ (in_section PullMain = true -> syncing (sync g') = false).
Proof. by apply (sync_thread_finishes failing_os url0 [] 1 PullMain g_failed [Push; PullMain]). Defined.

(** The bound of [rank] is reached: a remote that refuses every command
    takes a thread through the thirteen actions. *)
Example rank_reached :
  (run_thread failing_os url0 [] 12 Guard g_idle).1 = Finally (true, s_complete)
  /\ (run_thread failing_os url0 [] 13 Guard g_idle).1 = Done (true, s_complete).
Proof. by vm_compute. Qed.
