(* ===== verification/DiaryTodos.v ===== *)
(** * DiaryTodos: the todo list of [src/diary/app.py]

    The todos are a JSON array in the file [todos.json] of the repository.
    Every operation loads the whole list, changes it and, if it changed,
    writes the whole list back and commits it.

    - [todos_file] is what [load_todos] can find: no file, a file that does
      not parse, or a list of todos.  [json.dumps] followed by [json.loads]
      is the identity on such a list, so the file holds the list itself.
    - [tstate] is the file and the log of the git commands run.
    - [create_todo], [toggle_todo], [update_todo_text] and [delete_todo] are
      the functions of the source; the identifier that [uuid4] draws and the
      time that [datetime.now] reads are arguments.  [update_first] is the
      loop that changes the first todo with the identifier, in place, and
      returns it.
    - The handlers return the JSON body, the status code and whether they
      started a synchronisation thread.

    The theorems show: the handlers keep every stored text non-empty and
    stripped; toggling twice restores the list; what deletion removes and
    when it writes; and which requests are refused. *)

From Stdlib Require Import Ascii String.
From stdpp Require Import base tactics option list numbers.
From S2P Require Import Prelude PyStr PyJson Subprocess DiarySync.

(** ** Data *)

(** A todo, with the four keys [create_todo] writes. *)
Record todo : Type := {
  id : str;
  text : str;
  done : bool;
  created : str;
}.

Inductive todos_file : Type :=
| NoFile
| Unreadable
| Holds (todos : list todo).

Record tstate : Type := {
  file : todos_file;
  commands : list command;
}.

Definition TODOS_FILE : str := Eval vm_compute in u "todos.json".
Definition cmd_add_todos : command := Eval vm_compute in [u "add"; u "todos.json"].
Definition cmd_commit_todos : command :=
  Eval vm_compute in [u "commit"; u "-m"; u "Update todos"].
Definition s_text : str := Eval vm_compute in u "text".
Definition s_text_required : str := Eval vm_compute in u "Text is required".
Definition s_todo_not_found : str := Eval vm_compute in u "Todo not found".

Arguments TODOS_FILE : simpl never.
Arguments cmd_add_todos : simpl never.
Arguments cmd_commit_todos : simpl never.
Arguments s_text : simpl never.
Arguments s_text_required : simpl never.
Arguments s_todo_not_found : simpl never.

(** ** The operations *)

Definition load_todos (f : todos_file) : list todo :=
  match f with
  | Holds todos => todos
  | NoFile | Unreadable => []
  end.

(** The loop [for t in todos: if t['id'] == todo_id: ...; return t]: the todo
    it changed and the list with the change, or [None] when it falls
    through. *)
Fixpoint update_first (f : todo -> todo) (todo_id : str) (todos : list todo)
  : option (todo * list todo) :=
  match todos with
  | [] => None
  | t :: rest =>
      if str_eqb (id t) todo_id then Some (f t, f t :: rest)
      else '(t', rest') ← update_first f todo_id rest; Some (t', t :: rest')
  end.

Definition flip_done (t : todo) : todo :=
  {| id := id t; text := text t; done := negb (done t); created := created t |}.

Definition with_text (new_text : str) (t : todo) : todo :=
  {| id := id t; text := new_text; done := done t; created := created t |}.

Section Todos.
Context (os : oracle).

Definition save_todos (todos : list todo) (st : tstate) : tstate :=
  let lg := (run_git_command os cmd_add_todos (commands st)).2 in
  let lg := (run_git_command os cmd_commit_todos lg).2 in
  {| file := Holds todos; commands := lg |}.

Definition create_todo (new_id now : str) (new_text : str) (st : tstate) : todo * tstate :=
  let todos := load_todos (file st) in
  let t := {| id := new_id; text := new_text; done := false; created := now |} in
  (t, save_todos (todos ++ [t]) st).

Definition toggle_todo (todo_id : str) (st : tstate) : option todo * tstate :=
  match update_first flip_done todo_id (load_todos (file st)) with
  | Some (t, todos) => (Some t, save_todos todos st)
  | None => (None, st)
  end.

Definition update_todo_text (todo_id new_text : str) (st : tstate) : option todo * tstate :=
  match update_first (with_text new_text) todo_id (load_todos (file st)) with
  | Some (t, todos) => (Some t, save_todos todos st)
  | None => (None, st)
  end.

Definition delete_todo (todo_id : str) (st : tstate) : bool * tstate :=
  let todos := load_todos (file st) in
  let new_todos := filter_b (fun t => negb (str_eqb (id t) todo_id)) todos in
  if (length new_todos =? length todos)%nat then (false, st)
  else (true, save_todos new_todos st).

(** ** The handlers *)

(** A JSON body of the todo routes. *)
Inductive todo_body : Type :=
| BTodos (todos : list todo)
| BSuccess (t : option todo)
| BError (msg : str).

(** The body, the status code, and whether [threading.Thread(target=
    sync_with_remote).start()] ran. *)
Record reply : Type := {
  body : todo_body;
  status : Z;
  sync_started : bool;
}.

Definition ok_reply (t : option todo) : reply :=
  {| body := BSuccess t; status := 200; sync_started := true |}.

Definition error_reply (msg : str) (code : Z) : reply :=
  {| body := BError msg; status := code; sync_started := false |}.

Definition api_get_todos (st : tstate) : reply :=
  {| body := BTodos (load_todos (file st)); status := 200; sync_started := false |}.

Definition api_create_todo (new_id now : str) (data : dict) (st : tstate)
  : result (reply * tstate) :=
  new_text ← get_stripped data s_text;
  if negb (truthy new_text) then Ok (error_reply s_text_required 400, st)
  else
    let '(t, st) := create_todo new_id now new_text st in
    Ok (ok_reply (Some t), st).

Definition api_toggle_todo (todo_id : str) (st : tstate) : reply * tstate :=
  match toggle_todo todo_id st with
  | (Some t, st) => (ok_reply (Some t), st)
  | (None, st) => (error_reply s_todo_not_found 404, st)
  end.

Definition api_update_todo (todo_id : str) (data : dict) (st : tstate)
  : result (reply * tstate) :=
  new_text ← get_stripped data s_text;
  if negb (truthy new_text) then Ok (error_reply s_text_required 400, st)
  else
    match update_todo_text todo_id new_text st with
    | (Some t, st) => Ok (ok_reply (Some t), st)
    | (None, st) => Ok (error_reply s_todo_not_found 404, st)
    end.

Definition api_delete_todo (todo_id : str) (st : tstate) : reply * tstate :=
  match delete_todo todo_id st with
  | (true, st) => (ok_reply None, st)
  | (false, st) => (error_reply s_todo_not_found 404, st)
  end.

End Todos.

(** ** Routing *)

(** A request to one of the todo routes. *)
Inductive request : Type :=
| GetTodos
| CreateTodo (new_id now : str) (data : dict)
| ToggleTodo (todo_id : str)
| UpdateTodo (todo_id : str) (data : dict)
| DeleteTodo (todo_id : str).

Definition handle (os : oracle) (req : request) (st : tstate) : result (reply * tstate) :=
  match req with
  | GetTodos => Ok (api_get_todos st, st)
  | CreateTodo new_id now data => api_create_todo os new_id now data st
  | ToggleTodo todo_id => Ok (api_toggle_todo os todo_id st)
  | UpdateTodo todo_id data => api_update_todo os todo_id data st
  | DeleteTodo todo_id => Ok (api_delete_todo os todo_id st)
  end.

(** ** Facts about the loop *)

(** A stored text is not empty and has no blank at either end. *)
Definition wf_todo (t : todo) : Prop := text t <> [] /\ strip (text t) = text t.

Definition wf_file (f : todos_file) : Prop := Forall wf_todo (load_todos f).

Definition ids (todos : list todo) : list str := id <$> todos.

Section LoopFacts.
Context (f : todo -> todo) (Hid : forall t, id (f t) = id t).

Lemma update_first_None todo_id todos :
  update_first f todo_id todos = None <-> (todo_id ∉ ids todos).
Proof.
  unfold ids. induction todos as [|t r IH]; cbn.
  - split; [intros _; apply not_elem_of_nil|done].
  - rewrite not_elem_of_cons. unfold str_eqb. case_bool_decide as E.
    + split; [done|]. by intros [? _].
    + destruct (update_first f todo_id r) as [[t' r']|]; cbn.
      * split; [done|]. intros [_ H]. by apply IH in H.
      * split; [|done]. intros _. split; [done|]. by apply IH.
Qed.

(** The loop changes one todo, where it stands, and no identifier. *)
Lemma update_first_Some todo_id todos t' todos' :
  update_first f todo_id todos = Some (t', todos') ->
  exists pre t post,
    todos = pre ++ t :: post /\ todos' = pre ++ f t :: post
    /\ t' = f t /\ id t = todo_id /\ todo_id ∉ ids pre.
Proof.
  revert todos'. induction todos as [|t r IH]; intros todos'; cbn; [done|].
  unfold str_eqb. case_bool_decide as E.
  - intros [= <- <-]. exists [], t, r. repeat split; try done. apply not_elem_of_nil.
  - destruct (update_first f todo_id r) as [[t1 r1]|]; cbn; [|done].
    intros [= <- <-]. destruct (IH r1 eq_refl) as (pre & t0 & post & -> & -> & -> & ? & ?).
    exists (t :: pre), t0, post. repeat split; try done. cbn. by apply not_elem_of_cons.
Qed.

Lemma update_first_ids todo_id todos t' todos' :
  update_first f todo_id todos = Some (t', todos') -> ids todos' = ids todos.
Proof.
  intros (pre & t & post & -> & -> & _)%update_first_Some.
  unfold ids. by rewrite !fmap_app, !fmap_cons, Hid.
Qed.

Lemma update_first_here todo_id pre t post :
  id t = todo_id -> todo_id ∉ ids pre ->
  update_first f todo_id (pre ++ t :: post) = Some (f t, pre ++ f t :: post).
Proof.
  intros Ht. induction pre as [|x pre IH]; cbn; unfold str_eqb.
  - by rewrite bool_decide_true.
  - intros [? ?]%not_elem_of_cons. rewrite bool_decide_false by done. by rewrite IH.
Qed.

Lemma update_first_wf todo_id todos t' todos' :
  (forall t, wf_todo t -> wf_todo (f t)) ->
  update_first f todo_id todos = Some (t', todos') ->
  Forall wf_todo todos -> Forall wf_todo todos'.
Proof.
  intros Hf (pre & t & post & -> & -> & _)%update_first_Some.
  rewrite !Forall_app, !Forall_cons_iff. intros (? & ? & ?). auto.
Qed.

End LoopFacts.

Lemma flip_done_involutive t : flip_done (flip_done t) = t.
Proof. destruct t. unfold flip_done. cbn. by rewrite negb_involutive. Qed.

(** Toggling the todo again undoes the change. *)
Lemma update_first_flip_twice todo_id todos t' todos' :
  update_first flip_done todo_id todos = Some (t', todos') ->
  update_first flip_done todo_id todos' = Some (flip_done t', todos).
Proof.
  intros (pre & t & post & -> & -> & -> & ? & ?)%update_first_Some.
  rewrite (update_first_here flip_done) by done. by rewrite flip_done_involutive.
Qed.

(** ** Facts about the operations *)

Section TodoFacts.
Context (os : oracle).

Lemma save_todos_file todos st : file (save_todos os todos st) = Holds todos.
Proof. done. Qed.

Lemma save_todos_commands todos st :
  commands (save_todos os todos st)
  = commands st ++ [s_git :: cmd_add_todos; s_git :: cmd_commit_todos].
Proof. unfold save_todos. cbn [commands]. by rewrite !run_git_command_log, <-app_assoc. Qed.

(** An update of the first match, as [toggle_todo] and [update_todo_text]
    run it. *)
Lemma update_wf f todo_id st :
  (forall t, wf_todo t -> wf_todo (f t)) ->
  wf_file (file st) ->
  match update_first f todo_id (load_todos (file st)) with
  | Some (_, todos) => Forall wf_todo todos
  | None => True
  end.
Proof.
  intros Hf H. destruct (update_first _ _ _) as [[t todos]|] eqn:E; [|done].
  by eapply update_first_wf.
Qed.

Lemma flip_done_wf t : wf_todo t -> wf_todo (flip_done t).
Proof. done. Qed.

Lemma toggle_todo_wf todo_id st :
  wf_file (file st) -> wf_file (file (toggle_todo os todo_id st).2).
Proof.
  intros H. pose proof (update_wf flip_done todo_id st flip_done_wf H) as U.
  unfold toggle_todo. by destruct (update_first _ _ _) as [[t todos]|].
Qed.

Lemma update_todo_text_wf todo_id new_text st :
  new_text <> [] -> strip new_text = new_text ->
  wf_file (file st) -> wf_file (file (update_todo_text os todo_id new_text st).2).
Proof.
  intros H1 H2 H. pose proof (update_wf (with_text new_text) todo_id st) as U.
  unfold update_todo_text. destruct (update_first _ _ _) as [[t todos]|]; [|done].
  by apply U.
Qed.

Lemma delete_todo_wf todo_id st :
  wf_file (file st) -> wf_file (file (delete_todo os todo_id st).2).
Proof.
  intros H. unfold delete_todo. cbv zeta. case_match; [done|]. by apply filter_b_keeps.
Qed.

Lemma create_todo_wf new_id now new_text st :
  new_text <> [] -> strip new_text = new_text ->
  wf_file (file st) -> wf_file (file (create_todo os new_id now new_text st).2).
Proof. intros H1 H2 H. apply Forall_app. split; [done|]. by repeat constructor. Qed.

Lemma truthy_nonempty s : truthy s = true <-> s <> [].
Proof. by destruct s. Qed.

(** What deletion keeps. *)
Definition others (todo_id : str) (todos : list todo) : list todo :=
  filter_b (fun t => negb (str_eqb (id t) todo_id)) todos.

Lemma others_absent todo_id todos : todo_id ∉ ids (others todo_id todos).
Proof.
  unfold ids, others. intros (t & E & Ht%list_elem_of_In%filter_In)%list_elem_of_fmap.
  destruct Ht as [_ Ht]. unfold str_eqb in Ht. by case_bool_decide.
Qed.

Lemma others_all todo_id todos :
  length (others todo_id todos) = length todos <-> (todo_id ∉ ids todos).
Proof.
  unfold ids, others. split.
  - intros H%filter_b_full (t & E & Ht)%list_elem_of_fmap.
    rewrite forallb_forall in H. apply list_elem_of_In, H in Ht.
    unfold str_eqb in Ht. by case_bool_decide.
  - intros H. rewrite filter_b_id; [done|]. apply forallb_forall. intros t Ht%list_elem_of_In.
    unfold str_eqb. case_bool_decide as E; [|done]. destruct H.
    apply list_elem_of_fmap. by exists t.
Qed.

End TodoFacts.

(** ** The theorems *)

Section TodoTheorems.
Context (os : oracle).

(** Every todo the handlers store has a text that is not empty and has
    no blank at either end: if the file holds such todos before a request
    that returns, it holds such todos after it. *)
Theorem todos_stay_wf req st r st' :
  handle os req st = Ok (r, st') -> wf_file (file st) -> wf_file (file st').
Proof.
  destruct req as [|new_id now data|todo_id|todo_id data|todo_id]; cbn [handle].
  - by intros [= _ <-].
  - unfold api_create_todo. destruct (get_stripped data s_text) as [s|] eqn:E; [|done].
    apply get_stripped_Ok in E as [E _]. cbn. destruct s; cbn; intros [= _ <-]; [done|].
    by apply create_todo_wf.
  - unfold api_toggle_todo. pose proof (toggle_todo_wf os todo_id st).
    destruct (toggle_todo os todo_id st) as [[t|] st1]; intros [= _ <-]; auto.
  - unfold api_update_todo. destruct (get_stripped data s_text) as [s|] eqn:E; [|done].
    apply get_stripped_Ok in E as [E _]. cbn. destruct s as [|c s]; cbn; [by intros [= _ <-]|].
    pose proof (update_todo_text_wf os todo_id (c :: s) st).
    destruct (update_todo_text os todo_id (c :: s) st) as [[t|] st1]; intros [= _ <-]; auto.
  - unfold api_delete_todo. pose proof (delete_todo_wf os todo_id st).
    destruct (delete_todo os todo_id st) as [[] st1]; intros [= _ <-]; auto.
Qed.

(** C27: Toggling a todo twice restores the stored list, and a toggle finds
    nothing exactly when no stored todo has the identifier. *)
Theorem toggle_todo_twice todo_id st :
  load_todos (file (toggle_todo os todo_id (toggle_todo os todo_id st).2).2)
  = load_todos (file st)
  /\ ((toggle_todo os todo_id st).1 = None <-> (todo_id ∉ ids (load_todos (file st)))).
Proof.
  rewrite <-(update_first_None flip_done). unfold toggle_todo.
  destruct (update_first flip_done todo_id (load_todos (file st))) as [[t todos]|] eqn:E;
    cbn [snd fst file save_todos load_todos].
  - by rewrite (update_first_flip_twice _ _ _ _ E).
  - by rewrite E.
Qed.

(** Deletion removes every todo that has the identifier and keeps the
    others in their order; it answers [False], writes nothing and runs no
    git command exactly when no stored todo has the identifier. *)
Theorem delete_todo_spec todo_id st :
  let '(found, st') := delete_todo os todo_id st in
  load_todos (file st') = others todo_id (load_todos (file st))
  /\ (todo_id ∉ ids (load_todos (file st')))
  /\ (found = false <-> (todo_id ∉ ids (load_todos (file st))))
  /\ (found = false -> st' = st)
  /\ (found = true ->
      commands st' = commands st ++ [s_git :: cmd_add_todos; s_git :: cmd_commit_todos]).
Proof.
  unfold delete_todo. cbv zeta. fold (others todo_id (load_todos (file st))).
  pose proof (others_all todo_id (load_todos (file st))) as A.
  pose proof (others_absent todo_id (load_todos (file st))) as B.
  destruct (_ =? _)%nat eqn:E.
  - apply Nat.eqb_eq in E. pose proof (proj1 A E) as N. repeat split; try done.
    unfold others. rewrite filter_b_id; [done|]. by apply filter_b_full.
  - apply Nat.eqb_neq in E. repeat split; try done; [by intros ?%A|].
    intros _. apply save_todos_commands.
Qed.

(** What a handler does to the file and what it answers do not depend on
    the git commands run before: it adds its own to them. *)
Lemma handle_log req f lg :
  handle os req {| file := f; commands := lg |}
  = match handle os req {| file := f; commands := [] |} with
    | Ok (r, st) => Ok (r, {| file := file st; commands := lg ++ commands st |})
    | Raise e => Raise e
    end.
Proof.
  assert (forall todos, save_todos os todos {| file := f; commands := lg |}
          = {| file := file (save_todos os todos {| file := f; commands := [] |});
               commands := lg ++ commands (save_todos os todos {| file := f; commands := [] |}) |})
    as S by (intros; unfold save_todos; cbn [file commands];
             by rewrite !run_git_command_log, <-!app_assoc).
  destruct req as [|new_id now data|todo_id|todo_id data|todo_id]; cbn [handle].
  - unfold api_get_todos. cbn. by rewrite app_nil_r.
  - unfold api_create_todo. destruct (get_stripped data s_text) as [s|]; [|done]. cbn.
    destruct (negb (truthy s)); cbn; [by rewrite app_nil_r|]. by rewrite S.
  - unfold api_toggle_todo, toggle_todo. cbn [file load_todos].
    destruct (update_first _ _ _) as [[t todos]|]; [by rewrite S|]. cbn. by rewrite app_nil_r.
  - unfold api_update_todo, update_todo_text.
    destruct (get_stripped data s_text) as [s|]; [|done]. cbn.
    destruct (negb (truthy s)); cbn; [by rewrite app_nil_r|].
    destruct (update_first _ _ _) as [[t todos]|]; [by rewrite S|]. cbn. by rewrite app_nil_r.
  - unfold api_delete_todo, delete_todo. cbv zeta. cbn [file load_todos].
    destruct (_ =? _)%nat; [cbn; by rewrite app_nil_r|]. by rewrite S.
Qed.

(** A handler has left the file and run no command, or it has called
    [save_todos] once. *)
Lemma handle_saves req f r st :
  handle os req {| file := f; commands := [] |} = Ok (r, st) ->
  st = {| file := f; commands := [] |}
  \/ exists todos, st = save_todos os todos {| file := f; commands := [] |}.
Proof.
  destruct req as [|new_id now data|todo_id|todo_id data|todo_id]; cbn [handle].
  - intros [= _ <-]. by left.
  - unfold api_create_todo. destruct (get_stripped data s_text) as [s|]; [|done]. cbn.
    destruct (negb (truthy s)); intros [= _ <-]; eauto.
  - unfold api_toggle_todo, toggle_todo.
    destruct (update_first _ _ _) as [[t todos]|]; intros [= _ <-]; eauto.
  - unfold api_update_todo, update_todo_text.
    destruct (get_stripped data s_text) as [s|]; [|done]. cbn.
    destruct (negb (truthy s)); [intros [= _ <-]; eauto|].
    destruct (update_first _ _ _) as [[t todos]|]; intros [= _ <-]; eauto.
  - unfold api_delete_todo, delete_todo. cbv zeta.
    destruct (_ =? _)%nat; intros [= _ <-]; eauto.
Qed.

(** A handler that starts no synchronisation has changed nothing. *)
Lemma handle_quiet req st r st' :
  handle os req st = Ok (r, st') -> sync_started r = false -> st' = st.
Proof.
  destruct req as [|new_id now data|todo_id|todo_id data|todo_id]; cbn [handle].
  - by intros [= <- <-].
  - unfold api_create_todo. destruct (get_stripped data s_text) as [s|]; [|done]. cbn.
    destruct (negb (truthy s)); by intros [= <- <-].
  - unfold api_toggle_todo, toggle_todo.
    destruct (update_first _ _ _) as [[t todos]|]; by intros [= <- <-].
  - unfold api_update_todo, update_todo_text.
    destruct (get_stripped data s_text) as [s|]; [|done]. cbn.
    destruct (negb (truthy s)); [by intros [= <- <-]|].
    destruct (update_first _ _ _) as [[t todos]|]; by intros [= <- <-].
  - unfold api_delete_todo, delete_todo. cbv zeta.
    destruct (_ =? _)%nat; by intros [= <- <-].
Qed.

(** A request that is refused changes nothing: when a handler answers
    with a status other than 200, the file and the git log are as before and
    no synchronisation thread was started; when it answers 200 to a request
    that changes the list, it started one. *)
Theorem refused_request_changes_nothing req st r st' :
  handle os req st = Ok (r, st') ->
  (status r <> 200%Z -> st' = st /\ sync_started r = false)
  /\ (status r = 200%Z -> req <> GetTodos -> sync_started r = true).
Proof.
  destruct req as [|new_id now data|todo_id|todo_id data|todo_id]; cbn [handle].
  - by intros [= <- <-].
  - unfold api_create_todo. destruct (get_stripped data s_text) as [s|]; [|done]. cbn.
    destruct (negb (truthy s)); by intros [= <- <-].
  - unfold api_toggle_todo, toggle_todo.
    destruct (update_first _ _ _) as [[t todos]|]; by intros [= <- <-].
  - unfold api_update_todo, update_todo_text.
    destruct (get_stripped data s_text) as [s|]; [|done]. cbn.
    destruct (negb (truthy s)); [by intros [= <- <-]|].
    destruct (update_first _ _ _) as [[t todos]|]; by intros [= <- <-].
  - unfold api_delete_todo, delete_todo. cbv zeta.
    destruct (_ =? _)%nat; by intros [= <- <-].
Qed.

End TodoTheorems.

(** ** The theorems at concrete inputs *)

Definition t_milk : todo :=
  {| id := u "1a2b3c4d"; text := u "buy milk"; done := false;
     created := u "2024-03-04T10:00:00" |}.

Definition t_mail : todo :=
  {| id := u "deadbeef"; text := u "send mail"; done := true;
     created := u "2024-03-04T11:00:00" |}.

Definition st_two : tstate := {| file := Holds [t_milk; t_mail]; commands := [] |}.

Lemma todos_stay_wf_witness :
  wf_file (Holds [t_milk; t_mail;
                  {| id := u "00c0ffee"; text := u "call home"; done := false;
                     created := u "2024-03-05T09:00:00" |}]).
Proof.
  apply (todos_stay_wf quiet_os
           (CreateTodo (u "00c0ffee") (u "2024-03-05T09:00:00")
                       [(s_text, JStr (u "  call home "))]) st_two
           (ok_reply (Some {| id := u "00c0ffee"; text := u "call home"; done := false;
                                 created := u "2024-03-05T09:00:00" |}))
           {| file := _; commands := [s_git :: cmd_add_todos; s_git :: cmd_commit_todos] |}).
  - by vm_compute.
  - by repeat constructor.
Defined.

Lemma refused_request_changes_nothing_witness :
  (status (error_reply s_text_required 400) <> 200%Z ->
   st_two = st_two /\ sync_started (error_reply s_text_required 400) = false)
  /\ (status (error_reply s_text_required 400) = 200%Z ->
      UpdateTodo (u "deadbeef") [(s_text, JStr (u "   "))] <> GetTodos ->
      sync_started (error_reply s_text_required 400) = true).
Proof.
  apply (refused_request_changes_nothing quiet_os
           (UpdateTodo (u "deadbeef") [(s_text, JStr (u "   "))]) st_two).
  by vm_compute.
Defined.

(** A text that is not a string is not refused: the handler raises. *)
Example create_todo_number_raises new_id now st :
  handle quiet_os (CreateTodo new_id now [(s_text, JNum 5)]) st = Raise AttributeError.
Proof. done. Qed.
