(* ===== verification/DiaryEntries.v ===== *)
(** * DiaryEntries: the entries of [src/diary/app.py]

    An entry is a Markdown file [<year>/<month>/<day>-<weekday>/<id>.md] of
    the repository, with its date in a header between two lines of three
    dashes.

    - [datetime] is a date and time by its fields; [fmt_Y], [fmt_m],
      [get_day_folder_name], [fmt_HMS], [fmt_stamp], [fmt_minute] and
      [isoformat] are the renderings that the source asks of [strftime] and
      [isoformat], fixed-width decimal (years 1000 to 9999; the weekday names
      of the C locale; a date has no time zone).
    - [dstate] is the file system, as a [node] of [FileTree], and the log of
      the git commands run; [REPO] is [DIARY_REPO_PATH].
    - [create_entry], [delete_entry] and [get_all_entries] are the functions
      of the source.  The six hexadecimal digits that [uuid4] draws are an
      argument.  [for_dirs] is the shape the three loops over directories
      share; [parse_entry] is the header parser at the heart of the fourth.
    - The handlers return the JSON body, the status code and whether they
      started a synchronisation thread.

    The theorems show: the header that [create_entry] writes is read back
    by [parse_entry]; an entry that was created is listed; what deletion
    removes; and that the path of a deletion can leave the repository. *)

From Stdlib Require Import Ascii String.
From stdpp Require Import base tactics option list numbers.
From S2P Require Import Prelude PyStr PyJson Subprocess FileTree DiarySync.

(** ** Literals of the source *)

Definition s_dashes : str := Eval vm_compute in u "---".
Definition s_date_colon : str := Eval vm_compute in u "date:".
Definition s_md : str := Eval vm_compute in u ".md".
Definition s_add_entry : str := Eval vm_compute in u "Add entry: ".
Definition s_delete_entry : str := Eval vm_compute in u "Delete entry: ".
Definition s_content : str := Eval vm_compute in u "content".
Definition s_date : str := Eval vm_compute in u "date".
Definition s_content_required : str := Eval vm_compute in u "Content is required".
Definition s_entry_not_found : str := Eval vm_compute in u "Entry not found".
Definition s_add : str := Eval vm_compute in u "add".
Definition s_commit : str := Eval vm_compute in u "commit".
Definition s_m : str := Eval vm_compute in u "-m".

Arguments s_dashes : simpl never.
Arguments s_date_colon : simpl never.
Arguments s_md : simpl never.
Arguments s_add_entry : simpl never.
Arguments s_delete_entry : simpl never.
Arguments s_content : simpl never.
Arguments s_date : simpl never.
Arguments s_content_required : simpl never.
Arguments s_entry_not_found : simpl never.
Arguments s_add : simpl never.
Arguments s_commit : simpl never.
Arguments s_m : simpl never.

(** ** Dates *)

Record datetime : Type := {
  dt_year : N;
  dt_month : N;
  dt_day : N;
  dt_weekday : N;
  dt_hour : N;
  dt_minute : N;
  dt_second : N;
  dt_microsecond : N;
}.

(** The last decimal digit of [n], as a character. *)
Definition digit (n : N) : char := (0x30 + n mod 10)%N.
Arguments digit : simpl never.

Definition pad2 (n : N) : str := [digit (n / 10); digit n].
Definition pad4 (n : N) : str := [digit (n / 1000); digit (n / 100); digit (n / 10); digit n].
Definition pad6 (n : N) : str :=
  [digit (n / 100000); digit (n / 10000); digit (n / 1000);
   digit (n / 100); digit (n / 10); digit n].

Definition day_names : list str :=
  Eval vm_compute in [u "Mon"; u "Tue"; u "Wed"; u "Thu"; u "Fri"; u "Sat"; u "Sun"].

(** [%Y], [%m], [%a]. *)
Definition fmt_Y (d : datetime) : str := pad4 (dt_year d).
Definition fmt_m (d : datetime) : str := pad2 (dt_month d).
Definition fmt_a (d : datetime) : str := get_or [] day_names (N.to_nat (dt_weekday d)).

(** [%d-%a]. *)
Definition get_day_folder_name (d : datetime) : str :=
  pad2 (dt_day d) ++ [0x2D%N] ++ fmt_a d.

(** [%H%M%S]. *)
Definition fmt_HMS (d : datetime) : str :=
  pad2 (dt_hour d) ++ pad2 (dt_minute d) ++ pad2 (dt_second d).

(** [%Y-%m-%d %H:%M]. *)
Definition fmt_minute (d : datetime) : str :=
  pad4 (dt_year d) ++ [0x2D%N] ++ pad2 (dt_month d) ++ [0x2D%N] ++ pad2 (dt_day d)
  ++ [0x20%N] ++ pad2 (dt_hour d) ++ [0x3A%N] ++ pad2 (dt_minute d).

(** [%Y-%m-%d %H:%M:%S]. *)
Definition fmt_stamp (d : datetime) : str :=
  fmt_minute d ++ [0x3A%N] ++ pad2 (dt_second d).

(** [date.isoformat()]. *)
Definition isoformat (d : datetime) : str :=
  pad4 (dt_year d) ++ [0x2D%N] ++ pad2 (dt_month d) ++ [0x2D%N] ++ pad2 (dt_day d)
  ++ [0x54%N] ++ pad2 (dt_hour d) ++ [0x3A%N] ++ pad2 (dt_minute d)
  ++ [0x3A%N] ++ pad2 (dt_second d)
  ++ (if (dt_microsecond d =? 0)%N then [] else [0x2E%N] ++ pad6 (dt_microsecond d)).

(** ** The text of an entry *)

(** The f-string of lines 179-184. *)
Definition entry_text (date : datetime) (content : str) : str :=
  s_dashes ++ NL ++ s_date_colon ++ [0x20%N] ++ fmt_stamp date ++ NL
  ++ s_dashes ++ NL ++ NL ++ content ++ NL.

(** The loop of lines 254-256: the last line that starts with [date:]. *)
Definition scan_date (lines : list str) : option str :=
  fold_left (fun entry_date line =>
               if startswith s_date_colon line
               then Some (strip (replace s_date_colon [] line))
               else entry_date)
            lines None.

(** Lines 244-256: the date of the header and the text after it. *)
Definition parse_entry (content : str) : option str * str :=
  if startswith s_dashes content then
    let parts := splitn 2 s_dashes content in
    if (3 <=? length parts)%nat then
      let metadata := strip (get_or [] parts 1) in
      let entry_content := strip (get_or [] parts 2) in
      (scan_date (split NL metadata), entry_content)
    else (None, content)
  else (None, content).

(** [PurePath.stem]: the name without its last suffix. *)
Definition stem (name : str) : str :=
  let j := length (take_while (fun c => negb (c =? 0x2E)%N) (rev name)) in
  let i := (length name - 1 - j)%nat in
  if (j <? length name)%nat && (0 <? i)%nat && (0 <? j)%nat then take i name else name.

(** ** Data *)

(** A dictionary of [day_entries]. *)
Record entry : Type := {
  e_id : str;
  e_date : option str;
  e_content : str;
  e_year : str;
  e_month : str;
  e_day : str;
}.

(** A dictionary of [entries]. *)
Record day_group : Type := {
  g_year : str;
  g_month : str;
  g_day : str;
  g_entries : list entry;
}.

(** The dictionary [create_entry] returns. *)
Record created : Type := {
  c_id : str;
  c_date : str;
  c_path : str;
  c_content : str;
}.

Record dstate : Type := {
  root : node;
  cmds : list command;
}.

(** [for x in l: ...] with a body that may raise. *)
Fixpoint traverse {A B} (f : A -> result B) (l : list A) : result (list B) :=
  match l with
  | [] => Ok []
  | x :: r =>
      match f x with
      | Ok y => match traverse f r with Ok ys => Ok (y :: ys) | Raise e => Raise e end
      | Raise e => Raise e
      end
  end.

(** A loop over the directories of a listing, newest name first: those that
    are no directory or whose name fails the test are skipped. *)
Definition for_dirs {B} (keep : str -> bool)
    (body : str -> list (str * node) -> result (list B))
    (children : list (str * node)) : result (list B) :=
  match traverse (fun e => match e.2 with
                           | Dir es => if keep e.1 then body e.1 es else Ok []
                           | File _ => Ok []
                           end)
                 (sorted_desc children) with
  | Ok parts => Ok (concat parts)
  | Raise e => Raise e
  end.

(** One file of a day. *)
Definition entry_of (y m d : str) (f : str * node) : result entry :=
  match f.2 with
  | File content =>
      let '(entry_date, entry_content) := parse_entry content in
      Ok {| e_id := stem f.1; e_date := entry_date; e_content := entry_content;
            e_year := y; e_month := m; e_day := d |}
  | Dir _ => Raise OSError
  end.

(** The files of a day: [sorted(day_dir.glob('*.md'), reverse=True)]. *)
Definition day_entries (y m d : str) (files : list (str * node)) : result (list entry) :=
  traverse (entry_of y m d)
           (sorted_desc (filter_b (fun f => endswith s_md f.1) files)).

Definition day_body (y m d : str) (files : list (str * node)) : result (list day_group) :=
  match day_entries y m d files with
  | Ok es =>
      Ok (if truthy_list es
          then [{| g_year := y; g_month := m; g_day := d; g_entries := es |}] else [])
  | Raise e => Raise e
  end.

Section Entries.
(** The operating system, [DIARY_REPO_PATH] and [datetime.fromisoformat]. *)
Context (os : oracle) (REPO : path) (fromisoformat : str -> option datetime).

Definition get_entry_path (date : datetime) (entry_id : option str) : path :=
  let folder := REPO ++ [fmt_Y date; fmt_m date; get_day_folder_name date] in
  match entry_id with
  | Some i => if truthy i then folder ++ [i ++ s_md] else folder
  | None => folder
  end.

Definition create_entry (now : datetime) (rnd : str) (content : str)
    (date : option datetime) (st : dstate) : result (created * dstate) :=
  let date := default now date in
  let timestamp := fmt_HMS date in
  let entry_id := timestamp ++ [0x5F%N] ++ rnd in
  let folder := get_entry_path date None in
  root1 ← mkdirs folder (root st);
  let entry_path := folder ++ [entry_id ++ s_md] in
  root2 ← write entry_path (entry_text date content) root1;
  let relative_path := join s_slash (drop (length REPO) entry_path) in
  let lg := (run_git_command os [s_add; relative_path] (cmds st)).2 in
  let commit_msg := s_add_entry ++ fmt_minute date in
  let lg := (run_git_command os [s_commit; s_m; commit_msg] lg).2 in
  Ok ({| c_id := entry_id; c_date := isoformat date; c_path := relative_path;
         c_content := content |},
      {| root := root2; cmds := lg |}).

Definition delete_entry (year month day entry_id : str) (st : dstate)
  : result (bool * dstate) :=
  let entry_path := REPO ++ [year; month; day; entry_id ++ s_md] in
  if negb (exists_at (root st) entry_path) then Ok (false, st)
  else
    root1 ← unlink (default [] (resolve (root st) [] entry_path)) (root st);
    let relative_path := join s_slash (drop (length REPO) entry_path) in
    let lg := (run_git_command os [s_add; relative_path] (cmds st)).2 in
    let commit_msg := s_delete_entry ++ year ++ [0x2D%N] ++ month ++ [0x2D%N] ++ day
                      ++ s_slash ++ entry_id in
    let lg := (run_git_command os [s_commit; s_m; commit_msg] lg).2 in
    Ok (true, {| root := root1; cmds := lg |}).

Definition get_all_entries (st : dstate) : result (list day_group) :=
  match get (root st) REPO with
  | None => Ok []
  | Some (File _) => Raise OSError
  | Some (Dir years) =>
      for_dirs isdigit (fun y months =>
        for_dirs isdigit (fun m days =>
          for_dirs (contains [0x2D%N]) (fun d files => day_body y m d files) days)
          months)
        years
  end.

(** ** The handlers *)

Inductive entries_body : Type :=
| BEntries (entries : list day_group) (s : sync_state)
| BCreated (e : created)
| BDeleted
| BFailed (msg : str).

Record ereply : Type := {
  ebody : entries_body;
  estatus : Z;
  esync_started : bool;
}.

Definition api_get_entries (s : sync_state) (st : dstate) : result ereply :=
  entries ← get_all_entries st;
  Ok {| ebody := BEntries entries s; estatus := 200; esync_started := false |}.

(** The date of the request: [data['date']] when it is there, is true and
    parses; the present time otherwise. *)
Definition request_date (now : datetime) (data : dict) : datetime :=
  match dict_lookup data s_date with
  | Some v =>
      if json_truthy v then
        match v with
        | JStr s => default now (fromisoformat s)
        | _ => now
        end
      else now
  | None => now
  end.

Definition api_create_entry (now : datetime) (rnd : str) (data : dict) (st : dstate)
  : result (ereply * dstate) :=
  content ← get_stripped data s_content;
  if negb (truthy content) then
    Ok ({| ebody := BFailed s_content_required; estatus := 400; esync_started := false |}, st)
  else
    let date := request_date now data in
    '(e, st) ← create_entry now rnd content (Some date) st;
    Ok ({| ebody := BCreated e; estatus := 200; esync_started := true |}, st).

Definition api_delete_entry (year month day entry_id : str) (st : dstate)
  : result (ereply * dstate) :=
  '(success, st) ← delete_entry year month day entry_id st;
  if (success : bool) then
    Ok ({| ebody := BDeleted; estatus := 200; esync_started := true |}, st)
  else
    Ok ({| ebody := BFailed s_entry_not_found; estatus := 404; esync_started := false |}, st).

End Entries.

(** ** What [strftime] prints *)

Lemma digit_range n : (0x30 <= digit n <= 0x39)%N.
Proof.
  unfold digit. pose proof (N.mod_upper_bound n 10 ltac:(lia)).
  generalize dependent (n mod 10)%N. intros. lia.
Qed.

Lemma digit_eqb c n : (c <? 0x30)%N || (0x39 <? c)%N = true -> (c =? digit n)%N = false.
Proof.
  intros H. pose proof (digit_range n). apply N.eqb_neq.
  apply orb_true_iff in H as [H%N.ltb_lt|H%N.ltb_lt]; lia.
Qed.

Lemma is_digit_digit n : is_digit (digit n) = true.
Proof. pose proof (digit_range n). unfold is_digit. apply andb_true_iff. split; apply N.leb_le; lia. Qed.

Lemma is_space_digit n : is_space (digit n) = false.
Proof.
  pose proof (digit_range n). unfold is_space.
  repeat match goal with
         | |- context [N.eqb ?a ?b] => rewrite (proj2 (N.eqb_neq a b)) by lia
         | |- context [N.leb ?a ?b] =>
             first [rewrite (proj2 (N.leb_le a b)) by lia | rewrite (proj2 (N.leb_gt a b)) by lia]
         end.
  done.
Qed.

Ltac digits := repeat rewrite digit_eqb by done.

(** The header of an entry, between the two lines of dashes. *)
Definition header (d : datetime) : str := NL ++ s_date_colon ++ [0x20%N] ++ fmt_stamp d.

Ltac stamp := unfold header, fmt_stamp, fmt_minute, pad4, pad2, s_date_colon, s_dashes, NL; cbn [app].

Lemma header_dashes d : contains [0x2D; 0x2D]%N (header d) = false.
Proof. stamp. cbn -[N.eqb]. digits. done. Qed.

Lemma stamp_one_line d : contains NL (s_date_colon ++ [0x20%N] ++ fmt_stamp d) = false.
Proof. stamp. cbn -[N.eqb]. digits. done. Qed.

Lemma stamp_no_key d : contains s_date_colon ([0x20%N] ++ fmt_stamp d) = false.
Proof. stamp. cbn -[N.eqb]. digits. done. Qed.

Lemma stamp_stripped d : strip ([0x20%N] ++ fmt_stamp d) = fmt_stamp d.
Proof.
  rewrite strip_blank_app by done. stamp.
  eapply strip_fixed; [done|apply is_space_digit|apply is_space_digit].
Qed.

Lemma header_stripped d : strip (header d ++ NL) = s_date_colon ++ [0x20%N] ++ fmt_stamp d.
Proof.
  unfold header. rewrite <-app_assoc, strip_blank_app, strip_app_blank by done. stamp.
  eapply strip_fixed; [done|done|apply is_space_digit].
Qed.

Lemma find_header d rest :
  find s_dashes (header d ++ NL ++ s_dashes ++ rest) = Some (header d ++ NL, rest).
Proof.
  change (header d ++ NL ++ s_dashes ++ rest) with (header d ++ 0x0A%N :: (s_dashes ++ rest)).
  unfold s_dashes at 1. rewrite find_skip; [|done|apply header_dashes].
  by rewrite find_unfold.
Qed.

Lemma find_prefix sep rest : find sep (sep ++ rest) = Some ([], rest).
Proof. by rewrite find_unfold, startswith_app, drop_app_length. Qed.

Lemma entry_text_header d content :
  entry_text d content = s_dashes ++ header d ++ NL ++ s_dashes ++ NL ++ NL ++ content ++ NL.
Proof. unfold entry_text, header. by rewrite <-!app_assoc. Qed.

Lemma scan_date_header d :
  scan_date (split NL (s_date_colon ++ [0x20%N] ++ fmt_stamp d)) = Some (fmt_stamp d).
Proof.
  rewrite split_absent by apply stamp_one_line. cbn [scan_date fold_left].
  rewrite startswith_app. unfold replace.
  rewrite split_unfold, find_prefix by done. rewrite split_absent by apply stamp_no_key.
  cbn [join]. by rewrite !app_nil_l, stamp_stripped.
Qed.

Lemma parse_entry_text d content :
  parse_entry (entry_text d content) = (Some (fmt_stamp d), strip content).
Proof.
  rewrite entry_text_header. unfold parse_entry. rewrite startswith_app.
  rewrite splitn_S, find_prefix. cbv beta iota. rewrite splitn_S, find_header.
  cbn [splitn length Nat.leb get_or nth].
  rewrite header_stripped, scan_date_header. f_equal.
  rewrite 2!strip_blank_app by done. by rewrite strip_app_blank.
Qed.

(** ** Names *)

Lemma isdigit_fmt_Y d : isdigit (fmt_Y d) = true.
Proof. unfold isdigit, fmt_Y, pad4. cbn. by rewrite !is_digit_digit. Qed.

Lemma isdigit_fmt_m d : isdigit (fmt_m d) = true.
Proof. unfold isdigit, fmt_m, pad2. cbn. by rewrite !is_digit_digit. Qed.

Lemma day_folder_dash d : contains [0x2D%N] (get_day_folder_name d) = true.
Proof.
  unfold get_day_folder_name.
  apply (contains_app [0x2D%N] (pad2 (dt_day d)) (fmt_a d)).
Qed.

Lemma endswith_app p s : endswith p (s ++ p) = true.
Proof. unfold endswith. rewrite rev_app_distr. apply startswith_app. Qed.

(** The name of an entry file without [.md] is the identifier. *)
Lemma stem_md i : i <> [] -> stem (i ++ s_md) = i.
Proof.
  intros Hi. unfold stem. rewrite rev_app_distr, length_app.
  change (length (take_while _ (rev s_md ++ rev i))) with 2.
  change (length s_md) with 3.
  assert (0 < length i) by (destruct i; [done|cbn; lia]).
  replace (length i + 3 - 1 - 2) with (length i) by lia.
  rewrite (proj2 (Nat.ltb_lt 2 (length i + 3))) by lia.
  rewrite (proj2 (Nat.ltb_lt 0 (length i))) by lia.
  cbn [andb Nat.ltb Nat.leb]. by rewrite take_app_length.
Qed.

(** ** The walk *)

Lemma traverse_elem {A B} (f : A -> result B) l ys x :
  traverse f l = Ok ys -> x ∈ l -> exists y, f x = Ok y /\ y ∈ ys.
Proof.
  revert ys. induction l as [|a l IH]; intros ys; cbn; [by intros _ ?%elem_of_nil|].
  destruct (f a) as [b|] eqn:Fa; [|done]. destruct (traverse f l) as [bs|]; [|done].
  intros [= <-] [->|Hx]%elem_of_cons.
  - exists b. split; [done|apply list_elem_of_here].
  - destruct (IH bs eq_refl Hx) as (y & ? & ?). exists y. split; [done|].
    by apply list_elem_of_further.
Qed.

(** A directory that passes the test contributes what its body yields. *)
Lemma for_dirs_elem {B} keep (body : str -> list (str * node) -> result (list B))
    children out name es :
  for_dirs keep body children = Ok out ->
  (name, Dir es) ∈ children -> keep name = true ->
  exists part, body name es = Ok part /\ forall g, g ∈ part -> g ∈ out.
Proof.
  unfold for_dirs. destruct (traverse _ _) as [parts|] eqn:T; [|done].
  intros [= <-] Hin Hk. apply sorted_desc_elem in Hin.
  destruct (traverse_elem _ _ _ _ T Hin) as (part & Hb & Hp). cbn in Hb. rewrite Hk in Hb.
  exists part. split; [done|]. intros g Hg. apply list_elem_of_In, in_concat.
  exists part. by rewrite <-!list_elem_of_In.
Qed.

Lemma day_entries_elem y m d files es name text :
  day_entries y m d files = Ok es ->
  (name, File text) ∈ files -> endswith s_md name = true ->
  exists e, entry_of y m d (name, File text) = Ok e /\ e ∈ es.
Proof.
  unfold day_entries. intros T Hin Hmd. eapply traverse_elem; [done|].
  apply sorted_desc_elem, list_elem_of_In, filter_In. split; [by apply list_elem_of_In|done].
Qed.

Lemma day_body_elem y m d files out name text :
  day_body y m d files = Ok out ->
  (name, File text) ∈ files -> endswith s_md name = true ->
  exists g e, g ∈ out /\ g_year g = y /\ g_month g = m /\ g_day g = d
              /\ entry_of y m d (name, File text) = Ok e /\ e ∈ g_entries g.
Proof.
  unfold day_body. destruct (day_entries y m d files) as [es|] eqn:E; [|done].
  intros [= <-] Hin Hmd. destruct (day_entries_elem _ _ _ _ _ _ _ E Hin Hmd) as (e & He & Hes).
  destruct es as [|e0 es]; [by apply elem_of_nil in Hes|]. cbn.
  eexists _, e. split; [apply list_elem_of_here|]. by repeat split.
Qed.

(** A path of four names below a directory, level by level. *)
Lemma get_chain n a b c f e :
  get n [a; b; c; f] = Some e ->
  exists la lb lc lf,
    n = Dir la /\ alookup a la = Some (Dir lb) /\ alookup b lb = Some (Dir lc)
    /\ alookup c lc = Some (Dir lf) /\ alookup f lf = Some e.
Proof.
  cbn. destruct n as [|la]; [done|]. destruct (alookup a la) as [[|lb]|] eqn:A; cbn; try done.
  destruct (alookup b lb) as [[|lc]|] eqn:B; cbn; try done.
  destruct (alookup c lc) as [[|lf]|] eqn:C; cbn; try done.
  destruct (alookup f lf) as [e'|] eqn:F; cbn; [|done]. intros [= <-]. by exists la, lb, lc, lf.
Qed.

(** ** Creation and deletion *)

Section EntryFacts.
Context (os : oracle) (REPO : path) (fromisoformat : str -> option datetime).

(** The identifier of an entry: [%H%M%S], an underscore, and the digits
    drawn. *)
Definition entry_id_of (date : datetime) (rnd : str) : str := fmt_HMS date ++ [0x5F%N] ++ rnd.

(** The path of an entry below the repository. *)
Definition entry_file (date : datetime) (rnd : str) : path :=
  [fmt_Y date; fmt_m date; get_day_folder_name date; entry_id_of date rnd ++ s_md].

(** The entry that [get_all_entries] makes of a file [create_entry] wrote. *)
Definition entry_read (date : datetime) (rnd content : str) : entry :=
  {| e_id := entry_id_of date rnd; e_date := Some (fmt_stamp date);
     e_content := strip content;
     e_year := fmt_Y date; e_month := fmt_m date; e_day := get_day_folder_name date |}.

Lemma entry_id_nonempty date rnd : entry_id_of date rnd <> [].
Proof. done. Qed.

Lemma create_entry_inv now rnd content date st c st' :
  create_entry os REPO now rnd content date st = Ok (c, st') ->
  let dt := default now date in
  c = {| c_id := entry_id_of dt rnd; c_date := isoformat dt;
         c_path := join s_slash (entry_file dt rnd); c_content := content |}
  /\ get (root st') (REPO ++ entry_file dt rnd) = Some (File (entry_text dt content))
  /\ cmds st' = cmds st ++ [ [s_git; s_add; join s_slash (entry_file dt rnd)];
                             [s_git; s_commit; s_m; s_add_entry ++ fmt_minute dt] ].
Proof.
  unfold create_entry, get_entry_path. cbv zeta.
  destruct (mkdirs _ (root st)) as [root1|]; [|done]. cbn [mbind result_bind].
  rewrite <-app_assoc. destruct (write _ _ root1) as [root2|] eqn:W; [|done].
  cbn [mbind result_bind]. rewrite !run_git_command_log, drop_app_length, <-(app_assoc (cmds st)).
  intros [= <- <-]. split; [done|]. split; [by eapply write_get|done].
Qed.

Lemma entry_of_created date rnd content :
  entry_of (fmt_Y date) (fmt_m date) (get_day_folder_name date)
           (entry_id_of date rnd ++ s_md, File (entry_text date content))
  = Ok (entry_read date rnd content).
Proof.
  unfold entry_of. cbn [snd fst]. rewrite parse_entry_text. by rewrite stem_md.
Qed.

(** The walk reaches a file that sits three directories below the
    repository under names that pass the tests. *)
Lemma get_all_entries_elem st groups y m d f text :
  get_all_entries REPO st = Ok groups ->
  get (root st) (REPO ++ [y; m; d; f]) = Some (File text) ->
  isdigit y = true -> isdigit m = true -> contains [0x2D%N] d = true ->
  endswith s_md f = true ->
  exists g e, g ∈ groups /\ g_year g = y /\ g_month g = m /\ g_day g = d
              /\ entry_of y m d (f, File text) = Ok e /\ e ∈ g_entries g.
Proof.
  unfold get_all_entries. rewrite get_app.
  destruct (get (root st) REPO) as [n|]; [|done]. cbn [mbind option_bind].
  intros Hall (ly & lm & ld & lf & -> & Hy & Hm & Hd & Hf)%get_chain Dy Dm Dd Df.
  apply alookup_In in Hy, Hm, Hd, Hf.
  destruct (for_dirs_elem _ _ _ _ _ _ Hall Hy Dy) as (p1 & H1 & S1).
  destruct (for_dirs_elem _ _ _ _ _ _ H1 Hm Dm) as (p2 & H2 & S2).
  destruct (for_dirs_elem _ _ _ _ _ _ H2 Hd Dd) as (p3 & H3 & S3).
  destruct (day_body_elem _ _ _ _ _ _ _ H3 Hf Df) as (g & e & Hg & ?).
  exists g, e. split; [auto|done].
Qed.

(** C36: What [delete_entry] does on every path: when the path leads to a
    file it removes that file, runs [git add] and [git commit] and answers
    [True]; when the path leads nowhere it answers [False] and changes
    nothing; when it leads to a directory [unlink] raises. *)
Theorem delete_entry_spec year month day entry_id st :
  let entry_path := REPO ++ [year; month; day; entry_id ++ s_md] in
  match delete_entry os REPO year month day entry_id st with
  | Ok (true, st') =>
      exists q text,
        resolve (root st) [] entry_path = Some q
        /\ get (root st) q = Some (File text) /\ get (root st') q = None
        /\ cmds st' = cmds st ++
             [ [s_git; s_add; join s_slash [year; month; day; entry_id ++ s_md]];
               [s_git; s_commit; s_m;
                s_delete_entry ++ year ++ [0x2D%N] ++ month ++ [0x2D%N] ++ day
                ++ s_slash ++ entry_id] ]
  | Ok (false, st') => st' = st /\ exists_at (root st) entry_path = false
  | Raise e =>
      e = OSError
      /\ exists q, resolve (root st) [] entry_path = Some q
                   /\ (q = [] \/ is_dir (get (root st) q) = true)
  end.
Proof.
  unfold delete_entry. cbv zeta. destruct (exists_at _ _) eqn:E; cbn [negb]; [|done].
  unfold exists_at in E. destruct (resolve _ _ _) as [q|]; [|done]. cbn [default from_option id].
  case_bool_decide as G; [|done]. destruct G as [n G].
  destruct (unlink q (root st)) as [root1|e] eqn:U; cbn [mbind result_bind].
  - destruct (unlink_Ok _ _ _ U) as [text Ht]. exists q, text.
    rewrite !run_git_command_log, drop_app_length, <-(app_assoc (cmds st)).
    repeat split; [done|by eapply unlink_get].
  - assert (e = OSError /\ (q = [] \/ is_dir (get (root st) q) = true)) as [-> ?];
      [|split; [done|by exists q]].
    destruct (unlink_Raise _ _ _ U) as [-> [?|[?|?]]]; [auto| |auto]. congruence.
Qed.

(** What [create_entry] writes, [get_all_entries] reads back: the file
    is in the tree under the path the function returns, and the parser makes
    of it an entry with the identifier returned, the date in the header and
    the content without the blanks at its ends. *)
Theorem create_entry_readback now rnd content date st c st' :
  create_entry os REPO now rnd content date st = Ok (c, st') ->
  let dt := default now date in
  c_id c = entry_id_of dt rnd
  /\ c_path c = join s_slash (entry_file dt rnd)
  /\ get (root st') (REPO ++ entry_file dt rnd) = Some (File (entry_text dt content))
  /\ entry_of (fmt_Y dt) (fmt_m dt) (get_day_folder_name dt)
              (c_id c ++ s_md, File (entry_text dt content))
     = Ok (entry_read dt rnd content).
Proof.
  intros (-> & G & _)%create_entry_inv dt. cbn [c_id c_path].
  repeat split; [done|apply entry_of_created].
Qed.

(** C6: An entry that was created is listed: when [get_all_entries] returns
    after [create_entry], the group of the day is in its result and holds
    the entry, with its identifier, its date and its content. *)
Theorem created_entry_is_listed now rnd content date st c st' groups :
  create_entry os REPO now rnd content date st = Ok (c, st') ->
  get_all_entries REPO st' = Ok groups ->
  let dt := default now date in
  exists g, g ∈ groups
    /\ g_year g = fmt_Y dt /\ g_month g = fmt_m dt /\ g_day g = get_day_folder_name dt
    /\ entry_read dt rnd content ∈ g_entries g.
Proof.
  intros (_ & G & _)%create_entry_inv Hall dt.
  destruct (get_all_entries_elem _ _ _ _ _ _ _ Hall G) as (g & e & ? & ? & ? & ? & He & ?);
    [apply isdigit_fmt_Y|apply isdigit_fmt_m|apply day_folder_dash|apply endswith_app|].
  rewrite entry_of_created in He. injection He as <-. by exists g.
Qed.

(** A handler of the entries that starts no synchronisation has changed
    nothing. *)
Lemma api_create_entry_quiet now rnd data st r st' :
  api_create_entry os REPO fromisoformat now rnd data st = Ok (r, st') ->
  esync_started r = false -> st' = st.
Proof.
  unfold api_create_entry. destruct (get_stripped data s_content) as [c|]; [|done].
  cbn [mbind result_bind]. destruct (negb (truthy c)); [by intros [= <- <-]|].
  destruct (create_entry _ _ _ _ _ _ _) as [[e st1]|]; [|done].
  cbn [mbind result_bind]. by intros [= <- <-].
Qed.

Lemma api_delete_entry_quiet year month day entry_id st r st' :
  api_delete_entry os REPO year month day entry_id st = Ok (r, st') ->
  esync_started r = false -> st' = st.
Proof.
  unfold api_delete_entry, delete_entry. destruct (negb (exists_at _ _)).
  - cbn [mbind result_bind]. by intros [= <- <-].
  - destruct (unlink _ _) as [root1|]; [|done]. cbn [mbind result_bind]. by intros [= <- <-].
Qed.

End EntryFacts.

(** ** The theorems at concrete inputs *)

Definition repo0 : path := Eval vm_compute in [u "home"; u "me"; u "diary"].

Definition monday : datetime :=
  {| dt_year := 2024; dt_month := 3; dt_day := 4; dt_weekday := 0;
     dt_hour := 10; dt_minute := 5; dt_second := 9; dt_microsecond := 0 |}.

(** A home directory with a note beside the repository, and an empty
    repository. *)
Definition fs0 : node :=
  Eval vm_compute in
  Dir [(u "home", Dir [(u "me", Dir [(u "notes.md", File (u "keep me"));
                                     (u "diary", Dir [])])])].

Definition st0 : dstate := {| root := fs0; cmds := [] |}.

(** The state after one entry was created. *)
Definition st1 : dstate :=
  Eval vm_compute in
  match create_entry quiet_os repo0 monday (u "abc123") (u "hello") None st0 with
  | Ok (_, st) => st
  | Raise _ => st0
  end.

Definition c1 : created :=
  {| c_id := entry_id_of monday (u "abc123"); c_date := isoformat monday;
     c_path := join s_slash (entry_file monday (u "abc123")); c_content := u "hello" |}.

Lemma create_entry_readback_witness :
  c_id c1 = entry_id_of monday (u "abc123")
  /\ c_path c1 = join s_slash (entry_file monday (u "abc123"))
  /\ get (root st1) (repo0 ++ entry_file monday (u "abc123"))
     = Some (File (entry_text monday (u "hello")))
  /\ entry_of (fmt_Y monday) (fmt_m monday) (get_day_folder_name monday)
              (c_id c1 ++ s_md, File (entry_text monday (u "hello")))
     = Ok (entry_read monday (u "abc123") (u "hello")).
Proof.
  apply (create_entry_readback quiet_os repo0 monday (u "abc123") (u "hello") None st0 c1 st1).
  by vm_compute.
Defined.

Lemma created_entry_is_listed_witness :
  exists g, g ∈ [ {| g_year := fmt_Y monday; g_month := fmt_m monday;
                     g_day := get_day_folder_name monday;
                     g_entries := [entry_read monday (u "abc123") (u "hello")] |} ]
    /\ g_year g = fmt_Y monday /\ g_month g = fmt_m monday
    /\ g_day g = get_day_folder_name monday
    /\ entry_read monday (u "abc123") (u "hello") ∈ g_entries g.
Proof.
  apply (created_entry_is_listed quiet_os repo0 monday (u "abc123") (u "hello") None st0 c1 st1);
    by vm_compute.
Defined.


(** ** Leaving the repository *)

Lemma md_plain x : plain (x ++ s_md) = true.
Proof.
  unfold plain, str_eqb. apply andb_true_iff.
  split; apply negb_true_iff, bool_decide_eq_false; intros E%(f_equal length);
    rewrite length_app in E; change (length s_md) with 3 in E; cbn in E; lia.
Qed.

(** C37: The names of a deletion come from the URL and are not checked: with
    [..] for the year and [.] for the month and the day, the path leaves
    the repository, and a Markdown file that lies beside the repository is
    removed. *)
Theorem delete_entry_leaves_repository os parent name x text st :
  forallb plain (parent ++ [name]) = true ->
  is_dir (get (root st) (parent ++ [name])) = true ->
  get (root st) (parent ++ [x ++ s_md]) = Some (File text) ->
  exists st',
    delete_entry os (parent ++ [name]) s_dotdot s_dot s_dot x st = Ok (true, st')
    /\ get (root st') (parent ++ [x ++ s_md]) = None.
Proof.
  intros Hp Hd Hf. pose proof (get_prefix_dir _ _ _ _ _ Hf) as Hparent.
  assert (resolve (root st) [] ((parent ++ [name]) ++ [s_dotdot; s_dot; s_dot; x ++ s_md])
          = Some (parent ++ [x ++ s_md])) as R.
  { rewrite resolve_plain by done. cbn [resolve app]. rewrite Hd, enter_dotdot.
    rewrite !enter_dot, Hparent. by rewrite enter_plain by apply md_plain. }
  unfold delete_entry, exists_at. cbv zeta. rewrite R, Hf. cbn [default from_option id].
  rewrite bool_decide_true by eauto. cbn [negb].
  destruct (unlink_file _ _ _ Hf) as [root1 U]; [by destruct parent|]. rewrite U.
  eexists. split; [done|]. by eapply unlink_get.
Qed.

Lemma delete_entry_leaves_repository_witness :
  exists st',
    delete_entry quiet_os ([u "home"; u "me"] ++ [u "diary"]) s_dotdot s_dot s_dot
                 (u "notes") st1 = Ok (true, st')
    /\ get (root st') ([u "home"; u "me"] ++ [u "notes" ++ s_md]) = None.
Proof.
  apply (delete_entry_leaves_repository quiet_os [u "home"; u "me"] (u "diary")
           (u "notes") (u "keep me") st1); by vm_compute.
Defined.
