(* ===== verification/DiaryStart.v ===== *)
(** * DiaryStart: the repository at start, in [src/diary/app.py]

    Before it serves requests the diary makes sure that its repository is
    there: the directory, the git repository in it, a first file, and the
    remote.  Then it starts the thread of the periodic synchronisation and
    a first synchronisation.

    - [ensure_repo_exists] on a [dstate] of [DiaryEntries.v]: the tree,
      and the git commands run.  What git itself writes (the directory
      [.git]) is not part of the tree: the function tests for it before it
      calls [git init], and does not look again.
    - [background_sync] is the loop of the periodic thread, one turn for
      each time of the clock it is given; its [except] clause is not
      reached, because [sync_with_remote] raises nothing.
    - [diary_main] is the block under [__main__] up to [app.run]: what is
      printed, the state of the repository, and the process with its first
      thread.

    The theorems show what [ensure_repo_exists] does to a repository that
    is there and to one that is not, and that it can only raise when the
    repository has to be made. *)

From Stdlib Require Import Ascii String.
From stdpp Require Import base tactics option list numbers.
From S2P Require Import Prelude PyStr Subprocess FileTree DiarySync DiaryEntries.

(** ** Literals of the source *)

Definition s_dot_git : str := Eval vm_compute in u ".git".
Definition s_readme : str := Eval vm_compute in u "README.md".
Definition readme_text : str :=
  Eval vm_compute in
  u "# My Diary" ++ NL ++ NL
  ++ u "Personal diary entries managed by the Diary Web App." ++ NL.
Definition cmd_init : command := Eval vm_compute in [u "init"].
Definition cmd_add_readme : command := [s_add; s_readme].
Definition cmd_initial_commit : command :=
  Eval vm_compute in [u "commit"; u "-m"; u "Initial commit"].
Definition SYNC_INTERVAL : N := 15.

Section Start.
(** The operating system, [DIARY_REPO_PATH] and [DIARY_REMOTE_URL]. *)
Context (os : oracle) (REPO : path) (URL : str).

(** ** The functions of the source *)

(** The value is the state of the repository and what was printed; the
    function returns [True] when it returns. *)
Definition ensure_repo_exists (st : dstate) : result (dstate * list str) :=
  '(root1, repo_created) ←
    (if negb (exists_at (root st) REPO)
     then made ← mkdirs REPO (root st); Ok (made, true)
     else Ok (root st, false));
  let '(lg, repo_created) :=
    if negb (exists_at root1 (REPO ++ [s_dot_git]))
    then ((run_git_command os cmd_init (cmds st)).2, true)
    else (cmds st, repo_created) in
  '(root2, lg, printed) ←
    (if (repo_created : bool) then
       let readme_path := REPO ++ [s_readme] in
       '(root2, lg) ←
         (if negb (exists_at root1 readme_path)
          then written ← write readme_path readme_text root1;
               let lg := (run_git_command os cmd_add_readme lg).2 in
               let lg := (run_git_command os cmd_initial_commit lg).2 in
               Ok (written, lg)
          else Ok (root1, lg));
       Ok (root2, lg, [u "📓 Initialized diary repository at " ++ show_path REPO])
     else Ok (root1, lg, []));
  let g := ensure_remote_configured os URL {| sync := sync_state_init; log := lg |} in
  Ok ({| root := root2; cmds := log g |}, printed).

(** The loop of the periodic thread, for the times at which it wakes. *)
Definition background_sync (times : list str) (g : gstate) : gstate :=
  foldl (fun g now => (sync_with_remote os URL now g).2) g times.

(** The block under [__main__], up to [app.run]: what was printed, the
    repository, and the process with the thread of the first
    synchronisation. *)
Definition diary_main (st : dstate) : result (list str * dstate * sys) :=
  let banner :=
    [ u "📓 Diary Web App";
      u "📁 Repository: " ++ show_path REPO;
      u "🔄 Sync interval: " ++ str_of_N SYNC_INTERVAL ++ u " seconds";
      [] ] in
  '(st', printed) ← ensure_repo_exists st;
  Ok (banner ++ printed ++ [u "🔄 Background sync started"; []],
      st',
      {| shared := {| sync := sync_state_init; log := cmds st' |}; threads := [Guard] |}).

(** ** What the start does *)

(** A repository that is there, with its [.git]: nothing is written and
    nothing printed, and only the remote is looked at. *)
Lemma ensure_repo_exists_ready st :
  exists_at (root st) REPO = true -> exists_at (root st) (REPO ++ [s_dot_git]) = true ->
  exists pre,
    pre ∈ remote_fixes URL
    /\ ensure_repo_exists st
       = Ok ({| root := root st; cmds := cmds st ++ (cons s_git <$> pre) |}, []).
Proof.
  intros H1 H2. unfold ensure_repo_exists. rewrite H1. cbn [negb mbind result_bind].
  rewrite H2. cbn [negb mbind result_bind].
  destruct (ensure_remote_log os URL {| sync := sync_state_init; log := cmds st |})
    as (pre & Hpre & ->). by exists pre.
Qed.

(** In a directory that was just made there is nothing. *)
Lemma exists_at_new root1 c :
  forallb plain REPO = true -> plain c = true -> get root1 REPO = Some (Dir []) ->
  exists_at root1 (REPO ++ [c]) = false.
Proof.
  intros Hp Hc G. rewrite exists_at_plain by (rewrite forallb_app, Hp; cbn; by rewrite Hc).
  apply bool_decide_eq_false. rewrite get_app, G. by intros [??].
Qed.

(** A repository that is not there is made, with its first file, and
    git is told; the line that says so is printed. *)
Lemma ensure_repo_exists_fresh st root1 :
  forallb plain REPO = true -> get (root st) REPO = None -> mkdirs REPO (root st) = Ok root1 ->
  exists pre,
    pre ∈ remote_fixes URL
    /\ ensure_repo_exists st
       = Ok ({| root := graft REPO (Dir [(s_readme, File readme_text)]) root1;
                cmds := cmds st ++ (cons s_git <$> [cmd_init; cmd_add_readme; cmd_initial_commit]
                                                   ++ pre) |},
             [u "📓 Initialized diary repository at " ++ show_path REPO]).
Proof.
  intros Hp G M. unfold ensure_repo_exists.
  rewrite exists_at_plain, G, M by done. cbn [bool_decide negb mbind result_bind].
  rewrite bool_decide_eq_false_2 by (by intros [??]). cbn [negb mbind result_bind].
  pose proof (mkdirs_new _ _ _ G M) as G1.
  rewrite !exists_at_new by done. cbn [negb mbind result_bind].
  rewrite (write_child REPO s_readme readme_text [] root1) by done.
  cbn [mbind result_bind app]. rewrite !run_git_command_log.
  destruct (ensure_remote_log os URL
              {| sync := sync_state_init;
                 log := ((cmds st ++ [s_git :: cmd_init]) ++ [s_git :: cmd_add_readme])
                        ++ [s_git :: cmd_initial_commit] |})
    as (pre & Hpre & ->). exists pre. split; [done|].
  cbn [log fmap list_fmap app]. by rewrite <- !app_assoc.
Qed.

(** The start raises nothing but the error of the file system, and only
    when it has to write: a repository with its [.git] is always
    accepted. *)
Lemma ensure_repo_exists_raises st e :
  ensure_repo_exists st = Raise e ->
  e = OSError
  /\ (exists_at (root st) REPO = false
      \/ exists_at (root st) (REPO ++ [s_dot_git]) = false).
Proof.
  unfold ensure_repo_exists. destruct (exists_at (root st) REPO) eqn:H1; cbn [negb].
  - cbn [mbind result_bind]. destruct (exists_at (root st) (REPO ++ [s_dot_git])) eqn:H2;
      cbn [negb]; [done|].
    destruct (exists_at (root st) (REPO ++ [s_readme])); cbn [negb mbind result_bind]; [done|].
    destruct (write _ _ _) as [w|x] eqn:W; cbn [mbind result_bind]; [done|].
    intros [= <-]. split; [by eapply write_Raise|by right].
  - destruct (mkdirs REPO (root st)) as [made|x] eqn:M; cbn [mbind result_bind];
      [|intros [= <-]; split; [by eapply mkdirs_Raise|by left]].
    destruct (exists_at made (REPO ++ [s_dot_git])); cbn [negb];
      (destruct (exists_at made (REPO ++ [s_readme])); cbn [negb mbind result_bind]; [done|]);
      (destruct (write _ _ _) as [w|y] eqn:W; cbn [mbind result_bind]; [done|]);
      intros [= <-]; (split; [by eapply write_Raise|by left]).
Qed.

End Start.

(** ** A home to start in *)

(** A home without a diary, and one where the name of the diary is that of
    a file. *)
Definition fs_home : node :=
  Eval vm_compute in Dir [(u "home", Dir [(u "me", Dir [(u "notes.md", File (u "keep me"))])])].

Definition fs_taken : node :=
  Eval vm_compute in Dir [(u "home", Dir [(u "me", Dir [(u "diary", File (u "a file"))])])].

(** A repository that git has made. *)
Definition fs_repo : node :=
  Eval vm_compute in
  Dir [(u "home", Dir [(u "me", Dir [(u "diary", Dir [(u ".git", Dir [])])])])].

(** C25: What [ensure_repo_exists] does, when the path of the repository
    has no [.] or [..]: a repository that is there with its [.git] is left
    as it is, nothing is printed and only the commands of the remote are
    run; a repository that is not there is made with its [README.md],
    after [git init] the file is added and committed before the remote is
    looked at, and one line is printed; and the function raises nothing
    but [OSError], and only when the repository or its [.git] was not
    there. *)
Theorem ensure_repo_exists_spec os REPO URL st :
  forallb plain REPO = true ->
  (exists_at (root st) REPO = true -> exists_at (root st) (REPO ++ [s_dot_git]) = true ->
   exists pre,
     pre ∈ remote_fixes URL
     /\ ensure_repo_exists os REPO URL st
        = Ok ({| root := root st; cmds := cmds st ++ (cons s_git <$> pre) |}, []))
  /\ (forall made, get (root st) REPO = None -> mkdirs REPO (root st) = Ok made ->
      exists pre,
        pre ∈ remote_fixes URL
        /\ ensure_repo_exists os REPO URL st
           = Ok ({| root := graft REPO (Dir [(s_readme, File readme_text)]) made;
                    cmds := cmds st
                            ++ (cons s_git <$> [cmd_init; cmd_add_readme; cmd_initial_commit]
                                               ++ pre) |},
                 [u "📓 Initialized diary repository at " ++ show_path REPO]))
  /\ (forall e, ensure_repo_exists os REPO URL st = Raise e ->
      e = OSError
      /\ (exists_at (root st) REPO = false
          \/ exists_at (root st) (REPO ++ [s_dot_git]) = false)).
Proof.
  intros Hp. split_and!.
  - apply ensure_repo_exists_ready.
  - intros made. by apply ensure_repo_exists_fresh.
  - apply ensure_repo_exists_raises.
Qed.

Lemma ensure_repo_exists_spec_witness :
  (exists_at (root {| root := fs_home; cmds := [] |}) repo0 = true ->
   exists_at (root {| root := fs_home; cmds := [] |}) (repo0 ++ [s_dot_git]) = true ->
   exists pre,
     pre ∈ remote_fixes url0
     /\ ensure_repo_exists quiet_os repo0 url0 {| root := fs_home; cmds := [] |}
        = Ok ({| root := fs_home; cmds := [] ++ (cons s_git <$> pre) |}, []))
  /\ (forall made, get fs_home repo0 = None -> mkdirs repo0 fs_home = Ok made ->
      exists pre,
        pre ∈ remote_fixes url0
        /\ ensure_repo_exists quiet_os repo0 url0 {| root := fs_home; cmds := [] |}
           = Ok ({| root := graft repo0 (Dir [(s_readme, File readme_text)]) made;
                    cmds := [] ++ (cons s_git <$> [cmd_init; cmd_add_readme; cmd_initial_commit]
                                                  ++ pre) |},
                 [u "📓 Initialized diary repository at " ++ show_path repo0]))
  /\ (forall e, ensure_repo_exists quiet_os repo0 url0 {| root := fs_home; cmds := [] |}
                = Raise e ->
      e = OSError
      /\ (exists_at fs_home repo0 = false \/ exists_at fs_home (repo0 ++ [s_dot_git]) = false)).
Proof.
  exact (ensure_repo_exists_spec quiet_os repo0 url0 {| root := fs_home; cmds := [] |} eq_refl).
Defined.

(** ** The start at work *)

(** In a home without a diary: the repository is made, git is told, and
    the remote is set (on this system every command succeeds and prints
    nothing, so [get-url] names no remote); the first thread is at its
    guard. *)
Example diary_main_fresh :
  match diary_main quiet_os repo0 url0 {| root := fs_home; cmds := [] |} with
  | Ok (printed, st, process) =>
      get (root st) (repo0 ++ [s_readme]) = Some (File readme_text)
      /\ get (root st) [u "home"; u "me"; u "notes.md"] = Some (File (u "keep me"))
      /\ cmds st = cons s_git <$> [cmd_init; cmd_add_readme; cmd_initial_commit;
                                   cmd_get_url; cmd_set_url url0]
      /\ printed = [ u "📓 Diary Web App"; u "📁 Repository: /home/me/diary";
                     u "🔄 Sync interval: 15 seconds"; [];
                     u "📓 Initialized diary repository at /home/me/diary";
                     u "🔄 Background sync started"; [] ]
      /\ threads process = [Guard] /\ log (shared process) = cmds st
  | Raise _ => False
  end.
Proof. by vm_compute. Qed.

(** When the name of the repository is that of a file the start raises:
    [exists] is true, [git init] is run in a directory that is none, and
    the write of [README.md] fails.  With a repository that git has made
    nothing is written. *)
Example diary_main_taken :
  diary_main quiet_os repo0 url0 {| root := fs_taken; cmds := [] |} = Raise OSError
  /\ match diary_main quiet_os repo0 url0 {| root := fs_repo; cmds := [] |} with
     | Ok (printed, st, _) => root st = fs_repo /\ length printed = 6%nat
     | Raise _ => False
     end.
Proof. by vm_compute. Qed.

(** The periodic thread, three times on a remote that refuses: no error is
    recorded and the flag is clear. *)
Example background_sync_rounds :
  let g := background_sync failing_os url0 [u "t1"; u "t2"; u "t3"] g_idle in
  sync g = {| last_sync := Some (u "t3"); last_error := None; syncing := false |}
  /\ length (log g) = 18%nat.
Proof. by vm_compute. Qed.
