(* ===== verification/DiaryApp.v ===== *)
(** * DiaryApp: the diary as one process, [src/diary/app.py]

    The routes and the synchronisation threads work on the same
    repository and the same dictionary [sync_state].  This file puts the
    components together: the tree of the entries ([DiaryEntries.v]), the
    file of the todos ([DiaryTodos.v]), the dictionary and the log of git
    ([DiarySync.v]), and the calls of [sync_with_remote] that are under
    way.

    - An [event] is a request to a route, a turn of the periodic thread, or
      one action of one call of [sync_with_remote].
    - [app_step] is what an event does to the process.  A route that
      changes the repository starts a call ([threading.Thread(target=
      sync_with_remote).start()]); the handler of [POST /api/sync] and
      the periodic thread call [sync_with_remote] themselves, which is a
      call under way like the others.  A request that raises leaves what
      it had written: the directories that [create_entry] made before its
      write failed.
    - A route is one step: its writes and its two git commands are not
      interleaved with the actions of the calls.  The calls interleave
      with each other and with the routes, action by action.
      [DiaryRoutes.v] takes the todo routes apart into their accesses.
    - [todos.json] is kept beside the tree of the entries: no route of the
      entries reaches it, their paths have three directories below the
      repository.

    The theorems show, for every sequence of events: the flag [syncing] is
    set only while a call is in its section and the todos stay well
    formed; the actions of the calls are bounded by the requests; every
    change of the repository by a route starts a call; and when the
    requests stop, the calls return, one after the other, with the flag
    released and the repository as the routes left it. *)

From Stdlib Require Import Ascii String.
From stdpp Require Import base tactics option list numbers relations.
From S2P Require Import Prelude PyStr PyJson Subprocess FileTree.
From S2P Require Import DiarySync DiaryTodos DiaryEntries DiaryStart.

(** Nothing has changed: the right of the two cases of a request. *)
Local Ltac unchanged := right; repeat split; auto.

(** ** The process *)

Record process : Type := {
  a_tree : node;
  a_todos : todos_file;
  a_git : gstate;
  a_calls : list pc;
}.

Inductive event : Type :=
| TodoRoute (req : request)
| CreateEntry (now : datetime) (rnd : str) (data : dict)
| DeleteEntry (year month day entry_id : str)
| ReadRoute
| SyncRoute
| Tick
| Act (i : nat) (now : str).

(** The calls after a route that may have started one. *)
Definition started (b : bool) (calls : list pc) : list pc :=
  if b then calls ++ [Guard] else calls.

(** The threads and what they share. *)
Definition to_sys (s : process) : sys := {| shared := a_git s; threads := a_calls s |}.

Section App.
(** The operating system, [DIARY_REPO_PATH], [DIARY_REMOTE_URL] and
    [datetime.fromisoformat]. *)
Context (os : oracle) (REPO : path) (URL : str) (fromisoformat : str -> option datetime).

(** The tree after a [POST /api/entries] that raised: [create_entry] had
    made the directories when its write failed. *)
Definition tree_after_failure (now : datetime) (data : dict) (tree : node) : node :=
  match get_stripped data s_content with
  | Ok content =>
      if negb (truthy content) then tree
      else
        match mkdirs (get_entry_path REPO (request_date fromisoformat now data) None) tree with
        | Ok made => made
        | Raise _ => tree
        end
  | Raise _ => tree
  end.

Definition app_step (e : event) (s : process) : option process :=
  match e with
  | TodoRoute req =>
      match handle os req {| file := a_todos s; commands := log (a_git s) |} with
      | Ok (r, st) =>
          Some {| a_tree := a_tree s; a_todos := file st;
                  a_git := {| sync := sync (a_git s); log := commands st |};
                  a_calls := started (sync_started r) (a_calls s) |}
      | Raise _ => Some s
      end
  | CreateEntry now rnd data =>
      match api_create_entry os REPO fromisoformat now rnd data
              {| root := a_tree s; cmds := log (a_git s) |} with
      | Ok (r, st) =>
          Some {| a_tree := root st; a_todos := a_todos s;
                  a_git := {| sync := sync (a_git s); log := cmds st |};
                  a_calls := started (esync_started r) (a_calls s) |}
      | Raise _ =>
          Some {| a_tree := tree_after_failure now data (a_tree s); a_todos := a_todos s;
                  a_git := a_git s; a_calls := a_calls s |}
      end
  | DeleteEntry year month day entry_id =>
      match api_delete_entry os REPO year month day entry_id
              {| root := a_tree s; cmds := log (a_git s) |} with
      | Ok (r, st) =>
          Some {| a_tree := root st; a_todos := a_todos s;
                  a_git := {| sync := sync (a_git s); log := cmds st |};
                  a_calls := started (esync_started r) (a_calls s) |}
      | Raise _ => Some s
      end
  | ReadRoute => Some s
  | SyncRoute | Tick =>
      Some {| a_tree := a_tree s; a_todos := a_todos s; a_git := a_git s;
              a_calls := a_calls s ++ [Guard] |}
  | Act i now =>
      p ← a_calls s !! i;
      '(p', g') ← thread_step os URL now p (a_git s);
      Some {| a_tree := a_tree s; a_todos := a_todos s; a_git := g';
              a_calls := <[i := p']> (a_calls s) |}
  end.

(** The events in their order; [None] when one of them is the action of a
    call that is not there or has returned. *)
Fixpoint app_run (events : list event) (s : process) : option process :=
  match events with
  | [] => Some s
  | e :: rest => s' ← app_step e s; app_run rest s'
  end.

(** The process after [diary_main]: the repository as [ensure_repo_exists]
    left it, the todos of the repository, and the first call. *)
Definition app_start (st : dstate) (f : todos_file) : result process :=
  '(_, st', started_process) ← diary_main os REPO URL st;
  Ok {| a_tree := root st'; a_todos := f; a_git := shared started_process;
        a_calls := threads started_process |}.

(** ** Schedules *)

(** The events that are actions of calls. *)
Definition is_act (e : event) : bool := match e with Act _ _ => true | _ => false end.

(** The actions and the other events of a sequence, counted. *)
Definition acts (events : list event) : nat :=
  sum_list_with (fun e => if is_act e then 1 else 0) events.

Definition requests (events : list event) : nat :=
  sum_list_with (fun e => if is_act e then 0 else 1) events.

(** The actions of the call [i], at [p], when it is run alone for [n]
    actions at most. *)
Fixpoint acts_of (now : str) (n i : nat) (p : pc) (g : gstate) : list event :=
  match n with
  | 0 => []
  | S n' =>
      match thread_step os URL now p g with
      | Some (p', g') => Act i now :: acts_of now n' i p' g'
      | None => []
      end
  end.

(** The calls [ids] run to their end, one after the other. *)
Fixpoint quiesce (now : str) (ids : list nat) (s : process) : list event :=
  match ids with
  | [] => []
  | i :: rest =>
      match a_calls s !! i with
      | Some p =>
          let events := acts_of now (rank p) i p (a_git s) in
          events ++ quiesce now rest (default s (app_run events s))
      | None => quiesce now rest s
      end
  end.

End App.

(** ** What an event does *)

Section AppFacts.
Context (os : oracle) (REPO : path) (URL : str) (fromisoformat : str -> option datetime).

Abbreviation step := (app_step os REPO URL fromisoformat).
Abbreviation run := (app_run os REPO URL fromisoformat).

(** An action is an action of one call, and touches nothing but the
    dictionary, the log and the place of the call. *)
Lemma app_step_act i now s s' :
  step (Act i now) s = Some s' ->
  exists p p',
    a_calls s !! i = Some p
    /\ thread_step os URL now p (a_git s) = Some (p', a_git s')
    /\ a_calls s' = <[i := p']> (a_calls s)
    /\ a_tree s' = a_tree s /\ a_todos s' = a_todos s.
Proof.
  cbn [app_step]. destruct (a_calls s !! i) as [p|]; [|done]. cbn [mbind option_bind].
  destruct (thread_step os URL now p (a_git s)) as [[p' g']|] eqn:E; [|done].
  intros [= <-]. by exists p, p'.
Qed.

(** Another event leaves the dictionary and starts one call at most. *)
Lemma app_step_route e s s' :
  is_act e = false -> step e s = Some s' ->
  sync (a_git s') = sync (a_git s)
  /\ (a_calls s' = a_calls s \/ a_calls s' = a_calls s ++ [Guard]).
Proof.
  destruct e as [req|now rnd data|y m d i| | | |i now]; cbn [app_step is_act]; [..|done];
    intros _.
  - destruct (handle _ _ _) as [[r st]|]; intros [= <-]; cbn; [|by auto].
    destruct (sync_started r); auto.
  - destruct (api_create_entry _ _ _ _ _ _ _) as [[r st]|]; intros [= <-]; cbn; [|by auto].
    destruct (esync_started r); auto.
  - destruct (api_delete_entry _ _ _ _ _ _ _) as [[r st]|]; intros [= <-]; cbn; [|by auto].
    destruct (esync_started r); auto.
  - intros [= <-]. auto.
  - intros [= <-]. cbn. auto.
  - intros [= <-]. cbn. auto.
Qed.

(** The flag is set only while a call is in its section. *)
Lemma app_step_flag e s s' :
  step e s = Some s' -> flag_inv (to_sys s) -> flag_inv (to_sys s').
Proof.
  destruct (is_act e) eqn:A; intros H.
  - destruct e; try done. apply app_step_act in H as (p & p' & Hi & E & Hc & _).
    apply flag_inv_step with (os := os) (URL := URL). unfold to_sys. rewrite Hc.
    by eapply step_thread.
  - destruct (app_step_route _ _ _ A H) as [Hs Hc]. unfold flag_inv. cbn.
    rewrite Hs. intros I F. specialize (I F).
    destruct Hc as [-> | ->]; [done|]. apply Exists_app. by left.
Qed.

(** The todos stay well formed. *)
Lemma app_step_wf e s s' :
  step e s = Some s' -> wf_file (a_todos s) -> wf_file (a_todos s').
Proof.
  destruct e as [req|now rnd data|y m d i| | | |i now]; cbn [app_step].
  - destruct (handle _ _ _) as [[r st]|] eqn:H; intros [= <-]; [|done]. cbn.
    apply (todos_stay_wf os _ _ _ _ H).
  - by destruct (api_create_entry _ _ _ _ _ _ _) as [[r st]|]; intros [= <-].
  - by destruct (api_delete_entry _ _ _ _ _ _ _) as [[r st]|]; intros [= <-].
  - by intros [= <-].
  - by intros [= <-].
  - by intros [= <-].
  - by intros (p & p' & _ & _ & _ & _ & ->)%app_step_act.
Qed.

(** An action takes from the weight of the calls; another event adds the
    rank of [Guard] at most. *)
Lemma app_step_weight e s s' :
  step e s = Some s' ->
  (if is_act e then 1 else 0) + weight (to_sys s')
  <= weight (to_sys s) + (if is_act e then 0 else 13).
Proof.
  destruct (is_act e) eqn:A; intros H.
  - destruct e; try done. apply app_step_act in H as (p & p' & Hi & E & Hc & _).
    pose proof (thread_step_rank os URL _ _ _ _ _ E).
    pose proof (weight_insert (a_git s) (a_git s') (a_calls s) _ p p' Hi).
    unfold to_sys. rewrite Hc. lia.
  - destruct (app_step_route _ _ _ A H) as [_ Hc]. unfold weight. cbn [to_sys threads].
    destruct Hc as [-> | ->]; [lia|]. rewrite sum_list_with_app. cbn. lia.
Qed.

(** What every event keeps, every sequence of events keeps. *)
Lemma app_run_preserves (P : process -> Prop) :
  (forall e s s', step e s = Some s' -> P s -> P s') ->
  forall events s s', run events s = Some s' -> P s -> P s'.
Proof.
  intros Hstep events. induction events as [|e events IH]; intros s s'; cbn [app_run].
  - by intros [= <-].
  - destruct (step e s) as [s1|] eqn:E; [|done]. cbn. eauto.
Qed.

Lemma app_run_app events1 events2 s :
  run (events1 ++ events2) s = run events1 s ≫= run events2.
Proof.
  revert s. induction events1 as [|e events1 IH]; intros s; [done|].
  rewrite <-app_comm_cons. cbn [app_run]. destruct (step e s); [apply IH|done].
Qed.

(** The actions of a call run alone are a run of the process: the call
    gets to where [run_thread] says, the others wait. *)
Lemma app_run_acts now n i p s :
  a_calls s !! i = Some p ->
  run (acts_of os URL now n i p (a_git s)) s
  = Some {| a_tree := a_tree s; a_todos := a_todos s;
            a_git := (run_thread os URL now n p (a_git s)).2;
            a_calls := <[i := (run_thread os URL now n p (a_git s)).1]> (a_calls s) |}.
Proof.
  revert p s. induction n as [|n IH]; intros p s Hi.
  - cbn. rewrite list_insert_id by done. by destruct s.
  - cbn [acts_of]. rewrite run_thread_S.
    destruct (thread_step os URL now p (a_git s)) as [[p' g']|] eqn:E.
    + cbn [app_run app_step]. rewrite Hi. cbn [mbind option_bind]. rewrite E.
      cbn [mbind option_bind].
      set (s1 := {| a_tree := a_tree s; a_todos := a_todos s; a_git := g';
                    a_calls := <[i := p']> (a_calls s) |}).
      change g' with (a_git s1). rewrite (IH p' s1).
      * cbn. by rewrite list_insert_insert_eq.
      * cbn. apply list_lookup_insert_eq. by eapply lookup_lt_Some.
    + cbn. rewrite list_insert_id by done. by destruct s.
Qed.

(** The calls [ids] run to their end: each of them has returned, the
    others are where they were, and the repository is as it was. *)
Lemma quiesce_run now ids s :
  exists s',
    run (quiesce os REPO URL fromisoformat now ids s) s = Some s'
    /\ a_tree s' = a_tree s /\ a_todos s' = a_todos s
    /\ forall j p, a_calls s' !! j = Some p ->
         rank p = 0 \/ (j ∉ ids) /\ a_calls s !! j = Some p.
Proof.
  revert s. induction ids as [|i ids IH]; intros s.
  - exists s. repeat split; try done. intros j p Hj. right. split; [|done].
    apply not_elem_of_nil.
  - cbn [quiesce]. destruct (a_calls s !! i) as [q|] eqn:Hi.
    + cbv zeta. rewrite app_run_app, (app_run_acts _ _ _ _ _ Hi). cbn [default mbind option_bind].
      set (s1 := {| a_tree := a_tree s |}).
      destruct (IH s1) as (s' & Hrun & Ht & Hf & Hc). exists s'. repeat split; try done.
      intros j p Hj. destruct (Hc j p Hj) as [H0|[Hn Hs]]; [by left|].
      destruct (decide (j = i)) as [->|Hji].
      * left. cbn in Hs. rewrite list_lookup_insert_eq in Hs by by eapply lookup_lt_Some.
        injection Hs as <-. by destruct (run_thread_rank os URL now (rank q) q (a_git s)) as [r ->].
      * right. cbn in Hs. rewrite list_lookup_insert_ne in Hs by done.
        split; [|done]. by intros [->|?]%elem_of_cons.
    + destruct (IH s) as (s' & Hrun & Ht & Hf & Hc). exists s'. repeat split; try done.
      intros j p Hj. destruct (Hc j p Hj) as [H0|[Hn Hs]]; [by left|]. right.
      split; [|done]. intros [->|?]%elem_of_cons; [congruence|done].
Qed.

End AppFacts.

(** ** The process, whatever the requests *)

Section AppTheorems.
Context (os : oracle) (REPO : path) (URL : str) (fromisoformat : str -> option datetime).

(** Whatever the requests and however the calls of [sync_with_remote]
    interleave with them and with each other, the flag [syncing] is set
    only while a call is in its section, and the todos of the file have
    texts that are not empty and have no blank at either end. *)
Theorem app_invariant events s s' :
  app_run os REPO URL fromisoformat events s = Some s' ->
  flag_inv (to_sys s) -> wf_file (a_todos s) ->
  flag_inv (to_sys s') /\ wf_file (a_todos s').
Proof.
  intros Hrun Hf Hw. split.
  - by apply (app_run_preserves os REPO URL fromisoformat (fun s => flag_inv (to_sys s))
                (app_step_flag os REPO URL fromisoformat) events s s').
  - by apply (app_run_preserves os REPO URL fromisoformat (fun s => wf_file (a_todos s))
                (app_step_wf os REPO URL fromisoformat) events s s').
Qed.

(** The calls of [sync_with_remote] end: in a sequence of events, the
    actions of the calls are at most what the calls under way had left and
    thirteen for each of the other events. *)
Theorem app_acts_bounded events s s' :
  app_run os REPO URL fromisoformat events s = Some s' ->
  acts events + weight (to_sys s') <= weight (to_sys s) + 13 * requests events.
Proof.
  revert s. induction events as [|e events IH]; intros s; cbn [app_run].
  - intros [= <-]. cbn. lia.
  - destruct (app_step os REPO URL fromisoformat e s) as [s1|] eqn:E; [|done].
    cbn [mbind option_bind]. intros Hrun%IH. apply app_step_weight in E.
    unfold acts, requests in *. cbn [sum_list_with]. destruct (is_act e); lia.
Qed.

(** C26: Every change of the repository by a route starts a
    synchronisation: an event that is no action of a call has started a
    call of [sync_with_remote], or it has left the todos, the dictionary,
    the log of git and the calls as they were, and the tree of the entries
    too, but for the directories that a [create_entry] made before its
    write failed. *)
Theorem change_starts_sync e s s' :
  is_act e = false -> app_step os REPO URL fromisoformat e s = Some s' ->
  a_calls s' = a_calls s ++ [Guard]
  \/ a_calls s' = a_calls s /\ a_todos s' = a_todos s /\ a_git s' = a_git s
     /\ (a_tree s' = a_tree s
         \/ exists now rnd data,
              e = CreateEntry now rnd data
              /\ a_tree s' = tree_after_failure REPO fromisoformat now data (a_tree s)).
Proof.
  destruct e as [req|now rnd data|y m d i| | | |i now]; cbn [app_step is_act]; [..|done];
    intros _.
  - destruct (handle _ _ _) as [[r st]|] eqn:H; intros [= <-]; cbn; [|by unchanged].
    destruct (sync_started r) eqn:S; [by left|].
    rewrite (handle_quiet os _ _ _ _ H S). cbn. destruct (a_git s). by unchanged.
  - destruct (api_create_entry _ _ _ _ _ _ _) as [[r st]|] eqn:H; intros [= <-]; cbn;
      [|right; repeat split; try done; right; by eexists _, _, _].
    destruct (esync_started r) eqn:S; [by left|].
    rewrite (api_create_entry_quiet _ _ _ _ _ _ _ _ _ H S). cbn. destruct (a_git s).
    by unchanged.
  - destruct (api_delete_entry _ _ _ _ _ _ _) as [[r st]|] eqn:H; intros [= <-]; cbn;
      [|by unchanged].
    destruct (esync_started r) eqn:S; [by left|].
    rewrite (api_delete_entry_quiet _ _ _ _ _ _ _ _ _ H S). cbn. destruct (a_git s).
    by unchanged.
  - intros [= <-]. by unchanged.
  - intros [= <-]. by left.
  - intros [= <-]. by left.
Qed.

(** C13: When the requests stop, the calls return: run one after the other,
    each call under way comes to its end, after which every call has
    returned, the flag [syncing] is released, and the entries and the
    todos are as the routes left them. *)
Theorem app_quiesces now s :
  flag_inv (to_sys s) ->
  exists s',
    app_run os REPO URL fromisoformat
      (quiesce os REPO URL fromisoformat now (seq 0 (length (a_calls s))) s) s = Some s'
    /\ a_tree s' = a_tree s /\ a_todos s' = a_todos s
    /\ Forall (fun p => exists r, p = Done r) (a_calls s')
    /\ syncing (sync (a_git s')) = false.
Proof.
  intros Hf.
  destruct (quiesce_run os REPO URL fromisoformat now (seq 0 (length (a_calls s))) s)
    as (s' & Hrun & Ht & Hd & Hc).
  assert (Forall (fun p => exists r, p = Done r) (a_calls s')) as Hdone.
  { apply Forall_lookup. intros j p Hj. destruct (Hc j p Hj) as [H0|[Hn Hs]]; [by apply rank_0|].
    destruct Hn. apply elem_of_seq. apply lookup_lt_Some in Hs. lia. }
  exists s'. repeat split; try done.
  apply (app_run_preserves os REPO URL fromisoformat (fun s => flag_inv (to_sys s))
           (app_step_flag os REPO URL fromisoformat) _ _ _ Hrun) in Hf.
  destruct (syncing (sync (a_git s'))) eqn:F; [|done].
  apply Hf, Exists_exists in F as (p & Hp & Hin).
  by destruct (proj1 (Forall_forall _ _) Hdone p Hp) as [r ->].
Qed.

End AppTheorems.

(** The process that [diary_main] starts has one call under way and the
    flag released. *)
Lemma app_start_inv os REPO URL st f s :
  app_start os REPO URL st f = Ok s ->
  a_calls s = [Guard] /\ sync (a_git s) = sync_state_init /\ a_todos s = f
  /\ flag_inv (to_sys s).
Proof.
  unfold app_start, diary_main.
  destruct (ensure_repo_exists os REPO URL st) as [[st' printed]|]; [|done].
  cbn [mbind result_bind]. by intros [= <-].
Qed.

(** ** The theorems at concrete inputs *)

(** A diary with two todos and its first call of [sync_with_remote]. *)
Definition s_two : process :=
  {| a_tree := fs_repo; a_todos := Holds [t_milk; t_mail];
     a_git := {| sync := sync_state_init; log := [] |}; a_calls := [Guard] |}.

Definition t0 : str := Eval vm_compute in u "2024-03-04T10:05:09".

(** The first call passes the guard and sets the flag; a todo is toggled,
    whose call finds the flag set and returns; the first call asks for the
    remote; an entry is created, whose call returns as well after an update
    was refused. *)
Definition events0 : list event :=
  [ Act 0 t0; Act 0 t0;
    TodoRoute (ToggleTodo (u "1a2b3c4d"));
    Act 1 t0; Act 0 t0;
    CreateEntry monday (u "abc123") [(s_content, JStr (u " hello "))];
    TodoRoute (UpdateTodo (u "deadbeef") [(s_text, JStr (u "   "))]);
    Act 2 t0 ].

Definition s_after : process :=
  Eval vm_compute in
  default s_two (app_run quiet_os repo0 url0 (fun _ => None) events0 s_two).

(** The process after the toggle alone. *)
Definition s_toggled : process :=
  Eval vm_compute in
  default s_two
    (app_step quiet_os repo0 url0 (fun _ => None) (TodoRoute (ToggleTodo (u "1a2b3c4d"))) s_two).

Lemma app_invariant_witness : flag_inv (to_sys s_after) /\ wf_file (a_todos s_after).
Proof.
  apply (app_invariant quiet_os repo0 url0 (fun _ => None) events0 s_two s_after).
  - by vm_compute.
  - by unfold flag_inv.
  - by repeat constructor.
Defined.

Lemma app_acts_bounded_witness :
  acts events0 + weight (to_sys s_after) <= weight (to_sys s_two) + 13 * requests events0.
Proof.
  apply (app_acts_bounded quiet_os repo0 url0 (fun _ => None) events0 s_two s_after).
  by vm_compute.
Defined.

Lemma change_starts_sync_witness :
  a_calls s_toggled = a_calls s_two ++ [Guard]
  \/ a_calls s_toggled = a_calls s_two /\ a_todos s_toggled = a_todos s_two
     /\ a_git s_toggled = a_git s_two
     /\ (a_tree s_toggled = a_tree s_two
         \/ exists now rnd data,
              TodoRoute (ToggleTodo (u "1a2b3c4d")) = CreateEntry now rnd data
              /\ a_tree s_toggled
                 = tree_after_failure repo0 (fun _ => None) now data (a_tree s_two)).
Proof.
  apply (change_starts_sync quiet_os repo0 url0 (fun _ => None)
           (TodoRoute (ToggleTodo (u "1a2b3c4d"))) s_two s_toggled).
  - done.
  - by vm_compute.
Defined.

Lemma app_quiesces_witness :
  exists s',
    app_run quiet_os repo0 url0 (fun _ => None)
      (quiesce quiet_os repo0 url0 (fun _ => None) t0 (seq 0 (length (a_calls s_after)))
         s_after) s_after = Some s'
    /\ a_tree s' = a_tree s_after /\ a_todos s' = a_todos s_after
    /\ Forall (fun p => exists r, p = Done r) (a_calls s')
    /\ syncing (sync (a_git s')) = false.
Proof.
  apply (app_quiesces quiet_os repo0 url0 (fun _ => None) t0 s_after).
  intros _. by left.
Defined.

(** The run at [events0]: five actions, three requests; the first call is
    still in its section with the flag set, and the two calls that the
    routes started have returned without a synchronisation. *)
Example app_run_events0 :
  acts events0 = 5 /\ requests events0 = 3
  /\ syncing (sync (a_git s_after)) = true
  /\ (exists c, a_calls s_after
                = [FixRemote c; Done (false, s_in_progress); Done (false, s_in_progress)])
  /\ length (log (a_git s_after)) = 5.
Proof. repeat split; try done. by eexists. Qed.

(** The first call needs four more actions; the git log then has the
    seven commands of the routes and of the one synchronisation that ran. *)
Example quiesce_events0 :
  let rest := quiesce quiet_os repo0 url0 (fun _ => None) t0 (seq 0 3) s_after in
  length rest = 4
  /\ match app_run quiet_os repo0 url0 (fun _ => None) rest s_after with
     | Some s' =>
         a_calls s' = [Done (true, s_local_only); Done (false, s_in_progress);
                       Done (false, s_in_progress)]
         /\ syncing (sync (a_git s')) = false /\ length (log (a_git s')) = 7
     | None => False
     end.
Proof. by vm_compute. Qed.
