(* ===== verification/DiaryRoutes.v ===== *)
(** * DiaryRoutes: the todo routes, one access at a time, [src/diary/app.py]

    [DiaryApp.v] takes a request to a route as one step.  The code has no
    lock: a todo route reads [todos.json] ([load_todos]), computes on its
    own copy, writes the file ([save_todos]: [write_text], [git add],
    [git commit]) and starts the synchronisation thread, and between any
    two of these accesses the other routes and the calls of
    [sync_with_remote] may run.  This file models a todo route as a thread
    of the process.

    - [rpc] is where a route is: before its read, before its write, before
      each of the two git commands, before the start of the thread, or
      answered.  Between its read and its write a route works on the list
      it has read: what it writes and answers is what the handler of
      [DiaryTodos.v] writes and answers on the file that was read.
    - [route_step] is one access of a route to the process of
      [DiaryApp.v]; [server] is the process with the routes under way, and
      [serve] is what an arrival, an access of a route, or an event of
      [DiaryApp.v] other than a todo request does to it.

    The theorems show: a route that is not interrupted does what the one
    step of [DiaryApp.v] does (so that [DiaryApp.v] is the diary when the
    requests are served one at a time); under every interleaving the flag
    is set only while a call is in its section, and the todos in the file
    and those about to be written are well formed; every route answers
    within five accesses; and two requests that interleave lose a todo that
    both were told is stored. *)

From Stdlib Require Import Ascii String.
From stdpp Require Import base tactics option list numbers relations.
From S2P Require Import Prelude PyStr PyJson Subprocess FileTree.
From S2P Require Import DiarySync DiaryTodos DiaryEntries DiaryStart DiaryApp.

(** ** A route as a thread *)

(** Where a todo route is, with its locals: the request; the list to write
    and the answer; the answer.  [Answered None] is a route that raised. *)
Inductive rpc : Type :=
| Load (req : request)
| Write (todos : list todo) (r : reply)
| GitAdd (r : reply)
| GitCommit (r : reply)
| Start (r : reply)
| Answered (r : option reply).

(** The process and the todo routes under way. *)
Record server : Type := {
  proc : process;
  reqs : list rpc;
}.

(** A request arrives, the route [j] takes its next access, or something
    else happens in the process. *)
Inductive happening : Type :=
| Arrive (req : request)
| Serve (j : nat)
| Other (e : event).

(** After the last command of [save_todos], or when nothing was saved. *)
Definition after_save (r : reply) : rpc :=
  if sync_started r then Start r else Answered (Some r).

Section Routes.
(** The operating system, [DIARY_REPO_PATH], [DIARY_REMOTE_URL] and
    [datetime.fromisoformat]. *)
Context (os : oracle) (REPO : path) (URL : str) (fromisoformat : str -> option datetime).

(** What a process is after a write of [todos.json], after a git command,
    and after the start of a thread. *)
Definition with_todos (f : todos_file) (s : process) : process :=
  {| a_tree := a_tree s; a_todos := f; a_git := a_git s; a_calls := a_calls s |}.

Definition with_git (c : command) (s : process) : process :=
  {| a_tree := a_tree s; a_todos := a_todos s;
     a_git := {| sync := sync (a_git s); log := (run_git_command os c (log (a_git s))).2 |};
     a_calls := a_calls s |}.

Definition with_call (s : process) : process :=
  {| a_tree := a_tree s; a_todos := a_todos s; a_git := a_git s;
     a_calls := a_calls s ++ [Guard] |}.

(** One access.  The read: the handler decides on the file it finds what
    it will write (when it calls [save_todos]) and what it will answer. *)
Definition route_step (p : rpc) (s : process) : option (rpc * process) :=
  match p with
  | Load req =>
      match handle os req {| file := a_todos s; commands := [] |} with
      | Ok (r, st) =>
          Some (match commands st with
                | [] => after_save r
                | _ :: _ => Write (load_todos (file st)) r
                end, s)
      | Raise _ => Some (Answered None, s)
      end
  | Write todos r => Some (GitAdd r, with_todos (Holds todos) s)
  | GitAdd r => Some (GitCommit r, with_git cmd_add_todos s)
  | GitCommit r => Some (after_save r, with_git cmd_commit_todos s)
  | Start r => Some (Answered (Some r), with_call s)
  | Answered _ => None
  end.

(** A route served without interruption, for [n] accesses at most. *)
Fixpoint run_route (n : nat) (p : rpc) (s : process) : rpc * process :=
  match n with
  | 0 => (p, s)
  | S n' =>
      match route_step p s with
      | Some (p', s') => run_route n' p' s'
      | None => (p, s)
      end
  end.

Definition serve (h : happening) (s : server) : option server :=
  match h with
  | Arrive req => Some {| proc := proc s; reqs := reqs s ++ [Load req] |}
  | Serve j =>
      p ← reqs s !! j;
      '(p', s') ← route_step p (proc s);
      Some {| proc := s'; reqs := <[j := p']> (reqs s) |}
  | Other (TodoRoute _) => None
  | Other e =>
      s' ← app_step os REPO URL fromisoformat e (proc s);
      Some {| proc := s'; reqs := reqs s |}
  end.

Fixpoint serve_all (hs : list happening) (s : server) : option server :=
  match hs with
  | [] => Some s
  | h :: rest => s' ← serve h s; serve_all rest s'
  end.

(** The accesses of the route [j], at [p], when it is served without
    interruption for [n] accesses at most. *)
Fixpoint accesses (n j : nat) (p : rpc) (s : process) : list happening :=
  match n with
  | 0 => []
  | S n' =>
      match route_step p s with
      | Some (p', s') => Serve j :: accesses n' j p' s'
      | None => []
      end
  end.

End Routes.

(** The accesses a route has left at most. *)
Definition route_rank (p : rpc) : nat :=
  match p with
  | Load _ => 5 | Write _ _ => 4 | GitAdd _ => 3 | GitCommit _ => 2 | Start _ => 1
  | Answered _ => 0
  end.

(** What a route is about to write is well formed. *)
Definition pending_wf (p : rpc) : Prop :=
  match p with
  | Write todos _ => Forall wf_todo todos
  | _ => True
  end.

(** The invariant of the server. *)
Definition server_inv (s : server) : Prop :=
  flag_inv (to_sys (proc s)) /\ wf_file (a_todos (proc s)) /\ Forall pending_wf (reqs s).

(** ** One access *)

Section RouteFacts.
Context (os : oracle) (REPO : path) (URL : str) (fromisoformat : str -> option datetime).

Lemma after_save_rank r : route_rank (after_save r) <= 1.
Proof. unfold after_save. destruct (sync_started r); cbn; lia. Qed.

(** Every access brings the route nearer to its answer. *)
Lemma route_step_rank p s p' s' :
  route_step os p s = Some (p', s') -> route_rank p' < route_rank p.
Proof.
  destruct p as [req|todos r|r|r|r|r]; cbn [route_step]; intros E; simplify_eq; cbn; try lia.
  - destruct (handle _ _ _) as [[r st]|]; simplify_eq; cbn; [|lia].
    pose proof (after_save_rank r). destruct (commands st); cbn; lia.
  - pose proof (after_save_rank r). lia.
Qed.

Lemma route_rank_0 p : route_rank p = 0 -> exists r, p = Answered r.
Proof. destruct p; cbn; try lia. eauto. Qed.

Lemma route_step_None p s : route_step os p s = None -> exists r, p = Answered r.
Proof.
  destruct p as [req|todos r|r|r|r|r]; cbn [route_step]; try done; [|by eauto].
  by destruct (handle _ _ _) as [[r st]|].
Qed.

Lemma run_route_S n p s :
  run_route os (S n) p s
  = match route_step os p s with Some (p', s') => run_route os n p' s' | None => (p, s) end.
Proof. done. Qed.

(** A route that is given as many accesses as its rank has answered. *)
Lemma run_route_answered n p s :
  route_rank p <= n -> exists r, (run_route os n p s).1 = Answered r.
Proof.
  revert p s. induction n as [|n IH]; intros p s Hn.
  - cbn. apply route_rank_0. lia.
  - rewrite run_route_S. destruct (route_step os p s) as [[p' s']|] eqn:E.
    + apply IH. apply route_step_rank in E. lia.
    + by apply route_step_None in E.
Qed.

(** An access keeps the flag where it is, the file well formed, and what
    the route is about to write well formed. *)
Lemma route_step_inv p s p' s' :
  route_step os p s = Some (p', s') ->
  pending_wf p -> flag_inv (to_sys s) -> wf_file (a_todos s) ->
  pending_wf p' /\ flag_inv (to_sys s') /\ wf_file (a_todos s').
Proof.
  destruct p as [req|todos r|r|r|r|r]; cbn [route_step]; intros E Hp Hf Hw; simplify_eq.
  - destruct (handle _ _ _) as [[r st]|] eqn:H; simplify_eq; [|done].
    split; [|done]. pose proof (todos_stay_wf os _ _ _ _ H Hw) as W.
    unfold after_save. by destruct (commands st), (sync_started r).
  - done.
  - done.
  - split; [|done]. unfold after_save. by destruct (sync_started r).
  - repeat split; try done. unfold flag_inv in *. cbn in *. intros F.
    apply Exists_app. left. by apply Hf.
Qed.

(** A route that is not interrupted: what it leaves and what it answers
    are what the handler leaves and answers. *)
Lemma run_route_alone req s :
  run_route os 5 (Load req) s
  = match handle os req {| file := a_todos s; commands := log (a_git s) |} with
    | Ok (r, st) =>
        (Answered (Some r),
         {| a_tree := a_tree s; a_todos := file st;
            a_git := {| sync := sync (a_git s); log := commands st |};
            a_calls := started (sync_started r) (a_calls s) |})
    | Raise _ => (Answered None, s)
    end.
Proof.
  rewrite handle_log, run_route_S. cbn [route_step].
  destruct (handle os req {| file := a_todos s; commands := [] |}) as [[r st]|] eqn:H; [|done].
  destruct (handle_saves os _ _ _ _ H) as [-> | [todos ->]].
  - cbn [commands file]. rewrite app_nil_r. unfold after_save, started.
    destruct s as [tree f [sy lg] calls]. by destruct (sync_started r).
  - rewrite save_todos_commands. cbn [commands app file save_todos load_todos].
    do 3 (rewrite run_route_S; cbn [route_step]).
    unfold after_save, started, with_git, with_todos.
    cbn [a_git a_tree a_todos a_calls log sync]. rewrite !run_git_command_log, <-app_assoc.
    destruct (sync_started r); by rewrite ?run_route_S.
Qed.

(** The accesses of a route served alone are a run of the server. *)
Lemma serve_all_accesses n j p s :
  reqs s !! j = Some p ->
  serve_all os REPO URL fromisoformat (accesses os n j p (proc s)) s
  = Some {| proc := (run_route os n p (proc s)).2;
            reqs := <[j := (run_route os n p (proc s)).1]> (reqs s) |}.
Proof.
  revert p s. induction n as [|n IH]; intros p s Hj.
  - cbn. rewrite list_insert_id by done. by destruct s.
  - cbn [accesses]. rewrite run_route_S.
    destruct (route_step os p (proc s)) as [[p' s1]|] eqn:E.
    + cbn [serve_all serve]. rewrite Hj. cbn [mbind option_bind]. rewrite E.
      cbn [mbind option_bind].
      set (s2 := {| proc := s1; reqs := <[j := p']> (reqs s) |}).
      change s1 with (proc s2). rewrite (IH p' s2).
      * cbn. by rewrite list_insert_insert_eq.
      * cbn. apply list_lookup_insert_eq. by eapply lookup_lt_Some.
    + cbn. rewrite list_insert_id by done. by destruct s.
Qed.

(** ** The server *)

(** A happening keeps the invariant. *)
Lemma serve_inv h s s' :
  serve os REPO URL fromisoformat h s = Some s' -> server_inv s -> server_inv s'.
Proof.
  intros E (Hf & Hw & Hp). destruct h as [req|j|e]; cbn [serve] in E.
  - simplify_eq. repeat split; try done. apply Forall_app. split; [done|]. by constructor.
  - destruct (reqs s !! j) as [p|] eqn:Hj; [|done]. cbn [mbind option_bind] in E.
    destruct (route_step os p (proc s)) as [[p' s1]|] eqn:R; simplify_eq/=.
    destruct (route_step_inv p (proc s) p' s1 R) as (Hp' & Hf' & Hw'); try done.
    { by apply (Forall_lookup_1 _ _ _ _ Hp Hj). }
    repeat split; try done. by apply Forall_insert.
  - assert (exists s1, app_step os REPO URL fromisoformat e (proc s) = Some s1
                       /\ s' = {| proc := s1; reqs := reqs s |}) as (s1 & A & ->).
    { destruct e; try done;
        (destruct (app_step _ _ _ _ _ _) as [s1|] eqn:A; [|done]); simplify_eq/=; eauto. }
    repeat split; try done.
    + by apply (app_step_flag os REPO URL fromisoformat e (proc s)).
    + by apply (app_step_wf os REPO URL fromisoformat e (proc s)).
Qed.

End RouteFacts.

(** ** The routes, whatever the interleaving *)

Section RouteTheorems.
Context (os : oracle) (REPO : path) (URL : str) (fromisoformat : str -> option datetime).

(** C12: A todo route that is served without interruption does what the
    one step of the process does: after the arrival of the request and the
    accesses of its route, five at most, the process is as after
    [app_step] at the request, and the route has answered what the handler
    answers, or has raised when the handler raises. *)
Theorem route_alone_is_atomic req s :
  exists s1 r,
    app_step os REPO URL fromisoformat (TodoRoute req) (proc s) = Some s1
    /\ serve_all os REPO URL fromisoformat
         (Arrive req :: accesses os 5 (length (reqs s)) (Load req) (proc s)) s
       = Some {| proc := s1; reqs := reqs s ++ [Answered r] |}
    /\ r = match handle os req {| file := a_todos (proc s);
                                  commands := log (a_git (proc s)) |} with
           | Ok (r, _) => Some r
           | Raise _ => None
           end.
Proof.
  pose proof (serve_all_accesses os REPO URL fromisoformat 5 (length (reqs s))
                (Load req) {| proc := proc s; reqs := reqs s ++ [Load req] |}
                (list_lookup_middle _ _ _ _ eq_refl)) as A.
  cbn [proc reqs] in A. rewrite run_route_alone in A.
  replace (length (reqs s)) with (length (reqs s) + 0) in A at 2 by lia.
  rewrite insert_app_r in A. cbn [serve_all serve mbind option_bind app_step]. rewrite A.
  destruct (handle _ _ _) as [[r st]|]; eexists _, _; repeat split; try done.
Qed.

(** C11: Whatever the requests, and however the accesses of the routes
    interleave with each other, with the other routes and with the calls
    of [sync_with_remote]: the flag [syncing] is set only while a call is
    in its section, the todos of the file have texts that are not empty
    and have no blank at either end, and so have the todos that a route
    is about to write. *)
Theorem server_invariant hs s s' :
  serve_all os REPO URL fromisoformat hs s = Some s' -> server_inv s -> server_inv s'.
Proof.
  revert s. induction hs as [|h hs IH]; intros s; cbn [serve_all].
  - by intros [= <-].
  - destruct (serve os REPO URL fromisoformat h s) as [s1|] eqn:E; [|done].
    cbn. intros Hrun Hi. apply (IH s1 Hrun). by apply (serve_inv os REPO URL fromisoformat h s).
Qed.

(** A route that is given its accesses answers, wherever it is and
    whatever the others have done; they stay where they are. *)
Theorem route_answers j p s :
  reqs s !! j = Some p ->
  exists r s1,
    serve_all os REPO URL fromisoformat (accesses os (route_rank p) j p (proc s)) s
    = Some {| proc := s1; reqs := <[j := Answered r]> (reqs s) |}.
Proof.
  intros Hj. rewrite (serve_all_accesses os REPO URL fromisoformat _ _ _ _ Hj).
  destruct (run_route_answered os (route_rank p) p (proc s)) as [r ->]; [done|]. eauto.
Qed.

(** The read of a request that creates a todo. *)
Lemma load_create new_id now data new_text s :
  get_stripped data s_text = Ok new_text -> truthy new_text = true ->
  let t := {| id := new_id; text := new_text; done := false; DiaryTodos.created := now |} in
  route_step os (Load (CreateTodo new_id now data)) s
  = Some (Write (load_todos (a_todos s) ++ [t]) (ok_reply (Some t)), s).
Proof.
  intros Ht Hn. cbn [route_step handle]. unfold api_create_todo. rewrite Ht.
  cbn [mbind result_bind]. rewrite Hn. cbn [negb]. unfold create_todo.
  by rewrite save_todos_commands.
Qed.

(** C14: Two requests lose a todo.  When two requests that create a todo
    are served at the same time, and the second reads [todos.json] before
    the first has written it, both are answered that their todo is stored,
    with the status 200, both commit and start a synchronisation, and the
    file holds the second todo without the first.  Served one after the
    other, the file holds both. *)
Theorem concurrent_creates_lose_one id1 now1 data1 text1 id2 now2 data2 text2 s :
  get_stripped data1 s_text = Ok text1 -> truthy text1 = true ->
  get_stripped data2 s_text = Ok text2 -> truthy text2 = true ->
  let c1 := CreateTodo id1 now1 data1 in
  let c2 := CreateTodo id2 now2 data2 in
  let t1 := {| id := id1; text := text1; done := false; DiaryTodos.created := now1 |} in
  let t2 := {| id := id2; text := text2; done := false; DiaryTodos.created := now2 |} in
  (exists s',
     serve_all os REPO URL fromisoformat
       [Arrive c1; Arrive c2; Serve 0; Serve 1;
        Serve 0; Serve 0; Serve 0; Serve 0; Serve 1; Serve 1; Serve 1; Serve 1]
       {| proc := s; reqs := [] |} = Some s'
     /\ a_todos (proc s') = Holds (load_todos (a_todos s) ++ [t2])
     /\ reqs s' = [Answered (Some (ok_reply (Some t1))); Answered (Some (ok_reply (Some t2)))]
     /\ a_calls (proc s') = a_calls s ++ [Guard; Guard])
  /\ (exists s',
        app_run os REPO URL fromisoformat [TodoRoute c1; TodoRoute c2] s = Some s'
        /\ a_todos s' = Holds (load_todos (a_todos s) ++ [t1; t2])
        /\ a_calls s' = a_calls s ++ [Guard; Guard]).
Proof.
  intros H1 N1 H2 N2. cbv zeta. split.
  - cbn [serve_all serve mbind option_bind app lookup list_lookup proc reqs insert list_insert].
    rewrite (load_create id1 now1 data1 text1 s H1 N1).
    cbn [serve_all serve mbind option_bind app lookup list_lookup proc reqs insert list_insert].
    rewrite (load_create id2 now2 data2 text2 s H2 N2).
    cbn. eexists. repeat split; try done.
    unfold with_call, with_git, with_todos. cbn. by rewrite <-app_assoc.
  - cbn [app_run app_step handle]. unfold api_create_todo. rewrite H1.
    cbn [mbind result_bind]. rewrite N1. cbn [negb create_todo mbind option_bind].
    cbn [app_step handle]. unfold api_create_todo. rewrite H2.
    cbn [mbind result_bind]. rewrite N2. cbn. eexists. repeat split; try done;
      cbn; by rewrite <-app_assoc.
Qed.

End RouteTheorems.

(** ** The theorems at concrete inputs *)

Definition d_call : dict := Eval vm_compute in [(s_text, JStr (u "  call home "))].
Definition d_walk : dict := Eval vm_compute in [(s_text, JStr (u "walk"))].

Definition t_call : todo :=
  {| id := u "00c0ffee"; text := u "call home"; done := false;
     DiaryTodos.created := u "2024-03-05T09:00:00" |}.

Definition t_walk : todo :=
  {| id := u "0badcafe"; text := u "walk"; done := false;
     DiaryTodos.created := u "2024-03-05T09:00:01" |}.

(** The diary of [DiaryApp.v] with no route under way. *)
Definition srv_two : server := {| proc := s_two; reqs := [] |}.

(** Two requests arrive; the first call of [sync_with_remote] runs between
    their accesses, and an entry is created by its route.  The toggle is
    read after the creation was read and written before it is written. *)
Definition happenings0 : list happening :=
  [ Arrive (CreateTodo (u "00c0ffee") (u "2024-03-05T09:00:00") d_call);
    Arrive (ToggleTodo (u "1a2b3c4d"));
    Serve 0; Other (Act 0 t0); Serve 1; Other (Act 0 t0); Serve 1; Serve 0;
    Other (CreateEntry monday (u "abc123") [(s_content, JStr (u " hello "))]);
    Serve 0; Serve 1; Serve 0; Serve 1; Serve 1; Serve 0 ].

Definition srv_after : server :=
  Eval vm_compute in
  default srv_two (serve_all quiet_os repo0 url0 (fun _ => None) happenings0 srv_two).

Lemma server_invariant_witness : server_inv srv_after.
Proof.
  apply (server_invariant quiet_os repo0 url0 (fun _ => None) happenings0 srv_two srv_after).
  - by vm_compute.
  - repeat split; [by unfold flag_inv|by repeat constructor|by constructor].
Defined.

Lemma concurrent_creates_lose_one_witness :
  (exists s',
     serve_all quiet_os repo0 url0 (fun _ => None)
       [Arrive (CreateTodo (u "00c0ffee") (u "2024-03-05T09:00:00") d_call);
        Arrive (CreateTodo (u "0badcafe") (u "2024-03-05T09:00:01") d_walk);
        Serve 0; Serve 1;
        Serve 0; Serve 0; Serve 0; Serve 0; Serve 1; Serve 1; Serve 1; Serve 1]
       {| proc := s_two; reqs := [] |} = Some s'
     /\ a_todos (proc s') = Holds (load_todos (a_todos s_two) ++ [t_walk])
     /\ reqs s' = [Answered (Some (ok_reply (Some t_call)));
                   Answered (Some (ok_reply (Some t_walk)))]
     /\ a_calls (proc s') = a_calls s_two ++ [Guard; Guard])
  /\ (exists s',
        app_run quiet_os repo0 url0 (fun _ => None)
          [TodoRoute (CreateTodo (u "00c0ffee") (u "2024-03-05T09:00:00") d_call);
           TodoRoute (CreateTodo (u "0badcafe") (u "2024-03-05T09:00:01") d_walk)] s_two
        = Some s'
        /\ a_todos s' = Holds (load_todos (a_todos s_two) ++ [t_call; t_walk])
        /\ a_calls s' = a_calls s_two ++ [Guard; Guard]).
Proof.
  apply (concurrent_creates_lose_one quiet_os repo0 url0 (fun _ => None)
           (u "00c0ffee") (u "2024-03-05T09:00:00") d_call (u "call home")
           (u "0badcafe") (u "2024-03-05T09:00:01") d_walk (u "walk") s_two);
    by vm_compute.
Defined.

(** The run at [happenings0]: both routes have answered with success; the
    toggle was written and then overwritten by the route that had read the
    file before it, so that the todo that was answered as done is not done
    in the file. *)
Example serve_happenings0 :
  reqs srv_after
  = [Answered (Some (ok_reply (Some t_call)));
     Answered (Some (ok_reply (Some (flip_done t_milk))))]
  /\ load_todos (a_todos (proc srv_after)) = [t_milk; t_mail; t_call]
  /\ a_calls (proc srv_after) = [GetUrl; Guard; Guard; Guard]
  /\ length (log (a_git (proc srv_after))) = 6.
Proof. by vm_compute. Qed.
