(* ===== verification/TimeTracker.v ===== *)
(** * TimeTracker: the handlers of [src/time_tracker/app.py]

    The time tracker keeps two SQLite tables, [subjects] and
    [time_entries], and answers each request with one or two SQL statements.

    - [sqlval] is a value of SQLite (integers and texts; reals and blobs
      are not modelled); [bind] is what [sqlite3] makes of a Python value
      given as a parameter; [sql_leb] is SQLite's order of values.  What the
      declared type of a column does to a value that is stored in it or
      compared with it is the interface [Affinity], with the laws the
      handlers rely on; [plain_affinity] is an instance.
    - [db] is the two tables, rows in the order of their identifiers, and
      the two counters that [AUTOINCREMENT] keeps in [sqlite_sequence].
    - One definition for each handler, under the name of the source;
      [create_time_entry] and [delete_time_entry] are the handlers
      [create_entry] and [delete_entry], whose names the diary has taken.
      A query is the list function that its statement denotes: [JOIN] is
      [joined], [WHERE] a filter, [ORDER BY] the stable sort [sort_by],
      [LIMIT] is [take], [GROUP BY] with [SUM] is [total_of].  Rows that tie
      under [ORDER BY] stay in the order of the table, which SQLite does
      not promise.
    - [date.today()] and [CURRENT_TIMESTAMP] are arguments; a date is its
      proleptic ordinal, and [date_iso] is its [isoformat].

    The theorems show: the invariant of the tables and that every handler
    keeps it; what the deletion of a subject removes; that an entry may name
    a subject that does not exist, and what that does to the answers; the
    order, the bound and the content of the listing; and the sums of the
    statistics. *)

From Stdlib Require Import Ascii String DecimalString.
From stdpp Require Import base tactics option list numbers sorting.
From S2P Require Import Prelude PyStr PyJson.

Local Open Scope Z_scope.

(** ** Literals of the source *)

Definition s_name : str := Eval vm_compute in u "name".
Definition s_color : str := Eval vm_compute in u "color".
Definition s_default_color : str := Eval vm_compute in u "#6366f1".
Definition s_subject_id : str := Eval vm_compute in u "subject_id".
Definition s_date_key : str := Eval vm_compute in u "date".
Definition s_minutes : str := Eval vm_compute in u "minutes".
Definition s_notes : str := Eval vm_compute in u "notes".
Definition s_name_required : str := Eval vm_compute in u "Subject name is required".
Definition s_already_exists : str := Eval vm_compute in u "Subject already exists".
Definition s_subject_required : str := Eval vm_compute in u "Subject is required".
Definition s_duration_required : str := Eval vm_compute in u "Valid time duration is required".

Arguments s_name : simpl never.
Arguments s_color : simpl never.
Arguments s_default_color : simpl never.
Arguments s_subject_id : simpl never.
Arguments s_date_key : simpl never.
Arguments s_minutes : simpl never.
Arguments s_notes : simpl never.
Arguments s_name_required : simpl never.
Arguments s_already_exists : simpl never.
Arguments s_subject_required : simpl never.
Arguments s_duration_required : simpl never.

(** ** Values of SQLite *)

Inductive sqlval : Type :=
| SNull
| SInt (n : Z)
| SText (s : str).

#[export] Instance sqlval_eq_dec : EqDecision sqlval.
Proof. solve_decision. Defined.

(** A Python value given as a parameter of a statement. *)
Definition bind (v : json) : result sqlval :=
  match v with
  | JNull => Ok SNull
  | JBool b => Ok (SInt (if b then 1 else 0))
  | JNum n => Ok (SInt n)
  | JStr s => Ok (SText s)
  | JArr _ | JObj _ => Raise InterfaceError
  end.

(** The order of values: [NULL] first, then the integers, then the texts by
    their code points. *)
Definition sql_leb (a b : sqlval) : bool :=
  match a, b with
  | SNull, _ => true
  | SInt _, SNull => false
  | SInt x, SInt y => (x <=? y)%Z
  | SInt _, SText _ => true
  | SText x, SText y => str_leb x y
  | SText _, _ => false
  end.

(** What the declared type of a column does to a value stored in it or
    compared with it.  SQLite turns a text that reads as a number into that
    number in an [INTEGER] or [NUMERIC] column (the column [date] is declared
    [DATE], which is [NUMERIC]) and a number into its text in a [TEXT]
    column; it leaves [NULL] alone and never makes it. *)
Class Affinity : Type := {
  integer_affinity : sqlval -> sqlval;
  numeric_affinity : sqlval -> sqlval;
  text_affinity : sqlval -> sqlval;
  integer_affinity_int n : integer_affinity (SInt n) = SInt n;
  integer_affinity_null v : integer_affinity v = SNull <-> v = SNull;
  numeric_affinity_int n : numeric_affinity (SInt n) = SInt n;
  numeric_affinity_null v : numeric_affinity v = SNull <-> v = SNull;
  text_affinity_text s : text_affinity (SText s) = SText s;
}.

(** ** The tables *)

Record subject : Type := {
  sj_id : Z;
  sj_name : str;
  sj_color : sqlval;
  sj_created_at : str;
}.

Record time_entry : Type := {
  te_id : Z;
  te_subject_id : sqlval;
  te_date : sqlval;
  te_minutes : Z;
  te_notes : str;
  te_created_at : str;
}.

Record db : Type := {
  subjects : list subject;
  subjects_seq : Z;
  time_entries : list time_entry;
  time_entries_seq : Z;
}.

(** The tables [init_db] creates. *)
Definition init_db : db :=
  {| subjects := []; subjects_seq := 0; time_entries := []; time_entries_seq := 0 |}.

(** The row identifier [AUTOINCREMENT] gives: one more than the largest ever
    used in the table. *)
Definition next_rowid (seq : Z) (ids : list Z) : Z := 1 + foldr Z.max seq ids.

(** ** Answers *)

(** A row of the listing: [te.*], [subject_name] and [subject_color]. *)
Record entry_row : Type := {
  er_entry : time_entry;
  er_subject_name : str;
  er_subject_color : sqlval;
}.

(** A row of [subject_totals]. *)
Record subject_total : Type := {
  st_id : Z;
  st_name : str;
  st_color : sqlval;
  st_total_minutes : Z;
}.

Record stats : Type := {
  subject_totals : list subject_total;
  daily_totals : list (sqlval * Z);
  start_date : str;
  end_date : str;
}.

Inductive tt_body : Type :=
| TSubjects (l : list subject)
| TSubject (new_id : Z) (name : str) (color : json)
| TEntries (l : list entry_row)
| TEntry (new_id : Z) (subject_id entry_date minutes : json) (notes : str)
| TStats (s : stats)
| TSuccess
| TError (msg : str).

Record tt_reply : Type := {
  tt_body_of : tt_body;
  tt_status : Z;
}.

Definition tt_ok (b : tt_body) : tt_reply := {| tt_body_of := b; tt_status := 200 |}.
Definition tt_error (msg : str) : tt_reply := {| tt_body_of := TError msg; tt_status := 400 |}.

(** ** Queries *)

(** [ORDER BY name]. *)
Definition by_name (a b : subject) : bool := str_leb (sj_name a) (sj_name b).

(** The rows that one entry yields in the join: one for each subject
    whose identifier it holds. *)
Definition rows_of (ss : list subject) (te : time_entry) : list entry_row :=
  flat_map (fun s =>
    if bool_decide (te_subject_id te = SInt (sj_id s))
    then [{| er_entry := te; er_subject_name := sj_name s;
             er_subject_color := sj_color s |}]
    else []) ss.

(** [JOIN subjects s ON te.subject_id = s.id]. *)
Definition joined (ss : list subject) (tes : list time_entry) : list entry_row :=
  flat_map (rows_of ss) tes.

(** [date >= ? AND date <= ?]. *)
Definition in_range (lo hi : sqlval) (d : sqlval) : bool := sql_leb lo d && sql_leb d hi.

(** [ORDER BY te.date DESC, s.name]. *)
Definition by_date_desc_name (a b : entry_row) : bool :=
  let da := te_date (er_entry a) in
  let db := te_date (er_entry b) in
  if bool_decide (da = db) then str_leb (er_subject_name a) (er_subject_name b)
  else sql_leb db da.

(** [SUM(minutes)] over the rows that pass a test. *)
Definition total_of (keep : time_entry -> bool) (tes : list time_entry) : Z :=
  foldr Z.add 0 (te_minutes <$> filter_b keep tes).

(** [ORDER BY total_minutes DESC]. *)
Definition by_total_desc (a b : subject_total) : bool :=
  (st_total_minutes b <=? st_total_minutes a)%Z.

(** The values of a list, each once, at its first place. *)
Fixpoint distinct (l : list sqlval) : list sqlval :=
  match l with
  | [] => []
  | x :: r => x :: filter_b (fun y => negb (bool_decide (y = x))) (distinct r)
  end.

Section Handlers.
Context `{Affinity}.
(** [CURRENT_TIMESTAMP], [date.today()] as an ordinal, and [isoformat] of
    an ordinal. *)
Context (now : str) (today : Z) (date_iso : Z -> str).

(** ** Subjects *)

Definition get_subjects (d : db) : tt_reply :=
  tt_ok (TSubjects (sort_by by_name (subjects d))).

Definition create_subject (data : dict) (d : db) : result (tt_reply * db) :=
  name ← get_stripped data s_name;
  let color := dict_get data s_color (JStr s_default_color) in
  if negb (truthy name) then Ok (tt_error s_name_required, d)
  else
    c ← bind color;
    if existsb (fun s => str_eqb (sj_name s) name) (subjects d)
    then Ok (tt_error s_already_exists, d)
    else
      let lastrowid := next_rowid (subjects_seq d) (sj_id <$> subjects d) in
      Ok (tt_ok (TSubject lastrowid name color),
          {| subjects := subjects d ++
                         [{| sj_id := lastrowid; sj_name := name;
                             sj_color := text_affinity c; sj_created_at := now |}];
             subjects_seq := lastrowid;
             time_entries := time_entries d;
             time_entries_seq := time_entries_seq d |}).

Definition delete_subject (subject_id : Z) (d : db) : tt_reply * db :=
  (tt_ok TSuccess,
   {| subjects := filter_b (fun s => negb (sj_id s =? subject_id)%Z) (subjects d);
      subjects_seq := subjects_seq d;
      time_entries :=
        filter_b (fun te => negb (bool_decide (te_subject_id te = SInt subject_id)))
                 (time_entries d);
      time_entries_seq := time_entries_seq d |}).

(** ** Entries *)

(** The test [start_date and end_date]. *)
Definition date_range (start_arg end_arg : option str) : option (str * str) :=
  match start_arg, end_arg with
  | Some s, Some e => if truthy s && truthy e then Some (s, e) else None
  | _, _ => None
  end.

Definition get_entries (start_arg end_arg : option str) (d : db) : tt_reply :=
  let rows := joined (subjects d) (time_entries d) in
  match date_range start_arg end_arg with
  | Some (s, e) =>
      let lo := numeric_affinity (SText s) in
      let hi := numeric_affinity (SText e) in
      tt_ok (TEntries (sort_by by_date_desc_name
                         (filter_b (fun r => in_range lo hi (te_date (er_entry r))) rows)))
  | None => tt_ok (TEntries (take 100%nat (sort_by by_date_desc_name rows)))
  end.

(** The test [minutes <= 0], which Python refuses between a string, a list
    or a dictionary and a number. *)
Definition le_zero (minutes : json) : result bool :=
  match minutes with
  | JNum n => Ok (n <=? 0)%Z
  | JBool b => Ok (negb b)
  | _ => Raise TypeError
  end.

(** The constraint [NOT NULL]. *)
Definition not_null (v : sqlval) : result sqlval :=
  match v with
  | SNull => Raise IntegrityError
  | _ => Ok v
  end.

Definition create_time_entry (data : dict) (d : db) : result (tt_reply * db) :=
  let subject_id := dict_get data s_subject_id JNull in
  let entry_date := dict_get data s_date_key (JStr (date_iso today)) in
  let minutes := dict_get data s_minutes (JNum 0) in
  notes ← get_stripped data s_notes;
  if negb (json_truthy subject_id) then Ok (tt_error s_subject_required, d)
  else
    bad ← (if negb (json_truthy minutes) then Ok true else le_zero minutes);
    if (bad : bool) then Ok (tt_error s_duration_required, d)
    else
      sid ← bind subject_id;
      dat ← bind entry_date;
      mins ← bind minutes;
      sid ← not_null (integer_affinity sid);
      dat ← not_null (numeric_affinity dat);
      let lastrowid := next_rowid (time_entries_seq d) (te_id <$> time_entries d) in
      Ok (tt_ok (TEntry lastrowid subject_id entry_date minutes notes),
          {| subjects := subjects d;
             subjects_seq := subjects_seq d;
             time_entries := time_entries d ++
                             [{| te_id := lastrowid; te_subject_id := sid; te_date := dat;
                                 te_minutes := match mins with SInt n => n | _ => 0 end;
                                 te_notes := notes; te_created_at := now |}];
             time_entries_seq := lastrowid |}).

Definition delete_time_entry (entry_id : Z) (d : db) : tt_reply * db :=
  (tt_ok TSuccess,
   {| subjects := subjects d;
      subjects_seq := subjects_seq d;
      time_entries := filter_b (fun te => negb (te_id te =? entry_id)%Z) (time_entries d);
      time_entries_seq := time_entries_seq d |}).

(** ** Statistics *)

(** The ordinals of [date.min] and [date.max], and the largest number of
    days of a [timedelta]. *)
Definition min_ordinal : Z := 1.
Definition max_ordinal : Z := 3652059.
Definition max_delta : Z := 999999999.

(** [end_date - timedelta(days=days - 1)]. *)
Definition days_before (end_ord days : Z) : result Z :=
  if (max_delta <? Z.abs (days - 1))%Z then Raise OverflowError
  else
    let start_ord := (end_ord - (days - 1))%Z in
    if (start_ord <? min_ordinal)%Z || (max_ordinal <? start_ord)%Z
    then Raise OverflowError else Ok start_ord.

(** [int(request.args.get('days', 7))]. *)
Definition days_arg (arg : option str) : result Z :=
  match arg with
  | None => Ok 7%Z
  | Some s => match int_of_str s with Some n => Ok n | None => Raise ValueError end
  end.

Definition get_stats (arg : option str) (d : db) : result tt_reply :=
  days ← days_arg arg;
  let end_ord := today in
  start_ord ← days_before end_ord days;
  let lo := numeric_affinity (SText (date_iso start_ord)) in
  let hi := numeric_affinity (SText (date_iso end_ord)) in
  let subject_rows :=
    (fun s => {| st_id := sj_id s; st_name := sj_name s; st_color := sj_color s;
                 st_total_minutes :=
                   total_of (fun te => bool_decide (te_subject_id te = SInt (sj_id s))
                                       && in_range lo hi (te_date te))
                            (time_entries d) |}) <$> subjects d in
  let in_days := filter_b (fun te => in_range lo hi (te_date te)) (time_entries d) in
  let daily :=
    (fun day => (day, total_of (fun te => bool_decide (te_date te = day)) in_days))
      <$> sort_by sql_leb (distinct (te_date <$> in_days)) in
  Ok (tt_ok (TStats {| subject_totals := sort_by by_total_desc subject_rows;
                       daily_totals := daily;
                       start_date := date_iso start_ord;
                       end_date := date_iso end_ord |})).

End Handlers.

(** ** Routing *)

Inductive tt_request : Type :=
| GetSubjects
| CreateSubject (data : dict)
| DeleteSubject (subject_id : Z)
| GetEntries (start_arg end_arg : option str)
| CreateEntry (data : dict)
| DeleteEntry (entry_id : Z)
| GetStats (arg : option str).

Definition tt_handle `{Affinity} (now : str) (today : Z) (date_iso : Z -> str)
    (req : tt_request) (d : db) : result (tt_reply * db) :=
  match req with
  | GetSubjects => Ok (get_subjects d, d)
  | CreateSubject data => create_subject now data d
  | DeleteSubject subject_id => Ok (delete_subject subject_id d)
  | GetEntries start_arg end_arg => Ok (get_entries start_arg end_arg d, d)
  | CreateEntry data => create_time_entry now today date_iso data d
  | DeleteEntry entry_id => Ok (delete_time_entry entry_id d)
  | GetStats arg => r ← get_stats today date_iso arg d; Ok (r, d)
  end.

(** ** The invariant of the tables *)

Definition wf_subject (seq : Z) (s : subject) : Prop :=
  0 < sj_id s <= seq /\ sj_name s <> [] /\ strip (sj_name s) = sj_name s.

Definition wf_entry (seq : Z) (te : time_entry) : Prop :=
  0 < te_id te <= seq /\ 0 < te_minutes te
  /\ te_subject_id te <> SNull /\ te_date te <> SNull.

(** Identifiers are positive, distinct and not above the counter; names are
    distinct, not empty and stripped; durations are positive; no
    [NOT NULL] column holds [NULL]. *)
Record db_wf (d : db) : Prop := {
  wf_subject_ids : NoDup (sj_id <$> subjects d);
  wf_subject_names : NoDup (sj_name <$> subjects d);
  wf_subjects : Forall (wf_subject (subjects_seq d)) (subjects d);
  wf_entry_ids : NoDup (te_id <$> time_entries d);
  wf_entries : Forall (wf_entry (time_entries_seq d)) (time_entries d);
  wf_seqs : 0 <= subjects_seq d /\ 0 <= time_entries_seq d;
}.

Lemma foldr_max_ge seq ids : seq <= foldr Z.max seq ids.
Proof. induction ids as [|i r IH]; simpl; lia. Qed.

Lemma foldr_max_elem seq ids i : i ∈ ids -> i <= foldr Z.max seq ids.
Proof.
  induction ids as [|j r IH]; simpl; [by intros ?%elem_of_nil|].
  intros [->|Hi]%elem_of_cons; [lia|]. specialize (IH Hi). lia.
Qed.

(** [AUTOINCREMENT] never gives an identifier again. *)
Lemma next_rowid_fresh seq ids : seq < next_rowid seq ids /\ next_rowid seq ids ∉ ids.
Proof.
  unfold next_rowid. pose proof (foldr_max_ge seq ids). split; [lia|].
  intros Hi%(foldr_max_elem seq). lia.
Qed.

(** Below the counter the new identifier is the next one. *)
Lemma next_rowid_seq seq ids : Forall (fun i => i <= seq) ids -> next_rowid seq ids = 1 + seq.
Proof.
  unfold next_rowid. intros Hs. f_equal. induction Hs as [|i r Hi Hr IH]; simpl; lia.
Qed.

Lemma wf_subject_mono seq seq' s : seq <= seq' -> wf_subject seq s -> wf_subject seq' s.
Proof. unfold wf_subject. intros ? (? & ? & ?). repeat split; try done; lia. Qed.

Lemma wf_entry_mono seq seq' te : seq <= seq' -> wf_entry seq te -> wf_entry seq' te.
Proof. unfold wf_entry. intros ? (? & ? & ? & ?). repeat split; try done; lia. Qed.

Lemma NoDup_snoc_fmap {A B} (f : A -> B) l x :
  NoDup (f <$> l) -> f x ∉ f <$> l -> NoDup (f <$> l ++ [x]).
Proof.
  intros Hl Hx. rewrite fmap_app. apply NoDup_app. split; [done|]. split; [|apply NoDup_singleton].
  intros y Hy ->%list_elem_of_singleton. done.
Qed.

Lemma existsb_name_false name (ss : list subject) :
  existsb (fun s => str_eqb (sj_name s) name) ss = false -> name ∉ sj_name <$> ss.
Proof.
  intros E (s & -> & Hs)%list_elem_of_fmap.
  assert (existsb (fun s0 => str_eqb (sj_name s0) (sj_name s)) ss = true); [|congruence].
  apply existsb_exists. exists s. split; [by apply list_elem_of_In|].
  unfold str_eqb. by apply bool_decide_eq_true.
Qed.

Section Invariant.
Context `{Affinity} (now : str) (today : Z) (date_iso : Z -> str).

Lemma create_subject_wf data d r d' :
  create_subject now data d = Ok (r, d') -> db_wf d -> db_wf d'.
Proof.
  unfold create_subject. destruct (get_stripped data s_name) as [name|] eqn:N; [|done].
  apply get_stripped_Ok in N as [Hstrip _]. cbn [mbind result_bind].
  destruct name as [|c name]; cbn [truthy negb]; [by intros [= _ <-]|].
  destruct (bind _) as [col|]; [|done]. cbn [mbind result_bind].
  destruct (existsb _ _) eqn:E; [by intros [= _ <-]|]. intros [= _ <-] [I N' S EI E' [??]].
  destruct (next_rowid_fresh (subjects_seq d) (sj_id <$> subjects d)) as [Hlt Hfresh].
  split; cbn [subjects subjects_seq time_entries time_entries_seq]; try done.
  - by apply NoDup_snoc_fmap.
  - apply NoDup_snoc_fmap; [done|]. by apply existsb_name_false.
  - apply Forall_app. split.
    + eapply List.Forall_impl; [|done]. intros s. apply wf_subject_mono. lia.
    + repeat constructor; cbn; try done; lia.
  - split; lia.
Qed.

(** The minutes that pass the test of line 164 are stored as a positive
    integer. *)
Lemma minutes_positive minutes mins :
  json_truthy minutes = true -> le_zero minutes = Ok false -> bind minutes = Ok mins ->
  exists n, mins = SInt n /\ 0 < n.
Proof.
  destruct minutes as [|[]|n| | |]; cbn; try done.
  - intros _ _ [= <-]. by exists 1.
  - intros _ [= E%Z.leb_gt] [= <-]. by exists n.
Qed.

(** A request that [create_entry] accepts adds one row. *)
Lemma create_time_entry_inv data d r d' :
  create_time_entry now today date_iso data d = Ok (r, d') ->
  tt_status r = 400 /\ d' = d
  \/ exists te v,
       tt_status r = 200
       /\ te_id te = next_rowid (time_entries_seq d) (te_id <$> time_entries d)
       /\ d' = {| subjects := subjects d; subjects_seq := subjects_seq d;
                  time_entries := time_entries d ++ [te]; time_entries_seq := te_id te |}
       /\ 0 < te_minutes te /\ te_subject_id te <> SNull /\ te_date te <> SNull
       /\ bind (dict_get data s_subject_id JNull) = Ok v
       /\ te_subject_id te = integer_affinity v.
Proof.
  unfold create_time_entry. cbv zeta.
  destruct (get_stripped data s_notes) as [notes|]; [|done]. cbn [mbind result_bind].
  destruct (json_truthy (dict_get data s_subject_id JNull)); cbn [negb];
    [|intros [= <- <-]; by left].
  destruct (json_truthy (dict_get data s_minutes (JNum 0))) eqn:T; cbn [negb mbind result_bind];
    [|intros [= <- <-]; by left].
  destruct (le_zero _) as [[]|] eqn:L; cbn [mbind result_bind]; [intros [= <- <-]; by left| |done].
  destruct (bind (dict_get data s_subject_id JNull)) as [sid|]; [|done].
  destruct (bind (dict_get data s_date_key _)) as [dat|]; [|done].
  destruct (bind (dict_get data s_minutes _)) as [mins|] eqn:B; [|done]. cbn [mbind result_bind].
  destruct (minutes_positive _ _ T L B) as (n & -> & Hn).
  destruct (integer_affinity sid) as [|s1|s1] eqn:A1; cbn [not_null mbind result_bind]; [done|..];
    (destruct (numeric_affinity dat) as [|s2|s2] eqn:A2; cbn [not_null mbind result_bind]; [done|..]);
    intros [= <- <-]; right; eexists {| te_id := _ |}, sid; cbn; rewrite A1; by repeat split.
Qed.

Lemma create_time_entry_wf data d r d' :
  create_time_entry now today date_iso data d = Ok (r, d') -> db_wf d -> db_wf d'.
Proof.
  intros [[_ ->]|(te & v & _ & Hid & -> & Hm & Hs & Hd & _)]%create_time_entry_inv; [done|].
  intros [I N' S EI E' [??]].
  destruct (next_rowid_fresh (time_entries_seq d) (te_id <$> time_entries d)) as [Hlt Hfresh].
  rewrite <-Hid in Hlt, Hfresh.
  split; cbn [subjects subjects_seq time_entries time_entries_seq]; try done.
  - by apply NoDup_snoc_fmap.
  - apply Forall_app. split.
    + eapply List.Forall_impl; [|done]. intros e. apply wf_entry_mono. lia.
    + repeat constructor; cbn; try done; lia.
  - split; lia.
Qed.

Lemma delete_subject_wf subject_id d : db_wf d -> db_wf (delete_subject subject_id d).2.
Proof.
  intros [I N' S EI E' ?]. split; cbn; try done; auto using filter_b_NoDup_fmap, filter_b_keeps.
Qed.

Lemma delete_time_entry_wf entry_id d : db_wf d -> db_wf (delete_time_entry entry_id d).2.
Proof.
  intros [I N' S EI E' ?]. split; cbn; try done; auto using filter_b_NoDup_fmap, filter_b_keeps.
Qed.

Lemma init_db_wf : db_wf init_db.
Proof. split; cbn; try done; constructor. Qed.

End Invariant.

(** ** Facts about the queries *)

Lemma sql_leb_total a b : sql_leb a b = true \/ sql_leb b a = true.
Proof.
  destruct a as [|x|x], b as [|y|y]; cbn; auto.
  - destruct (Z.leb_spec x y), (Z.leb_spec y x); auto; lia.
  - apply str_leb_total.
Qed.

Lemma by_date_desc_name_total a b :
  by_date_desc_name a b = true \/ by_date_desc_name b a = true.
Proof.
  unfold by_date_desc_name. cbv zeta. repeat case_bool_decide; try congruence.
  - apply str_leb_total.
  - apply sql_leb_total.
Qed.

Lemma rows_of_elem ss te r :
  r ∈ rows_of ss te <->
  exists s, s ∈ ss /\ te_subject_id te = SInt (sj_id s)
            /\ r = {| er_entry := te; er_subject_name := sj_name s;
                      er_subject_color := sj_color s |}.
Proof.
  unfold rows_of. rewrite list_elem_of_In, in_flat_map. split.
  - intros (s & Hs%list_elem_of_In & Hr). exists s. case_bool_decide; [|done].
    by destruct Hr as [<-|[]].
  - intros (s & Hs%list_elem_of_In & E & ->). exists s. split; [done|].
    rewrite bool_decide_true by done. by left.
Qed.

(** A row of the join is an entry with the subject it names. *)
Lemma joined_elem ss tes r :
  r ∈ joined ss tes <->
  exists te s, te ∈ tes /\ s ∈ ss /\ te_subject_id te = SInt (sj_id s)
               /\ r = {| er_entry := te; er_subject_name := sj_name s;
                         er_subject_color := sj_color s |}.
Proof.
  unfold joined. rewrite list_elem_of_In, in_flat_map. split.
  - intros (te & Hte%list_elem_of_In & (s & ?)%list_elem_of_In%rows_of_elem). by exists te, s.
  - intros (te & s & Hte%list_elem_of_In & Hs). exists te. split; [done|].
    apply list_elem_of_In, rows_of_elem. by exists s.
Qed.

Lemma rows_of_entry ss te : Forall (fun r => er_entry r = te) (rows_of ss te).
Proof. apply List.Forall_forall. by intros r (s & _ & _ & ->)%list_elem_of_In%rows_of_elem. Qed.

(** The subjects that a deletion removes yield no row with the entries it
    keeps. *)
Lemma rows_of_delete subject_id ss te :
  te_subject_id te <> SInt subject_id ->
  rows_of (filter_b (fun s => negb (sj_id s =? subject_id)) ss) te = rows_of ss te.
Proof.
  intros Hte. unfold rows_of. induction ss as [|s ss IH]; [done|].
  cbn [filter_b List.filter flat_map]. destruct (Z.eqb_spec (sj_id s) subject_id) as [E|E].
  - cbn [negb]. rewrite IH, bool_decide_false; [done|]. by rewrite E.
  - cbn [negb flat_map]. by rewrite IH.
Qed.

(** The join of what the deletion of a subject leaves is the join of
    before without the rows of the subject. *)
Lemma joined_delete subject_id ss tes :
  joined (filter_b (fun s => negb (sj_id s =? subject_id)) ss)
         (filter_b (fun te => negb (bool_decide (te_subject_id te = SInt subject_id))) tes)
  = filter_b (fun r => negb (bool_decide (te_subject_id (er_entry r) = SInt subject_id)))
             (joined ss tes).
Proof.
  unfold joined. induction tes as [|te tes IH]; [done|]. cbn [filter_b List.filter flat_map].
  rewrite List.filter_app, <-IH. pose proof (rows_of_entry ss te) as Hr.
  case_bool_decide as E; cbn [negb flat_map].
  - rewrite (filter_b_none _ (rows_of ss te)); [done|]. eapply List.Forall_impl; [|done].
    intros r ->. by rewrite bool_decide_true.
  - rewrite rows_of_delete by done. rewrite (filter_b_all _ (rows_of ss te)); [done|].
    eapply List.Forall_impl; [|done]. intros r ->. by rewrite bool_decide_false.
Qed.

Lemma take_Sorted {A} (R : A -> A -> Prop) n l : Sorted R l -> Sorted R (take n l).
Proof.
  intros S. revert n. induction S as [|x l Hl IH Hx]; intros [|n]; cbn; try constructor; auto.
  destruct Hx; destruct n; cbn; by constructor.
Qed.

(** ** The theorems *)

Section TrackerTheorems.
Context `{Affinity} (now : str) (today : Z) (date_iso : Z -> str).

(** C7: The invariant of the tables: identifiers positive, distinct and not
    above the counter of their table, subject names distinct, not empty and
    stripped, durations positive, no [NULL] in a [NOT NULL] column.  Every
    request that returns keeps it. *)
Theorem tables_stay_wf req d r d' :
  tt_handle now today date_iso req d = Ok (r, d') -> db_wf d -> db_wf d'.
Proof.
  destruct req; cbn [tt_handle].
  - by intros [= _ <-].
  - apply create_subject_wf.
  - intros [= _ <-]. apply delete_subject_wf.
  - by intros [= _ <-].
  - apply create_time_entry_wf.
  - intros [= _ <-]. apply delete_time_entry_wf.
  - destruct (get_stats _ _ _ _) as [?|]; [|done]. by intros [= _ <-].
Qed.

(** C39: The deletion of a subject takes its entries with it: afterwards no
    subject has the identifier and no entry names it, the listing is the
    listing of before without the rows of the subject, and the counters
    stand, so that the identifier is not given again. *)
Theorem delete_subject_cascade subject_id d :
  let d' := (delete_subject subject_id d).2 in
  Forall (fun s => sj_id s <> subject_id) (subjects d')
  /\ Forall (fun te => te_subject_id te <> SInt subject_id) (time_entries d')
  /\ joined (subjects d') (time_entries d')
     = filter_b (fun r => negb (bool_decide (te_subject_id (er_entry r) = SInt subject_id)))
                (joined (subjects d) (time_entries d))
  /\ subjects_seq d' = subjects_seq d /\ time_entries_seq d' = time_entries_seq d.
Proof.
  cbn. repeat split; [| |apply joined_delete].
  - eapply List.Forall_impl; [|apply filter_b_Forall]. intros s E%negb_true_iff. cbn in E. lia.
  - eapply List.Forall_impl; [|apply filter_b_Forall]. intros te E%negb_true_iff.
    by apply bool_decide_eq_false in E.
Qed.

(** The listing: the rows are entries joined with their subjects, in
    the order of [ORDER BY te.date DESC, s.name]; with both dates given they
    are exactly the joined rows whose date lies between them, and otherwise
    at most 100 of the joined rows. *)
Theorem get_entries_listing start_arg end_arg d :
  exists rows,
    get_entries start_arg end_arg d = tt_ok (TEntries rows)
    /\ Sorted (fun a b => by_date_desc_name a b = true) rows
    /\ match date_range start_arg end_arg with
       | Some (s, e) =>
           forall r, r ∈ rows <->
                     r ∈ joined (subjects d) (time_entries d)
                     /\ in_range (numeric_affinity (SText s)) (numeric_affinity (SText e))
                                 (te_date (er_entry r)) = true
       | None =>
           (length rows <= 100)%nat
           /\ forall r, r ∈ rows -> r ∈ joined (subjects d) (time_entries d)
       end.
Proof.
  unfold get_entries. cbv zeta. destruct (date_range start_arg end_arg) as [[s e]|];
    eexists; (split; [done|]); split.
  - apply sort_by_Sorted, by_date_desc_name_total.
  - intros r. by rewrite sort_by_elem, filter_b_elem.
  - apply take_Sorted, sort_by_Sorted, by_date_desc_name_total.
  - split; [rewrite length_take; lia|]. intros r Hr%subseteq_take. by apply sort_by_elem in Hr.
Qed.

End TrackerTheorems.

(** ** An entry without a subject *)

Section Orphans.
Context `{Affinity} (now : str) (today : Z) (date_iso : Z -> str).

(** A request for an entry, every key given. *)
Definition entry_request (subject_id minutes : Z) (day notes : str) : dict :=
  [(s_subject_id, JNum subject_id); (s_date_key, JStr day);
   (s_minutes, JNum minutes); (s_notes, JStr notes)].

Lemma get_entries_rows start_arg end_arg d r rows :
  get_entries start_arg end_arg d = tt_ok (TEntries rows) -> r ∈ rows ->
  r ∈ joined (subjects d) (time_entries d).
Proof.
  unfold get_entries. cbv zeta. destruct (date_range _ _) as [[??]|]; intros [= <-].
  - by intros [? _]%sort_by_elem%filter_b_elem.
  - by intros ?%subseteq_take%sort_by_elem.
Qed.

(** C38: The subject of a new entry is not looked up: a request that names
    a subject that does not exist is accepted and its row is stored; no
    listing shows the row, since the join finds no subject for it. *)
Theorem entry_of_unknown_subject subject_id minutes day notes d :
  Forall (fun s => sj_id s <> subject_id) (subjects d) ->
  subject_id <> 0 -> 0 < minutes ->
  exists te d',
    create_time_entry now today date_iso (entry_request subject_id minutes day notes) d
    = Ok (tt_ok (TEntry (te_id te) (JNum subject_id) (JStr day) (JNum minutes) (strip notes)),
          d')
    /\ te ∈ time_entries d' /\ subjects d' = subjects d
    /\ te_subject_id te = SInt subject_id /\ te_minutes te = minutes
    /\ forall start_arg end_arg rows,
         get_entries start_arg end_arg d' = tt_ok (TEntries rows) ->
         Forall (fun r => er_entry r <> te) rows.
Proof.
  intros Hs Hid Hm. unfold create_time_entry, entry_request. cbv zeta.
  change (get_stripped _ s_notes) with (@Ok str (strip notes)).
  change (dict_get _ s_subject_id JNull) with (JNum subject_id).
  change (dict_get _ s_minutes (JNum 0)) with (JNum minutes).
  change (dict_get _ s_date_key _) with (JStr day).
  cbn [mbind result_bind json_truthy le_zero bind].
  rewrite (proj2 (Z.eqb_neq subject_id 0)), (proj2 (Z.eqb_neq minutes 0)) by lia.
  rewrite (proj2 (Z.leb_gt minutes 0)) by lia. cbn [negb]. rewrite integer_affinity_int.
  destruct (numeric_affinity (SText day)) as [|n|txt] eqn:A;
    [by pose proof (proj1 (numeric_affinity_null _) A)|..]; cbn [not_null mbind result_bind];
    (eexists {| te_id := _ |}, _; split; [done|]; cbn;
     split; [apply elem_of_app; right; apply list_elem_of_singleton; done|];
     repeat split;
     intros start_arg end_arg rows E; apply List.Forall_forall; intros r Hr%list_elem_of_In;
     apply (get_entries_rows _ _ _ _ _ E), joined_elem in Hr as (te & sj & _ & Hin & Hj & ->);
     cbn in Hin; rewrite List.Forall_forall in Hs; apply list_elem_of_In, Hs in Hin;
     cbn; intros ->; cbn in Hj; congruence).
Qed.

End Orphans.

(** ** The sums of the statistics *)

Definition sum_Z (l : list Z) : Z := foldr Z.add 0 l.

Lemma sum_Z_cons x l : sum_Z (x :: l) = x + sum_Z l.
Proof. done. Qed.

Lemma total_of_cons keep te tes :
  total_of keep (te :: tes) = (if keep te then te_minutes te else 0) + total_of keep tes.
Proof. unfold total_of. cbn. by destruct (keep te). Qed.

Lemma total_of_filter keep tes : total_of (fun _ => true) (filter_b keep tes) = total_of keep tes.
Proof. unfold total_of. f_equal. f_equal. apply filter_b_all, Forall_true. done. Qed.

Lemma distinct_elem x l : x ∈ distinct l <-> x ∈ l.
Proof.
  induction l as [|y r IH]; cbn; [done|]. rewrite !elem_of_cons, filter_b_elem, IH.
  destruct (decide (x = y)) as [->|Hne]; [tauto|]. rewrite bool_decide_false by done. cbn. tauto.
Qed.

Lemma distinct_NoDup l : NoDup (distinct l).
Proof.
  induction l as [|y r IH]; cbn; [constructor|]. apply list.NoDup_cons. split.
  - intros [_ E]%filter_b_elem. by rewrite bool_decide_true in E.
  - revert IH. generalize (distinct r). intros l' Hl'. induction Hl' as [|z l' Hz Hl' IH']; cbn;
      [constructor|]. destruct (negb _); [|done]. apply list.NoDup_cons. split; [|done].
    by intros [? _]%filter_b_elem.
Qed.

Lemma sum_days_none (days : list sqlval) (x : sqlval) (m : Z) :
  x ∉ days -> sum_Z ((fun day => if bool_decide (x = day) then m else 0) <$> days) = 0.
Proof.
  induction days as [|day days IH]; [done|]. intros [? ?]%not_elem_of_cons.
  rewrite fmap_cons, sum_Z_cons, bool_decide_false by done. by rewrite IH.
Qed.

(** Each row is counted on one day. *)
Lemma sum_days_once (days : list sqlval) te :
  NoDup days -> te_date te ∈ days ->
  sum_Z ((fun day => if bool_decide (te_date te = day) then te_minutes te else 0) <$> days)
  = te_minutes te.
Proof.
  induction 1 as [|day days Hday Hdays IH]; [by intros ?%elem_of_nil|].
  intros [E|Hin]%elem_of_cons; rewrite fmap_cons, sum_Z_cons.
  - rewrite bool_decide_true by done. rewrite sum_days_none; [lia|]. by rewrite E.
  - rewrite bool_decide_false; [by rewrite IH|]. by intros <-.
Qed.

(** The totals of the days add up to the total of the rows. *)
Lemma sum_days days tes :
  NoDup days -> Forall (fun te => te_date te ∈ days) tes ->
  sum_Z ((fun day => total_of (fun te => bool_decide (te_date te = day)) tes) <$> days)
  = total_of (fun _ => true) tes.
Proof.
  intros Hd. induction 1 as [|te tes Hte Htes IH].
  - clear Hd. induction days as [|? ? IHd]; [done|]. by rewrite fmap_cons, sum_Z_cons, IHd.
  - rewrite total_of_cons, <-IH, <-(sum_days_once days te) by done. clear.
    induction days as [|day days IHd]; [done|].
    rewrite !fmap_cons, !sum_Z_cons, total_of_cons, IHd. lia.
Qed.

Section Stats.
Context `{Affinity} (today : Z) (date_iso : Z -> str).

(** The daily totals of the statistics: one row for each date that an
    entry of the period has, and their sum is the sum of the minutes of the
    entries of the period, those that name no subject included. *)
Theorem daily_totals_sum arg d r :
  get_stats today date_iso arg d = Ok r ->
  exists s,
    r = tt_ok (TStats s)
    /\ NoDup (daily_totals s).*1
    /\ sum_Z (daily_totals s).*2
       = total_of (fun te => in_range (numeric_affinity (SText (start_date s)))
                                      (numeric_affinity (SText (end_date s))) (te_date te))
                  (time_entries d).
Proof.
  unfold get_stats. destruct (days_arg arg) as [days|]; [|done]. cbn [mbind result_bind].
  destruct (days_before today days) as [start_ord|]; [|done]. cbn [mbind result_bind].
  intros [= <-]. eexists. split; [done|]. cbn [daily_totals start_date end_date].
  rewrite fmap_pair_fst, fmap_pair_snd. split.
  - rewrite sort_by_Permutation. apply distinct_NoDup.
  - rewrite sum_days, total_of_filter; [done| |].
    + rewrite sort_by_Permutation. apply distinct_NoDup.
    + apply List.Forall_forall. intros te Hte%list_elem_of_In.
      apply sort_by_elem, distinct_elem, list_elem_of_fmap. by exists te.
Qed.

End Stats.

(** ** An instance of the interface *)

(** The value of a string of decimal digits. *)
Fixpoint digits_val (acc : Z) (s : str) : option Z :=
  match s with
  | [] => Some acc
  | c :: r =>
      match digit_val c with
      | Some v => digits_val (10 * acc + Z.of_N v) r
      | None => None
      end
  end.

(** A text that is a decimal integer, with or without a sign. *)
Definition sql_integer (s : str) : option Z :=
  match s with
  | [] => None
  | c :: r =>
      if (c =? 0x2D)%N then (if truthy r then Z.opp <$> digits_val 0 r else None)
      else if (c =? 0x2B)%N then (if truthy r then digits_val 0 r else None)
      else digits_val 0 s
  end.

Definition to_number (v : sqlval) : sqlval :=
  match v with
  | SText s => match sql_integer s with Some n => SInt n | None => v end
  | _ => v
  end.

Definition to_text (v : sqlval) : sqlval :=
  match v with
  | SInt n => SText (u (NilZero.string_of_int (Z.to_int n)))
  | _ => v
  end.

Lemma to_number_null v : to_number v = SNull <-> v = SNull.
Proof. destruct v as [| |s]; cbn; try done. by destruct (sql_integer s). Qed.

#[export] Instance plain_affinity : Affinity := {|
  integer_affinity := to_number;
  numeric_affinity := to_number;
  text_affinity := to_text;
  integer_affinity_int n := eq_refl;
  integer_affinity_null := to_number_null;
  numeric_affinity_int n := eq_refl;
  numeric_affinity_null := to_number_null;
  text_affinity_text s := eq_refl;
|}.

(** ** The theorems at concrete inputs *)

(** Ordinals rendered as the day of March 2024 they are taken to be. *)
Definition march (n : Z) : str :=
  u "2024-03-" ++ (if n <? 10 then u "0" else []) ++ u (NilZero.string_of_int (Z.to_int n)).

Definition db1 : db :=
  {| subjects := [{| sj_id := 1; sj_name := u "maths"; sj_color := SText s_default_color;
                     sj_created_at := u "2024-03-04 10:00:00" |}];
     subjects_seq := 1;
     time_entries := [{| te_id := 1; te_subject_id := SInt 1; te_date := SText (u "2024-03-10");
                         te_minutes := 30; te_notes := []; te_created_at := [] |}];
     time_entries_seq := 1 |}.

Lemma tables_stay_wf_witness :
  db_wf {| subjects := [{| sj_id := 1; sj_name := u "maths"; sj_color := SText s_default_color;
                           sj_created_at := u "2024-03-04 10:00:00" |}];
           subjects_seq := 1; time_entries := []; time_entries_seq := 0 |}.
Proof.
  apply (tables_stay_wf (u "2024-03-04 10:00:00") 10 march
           (CreateSubject [(s_name, JStr (u " maths "))]) init_db
           (tt_ok (TSubject 1 (u "maths") (JStr s_default_color)))).
  - by vm_compute.
  - apply init_db_wf.
Defined.

Lemma entry_of_unknown_subject_witness :
  exists te d',
    create_time_entry (u "2024-03-04 10:00:00") 10 march
                      (entry_request 7 45 (u "2024-03-10") (u " reading ")) db1
    = Ok (tt_ok (TEntry (te_id te) (JNum 7) (JStr (u "2024-03-10")) (JNum 45)
                        (strip (u " reading "))), d')
    /\ te ∈ time_entries d' /\ subjects d' = subjects db1
    /\ te_subject_id te = SInt 7 /\ te_minutes te = 45
    /\ forall start_arg end_arg rows,
         get_entries start_arg end_arg d' = tt_ok (TEntries rows) ->
         Forall (fun r => er_entry r <> te) rows.
Proof.
  apply (entry_of_unknown_subject (u "2024-03-04 10:00:00") 10 march 7 45); [|done..].
  by repeat constructor.
Defined.

Lemma daily_totals_sum_witness :
  exists s,
    tt_ok (TStats {| subject_totals := [{| st_id := 1; st_name := u "maths";
                                           st_color := SText s_default_color;
                                           st_total_minutes := 30 |}];
                     daily_totals := [(SText (u "2024-03-10"), 30)];
                     start_date := march 4; end_date := march 10 |}) = tt_ok (TStats s)
    /\ NoDup (daily_totals s).*1
    /\ sum_Z (daily_totals s).*2
       = total_of (fun te => in_range (numeric_affinity (SText (start_date s)))
                                      (numeric_affinity (SText (end_date s))) (te_date te))
                  (time_entries db1).
Proof. apply (daily_totals_sum 10 march None db1). by vm_compute. Defined.

(** An entry that names no subject is in the daily totals and in no
    subject total: the two halves of the statistics disagree. *)
Example stats_disagree :
  let d := {| subjects := subjects db1; subjects_seq := 1;
              time_entries := time_entries db1 ++
                [{| te_id := 2; te_subject_id := SInt 7; te_date := SText (u "2024-03-10");
                    te_minutes := 45; te_notes := []; te_created_at := [] |}];
              time_entries_seq := 2 |} in
  exists s, get_stats 10 march None d = Ok (tt_ok (TStats s))
            /\ sum_Z (st_total_minutes <$> subject_totals s) = 30
            /\ sum_Z (daily_totals s).*2 = 75.
Proof. eexists. by vm_compute. Qed.

Local Close Scope Z_scope.
