(* ===== verification/MachineClean.v ===== *)
(** * MachineClean: the class [MachineCleanup] of [src/cheetah/machine_clean.py]

    The script opens an SSH session to a machine, frees disk space there
    (git clean of the checkout, removal of every Docker container and image)
    and does the same, through a nested ssh, on the machine named by
    [$REMOTE_MACHINE].

    - The remote machine is a [remote]: the outcome of a command line, given
      the command lines sent before it.  Every theorem holds for every
      remote.
    - A [session] is the state the object and the terminal hold: the command
      lines sent, the texts printed (one per call of [print]), whether the
      client object exists and whether its connection is open.
    - The methods are computations in the monad [cleanup]: a session in, a
      value or a raised exception and a session out.  [try_finally] is the
      [try ... finally] of [run_full_cleanup].
    - The methods keep the names and the order of the source; every call of
      [log], [log_verbose], [log_command] and [log_output] is there, with the
      text it prints.

    The theorems show: the connection is closed whatever a command does; what
    is sent to the machine, in which order; that the displayed command lines
    and outputs do not show the password; what the parsers of the output of
    [df] return.  The sizes of [parse_size] and [format_size] are floating
    point numbers and are not modelled, nor is [main]. *)

From Stdlib Require Import Ascii String.
From stdpp Require Import base tactics option list numbers.
From S2P Require Import Prelude PyStr PyRe Console.

Local Open Scope N_scope.

(** ** Constants and literals of the source *)

Definition SSH_USERNAME : str := Eval vm_compute in u "dn".
Definition SSH_PORT : Z := 2222.
Definition SSH_PORT_NESTED : Z := 22.
Definition CHEETAH_PATH : str := Eval vm_compute in u "/home/dn/cheetah".

Definition s_mask : str := Eval vm_compute in u "****".
Definition s_sudo_prompt : str := Eval vm_compute in u "[sudo]".
Definition s_question : str := Eval vm_compute in u "?".
Definition s_filesystem : str := Eval vm_compute in u "Filesystem".
Definition s_remote_machine_eq : str := Eval vm_compute in u "REMOTE_MACHINE=".
Definition s_docker_unavailable : str := Eval vm_compute in u "Docker not available".

Definition cmd_df : str :=
  Eval vm_compute in u "df -h -x tmpfs -x devtmpfs -x squashfs -x overlay 2>/dev/null || df -h".
Definition cmd_docker_df_head : str :=
  Eval vm_compute in u "docker system df 2>/dev/null | head -5".
Definition cmd_test_dir : str := Eval vm_compute in u "test -d " ++ CHEETAH_PATH.
Definition cmd_git_clean : str :=
  Eval vm_compute in u "bash -c 'cd " ++ CHEETAH_PATH ++ u " && git clean -xdf'".
Definition cmd_docker_ps : str := Eval vm_compute in u "docker ps -a 2>/dev/null || true".
Definition cmd_docker_images : str := Eval vm_compute in u "docker images 2>/dev/null || true".
Definition cmd_docker_df : str := Eval vm_compute in u "docker system df 2>/dev/null || true".
Definition cmd_docker_stop : str :=
  Eval vm_compute in u "docker stop $(docker ps -aq) 2>/dev/null || true".
Definition cmd_docker_rm : str :=
  Eval vm_compute in u "docker rm -f $(docker ps -aq) 2>/dev/null || true".
Definition cmd_docker_rmi : str :=
  Eval vm_compute in u "docker rmi -f $(docker images -aq) 2>/dev/null || true".
Definition cmd_docker_prune : str :=
  Eval vm_compute in u "docker system prune -af --volumes 2>/dev/null || true".
Definition cmd_grep_config : str :=
  Eval vm_compute in
    u "grep -h 'REMOTE_MACHINE=' ~/.bashrc ~/.profile ~/.bash_profile /etc/environment /etc/profile 2>/dev/null | head -1".

(** The list [methods] of [get_remote_machine_var]: a name and a command. *)
Definition methods : list (str * str) :=
  Eval vm_compute in
  [ (u "login shell", u "bash -l -c 'echo $REMOTE_MACHINE'");
    (u "interactive login shell", u "bash -li -c 'echo $REMOTE_MACHINE' 2>/dev/null");
    (u "source .bashrc", u "bash -c 'source ~/.bashrc 2>/dev/null; echo $REMOTE_MACHINE'");
    (u "source .profile", u "bash -c 'source ~/.profile 2>/dev/null; echo $REMOTE_MACHINE'");
    (u "grep /etc/environment",
     u "grep -oP 'REMOTE_MACHINE=\K.*' /etc/environment 2>/dev/null");
    (u "source profile.d",
     u "bash -c 'for f in /etc/profile.d/*.sh; do source $f 2>/dev/null; done; echo $REMOTE_MACHINE'") ].

(** The list [docker_commands] of [cleanup_nested_machine]. *)
Definition docker_commands : list (str * str) :=
  Eval vm_compute in
  [ (u "Stopping containers", cmd_docker_stop);
    (u "Removing containers", cmd_docker_rm);
    (u "Removing images", cmd_docker_rmi);
    (u "System prune", cmd_docker_prune) ].

(** The emoji of the messages, as code points. *)
Definition e_broom : str := [0x1F9F9].
Definition e_bolt : str := [0x26A1].
Definition e_outbox : str := [0x1F4E4].
Definition e_inbox : str := [0x1F4E5].
Definition e_memo : str := [0x1F4DD].
Definition e_disk : str := [0x1F4BE].
Definition e_warning : str := [0x26A0; 0xFE0F].
Definition e_whale : str := [0x1F433].
Definition e_stop : str := [0x1F6D1].
Definition e_bin : str := [0x1F5D1; 0xFE0F].
Definition e_frame : str := [0x1F5BC; 0xFE0F].
Definition e_sponge : str := [0x1F9FD].
Definition e_info : str := [0x2139; 0xFE0F].

(** The pattern [REMOTE_MACHINE=(["']?)([^"'#\s]+)\1]. *)
Definition quote_char (c : char) : bool := (c =? 0x22) || (c =? 0x27).
Definition value_char (c : char) : bool :=
  negb (quote_char c || (c =? 0x23) || is_space c).
Definition remote_machine_re : re :=
  Cat (Lit s_remote_machine_eq)
      (Cat (Group 1 (Opt (Cls quote_char)))
           (Cat (Group 2 (Plus (Cls value_char))) (Backref 1))).

(** ** The remote machine and the session *)

(** What [exec_command] and the reads of its channels give: an exit status
    and the decoded output, or an exception. *)
Inductive exec_outcome :=
  | Exited (exit_code : Z) (stdout stderr : str)
  | ExecRaises.

(** The remote machine: the outcome of a command line after the ones sent
    before. *)
Definition remote : Type := list str -> str -> exec_outcome.

(** What [client.connect] does, with the text and the type name of the
    exception. *)
Inductive connect_outcome :=
  | Connected
  | AuthenticationException (e : str)
  | SSHConnectError (e ty : str)
  | ConnectError (e ty : str).

#[export] Instance connect_outcome_eq_dec : EqDecision connect_outcome.
Proof. solve_decision. Defined.

Record session := {
  executed : list str;
  console : list str;
  client : bool;
  connected : bool }.

Definition session_init : session :=
  {| executed := []; console := []; client := false; connected := false |}.

(** A dictionary of [get_disk_usage]. *)
Record partition_info := {
  filesystem : str;
  total : str;
  used : str;
  available : str;
  percent : str;
  mountpoint : str }.

#[export] Instance partition_info_eq_dec : EqDecision partition_info.
Proof. solve_decision. Defined.

(** The dictionaries of [run_full_cleanup]. *)
Record machine_result := {
  mr_hostname : str;
  disk_before : option (list partition_info);
  disk_after : option (list partition_info);
  success : bool }.

Record results := {
  main_machine : machine_result;
  nested_machine : option machine_result }.

(** ** The monad of the methods *)

(** A session holds the texts printed. *)
Definition session_emit (lines : list str) (s : session) : session :=
  {| executed := executed s; console := console s ++ lines;
     client := client s; connected := connected s |}.

#[export, refine] Instance session_console : Console session :=
  {| emit := session_emit |}.
Proof.
  - intros []. unfold session_emit. cbn. by rewrite app_nil_r.
  - intros l1 l2 s. unfold session_emit. cbn. by rewrite app_assoc.
Defined.

Abbreviation cleanup := (stex session).

Definition with_executed (l : list str) (s : session) : session :=
  {| executed := l; console := console s; client := client s; connected := connected s |}.
Definition with_client (b : bool) (s : session) : session :=
  {| executed := executed s; console := console s; client := b; connected := connected s |}.
Definition with_connected (b : bool) (s : session) : session :=
  {| executed := executed s; console := console s; client := client s; connected := b |}.

Local Arguments u : simpl never.

(** ** The methods of [MachineCleanup] *)

Section MachineCleanup.
Context (hostname password username : str) (verbose : bool).
Context (machine : remote) (connecting : connect_outcome).

(** [text.replace(self.password, '****')]. *)
Definition display_cmd (text : str) : str := replace_any password s_mask text.

Definition log_command (command : str) (indent : nat) : cleanup unit :=
  when verbose (print (indentation indent ++ e_bolt ++ u " [CMD] " ++ display_cmd command)).

Definition log_output (stdout stderr : str) (exit_code : Z) (indent : nat) : cleanup unit :=
  when verbose (
    print (indentation indent ++ e_chart ++ u " [EXIT CODE] " ++ str_of_Z exit_code);;
    when (truthy stdout) (
      print (indentation indent ++ e_outbox ++ u " [STDOUT]");;
      for_each (fun line => print (indentation indent ++ u "   " ++ display_cmd line))
               (split NL stdout));;
    when (truthy stderr) (
      print (indentation indent ++ e_inbox ++ u " [STDERR]");;
      for_each (fun line => print (indentation indent ++ u "   " ++ display_cmd line))
               (split NL stderr));;
    print (indentation indent ++ repeat 0x2500 50)).

Definition connect : cleanup bool :=
  log e_plug (u "Connecting to " ++ username ++ u "@" ++ hostname ++ u "...") 0;;
  log_verbose verbose (u "SSH Port: " ++ str_of_Z SSH_PORT) 1;;
  log_verbose verbose (u "Timeout: 30 seconds") 1;;
  modify (with_client true);;
  log_verbose verbose (u "SSH client initialized, host key policy set to AutoAdd") 1;;
  log_verbose verbose (u "Initiating connection to " ++ hostname ++ u ":" ++ str_of_Z SSH_PORT
               ++ u "...") 1;;
  match connecting with
  | Connected =>
      modify (with_connected true);;
      log e_check (u "Connected to " ++ hostname) 1;;
      log_verbose verbose (u "Connection established successfully") 1;;
      mret true
  | AuthenticationException e =>
      log e_cross (u "Authentication failed for " ++ hostname) 1;;
      log_verbose verbose (u "Auth error details: " ++ e) 1;;
      mret false
  | SSHConnectError e ty =>
      log e_cross (u "SSH error: " ++ e) 1;;
      log_verbose verbose (u "SSH exception type: " ++ ty) 1;;
      mret false
  | ConnectError e ty =>
      log e_cross (u "Connection failed: " ++ e) 1;;
      log_verbose verbose (u "Exception type: " ++ ty) 1;;
      mret false
  end.

Definition disconnect : cleanup unit :=
  fun s =>
    if client s
    then (modify (with_connected false);;
          log e_plug (u "Disconnected from " ++ hostname) 0) s
    else (Ok tt, s).

(** [self.client.exec_command(command, get_pty=True)] and the reads of its
    exit status and output. *)
Definition exec_command (command : str) : cleanup (Z * str * str) :=
  fun s =>
    if negb (client s) then (Raise AttributeError, s)
    else if negb (connected s) then (Raise SSHException, s)
    else
      let s' := with_executed (executed s ++ [command]) s in
      match machine (executed s) command with
      | Exited exit_code stdout stderr => (Ok (exit_code, stdout, stderr), s')
      | ExecRaises => (Raise SSHException, s')
      end.

(** The lines of the output that show neither the prompt of sudo nor the
    password. *)
Definition sudo_filter (stdout_text : str) : str :=
  join NL (filter_b (fun line => negb (contains s_sudo_prompt line)
                                 && negb (contains password line))
                    (split NL stdout_text)).

Definition sudo_command (command : str) : str :=
  u "echo '" ++ password ++ u "' | sudo -S " ++ command.

(** The command line [run_command] sends. *)
Definition wrapped (command : str) (use_sudo : bool) : str :=
  if use_sudo then sudo_command command else command.

Definition run_command (command : str) (use_sudo show_output : bool)
    : cleanup (Z * str * str) :=
  let command := wrapped command use_sudo in
  log_command command 2;;
  '(exit_code, stdout, stderr) ← exec_command command;
  let raw_stdout := strip stdout in
  let raw_stderr := strip stderr in
  let stdout_text :=
    if use_sudo && truthy raw_stdout then sudo_filter raw_stdout else raw_stdout in
  (if verbose then log_output raw_stdout raw_stderr exit_code 2
   else when (show_output && truthy stdout_text) (
     for_each (fun line => log e_memo line 2) (take 20 (split NL stdout_text));;
     when (bool_decide (20 < length (split NL stdout_text))%nat)
          (log e_memo (u "... (output truncated)") 2)));;
  mret (exit_code, stdout_text, raw_stderr).

(** The dictionary of a line of [df] that has six fields or more. *)
Definition partition_of (parts : list str) : option partition_info :=
  match parts with
  | p0 :: p1 :: p2 :: p3 :: p4 :: p5 :: _ =>
      Some {| filesystem := p0; total := p1; used := p2; available := p3;
              percent := p4; mountpoint := p5 |}
  | _ => None
  end.

Definition unknown_partition : partition_info :=
  {| filesystem := s_question; total := s_question; used := s_question;
     available := s_question; percent := s_question; mountpoint := s_question |}.

(** [partitions if partitions else [{'filesystem': '?', ...}]]. *)
Definition or_unknown (partitions : list partition_info) : list partition_info :=
  if truthy_list partitions then partitions else [unknown_partition].

(** The loop of [get_disk_usage] over the output of [df]: the first line is
    the header. *)
Definition partitions_of_df (output : str) : list partition_info :=
  let lines := split NL (strip output) in
  or_unknown (omap (fun line => partition_of (split_ws line)) (drop 1 lines)).

Definition get_disk_usage : cleanup (list partition_info) :=
  '(_, output, _) ← run_command cmd_df false false;
  mret (partitions_of_df output).

Definition display_disk_usage (partitions : list partition_info) (label : str)
    (indent : nat) : cleanup unit :=
  log e_disk (label ++ u ":") indent;;
  for_each (fun p =>
      log e_chart (mountpoint p ++ u ": " ++ used p ++ u " used / " ++ total p
                   ++ u " total (" ++ percent p ++ u ") - " ++ filesystem p) (indent + 1))
    partitions.

Definition _parse_df_output (output : str) : list partition_info :=
  or_unknown
    (omap (fun line =>
             if startswith s_filesystem line || negb (truthy (strip line)) then None
             else partition_of (split_ws line))
          (split NL (strip output))).

Definition get_docker_space : cleanup str :=
  '(_, output, _) ← run_command cmd_docker_df_head false false;
  mret (if truthy output then output else s_docker_unavailable).

Definition git_clean : cleanup bool :=
  log e_broom (u "Running git clean in " ++ CHEETAH_PATH ++ u "...") 0;;
  log_verbose verbose (u "Target directory: " ++ CHEETAH_PATH) 1;;
  log_verbose verbose
    (u "Command: git clean -xdf (remove untracked files, directories, and ignored files)") 1;;
  log_verbose verbose (u "Checking if directory exists...") 1;;
  '(exit_code, _, _) ← run_command cmd_test_dir false false;
  if negb (exit_code =? 0)%Z then
    log e_warning (u "Directory " ++ CHEETAH_PATH ++ u " does not exist, skipping git clean") 1;;
    mret true
  else
    log_verbose verbose (u "Directory exists, proceeding with git clean") 1;;
    '(exit_code, output, stderr) ← run_command cmd_git_clean true true;
    if (exit_code =? 0)%Z then
      log e_check (u "Git clean completed successfully") 1;;
      log_verbose verbose (u "Files removed: "
                   ++ str_of_N (N.of_nat (if truthy output then length (splitlines output)
                                          else 0%nat))
                   ++ u " items") 1;;
      mret true
    else
      log e_warning (u "Git clean had issues: " ++ stderr) 1;;
      log_verbose verbose (u "Exit code: " ++ str_of_Z exit_code) 1;;
      mret false.

Definition docker_cleanup : cleanup bool :=
  log e_whale (u "Cleaning up Docker...") 0;;
  when verbose (
    log_verbose verbose (u "Gathering Docker state before cleanup...") 1;;
    run_command cmd_docker_ps false false;;
    run_command cmd_docker_images false false;;
    run_command cmd_docker_df false false;;
    mret tt);;
  log e_stop (u "Stopping all containers...") 1;;
  log_verbose verbose (u "Command: docker stop $(docker ps -aq)") 2;;
  run_command cmd_docker_stop false false;;
  log e_bin (u "Removing all containers...") 1;;
  log_verbose verbose (u "Command: docker rm -f $(docker ps -aq)") 2;;
  run_command cmd_docker_rm false false;;
  log e_frame (u "Removing all Docker images...") 1;;
  log_verbose verbose (u "Command: docker rmi -f $(docker images -aq)") 2;;
  run_command cmd_docker_rmi false true;;
  log e_sponge (u "Running Docker system prune...") 1;;
  log_verbose verbose (u "Command: docker system prune -af --volumes (remove all unused data)") 2;;
  run_command cmd_docker_prune false false;;
  when verbose (
    log_verbose verbose (u "Docker state after cleanup:") 1;;
    run_command cmd_docker_df false false;;
    mret tt);;
  log e_check (u "Docker cleanup completed") 1;;
  mret true.

(** The loop over [methods]: the first one whose output is not blank. *)
Fixpoint try_methods (ms : list (str * str)) : cleanup (option str) :=
  match ms with
  | [] => mret None
  | (method_name, cmd) :: rest =>
      log_verbose verbose (u "Trying " ++ method_name ++ u "...") 2;;
      '(_, output, _) ← run_command cmd false false;
      if truthy (strip output) then
        log_verbose verbose (u "Found via " ++ method_name ++ u ": " ++ strip output) 2;;
        mret (Some (strip output))
      else try_methods rest
  end.

Definition get_remote_machine_var : cleanup (option str) :=
  log_verbose verbose (u "Checking $REMOTE_MACHINE...") 1;;
  found ← try_methods methods;
  match found with
  | Some result => mret (Some result)
  | None =>
      log_verbose verbose (u "Searching config files for REMOTE_MACHINE...") 2;;
      '(_, output, _) ← run_command cmd_grep_config false false;
      match (if truthy output && contains s_remote_machine_eq output
             then '(_, g, _) ← search remote_machine_re output; group g 2
             else None) with
      | Some result =>
          log_verbose verbose (u "Found in config file: " ++ result) 2;;
          mret (Some result)
      | None =>
          log_verbose verbose (u "$REMOTE_MACHINE not found in any location") 2;;
          mret None
      end
  end.

(** The command line that runs [cmd] on the nested machine. *)
Definition nested_ssh (remote_machine cmd : str) : str :=
  u "sshpass -p '" ++ password ++ u "' ssh -p " ++ str_of_Z SSH_PORT_NESTED
  ++ u " -o StrictHostKeyChecking=no " ++ username ++ u "@" ++ remote_machine
  ++ u " '" ++ cmd ++ u "'".

(** One reading of the disks of the nested machine: [None] when the output
    is empty. *)
Definition nested_disk_usage (remote_machine label : str)
    : cleanup (option (list partition_info)) :=
  '(_, output, _) ← run_command (nested_ssh remote_machine cmd_df) false false;
  if truthy output then
    display_disk_usage (_parse_df_output output) label 1;;
    mret (Some (_parse_df_output output))
  else mret None.

Definition cleanup_nested_machine (remote_machine : str) : cleanup machine_result :=
  log_section (u "Cleaning Nested Machine: " ++ remote_machine);;
  log e_plug (u "Connecting to nested machine " ++ remote_machine ++ u "...") 0;;
  log_verbose verbose (u "Using nested SSH via sshpass") 1;;
  log_verbose verbose (u "Target: " ++ username ++ u "@" ++ remote_machine ++ u ":"
               ++ str_of_Z SSH_PORT_NESTED) 1;;
  log_verbose verbose (u "Fetching disk usage before cleanup...") 1;;
  before ← nested_disk_usage remote_machine (u "Disk space BEFORE cleanup");
  log e_whale (u "Cleaning Docker on nested machine...") 1;;
  for_each (fun '(desc, cmd) =>
      log_verbose verbose (desc ++ u ": " ++ cmd) 2;;
      run_command (nested_ssh remote_machine cmd) false false;;
      mret tt)
    docker_commands;;
  log e_check (u "Docker cleanup completed on nested machine") 1;;
  log_verbose verbose (u "Fetching disk usage after cleanup...") 1;;
  after ← nested_disk_usage remote_machine (u "Disk space AFTER cleanup");
  log_verbose verbose (u "Nested machine cleanup completed successfully") 1;;
  mret {| mr_hostname := remote_machine; disk_before := before; disk_after := after;
          success := true |}.

(** The dictionary [results] before anything is done. *)
Definition results_init : results :=
  {| main_machine := {| mr_hostname := hostname; disk_before := None; disk_after := None;
                        success := false |};
     nested_machine := None |}.

(** The body of the [try] of [run_full_cleanup]. *)
Definition cleanup_body : cleanup results :=
  before ← get_disk_usage;
  display_disk_usage before (u "Disk space BEFORE cleanup") 1;;
  git_clean;;
  docker_cleanup;;
  after ← get_disk_usage;
  display_disk_usage after (u "Disk space AFTER cleanup") 1;;
  let main := {| mr_hostname := hostname; disk_before := Some before;
                 disk_after := Some after; success := true |} in
  remote_machine ← get_remote_machine_var;
  match remote_machine with
  | Some name =>
      if truthy name then
        log e_glass (u "Found $REMOTE_MACHINE: " ++ name) 0;;
        nested ← cleanup_nested_machine name;
        mret {| main_machine := main; nested_machine := Some nested |}
      else
        log e_info (u "$REMOTE_MACHINE not set, skipping nested machine cleanup") 0;;
        mret {| main_machine := main; nested_machine := None |}
  | None =>
      log e_info (u "$REMOTE_MACHINE not set, skipping nested machine cleanup") 0;;
      mret {| main_machine := main; nested_machine := None |}
  end.

Definition run_full_cleanup : cleanup results :=
  log_section (u "Cleaning Main Machine: " ++ hostname);;
  ok ← connect;
  if negb ok then mret results_init
  else try_finally cleanup_body disconnect.

End MachineCleanup.

(** ** A logic of the methods *)

(** What a method adds to a session: command lines sent (and, with [emit],
    lines on the console). *)
Definition sent (cmds : list str) (s : session) : session :=
  with_executed (executed s ++ cmds) s.

(** A session in which commands can be run. *)
Definition open (s : session) : Prop := client s = true /\ connected s = true.

(** [triple m Q]: from an open session [m] sends [cmds], prints, and ends in
    [r], with [Q r cmds]; the session stays open. *)
Definition triple {A} (m : cleanup A) (Q : result A -> list str -> Prop) : Prop :=
  forall s, open s ->
    exists r cmds lines, m s = (r, emit lines (sent cmds s)) /\ Q r cmds.

(** The postcondition of a method on the machine [machine]: [P] when it
    returns; when it raises, the exception is the one of a command, and the
    machine has a command that raises. *)
Definition may_raise (machine : remote) : Prop :=
  exists h c, machine h c = ExecRaises.

Definition outcome {A} (machine : remote) (P : A -> list str -> Prop)
    : result A -> list str -> Prop :=
  fun r cmds =>
    match r with
    | Ok a => P a cmds
    | Raise e => e = SSHException /\ may_raise machine
    end.

Lemma sent_nil s : sent [] s = s.
Proof. destruct s. unfold sent, with_executed. cbn. by rewrite app_nil_r. Qed.

Lemma sent_sent c1 c2 s : sent c2 (sent c1 s) = sent (c1 ++ c2) s.
Proof. unfold sent, with_executed. cbn. by rewrite app_assoc. Qed.

Lemma sent_emit c l s : sent c (emit l s) = emit l (sent c s).
Proof. done. Qed.

Lemma emit_sent_twice l1 c1 l2 c2 s :
  emit l2 (sent c2 (emit l1 (sent c1 s))) = emit (l1 ++ l2) (sent (c1 ++ c2) s).
Proof. by rewrite sent_emit, emit_emit, sent_sent. Qed.

Lemma open_emit_sent l c s : open s -> open (emit l (sent c s)).
Proof. done. Qed.

Section Logging.
Context (hostname password username : str) (verbose : bool).

Lemma silent_log_command command indent :
  silent (log_command password verbose command indent).
Proof. apply silent_when, silent_print. Qed.

Lemma silent_log_output stdout stderr exit_code indent :
  silent (log_output password verbose stdout stderr exit_code indent).
Proof. unfold log_output. auto 10 with console. Qed.

Lemma silent_display_disk_usage partitions label indent :
  silent (display_disk_usage partitions label indent).
Proof.
  unfold display_disk_usage. apply silent_bind; [apply silent_log|].
  apply silent_for_each. intros p. apply silent_log.
Qed.

End Logging.

#[export] Hint Resolve silent_log_command silent_log_output silent_display_disk_usage
  : console.

(** *** Rules of the triples *)

Lemma triple_ret {A} (a : A) (Q : result A -> list str -> Prop) :
  Q (Ok a) [] -> triple (mret a) Q.
Proof. intros HQ s _. exists (Ok a), [], []. by rewrite sent_nil, emit_nil. Qed.

Lemma triple_bind {A B} (m : cleanup A) (k : A -> cleanup B) Q1 Q :
  triple m Q1 ->
  (forall e c1, Q1 (Raise e) c1 -> Q (Raise e) c1) ->
  (forall a c1, Q1 (Ok a) c1 -> triple (k a) (fun r c2 => Q r (c1 ++ c2))) ->
  triple (m ≫= k) Q.
Proof.
  intros Hm He Hk s Hs. destruct (Hm s Hs) as (r & c1 & l1 & E & H1).
  rewrite bind_run, E. destruct r as [a|e].
  - destruct (Hk a c1 H1 _ (open_emit_sent l1 c1 s Hs)) as (r & c2 & l2 & E2 & H2).
    exists r, (c1 ++ c2), (l1 ++ l2). by rewrite E2, emit_sent_twice.
  - exists (Raise e), c1, l1. eauto.
Qed.

Lemma triple_silent {A} (m : cleanup unit) (k : unit -> cleanup A) Q :
  silent m -> triple (k tt) Q -> triple (m ≫= k) Q.
Proof.
  intros [l Hm] Hk s Hs. rewrite bind_run, Hm.
  destruct (Hk (emit l s)) as (r & c & l2 & E & H); [done|].
  exists r, c, (l ++ l2). by rewrite E, sent_emit, emit_emit.
Qed.

Lemma triple_conseq {A} (m : cleanup A) (Q1 Q2 : result A -> list str -> Prop) :
  triple m Q1 -> (forall r c, Q1 r c -> Q2 r c) -> triple m Q2.
Proof.
  intros Hm HQ s Hs. destruct (Hm s Hs) as (r & c & l & E & H). eauto 10.
Qed.

Lemma outcome_bind {A B} machine (m : cleanup A) (k : A -> cleanup B) P1 P :
  triple m (outcome machine P1) ->
  (forall a c1, P1 a c1 -> triple (k a) (outcome machine (fun b c2 => P b (c1 ++ c2)))) ->
  triple (m ≫= k) (outcome machine P).
Proof. intros Hm Hk. by eapply triple_bind; [exact Hm| |]. Qed.

Lemma outcome_ret {A} machine (a : A) (P : A -> list str -> Prop) :
  P a [] -> triple (mret a) (outcome machine P).
Proof. intros HP. by apply triple_ret. Qed.

Lemma outcome_conseq {A} machine (m : cleanup A) (P1 P2 : A -> list str -> Prop) :
  triple m (outcome machine P1) -> (forall a c, P1 a c -> P2 a c) ->
  triple m (outcome machine P2).
Proof. intros Hm HP. eapply triple_conseq; [exact Hm|]. intros [a|e] c; [apply HP|done]. Qed.

Lemma outcome_when machine (b : bool) (m : cleanup unit) cmds :
  (b = true -> triple m (outcome machine (fun _ c => c = cmds))) ->
  triple (when b m) (outcome machine (fun _ c => c = if b then cmds else [])).
Proof. destruct b; intros H; [by apply H|]. by apply outcome_ret. Qed.

Lemma outcome_for_each {A} machine (body : A -> cleanup unit) (f : A -> list str) l :
  (forall x, triple (body x) (outcome machine (fun _ c => c = f x))) ->
  triple (for_each body l) (outcome machine (fun _ c => c = List.concat (f <$> l))).
Proof.
  intros Hb. induction l as [|x l IH]; [by apply outcome_ret|].
  cbn [for_each]. eapply outcome_bind; [apply Hb|]. intros _ c1 ->.
  eapply outcome_conseq; [apply IH|]. by intros _ c ->.
Qed.

Lemma triple_when (b : bool) (m : cleanup unit) Q :
  (b = true -> triple m Q) -> (b = false -> Q (Ok tt) []) -> triple (when b m) Q.
Proof. destruct b; intros Ht Hf; [by apply Ht|]. apply triple_ret. by apply Hf. Qed.

(** *** The commands *)

Section Commands.
Context (hostname password username : str) (verbose : bool) (machine : remote).

Lemma exec_command_open command s :
  open s ->
  exec_command machine command s
  = (match machine (executed s) command with
     | Exited exit_code stdout stderr => Ok (exit_code, stdout, stderr)
     | ExecRaises => Raise SSHException
     end, sent [command] s).
Proof.
  intros [Hc Ho]. unfold exec_command. rewrite Hc, Ho. cbn [negb].
  by destruct (machine _ _).
Qed.

(** What [run_command] prints after the command has run. *)
Lemma silent_show_output stdout stderr exit_code text show_output :
  silent (if verbose then log_output password verbose stdout stderr exit_code 2
          else when (show_output && truthy text) (
            for_each (fun line => log e_memo line 2) (take 20 (split NL text));;
            when (bool_decide (20 < length (split NL text))%nat)
                 (log e_memo (u "... (output truncated)") 2))).
Proof. destruct verbose; auto 10 with console. Qed.

(** [run_command] sends one command line; it returns what the machine
    answers, the output stripped and filtered, or raises [SSHException]. *)
Lemma run_command_open command use_sudo show_output s :
  open s ->
  exists lines,
    run_command password verbose machine command use_sudo show_output s
    = (match machine (executed s) (wrapped password command use_sudo) with
       | Exited exit_code stdout stderr =>
           Ok (exit_code,
               if use_sudo && truthy (strip stdout)
               then sudo_filter password (strip stdout) else strip stdout,
               strip stderr)
       | ExecRaises => Raise SSHException
       end, emit lines (sent [wrapped password command use_sudo] s)).
Proof.
  intros Hs. unfold run_command. cbv zeta.
  destruct (silent_log_command password verbose (wrapped password command use_sudo) 2)
    as [l1 H1].
  rewrite bind_run, H1, bind_run, exec_command_open by done.
  destruct (machine _ _) as [exit_code stdout stderr|]; [|by exists l1].
  cbv beta iota. edestruct silent_show_output as [l2 H2]. rewrite bind_run, H2.
  exists (l1 ++ l2). by rewrite sent_emit, emit_emit.
Qed.

Lemma run_command_triple command use_sudo show_output :
  triple (run_command password verbose machine command use_sudo show_output)
         (outcome machine (fun _ cmds => cmds = [wrapped password command use_sudo])).
Proof.
  intros s Hs.
  destruct (run_command_open command use_sudo show_output s Hs) as [lines ->].
  eexists _, _, lines. split; [done|].
  destruct (machine _ _) eqn:E; [done|]. split; [done|]. by eexists _, _.
Qed.

End Commands.

(** *** What the methods send *)

(** The command lines of [docker_cleanup], of the nested cleanup, and of the
    search for [$REMOTE_MACHINE] when nothing is found. *)
Definition docker_plan (verbose : bool) : list str :=
  (if verbose then [cmd_docker_ps; cmd_docker_images; cmd_docker_df] else [])
  ++ [cmd_docker_stop; cmd_docker_rm; cmd_docker_rmi; cmd_docker_prune]
  ++ (if verbose then [cmd_docker_df] else []).

Definition nested_plan : list str :=
  [cmd_df; cmd_docker_stop; cmd_docker_rm; cmd_docker_rmi; cmd_docker_prune; cmd_df].

Definition probes_plan : list str := methods.*2 ++ [cmd_grep_config].

(** What a complete run sends, given the dictionary it returns: the disks,
    the test of the checkout and the git clean when it is there, Docker, the
    disks again, a non-empty prefix of the search for [$REMOTE_MACHINE], and
    the nested cleanup when a machine was found. *)
Definition cleanup_plan (password username : str) (verbose : bool)
    (res : results) (cmds : list str) : Prop :=
  exists g probes,
    cmds = [cmd_df; cmd_test_dir] ++ g ++ docker_plan verbose ++ [cmd_df] ++ probes
           ++ match nested_machine res with
              | Some nested =>
                  nested_ssh password username (mr_hostname nested) <$> nested_plan
              | None => []
              end
    /\ (g = [] \/ g = [sudo_command password cmd_git_clean])
    /\ probes `prefix_of` probes_plan /\ probes <> []
    /\ success (main_machine res) = true.

Ltac mstep :=
  lazymatch goal with
  | |- triple (mret _) (outcome _ _) => apply outcome_ret
  | |- triple (when _ _ ≫= _) _ =>
      first [ apply triple_silent; [solve [auto 10 with console]|cbv beta]
            | eapply outcome_bind;
              [eapply outcome_when; intros ?|intros ? ? ?; cbv beta in *] ]
  | |- triple (?m ≫= _) _ =>
      first [ apply triple_silent; [solve [auto 10 with console]|cbv beta]
            | eapply outcome_bind;
              [solve [eauto with console]|intros ? ? ?; cbv beta in *] ]
  | |- triple (when ?b _) _ => apply triple_when; intros ?
  | |- triple (if ?b then _ else _) _ => destruct b eqn:?
  | |- triple (match ?x with _ => _ end) _ =>
      first [is_var x; destruct x | destruct x eqn:?]
  end.

#[export] Hint Resolve run_command_triple : console.

Section Plans.
Context (hostname password username : str) (verbose : bool) (machine : remote).

Lemma or_unknown_nonempty partitions : or_unknown partitions <> [].
Proof. by destruct partitions. Qed.

Lemma get_disk_usage_triple :
  triple (get_disk_usage password verbose machine)
         (outcome machine (fun partitions cmds => cmds = [cmd_df] /\ partitions <> [])).
Proof.
  unfold get_disk_usage. repeat mstep. subst. split; [done|apply or_unknown_nonempty].
Qed.

Lemma git_clean_triple :
  triple (git_clean password verbose machine)
         (outcome machine (fun _ cmds =>
            cmds = [cmd_test_dir]
            \/ cmds = [cmd_test_dir; sudo_command password cmd_git_clean])).
Proof. unfold git_clean. repeat mstep; subst; auto. Qed.

Lemma docker_cleanup_triple :
  triple (docker_cleanup password verbose machine)
         (outcome machine (fun ok cmds => ok = true /\ cmds = docker_plan verbose)).
Proof. unfold docker_cleanup. repeat mstep; subst; try reflexivity. by destruct verbose. Qed.

Lemma try_methods_triple ms :
  triple (try_methods password verbose machine ms)
         (outcome machine (fun found cmds =>
            cmds `prefix_of` ms.*2 /\ (found = None -> cmds = ms.*2)
            /\ (ms <> [] -> cmds <> []))).
Proof.
  induction ms as [|[method_name cmd] ms IH]; cbn [try_methods]; repeat mstep; subst.
  - done.
  - split; [apply prefix_cons, prefix_nil|done].
  - eapply outcome_conseq; [apply IH|]. intros found c (Hp & Hn & _).
    split; [by apply prefix_cons|]. split; [|done]. intros ->. cbn. by rewrite Hn.
Qed.

Lemma get_remote_machine_var_triple :
  triple (get_remote_machine_var password verbose machine)
         (outcome machine (fun found cmds =>
            cmds `prefix_of` probes_plan /\ cmds <> []
            /\ (found = None -> cmds = probes_plan))).
Proof.
  unfold get_remote_machine_var. mstep. eapply outcome_bind; [apply try_methods_triple|].
  intros [name|] c1 (Hp & Hn & Hne); cbv beta iota.
  - apply outcome_ret. rewrite app_nil_r.
    split; [by apply prefix_app_r|]. split; [by apply Hne|done].
  - rewrite Hn by done. repeat mstep; subst; done.
Qed.

Lemma nested_disk_usage_triple remote_machine label :
  triple (nested_disk_usage password username verbose machine remote_machine label)
         (outcome machine (fun _ cmds =>
            cmds = [nested_ssh password username remote_machine cmd_df])).
Proof. unfold nested_disk_usage. repeat mstep; subst; done. Qed.

Lemma cleanup_nested_machine_triple remote_machine :
  triple (cleanup_nested_machine password username verbose machine remote_machine)
         (outcome machine (fun nested cmds =>
            cmds = nested_ssh password username remote_machine <$> nested_plan
            /\ mr_hostname nested = remote_machine /\ success nested = true)).
Proof.
  unfold cleanup_nested_machine. do 5 mstep.
  eapply outcome_bind; [apply nested_disk_usage_triple|]. intros before c1 ->. mstep.
  eapply outcome_bind.
  { apply (outcome_for_each machine _
             (fun x => [nested_ssh password username remote_machine x.2])).
    intros [desc cmd]. repeat mstep. by subst. }
  intros _ c2 ->. do 2 mstep.
  eapply outcome_bind; [apply nested_disk_usage_triple|]. intros after c3 ->.
  by repeat mstep.
Qed.

Lemma cleanup_body_triple :
  triple (cleanup_body hostname password username verbose machine)
         (outcome machine (cleanup_plan password username verbose)).
Proof.
  unfold cleanup_body.
  eapply outcome_bind; [apply get_disk_usage_triple|]. intros before c1 [-> _]. mstep.
  eapply outcome_bind; [apply git_clean_triple|]. intros ? c2 Hg.
  eapply outcome_bind; [apply docker_cleanup_triple|]. intros ? c3 [_ ->].
  eapply outcome_bind; [apply get_disk_usage_triple|]. intros after c4 [-> _]. mstep.
  eapply outcome_bind; [apply get_remote_machine_var_triple|].
  intros found c5 (Hp & Hne & _).
  assert (exists g, c2 = cmd_test_dir :: g
                    /\ (g = [] \/ g = [sudo_command password cmd_git_clean]))
    as (g & Hc & Hg') by (destruct Hg as [->| ->]; eauto).
  clear Hg. subst c2.
  destruct found as [name|]; [destruct (truthy name)|]; repeat mstep.
  2-3: exists g, c5; by rewrite !app_nil_r.
  eapply outcome_bind; [apply cleanup_nested_machine_triple|].
  intros nested c6 (-> & <- & _). apply outcome_ret. exists g, c5.
  by rewrite !app_nil_r.
Qed.

End Plans.

(** *** The whole run *)

Section Run.
Context (hostname password username : str) (verbose : bool).
Context (machine : remote) (connecting : connect_outcome).

Lemma connect_Connected s :
  connecting = Connected ->
  (connect hostname username verbose connecting s).1 = Ok true
  /\ open (connect hostname username verbose connecting s).2
  /\ executed (connect hostname username verbose connecting s).2 = executed s.
Proof. intros ->. by destruct verbose. Qed.

Lemma connect_refused s :
  connecting <> Connected ->
  (connect hostname username verbose connecting s).1 = Ok false
  /\ connected (connect hostname username verbose connecting s).2 = connected s
  /\ executed (connect hostname username verbose connecting s).2 = executed s.
Proof. intros H. by destruct connecting, verbose. Qed.

(** [try: body finally: self.disconnect()] from an open session: the body
    runs, the connection is closed, the result of the body is the result. *)
Lemma try_finally_disconnect {A} (body : cleanup A) Q s :
  triple body Q -> open s ->
  exists cmds,
    Q (try_finally body (disconnect hostname) s).1 cmds
    /\ executed (try_finally body (disconnect hostname) s).2 = executed s ++ cmds
    /\ connected (try_finally body (disconnect hostname) s).2 = false.
Proof.
  intros Hb Hs. destruct (Hb s Hs) as (r & cmds & lines & E & HQ). exists cmds.
  unfold try_finally, disconnect. rewrite E.
  replace (client (emit lines (sent cmds s))) with true by (symmetry; apply Hs). done.
Qed.

(** The run as the source composes it: the body and the disconnection from
    an open session, or nothing when the connection is refused. *)
Lemma run_full_cleanup_Connected s :
  connecting = Connected ->
  exists s1,
    open s1 /\ executed s1 = executed s
    /\ run_full_cleanup hostname password username verbose machine connecting s
       = try_finally (cleanup_body hostname password username verbose machine)
                     (disconnect hostname) s1.
Proof.
  intros Hc. unfold run_full_cleanup. rewrite bind_run.
  destruct (silent_log_section (u "Cleaning Main Machine: " ++ hostname)) as [l H].
  rewrite H, bind_run.
  destruct (connect_Connected (emit l s) Hc) as (E & Ho & Hx).
  destruct (connect _ _ _ _ _) as [r s1]. cbn [fst snd] in E, Ho, Hx. subst r.
  by exists s1.
Qed.

Lemma run_full_cleanup_refused s :
  connecting <> Connected ->
  exists s1,
    connected s1 = connected s /\ executed s1 = executed s
    /\ run_full_cleanup hostname password username verbose machine connecting s
       = (Ok (results_init hostname), s1).
Proof.
  intros Hc. unfold run_full_cleanup. rewrite bind_run.
  destruct (silent_log_section (u "Cleaning Main Machine: " ++ hostname)) as [l H].
  rewrite H, bind_run.
  destruct (connect_refused (emit l s) Hc) as (E & Hd & Hx).
  destruct (connect _ _ _ _ _) as [r s1]. cbn [fst snd] in E, Hd, Hx. subst r.
  by exists s1.
Qed.

End Run.

(** ** The parsers of the output of [df] *)

Section Df.

(** The two parsers agree on an output whose first line is the header and
    which has no other line that starts like it. *)
Lemma parse_df_agree output header rows :
  split NL (strip output) = header :: rows ->
  startswith s_filesystem header = true ->
  Forall (fun line => startswith s_filesystem line = false) rows ->
  _parse_df_output output = partitions_of_df output.
Proof.
  intros E Hh Hr. unfold _parse_df_output, partitions_of_df. rewrite E.
  cbn [omap list_omap drop]. rewrite Hh, drop_0. cbn [orb]. f_equal. clear E.
  induction Hr as [|line rows Hl _ IH]; [done|]. cbn [omap list_omap].
  rewrite Hl, IH. cbn [orb]. destruct (strip line) eqn:Es; [|done].
  by rewrite (split_ws_blank line) by (by apply strip_nil_inv).
Qed.

Lemma parse_df_nonempty output : _parse_df_output output <> [].
Proof. apply or_unknown_nonempty. Qed.

(** Every line of six fields or more that does not start with [Filesystem]
    becomes a partition, whatever it says. *)
Lemma parse_df_any_line output line p :
  line ∈ split NL (strip output) ->
  startswith s_filesystem line = false ->
  partition_of (split_ws line) = Some p ->
  p ∈ _parse_df_output output.
Proof.
  intros Hl Hs Hp. unfold _parse_df_output, or_unknown.
  assert (p ∈ omap (fun line =>
            if startswith s_filesystem line || negb (truthy (strip line)) then None
            else partition_of (split_ws line)) (split NL (strip output))) as H.
  { apply list_elem_of_omap. exists line. split; [done|]. rewrite Hs. cbn [orb].
    destruct (strip line) eqn:Es; [|done].
    by rewrite (split_ws_blank line) in Hp by (by apply strip_nil_inv). }
  destruct (omap _ _); [inversion H|done].
Qed.

End Df.

(** ** The password *)

Section Password.
Context (password : str).

Lemma sudo_filter_lines text line :
  line ∈ split NL (sudo_filter password text) ->
  contains s_sudo_prompt line = false
  /\ (password <> [] -> contains password line = false).
Proof.
  unfold sudo_filter. set (keep := fun line : str => _).
  assert (Forall (fun l => ~ In 0x0A l) (filter_b keep (split NL text))) as Hnl.
  { apply filter_b_keeps.
    eapply list.Forall_impl; [by apply (split_pieces_clean NL text)|].
    intros l. apply contains_char_In. }
  destruct (filter_b keep (split NL text)) as [|l0 ls] eqn:E.
  - cbn. intros ->%list_elem_of_singleton. split; [done|]. by destruct password.
  - rewrite (split_join_char 0x0A) by done. rewrite <- E.
    intros [_ [H1 H2]%andb_prop]%filter_b_elem.
    apply negb_true_iff in H1, H2. done.
Qed.

(** With an empty password nothing of the output of a sudo command is
    left. *)
Lemma sudo_filter_empty_password text : sudo_filter [] text = [].
Proof.
  unfold sudo_filter. rewrite filter_b_none; [done|].
  apply Forall_forall. intros line _. by rewrite contains_nil_l, andb_false_r.
Qed.

End Password.

(** ** A machine to run the methods on *)

Definition df_output : str :=
  Eval vm_compute in
  join NL [ u "Filesystem      Size  Used Avail Use% Mounted on";
            u "/dev/sda1       100G   40G   60G  40% /";
            u "/dev/sdb1       1.0T  512G  512G  50% /data" ].

Definition ssh_warning : str :=
  Eval vm_compute in
  u "Warning: Permanently added 'wb-12' (ED25519) to the list of known hosts.".

(** A machine with two disks and a checkout, whose [$REMOTE_MACHINE] is set
    in a configuration file only. *)
Definition lab : remote := fun _ command =>
  if bool_decide (command = cmd_df) then Exited 0 df_output []
  else if bool_decide (command = cmd_grep_config)
       then Exited 0 (u "export REMOTE_MACHINE='wb-12'  # nested") []
  else if contains (u "sshpass") command
       then Exited 0 (ssh_warning ++ NL ++ df_output) []
  else if contains (u "sudo") command
       then Exited 0 (join NL [u "[sudo] password for dn: "; u "Removing build/"]) []
  else Exited 0 [] [].

(** The same machine, with a connection that breaks when the images are
    removed. *)
Definition lab_breaks : remote := fun history command =>
  if bool_decide (command = cmd_docker_rmi) then ExecRaises else lab history command.

Definition s_host : str := Eval vm_compute in u "wb-7".
Definition s_drivenets : str := Eval vm_compute in u "drivenets".

(** ** Properties *)

Section Properties.
Context (hostname password username : str) (verbose : bool).
Context (machine : remote) (connecting : connect_outcome).

(** C15: The connection is closed when the run ends, whether the machine accepted
    the connection or not and whether a command raised or not; the run
    raises nothing but the exception of a command. *)
Theorem run_full_cleanup_disconnects s :
  connected s = false ->
  connected (run_full_cleanup hostname password username verbose machine connecting s).2
  = false
  /\ forall e,
       (run_full_cleanup hostname password username verbose machine connecting s).1
       = Raise e ->
       e = SSHException /\ may_raise machine.
Proof.
  intros Hs. destruct (decide (connecting = Connected)) as [Hc|Hc].
  - destruct (run_full_cleanup_Connected hostname password username verbose machine
                connecting s Hc) as (s1 & Ho & _ & ->).
    destruct (try_finally_disconnect hostname _ _ s1
                (cleanup_body_triple hostname password username verbose machine) Ho)
      as (cmds & HQ & _ & Hd).
    split; [done|]. intros e He. by rewrite He in HQ.
  - destruct (run_full_cleanup_refused hostname password username verbose machine
                connecting s Hc) as (s1 & Hd & _ & ->).
    split; [by rewrite <- Hs|done].
Qed.

(** C40: On a machine whose commands all end, a run that connects returns its
    dictionary and has sent the commands of [cleanup_plan], in that order. *)
Theorem run_full_cleanup_commands s :
  connecting = Connected ->
  (forall history command, machine history command <> ExecRaises) ->
  exists res cmds,
    (run_full_cleanup hostname password username verbose machine connecting s).1 = Ok res
    /\ executed (run_full_cleanup hostname password username verbose machine connecting s).2
       = executed s ++ cmds
    /\ cleanup_plan password username verbose res cmds.
Proof.
  intros Hc Hm.
  destruct (run_full_cleanup_Connected hostname password username verbose machine
              connecting s Hc) as (s1 & Ho & Hx & ->).
  destruct (try_finally_disconnect hostname _ _ s1
              (cleanup_body_triple hostname password username verbose machine) Ho)
    as (cmds & HQ & He & _).
  destruct (try_finally _ _ _) as [[res|e] s2]; cbn [fst snd] in *.
  - exists res, cmds. by rewrite He, Hx.
  - destruct HQ as (_ & h & c & Hr). by destruct (Hm h c).
Qed.

(** A run that cannot connect sends nothing and returns the dictionary it
    started with. *)
Lemma run_full_cleanup_sends_nothing s :
  connecting <> Connected ->
  (run_full_cleanup hostname password username verbose machine connecting s).1
  = Ok (results_init hostname)
  /\ executed (run_full_cleanup hostname password username verbose machine connecting s).2
     = executed s.
Proof.
  intros Hc.
  by destruct (run_full_cleanup_refused hostname password username verbose machine
                 connecting s Hc) as (s1 & _ & Hx & ->).
Qed.

(** The text [log_command] and [log_output] display does not contain the
    password, when the password is not empty and has no asterisk. *)
Theorem display_cmd_hides_password text :
  password <> [] -> ~ In 0x2A password ->
  contains password (display_cmd password text) = false.
Proof.
  intros Hne Hstar. unfold display_cmd, replace_any.
  destruct password as [|c p] eqn:E; [done|]. rewrite <- E in *.
  apply replace_hides; [by rewrite E|done|]. by repeat constructor.
Qed.

End Properties.

Lemma run_full_cleanup_disconnects_witness :
  connected (run_full_cleanup s_host s_drivenets SSH_USERNAME false lab_breaks Connected
               session_init).2 = false
  /\ forall e,
       (run_full_cleanup s_host s_drivenets SSH_USERNAME false lab_breaks Connected
          session_init).1 = Raise e ->
       e = SSHException /\ may_raise lab_breaks.
Proof.
  exact (run_full_cleanup_disconnects s_host s_drivenets SSH_USERNAME false lab_breaks
           Connected session_init eq_refl).
Defined.

Lemma lab_never_raises history command : lab history command <> ExecRaises.
Proof. unfold lab. by repeat case_match. Qed.

Lemma run_full_cleanup_commands_witness :
  exists res cmds,
    (run_full_cleanup s_host s_drivenets SSH_USERNAME true lab Connected session_init).1
    = Ok res
    /\ executed (run_full_cleanup s_host s_drivenets SSH_USERNAME true lab Connected
                   session_init).2 = executed session_init ++ cmds
    /\ cleanup_plan s_drivenets SSH_USERNAME true res cmds.
Proof.
  exact (run_full_cleanup_commands s_host s_drivenets SSH_USERNAME true lab Connected
           session_init eq_refl lab_never_raises).
Defined.

Lemma display_cmd_hides_password_witness :
  contains s_drivenets (display_cmd s_drivenets (sudo_command s_drivenets cmd_git_clean))
  = false.
Proof.
  apply (display_cmd_hides_password s_drivenets); [done|].
  vm_compute. intuition discriminate.
Defined.

(** ** The methods at work *)

(** The run on [lab], in verbose mode off: twenty-one command lines, the
    password in three kinds of them. *)
Example lab_run_commands :
  executed (run_full_cleanup s_host s_drivenets SSH_USERNAME false lab Connected
              session_init).2
  = [cmd_df; cmd_test_dir; sudo_command s_drivenets cmd_git_clean]
    ++ docker_plan false ++ [cmd_df] ++ probes_plan
    ++ (nested_ssh s_drivenets SSH_USERNAME (u "wb-12") <$> nested_plan).
Proof. by vm_compute. Qed.

(** When the connection breaks the run stops there, and disconnects. *)
Example lab_breaks_run :
  run_full_cleanup s_host s_drivenets SSH_USERNAME false lab_breaks Connected session_init
  = (Raise SSHException,
     (run_full_cleanup s_host s_drivenets SSH_USERNAME false lab_breaks Connected
        session_init).2)
  /\ executed (run_full_cleanup s_host s_drivenets SSH_USERNAME false lab_breaks Connected
                 session_init).2
     = [cmd_df; cmd_test_dir; sudo_command s_drivenets cmd_git_clean;
        cmd_docker_stop; cmd_docker_rm; cmd_docker_rmi].
Proof. by vm_compute. Qed.

(** The prompt of sudo is not in what [run_command] returns. *)
Example lab_sudo_output :
  (run_command s_drivenets false lab cmd_git_clean true true
     {| executed := []; console := []; client := true; connected := true |}).1
  = Ok (0%Z, u "Removing build/", []).
Proof. by vm_compute. Qed.

(** The warning of ssh, which a terminal shows with the output, is read as
    a partition by [_parse_df_output]. *)
Example parse_df_ssh_warning :
  filesystem <$> _parse_df_output (ssh_warning ++ NL ++ df_output)
  = [u "Warning:"; u "/dev/sda1"; u "/dev/sdb1"].
Proof. by vm_compute. Qed.

(** [get_disk_usage] on the same output drops the warning and reads the
    header as a partition. *)
Example partitions_of_df_ssh_warning :
  filesystem <$> partitions_of_df (ssh_warning ++ NL ++ df_output)
  = [u "Filesystem"; u "/dev/sda1"; u "/dev/sdb1"].
Proof. by vm_compute. Qed.

(** The pattern of the last resort: quotes are taken off when they match,
    a comment is left out, an opening quote alone matches nothing. *)
Example remote_machine_re_examples :
  ('(_, g, _) ← search remote_machine_re (u "export REMOTE_MACHINE='wb-12'  # nested");
   group g 2) = Some (u "wb-12")
  /\ ('(_, g, _) ← search remote_machine_re (u "REMOTE_MACHINE=wb-12#x"); group g 2)
     = Some (u "wb-12")
  /\ search remote_machine_re (u "REMOTE_MACHINE='wb-12") = None
  /\ ('(_, g, _) ← search remote_machine_re (u "REMOTE_MACHINE=$OTHER"); group g 2)
     = Some (u "$OTHER").
Proof. by vm_compute. Qed.

(** With an empty password every displayed text is filled with masks. *)
Example display_cmd_empty_password :
  display_cmd [] (u "ls") = u "****l****s****".
Proof. by vm_compute. Qed.
