(* ===== verification/MachineSummary.v ===== *)
(** * MachineSummary: the sizes and the summary of [src/cheetah/machine_clean.py]

    After the cleanup the script prints, for each partition, what it used
    before and after, and what was freed.  The sizes are the texts of
    [df -h]; [parse_size] turns them into floats and [format_size] turns
    the difference into a text again.

    - [parse_size] and [format_size] on the floats of [PyFloat.v].
    - [print_partition_summary] with its dictionary by mount point, its
      [try ... except: pass] and the running total; [print_summary];
      [clean_main], the [main] of the script, for the four values of the
      command line.

    The theorems show: the number [format_size] prints under a unit is at
    most 1024.0, and can be 1024.0; [format_size] gives back the sizes
    that [parse_size] read, for every size of one decimal under the units
    K to T, and [parse_size] reads neither B nor P; the summary never
    raises; the status of the script. *)

From Stdlib Require Import Ascii String ZArith Lia.
From Stdlib Require Import Floats.SpecFloat Floats.FloatOps.
From stdpp Require Import base tactics option list numbers.
From S2P Require Import Prelude PyStr PyFloat Console MachineClean.

Local Open Scope N_scope.
Local Arguments u : simpl never.

(** ** Sizes *)

Definition s_K : str := Eval vm_compute in u "K".
Definition s_M : str := Eval vm_compute in u "M".
Definition s_G : str := Eval vm_compute in u "G".
Definition s_T : str := Eval vm_compute in u "T".
Definition s_B : str := Eval vm_compute in u "B".
Definition s_P : str := Eval vm_compute in u "P".

(** The dictionary [multipliers], in the order of its keys. *)
Definition multipliers : list (str * Z) :=
  [(s_K, 1024); (s_M, 1024 ^ 2); (s_G, 1024 ^ 3); (s_T, 1024 ^ 4)]%Z.

(** The loop of [parse_size] over the items of the dictionary. *)
Fixpoint parse_size_loop (s : str) (items : list (str * Z)) : result pyfloat :=
  match items with
  | [] => float_of_str s
  | (suffix, mult) :: rest =>
      if endswith suffix s
      then x ← float_of_str (take (length s - 1) s); Ok (fmul x (float_of_Z mult))
      else parse_size_loop s rest
  end.

Definition parse_size (s : str) : result pyfloat :=
  parse_size_loop (strip (upper s)) multipliers.

(** The loop of [format_size] over the units. *)
Fixpoint format_size_loop (units : list str) (bytes_val : pyfloat) : str :=
  match units with
  | [] => format_1f bytes_val ++ s_P
  | unit :: rest =>
      if flt (fabs bytes_val) (float_of_Z 1024)
      then format_1f bytes_val ++ unit
      else format_size_loop rest (fdiv bytes_val (float_of_Z 1024))
  end.

Definition units : list str := [s_B; s_K; s_M; s_G; s_T].

Definition format_size (bytes_val : pyfloat) : str := format_size_loop units bytes_val.

(** ** The summary *)

Section Summary.
Context {St : Type} `{!Console St}.

(** [after_by_mount.get(mount)]: of two partitions with one mount point the
    dictionary keeps the later. *)
Definition after_by_mount (after_list : list partition_info) (mount : str)
  : option partition_info :=
  snd <$> list_find (fun p => mountpoint p = mount) (rev after_list).

(** The [try] of the loop: the new total. *)
Definition freed_line (before after : partition_info) (total_freed : pyfloat)
  : stex St pyfloat :=
  before_bytes ← lift (parse_size (used before));
  after_bytes ← lift (parse_size (used after));
  let freed := fsub before_bytes after_bytes in
  let total_freed := fadd total_freed freed in
  (if fgt freed fzero then
     print (u "      🎊 Freed:     " ++ format_size freed)
   else if flt freed fzero then
     print (u "      ⚠️  Increased: " ++ format_size (fabs freed))
   else
     print (u "      ➡️  No change"));;
  mret total_freed.

(** The loop of [print_partition_summary], with the variable [total_freed]. *)
Fixpoint summary_loop (after_list before_list : list partition_info)
    (total_freed : pyfloat) : stex St pyfloat :=
  match before_list with
  | [] => mret total_freed
  | before :: rest =>
      let mount := mountpoint before in
      match after_by_mount after_list mount with
      | Some after =>
          print (NL ++ u "   📁 " ++ mount ++ u " (" ++ filesystem before ++ u ")");;
          print (u "      📥 Before:    " ++ used before ++ u " used / " ++ total before
                 ++ u " total (" ++ percent before ++ u ")");;
          print (u "      📤 After:     " ++ used after ++ u " used / " ++ total after
                 ++ u " total (" ++ percent after ++ u ")");;
          print (u "      💾 Available: " ++ available after);;
          total_freed ← try_except (freed_line before after total_freed)
                                   (fun _ => mret total_freed);
          summary_loop after_list rest total_freed
      | None => summary_loop after_list rest total_freed
      end
  end.

Definition print_partition_summary (before_list after_list : list partition_info)
  : stex St unit :=
  total_freed ← summary_loop after_list before_list fzero;
  when (fne total_freed fzero) (
    print [];;
    if fgt total_freed fzero then
      print (u "   🎉 TOTAL SPACE FREED: " ++ format_size total_freed)
    else
      print (u "   ⚠️  TOTAL SPACE INCREASED: " ++ format_size (fabs total_freed))).

(** The test [m['success'] and m['disk_before'] and m['disk_after']], and
    the summary of one machine. *)
Definition complete (m : machine_result) : bool :=
  success m && truthy_list (default [] (disk_before m))
  && truthy_list (default [] (disk_after m)).

Definition machine_summary (m : machine_result) : stex St unit :=
  if complete m
  then print_partition_summary (default [] (disk_before m)) (default [] (disk_after m))
  else print (u "   ❌ Cleanup failed or incomplete").

Definition print_summary (r : results) : stex St unit :=
  print [];;
  print (repeat 0x3D 70);;
  print (u "🎉 CLEANUP SUMMARY");;
  print (repeat 0x3D 70);;
  let main := main_machine r in
  print [];;
  print (u "📍 Main Machine: " ++ mr_hostname main);;
  print (repeat 0x2D 50);;
  machine_summary main;;
  match nested_machine r with
  | Some nested =>
      print [];;
      print (u "📍 Nested Machine: " ++ mr_hostname nested);;
      print (repeat 0x2D 50);;
      machine_summary nested
  | None =>
      print [];;
      print (u "📍 Nested Machine: Not configured (no $REMOTE_MACHINE)")
  end;;
  print [];;
  print (repeat 0x3D 70);;
  print (u "✨ Cleanup complete! Have a great day! ✨");;
  print (repeat 0x3D 70);;
  print [].

End Summary.

(** ** The script *)

(** [main], for the values of the command line; the value is the status
    given to [sys.exit]. *)
Definition clean_main (hostname username password : str) (verbose : bool)
    (machine : remote) (connecting : connect_outcome) : cleanup Z :=
  print [];;
  print (u "🧹" ++ repeat 0x3D 58);;
  print (u "   MACHINE CLEANUP TOOL");;
  print (u "   Cleaning up disk space on remote machines");;
  print (repeat 0x3D 60);;
  when verbose (
    print (u "🔍 VERBOSE MODE ENABLED - Showing all technical details");;
    print []);;
  r ← run_full_cleanup hostname password username verbose machine connecting;
  print_summary r;;
  mret (if success (main_machine r) then 0 else 1)%Z.

(** ** What the summary promises *)

(** The number of divisions by 1024 that take a float of exponent [e]
    below [1024.0], and at most [fuel]. *)
Fixpoint divisions (fuel : nat) (e : Z) : nat :=
  match fuel with
  | O => O
  | S fuel' => if (e <? -42)%Z then O else S (divisions fuel' (e - 10))
  end.

(** The power of 1024 of the unit of a float: that many divisions, none
    for zero, all of them for what is not a number. *)
Definition power_of (fuel : nat) (x : pyfloat) : nat :=
  match x with
  | S754_finite _ _ e => divisions fuel e
  | S754_zero _ => O
  | _ => fuel
  end.

(** The text of a number of [t] tenths, and of a size of [t] tenths of a
    unit. *)
Definition number_text (t : N) : str := str_of_N (t / 10) ++ u "." ++ str_of_N (t mod 10).

Definition size_text (t : N) (unit : str) : str := number_text t ++ unit.

(** The item of [multipliers] that the loop of [parse_size] stops at. *)
Definition suffix_of (s : str) : option (str * Z) :=
  snd <$> list_find (fun item => endswith item.1 s) multipliers.

(** What a partition frees: the difference of the two sizes, when both
    lists have the partition and both sizes can be read. *)
Definition freed_of (after_list : list partition_info) (before : partition_info)
  : option pyfloat :=
  after ← after_by_mount after_list (mountpoint before);
  match parse_size (used before), parse_size (used after) with
  | Ok before_bytes, Ok after_bytes => Some (fsub before_bytes after_bytes)
  | _, _ => None
  end.

(** The last lines of [print_partition_summary], for the total. *)
Definition total_lines (total_freed : pyfloat) : list str :=
  if fne total_freed fzero then
    [ [];
      if fgt total_freed fzero
      then u "   🎉 TOTAL SPACE FREED: " ++ format_size total_freed
      else u "   ⚠️  TOTAL SPACE INCREASED: " ++ format_size (fabs total_freed) ]
  else [].

(** A machine on which the cleanup frees 4.5G of the first partition. *)
Definition df_cleaned : str :=
  Eval vm_compute in
  join NL [ u "Filesystem      Size  Used Avail Use% Mounted on";
            u "/dev/sda1       100G   35.5G   64.5G  36% /";
            u "/dev/sdb1       1.0T  512G  512G  50% /data" ].

Definition lab_cleaned : remote := fun history command =>
  if bool_decide (command = cmd_df) && bool_decide (cmd_docker_rmi ∈ history)
  then Exited 0 df_cleaned []
  else lab history command.

(** ** Facts about sizes *)

Section Sizes.
Local Open Scope Z_scope.

Lemma shifted_0 x : shifted 0 x = x.
Proof. destruct x; [done..|]. cbn. f_equal. lia. Qed.

Lemma shifted_S k s m e :
  shifted k (S754_finite s m (e - 10)) = shifted (S k) (S754_finite s m e).
Proof. cbn [shifted]. f_equal. lia. Qed.

(** The loop of [format_size] divides without rounding: it prints the
    float [x / 1024 ^ k] for the number [k] of its divisions. *)
Lemma format_size_loop_exact us x :
  valid x ->
  format_size_loop us x
  = format_1f (shifted (power_of (length us) x) x) ++ nth (power_of (length us) x) us s_P.
Proof.
  revert x. induction us as [|unit us IH]; intros x Hv.
  { cbn [format_size_loop length]. destruct x; cbn [power_of divisions nth];
      by rewrite ?shifted_0. }
  cbn [format_size_loop length]. change (float_of_Z 1024) with f1024.
  destruct x as [s|s| |s m e].
  - done.
  - replace (fdiv (S754_infinity s) f1024) with (S754_infinity s) by (by destruct s).
    change (flt (fabs (S754_infinity s)) f1024) with false. by rewrite IH.
  - change (if flt (fabs S754_nan) f1024 then ?a else ?b) with b. by rewrite IH.
  - rewrite below_1024 by done. cbn [power_of divisions].
    destruct (Z.ltb_spec e (-42)) as [He|He]; [by rewrite shifted_0|].
    pose proof Hv as (Hx & _ & _)%valid_finite.
    assert (normal m) as Hm by (eapply valid_normal; [done|lia]).
    rewrite fdiv_1024 by (done || lia).
    rewrite IH by (apply normal_valid; [done|lia]).
    cbn [power_of nth]. by rewrite shifted_S.
Qed.

Lemma divisions_below fuel e k : divisions fuel e = k -> (k < fuel)%nat -> e - 10 * Z.of_nat k < -42.
Proof.
  revert e k. induction fuel as [|fuel IH]; intros e k; [lia|]. cbn [divisions].
  destruct (Z.ltb_spec e (-42)); [intros <-; lia|]. intros <- Hk.
  specialize (IH (e - 10) _ eq_refl). lia.
Qed.

End Sizes.

(** The loop of [parse_size] stops at the first suffix the text ends
    with. *)
Lemma parse_size_loop_find s items :
  parse_size_loop s items
  = match list_find (fun item => endswith item.1 s) items with
    | Some (_, (_, mult)) =>
        x ← float_of_str (take (length s - 1) s); Ok (fmul x (float_of_Z mult))
    | None => float_of_str s
    end.
Proof.
  induction items as [|[suffix mult] items IH]; [done|]. cbn [parse_size_loop list_find fst].
  destruct (endswith suffix s) eqn:E.
  - by rewrite decide_True by done.
  - rewrite decide_False by (by intros []). rewrite IH.
    by destruct (list_find _ items) as [[? [? ?]]|].
Qed.

(** A text in capitals that ends with a unit of [multipliers] is read as
    the number before the unit, times the multiplier. *)
Lemma parse_size_suffix item body c :
  item ∈ multipliers -> head body = Some c -> is_space c = false ->
  forallb (fun c => c <? 0x61) body = true ->
  parse_size (body ++ item.1) = x ← float_of_str body; Ok (fmul x (float_of_Z item.2)).
Proof.
  intros Hitem Hh Hc Hb. unfold parse_size.
  assert (exists k i, item.1 = [k] /\ k < 0x61 /\ is_space k = false
    /\ list_find (fun i : str * Z => endswith i.1 (body ++ [k])) multipliers = Some (i, item))
    as (k & i & -> & Hk & Hsp & Hfind).
  { apply list_elem_of_In in Hitem. cbn in Hitem.
    destruct Hitem as [<-|[<-|[<-|[<-|[]]]]]; do 2 eexists; (split; [reflexivity|]);
      (split; [lia|]); (split; [done|]); unfold multipliers, s_K, s_M, s_G, s_T;
      cbn [list_find fst]; rewrite !endswith_last; reflexivity. }
  rewrite upper_fixed_id by (rewrite forallb_app, Hb; cbn; by rewrite (proj2 (N.ltb_lt _ _) Hk)).
  rewrite (strip_fixed _ c)
    by (done || (by destruct body) || by rewrite last_last).
  rewrite parse_size_loop_find, Hfind. destruct item as [unit mult]. cbn [fst snd].
  by rewrite length_app, Nat.add_sub, take_app_length.
Qed.

(** The text of a number of tenths starts with a digit and has no small
    letter. *)
Lemma number_text_plain t :
  exists c, head (number_text t) = Some c /\ is_space c = false
    /\ forallb (fun c => c <? 0x61) (number_text t) = true.
Proof.
  assert (forall n, forallb (fun c => c <? 0x61) (str_of_N n) = true) as Hsmall.
  { intros n. destruct (str_of_N_spec n) as (Hd & _). rewrite forallb_forall in Hd.
    apply forallb_forall. intros x Hx. apply N.ltb_lt. by apply is_digit_fixed, Hd. }
  unfold number_text. destruct (str_of_N_spec (t / 10)) as (Hd & Hl & _).
  rewrite !forallb_app, !Hsmall. destruct (str_of_N (t / 10)) as [|c ds]; [cbn in Hl; lia|].
  exists c. split_and!; [done| |done].
  apply andb_true_iff in Hd as [Hc _]. by apply is_digit_fixed.
Qed.

Section Sizes2.
Local Open Scope Z_scope.

Lemma divisions_shift fuel k e :
  (k <= fuel)%nat -> -52 <= e < -42 -> divisions fuel (e + 10 * Z.of_nat k) = k.
Proof.
  revert fuel. induction k as [|k IH]; intros fuel Hk He.
  - destruct fuel; [done|]. cbn [divisions].
    replace (e + 10 * Z.of_nat 0) with e by lia. by destruct (Z.ltb_spec e (-42)); [|lia].
  - destruct fuel as [|fuel]; [lia|]. cbn [divisions].
    destruct (Z.ltb_spec (e + 10 * Z.of_nat (S k)) (-42)); [lia|].
    replace (e + 10 * Z.of_nat (S k) - 10) with (e + 10 * Z.of_nat k) by lia.
    rewrite IH; [done|lia|done].
Qed.

Lemma divisions_above fuel e k : divisions fuel e = S k -> -52 <= e - 10 * Z.of_nat (S k).
Proof.
  revert e k. induction fuel as [|fuel IH]; intros e k; [done|]. cbn [divisions].
  destruct (Z.ltb_spec e (-42)); [done|]. intros [= Hk]. destruct k as [|k].
  - lia.
  - specialize (IH _ _ Hk). lia.
Qed.

(** What [format_size] prints under a unit is a float of the machine
    below [1024.0]. *)
Lemma shifted_valid x k :
  valid x -> power_of 5 x = k -> (k < 5)%nat ->
  valid (shifted k x)
  /\ match shifted k x with
     | S754_finite _ _ e => e < -42
     | S754_zero _ => True
     | _ => False
     end.
Proof.
  intros Hv Hk Hlt. destruct x as [s|s| |s m e]; cbn [power_of] in Hk; [done|lia..|].
  pose proof (divisions_below 5 e k Hk Hlt) as Hb. cbn [shifted]. split; [|done].
  destruct k as [|k]; [by rewrite Z.sub_0_r|].
  pose proof (divisions_above 5 e k Hk). pose proof Hv as (? & _ & _)%valid_finite.
  apply normal_valid; [|lia]. eapply valid_normal; [done|]. lia.
Qed.

(** The multipliers as floats: powers of two. *)
Lemma multiplier_float k :
  (1 <= k <= 4)%nat ->
  float_of_Z (1024 ^ Z.of_nat k) = S754_finite false 4503599627370496 (10 * Z.of_nat k - 52).
Proof. intros Hk. by destruct k as [|[|[|[|[|k]]]]]; [lia| | | | |lia]. Qed.

End Sizes2.

(** ** The summary *)

Section SummaryFacts.
Context {St : Type} `{!Console St}.

(** The [try] of the loop prints one line and returns the new total, or
    raises what [parse_size] raises and prints nothing. *)
Lemma freed_line_outputs before after total_freed :
  exists lines,
    outputs (freed_line (St := St) before after total_freed)
      (match parse_size (used before), parse_size (used after) with
       | Ok before_bytes, Ok after_bytes =>
           Ok (fadd total_freed (fsub before_bytes after_bytes))
       | Raise e, _ | Ok _, Raise e => Raise e
       end) lines.
Proof.
  unfold freed_line. destruct (parse_size (used before)) as [b|e].
  2: { exists []. apply outputs_bind_Raise, outputs_lift. }
  destruct (parse_size (used after)) as [a|e].
  2: { exists []. apply (outputs_bind_Ok _ _ b _ [] []); [apply outputs_lift|].
       apply outputs_bind_Raise, outputs_lift. }
  exists [if fgt (fsub b a) fzero
          then u "      🎊 Freed:     " ++ format_size (fsub b a)
          else if flt (fsub b a) fzero
               then u "      ⚠️  Increased: " ++ format_size (fabs (fsub b a))
               else u "      ➡️  No change"].
  apply (outputs_bind_Ok _ _ b _ [] [_]); [apply outputs_lift|].
  apply (outputs_bind_Ok _ _ a _ [] [_]); [apply outputs_lift|]. cbv zeta.
  apply (outputs_bind_Ok _ _ tt _ [_] []); [|apply prints_ret].
  destruct (fgt (fsub b a) fzero), (flt (fsub b a) fzero); apply prints_print.
Qed.

Lemma freed_of_cons after_list before rest :
  omap (freed_of after_list) (before :: rest)
  = match freed_of after_list before with
    | Some freed => freed :: omap (freed_of after_list) rest
    | None => omap (freed_of after_list) rest
    end.
Proof. done. Qed.

(** The loop never raises, and its total is the sum, in the order of the
    list, of what the partitions free. *)
Lemma summary_loop_prints after_list before_list total_freed :
  exists lines,
    prints (summary_loop (St := St) after_list before_list total_freed)
           (foldl fadd total_freed (omap (freed_of after_list) before_list)) lines.
Proof.
  revert total_freed. induction before_list as [|before rest IH]; intros total_freed.
  { exists []. apply prints_ret. }
  cbn [summary_loop]. rewrite freed_of_cons. unfold freed_of at 1.
  destruct (after_by_mount after_list (mountpoint before)) as [after|]; [|apply IH].
  cbn [mbind option_bind].
  destruct (freed_line_outputs before after total_freed) as [l1 H1].
  destruct (parse_size (used before)) as [b|e1]; [destruct (parse_size (used after)) as [a|e2]|].
  - destruct (IH (fadd total_freed (fsub b a))) as [l2 H2]. eexists. intros s.
    rewrite !print_then, bind_run. unfold try_except. rewrite H1, H2, !emit_emit. reflexivity.
  - destruct (IH total_freed) as [l2 H2]. eexists. intros s.
    rewrite !print_then, bind_run. unfold try_except. rewrite H1.
    cbn [mret stex_mret stex_ret]. rewrite H2, !emit_emit. reflexivity.
  - destruct (IH total_freed) as [l2 H2]. eexists. intros s.
    rewrite !print_then, bind_run. unfold try_except. rewrite H1.
    cbn [mret stex_mret stex_ret]. rewrite H2, !emit_emit. reflexivity.
Qed.

Lemma silent_print_partition_summary before_list after_list :
  silent (print_partition_summary (St := St) before_list after_list).
Proof.
  unfold print_partition_summary.
  destruct (summary_loop_prints after_list before_list fzero) as [l H].
  eapply (silent_prints_then _ _ _ _ H). auto 10 with console.
Qed.

Lemma silent_machine_summary m : silent (machine_summary (St := St) m).
Proof.
  unfold machine_summary.
  destruct (complete m); [apply silent_print_partition_summary|apply silent_print].
Qed.

Lemma silent_print_summary r : silent (print_summary (St := St) r).
Proof.
  unfold print_summary. pose proof silent_machine_summary.
  destruct (nested_machine r); auto 20 with console.
Qed.

End SummaryFacts.

(** ** The properties *)

(** C22: [format_size] divides without rounding error: for every float of
    the machine it prints the exact quotient of the float by the power of
    1024 of the unit, rounded once, to one decimal; and under every unit
    but the last the number it prints is at most 1024.0. *)
Theorem format_size_exact x :
  valid x ->
  format_size x = format_1f (shifted (power_of 5 x) x) ++ nth (power_of 5 x) units s_P
  /\ ((power_of 5 x < 5)%nat -> (tenths (shifted (power_of 5 x) x) <= 10240)%N).
Proof.
  intros Hv. split; [by apply format_size_loop_exact|]. intros Hk.
  destruct (shifted_valid x _ Hv eq_refl Hk) as [Hs He].
  destruct (shifted _ x) as [| | |s m e]; [done..|]. by apply tenths_below.
Qed.

(** The bound is reached: 1048535 bytes are shown as 1024.0K, not as
    1.0M. *)
Lemma format_size_exact_witness :
  format_size (float_of_Z 1048535)
  = format_1f (shifted (power_of 5 (float_of_Z 1048535)) (float_of_Z 1048535))
    ++ nth (power_of 5 (float_of_Z 1048535)) units s_P
  /\ ((power_of 5 (float_of_Z 1048535) < 5)%nat ->
      (tenths (shifted (power_of 5 (float_of_Z 1048535)) (float_of_Z 1048535)) <= 10240)%N).
Proof. apply (format_size_exact (float_of_Z 1048535)). reflexivity. Defined.

Example format_size_1024 :
  format_size (float_of_Z 1048535) = u "1024.0K"
  /\ format_size (float_of_Z 1048576) = u "1.0M".
Proof. by vm_compute. Qed.

(** C23: A size of one decimal from 1.0 to 1023.9 under one of the units K,
    M, G and T is read by [parse_size] and printed by [format_size] as it
    was written. *)
Theorem format_parse_roundtrip t item :
  item ∈ multipliers -> (10 <= t < 10240)%N ->
  format_size <$> parse_size (size_text t item.1) = Ok (size_text t item.1).
Proof.
  intros Hitem Ht. destruct (float_of_tenths t Ht) as (m & e & Hx & Hm & He & HT).
  destruct (number_text_plain t) as (c & Hh & Hc & Hs).
  unfold size_text. rewrite (parse_size_suffix item _ c) by done.
  unfold number_text at 1. rewrite float_of_str_decimal by (by apply N.mod_lt).
  replace (t / 10 * 10 + t mod 10) with t by (pose proof (N.div_mod t 10); lia).
  rewrite Hx. destruct item as [unit mult]. cbn [mbind result_bind fmap result_fmap fst snd].
  assert (exists k, (1 <= k <= 4)%nat /\ mult = (1024 ^ Z.of_nat k)%Z /\ nth k units s_P = unit)
    as (k & Hk & -> & Hunit).
  { apply list_elem_of_In in Hitem. cbn in Hitem.
    destruct Hitem as [[= <- <-]|[[= <- <-]|[[= <- <-]|[[= <- <-]|[]]]]];
      [exists 1%nat|exists 2%nat|exists 3%nat|exists 4%nat];
      (split; [lia|split; reflexivity]). }
  rewrite multiplier_float, fmul_pow2 by (done || lia).
  replace (e + (10 * Z.of_nat k - 52) + 52)%Z with (e + 10 * Z.of_nat k)%Z by lia.
  destruct (format_size_exact (S754_finite false m (e + 10 * Z.of_nat k))) as [-> _].
  { apply normal_valid; [done|lia]. }
  cbn [power_of]. rewrite divisions_shift by lia. cbn [shifted].
  replace (e + 10 * Z.of_nat k - 10 * Z.of_nat k)%Z with e by lia.
  unfold format_1f. cbn [is_negative]. by rewrite HT, Hunit.
Qed.

Lemma format_parse_roundtrip_witness :
  format_size <$> parse_size (size_text 43 (s_G, 1024 ^ 3)%Z.1)
  = Ok (size_text 43 (s_G, 1024 ^ 3)%Z.1).
Proof.
  apply (format_parse_roundtrip 43 (s_G, 1024 ^ 3)%Z); [|lia].
  apply list_elem_of_In. cbn. auto.
Defined.

(** [parse_size] knows neither the first nor the last unit of
    [format_size]: what is shown in B or in P is not read again. *)
Example parse_size_units :
  format_size (float_of_Z 512) = u "512.0B"
  /\ parse_size (u "512.0B") = Raise ValueError
  /\ format_size (float_of_Z (3 * 1024 ^ 5)) = u "3.0P"
  /\ parse_size (u "3.0P") = Raise ValueError
  /\ parse_size (u "4,3G") = Raise ValueError
  /\ parse_size (u " 1.5g ") = Ok (float_of_Z 1610612736).
Proof. by vm_compute. Qed.

(** C29: [print_partition_summary] never raises, whatever the texts of the
    sizes: it prints the lines of the partitions that both lists have,
    and then the total, which is the sum, in the order of the first list,
    of the differences of the sizes that [parse_size] could read; a size
    that cannot be read counts for nothing. *)
Theorem print_partition_summary_total {St : Type} `{!Console St} before_list after_list :
  exists lines,
    prints (print_partition_summary (St := St) before_list after_list) tt
           (lines ++ total_lines (foldl fadd fzero (omap (freed_of after_list) before_list))).
Proof.
  destruct (summary_loop_prints (St := St) after_list before_list fzero) as [lines H].
  exists lines. unfold print_partition_summary, total_lines.
  eapply prints_bind; [exact H|]. cbv beta.
  destruct (fne _ fzero); [|apply prints_ret]. cbn [when].
  apply (prints_bind _ _ tt tt [_] [_]); [apply prints_print|].
  destruct (fgt _ fzero); apply prints_print.
Qed.

(** A size that was not a number makes the total one: the summary then
    reports that the space increased, by [nanP]. *)
Example total_not_a_number :
  total_lines (fsub (S754_infinity false) (S754_infinity false))
  = [ []; u "   ⚠️  TOTAL SPACE INCREASED: nanP" ].
Proof. by vm_compute. Qed.

(** ** The script *)

Section Main.
Context (hostname username password : str) (verbose : bool).
Context (machine : remote) (connecting : connect_outcome).

(** The banner changes nothing but the console. *)
Lemma clean_main_run s :
  exists lines,
    clean_main hostname username password verbose machine connecting s
    = (r ← run_full_cleanup hostname password username verbose machine connecting;
       print_summary r;;
       mret (if success (main_machine r) then 0 else 1)%Z) (emit lines s).
Proof.
  unfold clean_main. destruct verbose; eexists; rewrite !print_then; cbn [when];
    rewrite bind_run; [rewrite print_then; unfold print at 1|]; cbn [mret stex_mret stex_ret];
    rewrite !emit_emit; reflexivity.
Qed.

(** After the run, the summary and the status. *)
Lemma print_summary_then (r : results) s :
  exists lines,
    (print_summary r;; mret (if success (main_machine r) then 0 else 1)%Z) s
    = (Ok (if success (main_machine r) then 0 else 1)%Z, emit lines s).
Proof.
  destruct (silent_print_summary (St := session) r) as [lines H]. exists lines.
  by rewrite bind_run, H.
Qed.

End Main.

(** C21: The status of the script.  Started without a connection, it ends
    without one.  When the connection is refused it sends nothing and its
    status is 1; when a command raises, the exception leaves the script
    and no summary is printed; otherwise the commands of [cleanup_plan]
    were sent, the summary is printed after them, and the status is 0. *)
Theorem clean_main_status hostname username password verbose machine connecting s :
  connected s = false ->
  let run := clean_main hostname username password verbose machine connecting s in
  connected run.2 = false
  /\ (connecting <> Connected -> run.1 = Ok 1%Z /\ executed run.2 = executed s)
  /\ (connecting = Connected ->
      match run.1 with
      | Ok status =>
          status = 0%Z
          /\ exists res cmds,
               executed run.2 = executed s ++ cmds
               /\ cleanup_plan password username verbose res cmds
      | Raise e => e = SSHException /\ may_raise machine
      end).
Proof.
  intros Hs run. subst run.
  destruct (clean_main_run hostname username password verbose machine connecting s)
    as [l0 ->].
  assert (connected (emit l0 s) = false) as Hs0 by done.
  assert (executed (emit l0 s) = executed s) as Hx0 by done.
  generalize dependent (emit l0 s). intros s0 Hs0 Hx0. rewrite bind_run.
  destruct (decide (connecting = Connected)) as [Hc|Hc].
  - destruct (run_full_cleanup_Connected hostname password username verbose machine
                connecting s0 Hc) as (s1 & Ho & Hx1 & ->).
    destruct (try_finally_disconnect hostname _ _ s1
                (cleanup_body_triple hostname password username verbose machine) Ho)
      as (cmds & HQ & He & Hd).
    destruct (try_finally _ _ _) as [[res|e] s2]; cbn [fst snd] in *.
    + destruct (print_summary_then res s2) as [l2 ->]. cbn [fst snd].
      split_and!; [done|done|]. intros _. pose proof HQ as (_ & _ & _ & _ & _ & _ & ->).
      split; [done|]. exists res, cmds. split; [|done]. cbn. by rewrite He, Hx1, Hx0.
    + by split_and!.
  - destruct (run_full_cleanup_refused hostname password username verbose machine
                connecting s0 Hc) as (s1 & Hd & Hx1 & ->).
    destruct (print_summary_then (results_init hostname) s1) as [l2 ->]. cbn [fst snd].
    split_and!; [by rewrite <- Hs0, <- Hd| |done]. intros _. split; [done|].
    cbn. by rewrite Hx1, Hx0.
Qed.

Lemma clean_main_status_witness :
  let run := clean_main s_host SSH_USERNAME s_drivenets false lab_cleaned Connected
               session_init in
  connected run.2 = false
  /\ (Connected <> Connected -> run.1 = Ok 1%Z /\ executed run.2 = executed session_init)
  /\ (Connected = Connected ->
      match run.1 with
      | Ok status =>
          status = 0%Z
          /\ exists res cmds,
               executed run.2 = executed session_init ++ cmds
               /\ cleanup_plan s_drivenets SSH_USERNAME false res cmds
      | Raise e => e = SSHException /\ may_raise lab_cleaned
      end).
Proof.
  exact (clean_main_status s_host SSH_USERNAME s_drivenets false lab_cleaned Connected
           session_init eq_refl).
Defined.

(** The summary of a run on the machine of the examples: the first
    partition went from 40G to 35.5G. *)
Example clean_main_lab_cleaned :
  let run := clean_main s_host SSH_USERNAME s_drivenets false lab_cleaned Connected
               session_init in
  run.1 = Ok 0%Z
  /\ Forall (fun line => line ∈ console run.2)
       [ u "      📥 Before:    40G used / 100G total (40%)";
         u "      📤 After:     35.5G used / 100G total (36%)";
         u "      🎊 Freed:     4.5G";
         u "      ➡️  No change";
         u "   🎉 TOTAL SPACE FREED: 4.5G" ].
Proof. vm_compute. split; [done|]. repeat constructor; apply (bool_decide_unpack _); by vm_compute. Qed.
