(* ===== verification/MachineCopy.v ===== *)
(** * MachineCopy: the class [MachineCopyFiles] of [src/machine_copy_files.py]

    The script copies a local folder, with all it holds, to a remote machine
    over SFTP.

    - The local file system is a tree [local] that the script only reads;
      the remote one is the field [remote_fs] of the state [copier], with
      the two counters of the object, the texts printed and the connection.
    - A path is the list of its components from the root: [a + "/" + b] and
      [os.path.join(a, b)] are [a ++ [b]], [os.path.dirname] takes the last
      component off, and ["/"] is the empty list.  [show_path] is the text
      of a path in the messages.
    - The calls of SFTP are [sftp_stat], [sftp_mkdir] and [sftp_put]: they
      need the session, and raise what the operations of [FileTree] refuse.
    - The recursion of [_copy_recursive] is bounded by [recursion_limit], the
      number of nested calls the interpreter allows; beyond it the call
      raises [RecursionError], which [run_copy] catches as it does the
      others.

    The theorems show: [_remote_mkdir_p] refines [mkdirs]; to a destination
    that is not there yet the copy writes the local tree, each directory in
    the order of its names, counts its files and directories, and leaves the
    rest of the remote tree as it was; [run_copy] never raises, and closes
    the session it opened; [copy_main], the [main] of the script, exits
    with 0 when [run_copy] returned [True] and with 1 otherwise. *)

From Stdlib Require Import Ascii String.
From stdpp Require Import base tactics option list numbers.
From S2P Require Import Prelude PyStr FileTree Console.

Local Open Scope N_scope.
Local Arguments u : simpl never.

(** ** Constants and literals of the source *)

Definition s_home : str := Eval vm_compute in u "home".
Definition s_dn : str := Eval vm_compute in u "dn".
Definition s_content : str := Eval vm_compute in u "yossi_moz_content".
Definition REMOTE_FOLDER : path := [s_home; s_dn; s_content].

Definition e_folder : str := [0x1F4C2].
Definition e_page : str := [0x1F4C4].
Definition e_pin : str := [0x1F4CD].
Definition e_rocket : str := [0x1F680].

(** [type(e).__name__]. *)
Definition exn_name (e : pyexn) : str :=
  match e with
  | AttributeError => u "AttributeError"
  | ValueError => u "ValueError"
  | IndexError => u "IndexError"
  | KeyError => u "KeyError"
  | TypeError => u "TypeError"
  | OSError => u "OSError"
  | IntegrityError => u "IntegrityError"
  | InterfaceError => u "InterfaceError"
  | OverflowError => u "OverflowError"
  | SSHException => u "SSHException"
  | FileNotFoundError => u "FileNotFoundError"
  | RecursionError => u "RecursionError"
  | EOFError => u "EOFError"
  end.

(** ** The object *)

(** What [client.connect] and [client.open_sftp] do, with the text of the
    exception. *)
Inductive sftp_outcome :=
  | SftpOpened
  | SftpAuthenticationException
  | SftpSSHException (e : str)
  | SftpException (e : str).

#[export] Instance sftp_outcome_eq_dec : EqDecision sftp_outcome.
Proof. solve_decision. Defined.

Record copier := {
  remote_fs : node;
  files_copied : N;
  dirs_created : N;
  printed : list str;
  ssh_client : bool;
  sftp : bool;
  channel_open : bool }.

Definition copier_init (remote : node) : copier :=
  {| remote_fs := remote; files_copied := 0; dirs_created := 0; printed := [];
     ssh_client := false; sftp := false; channel_open := false |}.

Definition copier_emit (lines : list str) (s : copier) : copier :=
  {| remote_fs := remote_fs s; files_copied := files_copied s;
     dirs_created := dirs_created s; printed := printed s ++ lines;
     ssh_client := ssh_client s; sftp := sftp s; channel_open := channel_open s |}.

#[export, refine] Instance copier_console : Console copier :=
  {| emit := copier_emit |}.
Proof.
  - intros []. unfold copier_emit. cbn. by rewrite app_nil_r.
  - intros l1 l2 s. unfold copier_emit. cbn. by rewrite app_assoc.
Defined.

Abbreviation copy := (stex copier).

Definition with_remote_fs (fs : node) (s : copier) : copier :=
  {| remote_fs := fs; files_copied := files_copied s; dirs_created := dirs_created s;
     printed := printed s; ssh_client := ssh_client s; sftp := sftp s;
     channel_open := channel_open s |}.

Definition add_files_copied (k : N) (s : copier) : copier :=
  {| remote_fs := remote_fs s; files_copied := files_copied s + k;
     dirs_created := dirs_created s; printed := printed s; ssh_client := ssh_client s;
     sftp := sftp s; channel_open := channel_open s |}.

Definition add_dirs_created (k : N) (s : copier) : copier :=
  {| remote_fs := remote_fs s; files_copied := files_copied s;
     dirs_created := dirs_created s + k; printed := printed s;
     ssh_client := ssh_client s; sftp := sftp s; channel_open := channel_open s |}.

Definition with_session (client session channel : bool) (s : copier) : copier :=
  {| remote_fs := remote_fs s; files_copied := files_copied s;
     dirs_created := dirs_created s; printed := printed s;
     ssh_client := client; sftp := session; channel_open := channel |}.

(** ** The calls of SFTP *)

(** A call on [self.sftp]: the attribute must be set and the channel
    open. *)
Definition sftp_call {A} (f : copier -> result A * copier) : copy A :=
  fun s =>
    if negb (sftp s) then (Raise AttributeError, s)
    else if negb (channel_open s) then (Raise OSError, s)
    else f s.

(** [self.sftp.stat(path)] under [try ... except FileNotFoundError]:
    whether the path is there. *)
Definition sftp_stat (p : path) : copy bool :=
  sftp_call (fun s => (Ok (bool_decide (is_Some (get (remote_fs s) p))), s)).

Definition sftp_mkdir (p : path) : copy unit :=
  sftp_call (fun s =>
    match mkdir p (remote_fs s) with
    | Ok fs => (Ok tt, with_remote_fs fs s)
    | Raise e => (Raise e, s)
    end).

(** ** The methods of [MachineCopyFiles] *)

Section MachineCopyFiles.
Context (hostname password username : str) (verbose : bool).
Context (local : node) (LOCAL_FOLDER : path) (connecting : sftp_outcome).
Context (exn_text : pyexn -> str) (recursion_limit : nat).

(** [self.sftp.put(local_path, remote_path)]: the local file is read and
    written there. *)
Definition sftp_put (local_path remote_path : path) : copy unit :=
  sftp_call (fun s =>
    match get local local_path with
    | Some (File content) =>
        match write remote_path content (remote_fs s) with
        | Ok fs => (Ok tt, with_remote_fs fs s)
        | Raise e => (Raise e, s)
        end
    | Some (Dir _) => (Raise OSError, s)
    | None => (Raise FileNotFoundError, s)
    end).

Definition copy_connect : copy bool :=
  log e_plug (u "Connecting to " ++ username ++ u "@" ++ hostname ++ u "...") 0;;
  log_verbose verbose (u "SSH Port: 2222") 1;;
  modify (fun s : copier => with_session true (sftp s) (channel_open s) s);;
  match connecting with
  | SftpOpened =>
      modify (with_session true true true);;
      log e_check (u "Connected to " ++ hostname) 1;;
      mret true
  | SftpAuthenticationException =>
      log e_cross (u "Authentication failed for " ++ hostname) 1;;
      mret false
  | SftpSSHException e =>
      log e_cross (u "SSH error: " ++ e) 1;;
      mret false
  | SftpException e =>
      log e_cross (u "Connection failed: " ++ e) 1;;
      mret false
  end.

Definition copy_disconnect : copy unit :=
  s ← gets (fun s : copier => s);
  when (sftp s) (modify (fun s : copier => with_session (ssh_client s) (sftp s) false s));;
  when (ssh_client s) (
    modify (fun s : copier => with_session (ssh_client s) (sftp s) false s);;
    log e_plug (u "Disconnected from " ++ hostname) 0).

(** The loop of [_remote_mkdir_p], on the components of the path from the
    last: the paths that are not there, the longest first. *)
Fixpoint dirs_to_create (reversed_path : list str) : copy (list path) :=
  match reversed_path with
  | [] => mret []
  | _ :: parent =>
      sftp_stat (rev reversed_path) ≫= fun found : bool =>
      if found then mret []
      else rest ← dirs_to_create parent; mret (rev reversed_path :: rest)
  end.

Definition _remote_mkdir_p (remote_path : path) : copy unit :=
  dirs ← match remote_path with
         | [] => sftp_stat [];; mret ([] : list path)
         | _ => dirs_to_create (rev remote_path)
         end;
  for_each (fun d =>
      log_verbose verbose (u "Creating remote directory: " ++ show_path d) 2;;
      sftp_mkdir d;;
      modify (add_dirs_created 1))
    (rev dirs).

(** What [_copy_recursive] does with a name that is not that of a
    directory. *)
Definition copy_file (local_entry remote_entry : path) : copy unit :=
  log_verbose verbose (u "Copying: " ++ show_path local_entry ++ u " -> "
                       ++ show_path remote_entry) 2;;
  sftp_put local_entry remote_entry;;
  modify (add_files_copied 1);;
  count ← gets files_copied;
  when (negb verbose && (count mod 50 =? 0))
       (log e_page (str_of_N count ++ u " files copied so far...") 2).

Fixpoint _copy_recursive (depth : nat) (local_path remote_path : path) : copy unit :=
  match depth with
  | O => raise RecursionError
  | S depth =>
      _remote_mkdir_p remote_path;;
      names ← lift (listdir (get local local_path));
      for_each (fun entry =>
          let local_entry := local_path ++ [entry] in
          let remote_entry := remote_path ++ [entry] in
          if is_dir (get local local_entry)
          then _copy_recursive depth local_entry remote_entry
          else copy_file local_entry remote_entry)
        (sort_by str_leb names)
  end.

(** The body of the [try] of [run_copy], and its handler. *)
Definition copy_body : copy bool :=
  log e_rocket (u "Starting copy...") 0;;
  _copy_recursive recursion_limit LOCAL_FOLDER REMOTE_FOLDER;;
  s ← gets (fun s : copier => s);
  log e_check (u "Copy completed: " ++ str_of_N (files_copied s) ++ u " files, "
               ++ str_of_N (dirs_created s) ++ u " directories created") 0;;
  mret true.

Definition copy_failed (e : pyexn) : copy bool :=
  log e_cross (u "Copy failed: " ++ exn_text e) 0;;
  log_verbose verbose (u "Exception type: " ++ exn_name e) 1;;
  mret false.

Definition run_copy : copy bool :=
  log_section (u "Copying files to " ++ hostname);;
  match get local LOCAL_FOLDER with
  | Some (Dir es) =>
      let local_file_count := count_files (Dir es) in
      log e_folder (u "Local folder: " ++ show_path LOCAL_FOLDER) 0;;
      log e_chart (u "Files to copy: " ++ str_of_N (N.of_nat local_file_count)) 0;;
      log e_pin (u "Remote destination: " ++ show_path REMOTE_FOLDER) 0;;
      print [];;
      ok ← copy_connect;
      if negb ok then mret false
      else try_finally (try_except copy_body copy_failed) copy_disconnect
  | _ =>
      log e_cross (u "Local folder not found: " ++ show_path LOCAL_FOLDER) 0;;
      mret false
  end.

(** [main], for the values of the command line; the value is the status
    given to [sys.exit]. *)
Definition copy_main : copy Z :=
  print [];;
  print (e_folder ++ repeat 0x3D 58);;
  print (u "   MACHINE COPY FILES TOOL");;
  print (u "   " ++ show_path LOCAL_FOLDER ++ u " -> " ++ show_path REMOTE_FOLDER);;
  print (repeat 0x3D 60);;
  when verbose (
    print (u "🔍 VERBOSE MODE ENABLED - Showing all technical details");;
    print []);;
  success ← run_copy;
  print [];;
  print (repeat 0x3D 60);;
  (if (success : bool)
   then print (u "✨ Copy complete! Have a great day! ✨")
   else print (u "❌ Copy failed. Check the errors above."));;
  print (repeat 0x3D 60);;
  print [];;
  mret (if (success : bool) then 0 else 1)%Z.

End MachineCopyFiles.

(** ** What a method changes *)

(** A state in which the calls of SFTP go through. *)
Definition ready (s : copier) : Prop := sftp s = true /\ channel_open s = true.

(** The state after a method that has left the remote tree as [fs], copied
    [files] files, created [dirs] directories and printed [lines]. *)
Definition advance (fs : node) (files dirs : N) (lines : list str) (s : copier) : copier :=
  {| remote_fs := fs; files_copied := files_copied s + files;
     dirs_created := dirs_created s + dirs; printed := printed s ++ lines;
     ssh_client := ssh_client s; sftp := sftp s; channel_open := channel_open s |}.

(** Two states are the same when their fields are, up to the laws of
    addition and concatenation. *)
Ltac same_state :=
  unfold advance, add_files_copied, add_dirs_created, with_remote_fs, with_session;
  cbn; unfold copier_emit; cbn;
  rewrite ?N.add_0_r, ?app_nil_r, <- ?N.add_assoc, <- ?app_assoc.

Lemma advance_advance fs1 f1 d1 l1 fs2 f2 d2 l2 s :
  advance fs2 f2 d2 l2 (advance fs1 f1 d1 l1 s) = advance fs2 (f1 + f2) (d1 + d2) (l1 ++ l2) s.
Proof. unfold advance. cbn. by rewrite !N.add_assoc, app_assoc. Qed.

Lemma advance_id s : advance (remote_fs s) 0 0 [] s = s.
Proof. destruct s. unfold advance. cbn. by rewrite !N.add_0_r, app_nil_r. Qed.

Lemma emit_advance lines s : emit lines s = advance (remote_fs s) 0 0 lines s.
Proof. unfold advance. cbn. unfold copier_emit. by rewrite !N.add_0_r. Qed.

Lemma ready_advance fs f d l s : ready s -> ready (advance fs f d l s).
Proof. done. Qed.

Lemma sftp_call_ready {A} (f : copier -> result A * copier) s :
  ready s -> sftp_call f s = f s.
Proof. intros [H1 H2]. unfold sftp_call. by rewrite H1, H2. Qed.

(** A printing method, then the rest. *)
Lemma silent_then {A} (m : copy unit) (k : unit -> copy A) s :
  silent m -> exists lines, (m ≫= k) s = k tt (advance (remote_fs s) 0 0 lines s).
Proof.
  intros [l Hm]. exists l. by rewrite bind_run, Hm, emit_advance.
Qed.

(** Step over the printing method that comes first in the goal. *)
Ltac skip_print :=
  match goal with
  | |- context [mbind ?k ?m ?s] =>
      let H := fresh in
      destruct (silent_then m k s) as [? H];
      [solve [auto 10 with console]|rewrite H; clear H; cbv beta]
  end.

Section Steps.
Context (verbose : bool) (local : node).

(** The loop of [_remote_mkdir_p] when only the last component is
    missing. *)
Lemma dirs_to_create_one c parent s :
  ready s ->
  get (remote_fs s) (rev (c :: parent)) = None ->
  is_Some (get (remote_fs s) (rev parent)) ->
  dirs_to_create (c :: parent) s = (Ok [rev (c :: parent)], s).
Proof.
  intros Hs Hc Hp. cbn [dirs_to_create]. rewrite bind_run. unfold sftp_stat at 1.
  rewrite sftp_call_ready, Hc by done.
  rewrite bool_decide_false by (by intros [? [=]]). rewrite bind_run.
  destruct parent as [|x rp]; cbn [dirs_to_create]; [done|].
  rewrite bind_run. unfold sftp_stat. rewrite sftp_call_ready by done.
  by rewrite bool_decide_true.
Qed.

(** [_remote_mkdir_p] of a name that is not there, in a directory that
    is. *)
Lemma remote_mkdir_p_child p c es s :
  ready s -> get (remote_fs s) p = Some (Dir es) -> alookup c es = None ->
  exists lines,
    _remote_mkdir_p verbose (p ++ [c]) s
    = (Ok tt, advance (graft p (Dir (es ++ [(c, Dir [])])) (remote_fs s)) 0 1 lines s).
Proof.
  intros Hs Hp Hc. unfold _remote_mkdir_p.
  assert (dirs_to_create (rev (p ++ [c])) s = (Ok [p ++ [c]], s)) as Hd.
  { rewrite rev_app_distr. cbn [rev app].
    rewrite dirs_to_create_one; cbn [rev]; rewrite ?rev_involutive; [done..| |].
    - by rewrite get_app, Hp; cbn; rewrite Hc.
    - by rewrite Hp. }
  destruct (p ++ [c]) as [|x q] eqn:E; [by destruct p|]. rewrite <- E in *. clear E x q.
  rewrite bind_run, Hd. cbn [rev app for_each].
  rewrite bind_run.
  destruct (silent_then
    (log_verbose verbose (u "Creating remote directory: " ++ show_path (p ++ [c])) 2)
    (fun _ => sftp_mkdir (p ++ [c]);; modify (add_dirs_created 1)) s) as [l ->];
    [auto with console|].
  rewrite bind_run. unfold sftp_mkdir. rewrite sftp_call_ready by done.
  cbn [remote_fs advance]. rewrite (mkdir_child p c es) by done.
  exists l. by same_state.
Qed.

(** [copy_file] of a name that is not there, in a directory that is. *)
Lemma copy_file_child lp p c es content s :
  ready s -> get (remote_fs s) p = Some (Dir es) -> alookup c es = None ->
  get local (lp ++ [c]) = Some (File content) ->
  exists lines,
    copy_file verbose local (lp ++ [c]) (p ++ [c]) s
    = (Ok tt, advance (graft p (Dir (es ++ [(c, File content)])) (remote_fs s)) 1 0 lines s).
Proof.
  intros Hs Hp Hc Hl. unfold copy_file.
  destruct (silent_then
    (log_verbose verbose (u "Copying: " ++ show_path (lp ++ [c]) ++ u " -> "
                          ++ show_path (p ++ [c])) 2)
    (fun _ => sftp_put local (lp ++ [c]) (p ++ [c]);; modify (add_files_copied 1);;
              count ← gets files_copied;
              when (negb verbose && (count mod 50 =? 0))
                   (log e_page (str_of_N count ++ u " files copied so far...") 2)) s)
    as [l ->]; [auto with console|].
  rewrite bind_run. unfold sftp_put. rewrite sftp_call_ready by done.
  rewrite Hl. cbn [remote_fs advance]. rewrite (write_child p c content es) by done.
  rewrite bind_run. cbn [modify]. rewrite bind_run. cbn [gets].
  set (s1 := add_files_copied 1 _).
  destruct (silent_when (negb verbose && (files_copied s1 mod 50 =? 0))
              (log e_page (str_of_N (files_copied s1) ++ u " files copied so far...") 2))
    as [l2 ->]; [auto with console|].
  exists (l ++ l2). subst s1. by same_state.
Qed.

End Steps.

(** ** The copy to a destination that is not there *)

(** The entries written for the entries [done] of a local directory, and
    what they count. *)
Definition copied (done : list (str * node)) : list (str * node) :=
  (fun e => (e.1, sorted_tree e.2)) <$> done.

Definition files_in (done : list (str * node)) : N :=
  N.of_nat (list_sum (map (fun e => count_files e.2) done)).

Definition dirs_in (done : list (str * node)) : N :=
  N.of_nat (list_sum (map (fun e => match e.2 with
                                    | Dir _ => S (count_dirs e.2)
                                    | File _ => 0%nat
                                    end) done)).

Lemma copied_snoc done x : copied (done ++ [x]) = copied done ++ [(x.1, sorted_tree x.2)].
Proof. unfold copied. by rewrite fmap_app. Qed.

Lemma copied_names done : (copied done).*1 = done.*1.
Proof. unfold copied. rewrite <- list_fmap_compose. by apply list_fmap_ext. Qed.

Lemma files_in_snoc done x :
  files_in (done ++ [x]) = files_in done + N.of_nat (count_files x.2).
Proof. unfold files_in. rewrite map_app, list_sum_app. cbn. lia. Qed.

Lemma dirs_in_snoc done x :
  dirs_in (done ++ [x])
  = dirs_in done + match x.2 with
                   | Dir _ => 1 + N.of_nat (count_dirs x.2)
                   | File _ => 0
                   end.
Proof. unfold dirs_in. rewrite map_app, list_sum_app. cbn. destruct x.2; lia. Qed.

Section Fresh.
Context (verbose : bool) (local : node).

(** The state of the loop of [_copy_recursive] over the entries of a local
    directory, after the entries [done]: they are in the new directory [c]
    of [p], in this order. *)
Definition copying (p : path) (c : str) (res : list (str * node)) (s : copier)
    (done : list (str * node)) (s' : copier) : Prop :=
  exists lines,
    s' = advance (graft p (Dir (res ++ [(c, Dir (copied done))])) (remote_fs s))
                 (files_in done) (1 + dirs_in done) lines s.

(** One entry more: what the body of the loop has to leave. *)
Lemma copying_step p c res s done x s1 s2 lines :
  is_Some (get (remote_fs s) p) -> alookup c res = None ->
  copying p c res s done s1 ->
  s2 = advance (graft (p ++ [c]) (Dir (copied done ++ [(x.1, sorted_tree x.2)]))
                      (remote_fs s1))
               (N.of_nat (count_files x.2))
               (match x.2 with Dir _ => 1 + N.of_nat (count_dirs x.2) | File _ => 0 end)
               lines s1 ->
  copying p c res s (done ++ [x]) s2.
Proof.
  intros Hp Hc [l1 ->] ->. exists (l1 ++ lines).
  rewrite advance_advance. cbn [remote_fs advance].
  rewrite graft_child, copied_snoc, files_in_snoc, dirs_in_snoc by done.
  f_equal. lia.
Qed.

(** The new directory, as the loop finds it. *)
Lemma copying_get p c res s done s1 :
  is_Some (get (remote_fs s) p) -> alookup c res = None ->
  copying p c res s done s1 ->
  ready s -> ready s1 /\ get (remote_fs s1) (p ++ [c]) = Some (Dir (copied done)).
Proof.
  intros Hp Hc [l1 ->] Hs. split; [done|]. cbn [remote_fs advance].
  rewrite get_app, get_graft by done. cbn. by rewrite alookup_app_new.
Qed.

(** What the listing of a local directory knows of an entry. *)
Lemma listed_entry es lp done x rest :
  get local lp = Some (Dir es) -> wf_tree (Dir es) ->
  sort_by name_leb es = done ++ x :: rest ->
  get local (lp ++ [x.1]) = Some x.2 /\ wf_tree x.2
  /\ (height x.2 < height (Dir es))%nat /\ alookup x.1 (copied done) = None.
Proof.
  intros Hl [Hnd Hwf]%wf_tree_Dir Hsort.
  assert (x ∈ es) as Hx.
  { apply (sort_by_elem name_leb). rewrite Hsort. apply elem_of_app. right. left. }
  split; [|split; [by apply Hwf|split; [by apply height_child|]]].
  - destruct x as [name child]. rewrite get_app, Hl. cbn.
    by rewrite (alookup_NoDup name child es).
  - apply alookup_None. rewrite copied_names.
    assert (NoDup (done ++ x :: rest).*1) as Hnd'.
    { by rewrite <- Hsort, sort_by_Permutation. }
    rewrite fmap_app, fmap_cons in Hnd'. apply list.NoDup_app in Hnd' as (_ & Hd & _).
    intros Hin. apply (Hd _ Hin). left.
Qed.

(** [_copy_recursive] to a name [c] that is not in the remote directory
    [p]: the local directory is there afterwards, each directory in the
    order of its names; the counters have grown by its files and by its
    directories, itself included. *)
Lemma copy_recursive_fresh depth : forall es lp p c res s,
  get local lp = Some (Dir es) -> wf_tree (Dir es) ->
  (height (Dir es) <= depth)%nat -> ready s ->
  get (remote_fs s) p = Some (Dir res) -> alookup c res = None ->
  exists lines,
    _copy_recursive verbose local depth lp (p ++ [c]) s
    = (Ok tt, advance (graft p (Dir (res ++ [(c, sorted_tree (Dir es))])) (remote_fs s))
                      (N.of_nat (count_files (Dir es)))
                      (1 + N.of_nat (count_dirs (Dir es))) lines s).
Proof.
  induction depth as [|depth IH]; intros es lp p c res s Hl Hwf Hh Hs Hp Hc.
  { cbn [height] in Hh. lia. }
  cbn [_copy_recursive]. rewrite bind_run.
  destruct (remote_mkdir_p_child verbose p c res s Hs Hp Hc) as [l1 ->].
  rewrite bind_run. unfold lift. rewrite Hl. cbn [listdir].
  rewrite sort_names, for_each_fmap.
  assert (is_Some (get (remote_fs s) p)) as Hp' by (by rewrite Hp).
  edestruct (for_each_inv (copying p c res s)) as (s2 & -> & [l2 ->]).
  - exists l1. by same_state.
  - intros done x rest s1 Hsort Hd.
    destruct (listed_entry es lp done x rest Hl Hwf Hsort) as (Hx & Hwx & Hhx & Hnew).
    destruct (copying_get p c res s done s1 Hp' Hc Hd Hs) as [Hs1 Hg].
    rewrite Hx. destruct x as [name [content|es']]; cbn [fst snd is_dir] in *.
    + destruct (copy_file_child verbose local lp (p ++ [c]) name (copied done) content s1)
        as [l ->]; [done..|].
      eexists. split; [done|]. by eapply (copying_step p c res s done (name, File content)).
    + destruct (IH es' (lp ++ [name]) (p ++ [c]) name (copied done) s1) as [l ->];
        [done|done|lia|done..|].
      eexists. split; [done|]. by eapply (copying_step p c res s done (name, Dir es')).
  - exists l2. rewrite sorted_tree_Dir. unfold files_in, dirs_in.
    by rewrite count_files_sorted, count_dirs_sorted.
Qed.

End Fresh.

(** ** The session *)

(** The methods between [connect] and [disconnect] leave the client as it
    is. *)
Ltac keeps :=
  repeat first
    [ progress intros
    | apply preserves_silent; [done|solve [auto 10 with console]]
    | apply preserves_bind
    | apply preserves_for_each
    | apply preserves_when
    | apply preserves_try_except
    | done
    | match goal with
      | |- preserves _ (if ?b then _ else _) => destruct b
      | |- preserves _ (match ?x with _ => _ end) => destruct x
      end ].

Section Session.
Context (hostname password username : str) (verbose : bool).
Context (local : node) (LOCAL_FOLDER : path) (connecting : sftp_outcome).
Context (exn_text : pyexn -> str) (recursion_limit : nat).

Lemma preserves_sftp_call {A} (f : copier -> result A * copier) :
  (forall s, ssh_client (f s).2 = ssh_client s) -> preserves ssh_client (sftp_call f).
Proof. intros Hf s. unfold sftp_call. destruct (negb _); [done|]. by destruct (negb _). Qed.

Lemma preserves_sftp_stat p : preserves ssh_client (sftp_stat p).
Proof. by apply preserves_sftp_call. Qed.

Lemma preserves_sftp_mkdir p : preserves ssh_client (sftp_mkdir p).
Proof. apply preserves_sftp_call. intros s. by destruct (mkdir _ _). Qed.

Lemma preserves_sftp_put lp rp : preserves ssh_client (sftp_put local lp rp).
Proof.
  apply preserves_sftp_call. intros s. destruct (get _ _) as [[]|]; [|done..].
  by destruct (write _ _ _).
Qed.

Lemma preserves_dirs_to_create rp : preserves ssh_client (dirs_to_create rp).
Proof.
  induction rp as [|c rp IH]; cbn [dirs_to_create]; [done|].
  apply preserves_bind; [apply preserves_sftp_stat|]. intros []; keeps.
Qed.

Lemma preserves_remote_mkdir_p p : preserves ssh_client (_remote_mkdir_p verbose p).
Proof.
  unfold _remote_mkdir_p. apply preserves_bind.
  - destruct p; [|apply preserves_dirs_to_create].
    apply preserves_bind; [apply preserves_sftp_stat|done].
  - intros dirs. apply preserves_for_each. intros d.
    apply preserves_bind; [keeps|]. intros _.
    apply preserves_bind; [apply preserves_sftp_mkdir|done].
Qed.

Lemma preserves_copy_file lp rp : preserves ssh_client (copy_file verbose local lp rp).
Proof.
  unfold copy_file. apply preserves_bind; [keeps|]. intros _.
  apply preserves_bind; [apply preserves_sftp_put|]. keeps.
Qed.

Lemma preserves_copy_recursive depth lp rp :
  preserves ssh_client (_copy_recursive verbose local depth lp rp).
Proof.
  revert lp rp. induction depth as [|depth IH]; intros lp rp; cbn [_copy_recursive]; [done|].
  apply preserves_bind; [apply preserves_remote_mkdir_p|]. intros _.
  apply preserves_bind; [done|]. intros names. apply preserves_for_each. intros entry.
  destruct (is_dir _); [apply IH|apply preserves_copy_file].
Qed.

Lemma preserves_copy_attempt :
  preserves ssh_client
    (try_except (copy_body verbose local LOCAL_FOLDER recursion_limit)
                (copy_failed verbose exn_text)).
Proof.
  apply preserves_try_except; [|intros e; unfold copy_failed; keeps].
  unfold copy_body. apply preserves_bind; [keeps|]. intros _.
  apply preserves_bind; [apply preserves_copy_recursive|]. keeps.
Qed.

(** The attempt returns, whatever the copy does. *)
Lemma copy_attempt_returns s :
  exists b,
    (try_except (copy_body verbose local LOCAL_FOLDER recursion_limit)
                (copy_failed verbose exn_text) s).1 = Ok b.
Proof.
  unfold try_except. destruct (copy_body _ _ _ _ s) as [[b|e] s1] eqn:E.
  - assert (b = true) as ->; [|by exists true].
    revert E. unfold copy_body. rewrite bind_run.
    destruct (log _ _ _ s) as [[[]|] ?]; [|done]. rewrite bind_run.
    destruct (_copy_recursive _ _ _ _ _ _) as [[[]|] ?]; [|done].
    rewrite bind_run. cbn [gets]. rewrite bind_run.
    by destruct (log _ _ _ _) as [[[]|] ?]; intros [= <-].
  - exists false. unfold copy_failed.
    destruct (silent_then (log e_cross (u "Copy failed: " ++ exn_text e) 0)
                (fun _ => log_verbose verbose (u "Exception type: " ++ exn_name e) 1;;
                          mret false) s1) as [l ->]; [auto with console|].
    by destruct (silent_then (log_verbose verbose (u "Exception type: " ++ exn_name e) 1)
                   (fun _ => mret false) (advance (remote_fs s1) 0 0 l s1)) as [l' ->];
      [auto with console|].
Qed.

(** [disconnect] returns; it closes the channel of a client. *)
Lemma copy_disconnect_closes s :
  (copy_disconnect hostname s).1 = Ok tt
  /\ remote_fs (copy_disconnect hostname s).2 = remote_fs s
  /\ files_copied (copy_disconnect hostname s).2 = files_copied s
  /\ dirs_created (copy_disconnect hostname s).2 = dirs_created s
  /\ (ssh_client s = true -> channel_open (copy_disconnect hostname s).2 = false)
  /\ (channel_open s = false -> channel_open (copy_disconnect hostname s).2 = false).
Proof.
  destruct s as [fs fc dc pr client session channel].
  by destruct client, session, channel; repeat split; try reflexivity; intros [=].
Qed.

Lemma copy_connect_opened s :
  connecting = SftpOpened ->
  (copy_connect hostname username verbose connecting s).1 = Ok true
  /\ ready (copy_connect hostname username verbose connecting s).2
  /\ ssh_client (copy_connect hostname username verbose connecting s).2 = true
  /\ remote_fs (copy_connect hostname username verbose connecting s).2 = remote_fs s
  /\ files_copied (copy_connect hostname username verbose connecting s).2 = files_copied s
  /\ dirs_created (copy_connect hostname username verbose connecting s).2 = dirs_created s.
Proof. intros ->. by destruct verbose. Qed.

Lemma copy_connect_refused s :
  connecting <> SftpOpened ->
  (copy_connect hostname username verbose connecting s).1 = Ok false
  /\ channel_open (copy_connect hostname username verbose connecting s).2 = channel_open s
  /\ remote_fs (copy_connect hostname username verbose connecting s).2 = remote_fs s.
Proof. intros H. by destruct connecting, verbose. Qed.

(** The run as the source composes it. *)
Lemma run_copy_no_folder s :
  match get local LOCAL_FOLDER with Some (Dir _) => False | _ => True end ->
  exists lines,
    run_copy hostname username verbose local LOCAL_FOLDER connecting exn_text
             recursion_limit s
    = (Ok false, advance (remote_fs s) 0 0 lines s).
Proof.
  intros Hl. unfold run_copy. skip_print.
  destruct (get local LOCAL_FOLDER) as [[|es]|]; [|done|]; skip_print;
    eexists; by rewrite advance_advance.
Qed.

Lemma run_copy_connects es s :
  get local LOCAL_FOLDER = Some (Dir es) ->
  exists lines,
    run_copy hostname username verbose local LOCAL_FOLDER connecting exn_text
             recursion_limit s
    = (ok ← copy_connect hostname username verbose connecting;
       if negb ok then mret false
       else try_finally
              (try_except (copy_body verbose local LOCAL_FOLDER recursion_limit)
                          (copy_failed verbose exn_text))
              (copy_disconnect hostname))
        (advance (remote_fs s) 0 0 lines s).
Proof.
  intros Hl. unfold run_copy. skip_print. rewrite Hl. do 4 skip_print.
  eexists. by rewrite !advance_advance.
Qed.

End Session.

(** ** The script *)

Section Script.
Context (hostname password username : str) (verbose : bool).
Context (local : node) (LOCAL_FOLDER : path) (connecting : sftp_outcome).
Context (exn_text : pyexn -> str) (recursion_limit : nat).

(** [run_copy] never raises: whatever the local folder, the answer to
    the connection and the remote tree are, it returns a boolean, and the
    channel it may have opened is closed. *)
Lemma run_copy_total s :
  channel_open s = false ->
  exists b final,
    run_copy hostname username verbose local LOCAL_FOLDER connecting exn_text
             recursion_limit s = (Ok b, final)
    /\ channel_open final = false.
Proof.
  intros Hs. destruct (get local LOCAL_FOLDER) as [[content|es]|] eqn:Hl.
  1,3: edestruct run_copy_no_folder as [l ->]; [by rewrite Hl|by eexists _, _].
  edestruct run_copy_connects as [l ->]; [done|]. rewrite bind_run.
  set (s0 := advance _ _ _ _ s).
  destruct (decide (connecting = SftpOpened)) as [Hc|Hc].
  - destruct (copy_connect_opened hostname username verbose connecting s0 Hc)
      as (E & _ & Hcl & _).
    destruct (copy_connect _ _ _ _ s0) as [r s1]. cbn [fst snd] in E, Hcl. subst r.
    cbn [negb]. unfold try_finally.
    destruct (copy_attempt_returns verbose local LOCAL_FOLDER exn_text recursion_limit s1)
      as [b Hb].
    pose proof (preserves_copy_attempt verbose local LOCAL_FOLDER exn_text
                  recursion_limit s1) as Hp.
    destruct (try_except _ _ s1) as [r2 s2]. cbn [fst snd] in Hb, Hp. subst r2.
    destruct (copy_disconnect_closes hostname s2) as (Hd & _ & _ & _ & Hclose & _).
    destruct (copy_disconnect hostname s2) as [rd s3]. cbn [fst snd] in Hd, Hclose.
    subst rd. exists b, s3. split; [done|]. apply Hclose. by rewrite Hp.
  - destruct (copy_connect_refused hostname username verbose connecting s0 Hc)
      as (E & Hch & _).
    destruct (copy_connect _ _ _ _ s0) as [r s1]. cbn [fst snd] in E, Hch. subst r.
    exists false, s1. split; [done|]. by rewrite Hch.
Qed.

(** The banner of [main], then the run. *)
Lemma copy_main_run s :
  exists lines,
    copy_main hostname username verbose local LOCAL_FOLDER connecting exn_text
              recursion_limit s
    = (success ← run_copy hostname username verbose local LOCAL_FOLDER connecting exn_text
                          recursion_limit;
       print [];;
       print (repeat 0x3D 60);;
       (if (success : bool)
        then print (u "✨ Copy complete! Have a great day! ✨")
        else print (u "❌ Copy failed. Check the errors above."));;
       print (repeat 0x3D 60);;
       print [];;
       mret (if (success : bool) then 0 else 1)%Z) (emit lines s).
Proof.
  unfold copy_main. destruct verbose; eexists; rewrite !print_then; cbn [when];
    rewrite bind_run; [rewrite print_then; unfold print at 1|]; cbn [mret stex_mret stex_ret];
    rewrite !emit_emit; reflexivity.
Qed.

End Script.


(** ** A machine to copy to *)

Definition work_entries : list (str * node) :=
  Eval vm_compute in
  [ (u "run.sh", File (u "#!/bin/sh"));
    (u "conf", Dir [ (u "b.yaml", File (u "b: 2")); (u "a.yaml", File (u "a: 1")) ]);
    (u "README", File (u "read me")) ].

Definition s_work : str := Eval vm_compute in u "work".

(** A local file system with the folder [work]. *)
Definition folder : node := Dir [(s_work, Dir work_entries)].

(** A remote machine with the home of [dn], empty. *)
Definition remote_home : node := Dir [(s_home, Dir [(s_dn, Dir [])])].

(** A remote machine where [/home] is a file. *)
Definition remote_broken : node := Dir [(s_home, File [])].

Definition no_text : pyexn -> str := fun _ => [].

(** ** Properties *)

Section Properties.
Context (hostname password username : str) (verbose : bool).
Context (local : node) (LOCAL_FOLDER : path) (connecting : sftp_outcome).
Context (exn_text : pyexn -> str) (recursion_limit : nat).

(** C16: to a destination that is not there, in a directory that is, the
    copy of a well-formed local folder succeeds: the destination holds the
    local tree, each directory in the order of its names, and nothing else
    of the remote tree has changed; the counters have grown by the files of
    the tree and by its directories; the channel is closed. *)
Theorem run_copy_fresh es res s :
  get local LOCAL_FOLDER = Some (Dir es) -> wf_tree (Dir es) ->
  (height (Dir es) <= recursion_limit)%nat ->
  connecting = SftpOpened ->
  get (remote_fs s) [s_home; s_dn] = Some (Dir res) -> alookup s_content res = None ->
  exists final,
    run_copy hostname username verbose local LOCAL_FOLDER connecting exn_text
             recursion_limit s = (Ok true, final)
    /\ remote_fs final
       = graft [s_home; s_dn] (Dir (res ++ [(s_content, sorted_tree (Dir es))])) (remote_fs s)
    /\ files_copied final = files_copied s + N.of_nat (count_files (Dir es))
    /\ dirs_created final = dirs_created s + (1 + N.of_nat (count_dirs (Dir es)))
    /\ channel_open final = false.
Proof.
  intros Hl Hwf Hh Hc Hp Hnew.
  edestruct run_copy_connects as [l ->]; [done|]. rewrite bind_run.
  set (s0 := advance _ _ _ _ s).
  destruct (copy_connect_opened hostname username verbose connecting s0 Hc)
    as (E & Hr & Hcl & Hfs & Hfc & Hdc).
  destruct (copy_connect _ _ _ _ s0) as [r s1]. cbn [fst snd] in *. subst r.
  cbn [negb]. unfold try_finally, try_except, copy_body. skip_print.
  rewrite bind_run.
  change REMOTE_FOLDER with ([s_home; s_dn] ++ [s_content]).
  match goal with
  | |- context [_copy_recursive _ _ _ _ _ ?st] =>
      destruct (copy_recursive_fresh verbose local recursion_limit es LOCAL_FOLDER
                  [s_home; s_dn] s_content res st) as [l2 ->]
  end; [done..|by cbn [remote_fs advance]; rewrite Hfs|done|].
  rewrite bind_run. cbn [gets]. skip_print. cbn [mret stex_mret stex_ret].
  rewrite !advance_advance. set (s2 := advance _ _ _ _ s1).
  destruct (copy_disconnect_closes hostname s2) as (Hd & Hfs' & Hfc' & Hdc' & Hclose & _).
  destruct (copy_disconnect hostname s2) as [rd s3]. cbn [fst snd] in *. subst rd.
  exists s3. rewrite Hfs', Hfc', Hdc', Hclose by done. subst s2 s0. cbn in *.
  rewrite Hfs, Hfc, Hdc. repeat split; lia.
Qed.

End Properties.

(** C24: The status of the script.  [main] never raises: [run_copy] returns
    a boolean from the state the banner leaves, the closing lines are
    printed after it, the status is 0 when it returned [True] and 1 when
    it returned [False], and the channel is closed at the end. *)
Theorem copy_main_status hostname username verbose local LOCAL_FOLDER connecting exn_text
    recursion_limit remote :
  exists success before after final,
    run_copy hostname username verbose local LOCAL_FOLDER connecting exn_text
             recursion_limit (emit before (copier_init remote)) = (Ok success, final)
    /\ copy_main hostname username verbose local LOCAL_FOLDER connecting exn_text
                 recursion_limit (copier_init remote)
       = (Ok (if success then 0 else 1)%Z, emit after final)
    /\ channel_open final = false.
Proof.
  destruct (copy_main_run hostname username verbose local LOCAL_FOLDER connecting exn_text
              recursion_limit (copier_init remote)) as [before ->].
  assert (channel_open (emit before (copier_init remote)) = false) as Hc by done.
  destruct (run_copy_total hostname username verbose local LOCAL_FOLDER connecting exn_text
              recursion_limit (emit before (copier_init remote)) Hc)
    as (success & final & Hrun & Hclosed).
  exists success, before. rewrite bind_run, Hrun.
  destruct success; eexists _, final; rewrite !print_then, !emit_emit; done.
Qed.

Lemma work_entries_wf : wf_tree (Dir work_entries).
Proof.
  cbn [wf_tree work_entries foldr snd].
  repeat split; try done; apply (bool_decide_unpack _); by vm_compute.
Qed.

Lemma run_copy_fresh_witness :
  exists final,
    run_copy s_dn s_dn false folder [s_work] SftpOpened no_text 8 (copier_init remote_home)
    = (Ok true, final)
    /\ remote_fs final
       = graft [s_home; s_dn] (Dir ([] ++ [(s_content, sorted_tree (Dir work_entries))]))
               (remote_fs (copier_init remote_home))
    /\ files_copied final
       = files_copied (copier_init remote_home) + N.of_nat (count_files (Dir work_entries))
    /\ dirs_created final
       = dirs_created (copier_init remote_home)
         + (1 + N.of_nat (count_dirs (Dir work_entries)))
    /\ channel_open final = false.
Proof.
  apply (run_copy_fresh s_dn s_dn false folder [s_work] SftpOpened no_text 8 work_entries []
           (copier_init remote_home));
    [reflexivity|apply work_entries_wf|vm_compute; lia|reflexivity..].
Defined.

(** ** The methods at work *)

(** The copy of [folder]: four files and two directories, the directory
    [conf] in the order of its names. *)
Example copy_of_folder :
  let final := (run_copy s_dn s_dn false folder [s_work] SftpOpened no_text 8
                  (copier_init remote_home)).2 in
  get (remote_fs final) (REMOTE_FOLDER ++ [u "conf"])
  = Some (Dir [(u "a.yaml", File (u "a: 1")); (u "b.yaml", File (u "b: 2"))])
  /\ files_copied final = 4 /\ dirs_created final = 2.
Proof. by vm_compute. Qed.

(** When [/home] is a file the first [mkdir] is refused: the run returns
    [False], nothing is copied, and the channel is closed. *)
Example copy_to_broken :
  let out := run_copy s_dn s_dn false folder [s_work] SftpOpened no_text 8
               (copier_init remote_broken) in
  out.1 = Ok false /\ remote_fs out.2 = remote_broken /\ files_copied out.2 = 0
  /\ channel_open out.2 = false.
Proof. by vm_compute. Qed.

(** A local tree deeper than the interpreter allows: the copy stops with
    [RecursionError], which is reported as a failed copy; what was copied
    before stays. *)
Example copy_too_deep :
  let out := run_copy s_dn s_dn false folder [s_work] SftpOpened no_text 1
               (copier_init remote_home) in
  out.1 = Ok false /\ files_copied out.2 = 1
  /\ is_dir (get (remote_fs out.2) REMOTE_FOLDER) = true.
Proof. by vm_compute. Qed.

(** The script on the machine of the examples: status 0 and the last
    lines; status 1 when [/home] is a file, and when the connection is
    refused, in which case the remote tree is as it was. *)
Example copy_main_examples :
  let ok := copy_main s_dn s_dn false folder [s_work] SftpOpened no_text 8
              (copier_init remote_home) in
  let broken := copy_main s_dn s_dn false folder [s_work] SftpOpened no_text 8
                  (copier_init remote_broken) in
  ok.1 = Ok 0%Z /\ files_copied ok.2 = 4
  /\ list.last (filter (fun line => line <> [] /\ line <> repeat 0x3D 60) (printed ok.2))
     = Some (u "✨ Copy complete! Have a great day! ✨")
  /\ broken.1 = Ok 1%Z /\ remote_fs broken.2 = remote_broken
  /\ list.last (filter (fun line => line <> [] /\ line <> repeat 0x3D 60) (printed broken.2))
     = Some (u "❌ Copy failed. Check the errors above.").
Proof. by vm_compute. Qed.
