(* ===== verification/WboxTest.v ===== *)
(** * WboxTest: the command generator of [src/wbox_test.py]

    The script asks seven questions on the terminal, builds a shell command
    from the answers, prints it and runs it when asked to.

    - A [terminal] holds the lines the user will type, what was printed and
      the commands that were run.  [input] prints its prompt and takes the
      next line; at the end of the input it raises [EOFError].
    - The three prompts are loops that go on until an answer is understood:
      [while_true] runs the body as long as it returns [None].  Each turn
      takes a line, so the number of lines left bounds the number of turns.
    - [build_command] is the function of the source; [main] is the script,
      and returns the status [sys.exit] is called with, if it is.

    The theorems show: what each prompt returns on the lines it is given,
    that it asks again for as long as it does not understand, and that it
    ends, with an answer or with the end of the input; that the
    help of every question exists; that the generated command tells the
    answers apart; what [main] prints and runs. *)

From Stdlib Require Import Ascii String.
From stdpp Require Import base tactics option list numbers.
From S2P Require Import Prelude PyStr Subprocess FileTree Console.

Local Open Scope N_scope.

(** ** Literals of the source *)

(** The help texts of [PARAMETER_HELP]. *)
Definition help_cheetah_handler : str := Eval vm_compute in u "
╔══════════════════════════════════════════════════════════════════════════════╗
║  CHEETAH HANDLER                                                             ║
╠══════════════════════════════════════════════════════════════════════════════╣
║  Controls whether to use a remote cheetah handler for the test.              ║
║                                                                              ║
║  When ENABLED (yes):                                                         ║
║    - Adds CHEETAH_HANDLER=remote to the make command                         ║
║    - The test will use a remote cheetah handler instead of local processing  ║
║    - Useful for distributed testing or when testing remote handler behavior  ║
║                                                                              ║
║  When DISABLED (no):                                                         ║
║    - The parameter is excluded entirely from the command                     ║
║    - The test uses the default handler configuration                         ║
║                                                                              ║
║  Options: yes / no                                                           ║
║  Default: no (parameter excluded)                                            ║
╚══════════════════════════════════════════════════════════════════════════════╝
".

Definition help_test_name : str := Eval vm_compute in u "
╔══════════════════════════════════════════════════════════════════════════════╗
║  TEST NAME                                                                   ║
╠══════════════════════════════════════════════════════════════════════════════╣
║  The name of the wbox test to run.                                           ║
║                                                                              ║
║  This value is appended to 'test_wbox.' in the make command.                 ║
║                                                                              ║
║  Examples:                                                                   ║
║    - test_control_traffic     → make test_wbox.test_control_traffic          ║
║    - test_data_plane          → make test_wbox.test_data_plane               ║
║    - test_config_sync         → make test_wbox.test_config_sync              ║
║                                                                              ║
║  You can also specify a specific test method:                                ║
║    - TestClass.test_method    → make test_wbox.TestClass.test_method         ║
║                                                                              ║
║  This field is REQUIRED.                                                     ║
╚══════════════════════════════════════════════════════════════════════════════╝
".

Definition help_run_command : str := Eval vm_compute in u "
╔══════════════════════════════════════════════════════════════════════════════╗
║  RUN COMMAND                                                                 ║
╠══════════════════════════════════════════════════════════════════════════════╣
║  Controls whether to execute the generated command or just display it.       ║
║                                                                              ║
║  When YES:                                                                   ║
║    - The generated command will be executed immediately via bash             ║
║    - Output will be shown in real-time                                       ║
║    - The script will exit with the command's return code                     ║
║                                                                              ║
║  When NO:                                                                    ║
║    - The command is only displayed (not executed)                            ║
║    - You can copy and paste it to run manually                               ║
║    - Useful for reviewing or modifying the command before running            ║
║                                                                              ║
║  Options: yes / no                                                           ║
║  Default: no (just show the command)                                         ║
╚══════════════════════════════════════════════════════════════════════════════╝
".

Definition help_break_on_fail : str := Eval vm_compute in u "
╔══════════════════════════════════════════════════════════════════════════════╗
║  BREAK ON FAIL (BP_ON_FAIL)                                                  ║
╠══════════════════════════════════════════════════════════════════════════════╣
║  Controls whether the test should stop and enter debugger on failure.        ║
║                                                                              ║
║  When YES:                                                                   ║
║    - Adds BP_ON_FAIL=1 to the make command                                   ║
║    - Test execution stops at the first failure                               ║
║    - Enters an interactive debugger (pdb) for investigation                  ║
║    - Useful for debugging failing tests                                      ║
║                                                                              ║
║  When NO:                                                                    ║
║    - Adds BP_ON_FAIL=0 to the make command                                   ║
║    - Test continues running even after failures                              ║
║    - All test results are collected before exiting                           ║
║                                                                              ║
║  When EXCLUDE:                                                               ║
║    - Parameter is not added to the command                                   ║
║    - Uses the default behavior defined in the test framework                 ║
║                                                                              ║
║  Options: yes / no / exclude                                                 ║
║  Default: exclude (use framework default)                                    ║
╚══════════════════════════════════════════════════════════════════════════════╝
".

Definition help_generate_config : str := Eval vm_compute in u "
╔══════════════════════════════════════════════════════════════════════════════╗
║  GENERATE CONFIG (GENERATE_CONFIG)                                           ║
╠══════════════════════════════════════════════════════════════════════════════╣
║  Controls whether to regenerate configuration files before running tests.    ║
║                                                                              ║
║  When YES:                                                                   ║
║    - Adds GENERATE_CONFIG=1 to the make command                              ║
║    - Configuration files are regenerated from templates                      ║
║    - Ensures tests run with fresh, up-to-date configuration                  ║
║    - Takes longer but guarantees config consistency                          ║
║                                                                              ║
║  When NO:                                                                    ║
║    - Adds GENERATE_CONFIG=0 to the make command                              ║
║    - Uses existing configuration files (faster)                              ║
║    - Useful when config hasn't changed since last run                        ║
║                                                                              ║
║  When EXCLUDE:                                                               ║
║    - Parameter is not added to the command                                   ║
║    - Uses the default behavior defined in the Makefile                       ║
║                                                                              ║
║  Options: yes / no / exclude                                                 ║
║  Default: exclude (use Makefile default)                                     ║
╚══════════════════════════════════════════════════════════════════════════════╝
".

Definition help_clear_logs : str := Eval vm_compute in u "
╔══════════════════════════════════════════════════════════════════════════════╗
║  CLEAR LOGS                                                                  ║
╠══════════════════════════════════════════════════════════════════════════════╣
║  Controls whether to clear existing log files before running the test.       ║
║                                                                              ║
║  When YES:                                                                   ║
║    - Adds 'clear_logs' command before the make command                       ║
║    - All existing log files in the test environment are deleted              ║
║    - Ensures logs only contain output from the current test run              ║
║    - Useful for clean test runs and easier log analysis                      ║
║                                                                              ║
║  When NO:                                                                    ║
║    - Existing logs are preserved                                             ║
║    - New log entries are appended to existing files                          ║
║    - Useful for tracking issues across multiple runs                         ║
║                                                                              ║
║  Options: yes / no                                                           ║
║  Default: no (preserve existing logs)                                        ║
╚══════════════════════════════════════════════════════════════════════════════╝
".

Definition help_clear_containers : str := Eval vm_compute in u "
╔══════════════════════════════════════════════════════════════════════════════╗
║  CLEAR CONTAINERS                                                            ║
╠══════════════════════════════════════════════════════════════════════════════╣
║  Controls whether to stop and remove Docker containers before the test.      ║
║                                                                              ║
║  When YES:                                                                   ║
║    - Adds 'clear_containers' command before the make command                 ║
║    - All test-related Docker containers are stopped and removed              ║
║    - Ensures a clean container environment for the test                      ║
║    - Useful when containers are in an inconsistent state                     ║
║    - Takes longer as containers need to be recreated                         ║
║                                                                              ║
║  When NO:                                                                    ║
║    - Existing containers are preserved and reused                            ║
║    - Faster test startup if containers are already running                   ║
║    - May cause issues if containers are in a bad state                       ║
║                                                                              ║
║  Options: yes / no                                                           ║
║  Default: no (preserve existing containers)                                  ║
╚══════════════════════════════════════════════════════════════════════════════╝
".

Definition PARAMETER_HELP : list (str * str) :=
  Eval vm_compute in
  [ (u "cheetah_handler", help_cheetah_handler);
    (u "test_name", help_test_name);
    (u "run_command", help_run_command);
    (u "break_on_fail", help_break_on_fail);
    (u "generate_config", help_generate_config);
    (u "clear_logs", help_clear_logs);
    (u "clear_containers", help_clear_containers) ].

Definition s_yes : str := Eval vm_compute in u "yes".
Definition s_no : str := Eval vm_compute in u "no".
Definition s_exclude : str := Eval vm_compute in u "exclude".
Definition s_no_help : str := Eval vm_compute in u "No help available for this prompt.".
Definition s_bash : str := Eval vm_compute in u "bash".
Definition s_dash_c : str := Eval vm_compute in u "-c".
Definition s_cd : str := Eval vm_compute in u "cd ~/cheetah/src/tests".
Definition s_clear_containers : str := Eval vm_compute in u "clear_containers".
Definition s_clear_logs : str := Eval vm_compute in u "clear_logs".
Definition s_make : str := Eval vm_compute in u "make test_wbox.".
Definition s_semicolon : str := Eval vm_compute in u " ; ".
Definition s_space : str := Eval vm_compute in u " ".

Arguments PARAMETER_HELP : simpl never.

Local Arguments u : simpl never.

(** ** The terminal *)

Record terminal := {
  stdin : list str;
  stdout : list str;
  ran : list command }.

Definition terminal_emit (lines : list str) (t : terminal) : terminal :=
  {| stdin := stdin t; stdout := stdout t ++ lines; ran := ran t |}.

#[export, refine] Instance terminal_console : Console terminal :=
  {| emit := terminal_emit |}.
Proof.
  - intros []. unfold terminal_emit. cbn. by rewrite app_nil_r.
  - intros l1 l2 t. unfold terminal_emit. cbn. by rewrite app_assoc.
Defined.

Abbreviation script := (stex terminal).

(** [input(prompt)]: the prompt is printed, the next line is the answer. *)
Definition input (prompt : str) : script str :=
  fun t =>
    match stdin t with
    | [] => (Raise EOFError, emit [prompt] t)
    | line :: rest =>
        (Ok line, {| stdin := rest; stdout := stdout t ++ [prompt]; ran := ran t |})
    end.

(** [while True: body], where the body returns [None] to go on. *)
Fixpoint until {A} (turns : nat) (body : script (option A)) : script A :=
  match turns with
  | O => raise EOFError
  | S turns =>
      r ← body;
      match r with
      | Some a => mret a
      | None => until turns body
      end
  end.

Definition while_true {A} (body : script (option A)) : script A :=
  fun t => until (S (length (stdin t))) body t.

(** ** The functions of the script *)

Definition show_help (param_name : str) : script unit :=
  match alookup param_name PARAMETER_HELP with
  | Some text => print text
  | None => print (u "No help available for '" ++ param_name ++ u "'")
  end.

(** [answer in ('help', 'h', '?')]. *)
Definition asks_help (answer : str) : bool :=
  bool_decide (answer ∈ [u "help"; u "h"; u "?"]).

(** What the three prompts do with a request for help. *)
Definition give_help (help_key : option str) : script unit :=
  match help_key with
  | Some key => if truthy key then show_help key else print s_no_help
  | None => print s_no_help
  end.

Definition prompt_yes_no_exclude (question : str) (help_key : option str) : script str :=
  while_true (
    line ← input (question ++ u " (yes/no/exclude) [exclude]: ");
    let answer := lower (strip line) in
    if asks_help answer then give_help help_key;; mret None
    else if bool_decide (answer ∈ [[]; u "exclude"; u "e"; u "x"]) then mret (Some s_exclude)
    else if bool_decide (answer ∈ [u "yes"; u "y"]) then mret (Some s_yes)
    else if bool_decide (answer ∈ [u "no"; u "n"]) then mret (Some s_no)
    else print (u "Please enter 'yes', 'no', 'exclude', or 'help'");; mret None).

Definition prompt_yes_no (question : str) (default : bool) (help_key : option str)
    : script bool :=
  let default_str := if default then u "Y/n" else u "y/N" in
  while_true (
    line ← input (question ++ u " (" ++ default_str ++ u "): ");
    let answer := lower (strip line) in
    if asks_help answer then give_help help_key;; mret None
    else if bool_decide (answer = []) then mret (Some default)
    else if bool_decide (answer ∈ [u "yes"; u "y"]) then mret (Some true)
    else if bool_decide (answer ∈ [u "no"; u "n"]) then mret (Some false)
    else print (u "Please enter 'yes', 'no', or 'help'");; mret None).

Definition prompt_string (question : str) (required : bool) (help_key : option str)
    : script str :=
  while_true (
    line ← input (question ++ u ": ");
    let answer := strip line in
    if asks_help (lower answer) then give_help help_key;; mret None
    else if truthy answer || negb required then mret (Some answer)
    else print (u "This field is required.");; mret None).

Definition build_command (test_name : str) (cheetah_handler : bool)
    (break_on_fail generate_config : str) (clear_logs clear_containers : bool) : str :=
  let parts :=
    [s_cd]
    ++ (if clear_containers then [s_clear_containers] else [])
    ++ (if clear_logs then [s_clear_logs] else []) in
  let make_cmd := s_make ++ test_name in
  let make_params :=
    (if str_eqb break_on_fail s_yes then [u "BP_ON_FAIL=1"]
     else if str_eqb break_on_fail s_no then [u "BP_ON_FAIL=0"] else [])
    ++ (if cheetah_handler then [u "CHEETAH_HANDLER=remote"] else [])
    ++ (if str_eqb generate_config s_yes then [u "GENERATE_CONFIG=1"]
        else if str_eqb generate_config s_no then [u "GENERATE_CONFIG=0"] else []) in
  let make_cmd :=
    if truthy_list make_params then make_cmd ++ s_space ++ join s_space make_params
    else make_cmd in
  join s_semicolon (parts ++ [make_cmd]).

Section Main.
Context (os : oracle).

(** [subprocess.run(['bash', '-c', command], text=True)]: the return code
    of the command, or the exception of a shell that cannot be run. *)
Definition run_bash (command : str) : script Z :=
  fun t =>
    let (outcome, log) := run_cmd os [s_bash; s_dash_c; command] (ran t) in
    let t' := {| stdin := stdin t; stdout := stdout t; ran := log |} in
    match outcome with
    | Completed _ _ returncode => (Ok returncode, t')
    | _ => (Raise OSError, t')
    end.

(** The script; the value is the status [sys.exit] is called with. *)
Definition main : script (option Z) :=
  print (u "=== WBox Test Command Generator ===");;
  print (u "(Type 'help' at any prompt for detailed information)" ++ NL);;
  cheetah_handler ← prompt_yes_no (u "Include cheetah handler (remote)?") false
                                  (Some (u "cheetah_handler"));
  test_name ← prompt_string (u "Test name (e.g., test_control_traffic)") true
                            (Some (u "test_name"));
  run_command ← prompt_yes_no (u "Run the command? (no = just show)") false
                              (Some (u "run_command"));
  break_on_fail ← prompt_yes_no_exclude (u "Break on fail?") (Some (u "break_on_fail"));
  generate_config ← prompt_yes_no_exclude (u "Generate config?")
                                          (Some (u "generate_config"));
  clear_logs ← prompt_yes_no (u "Clear logs?") false (Some (u "clear_logs"));
  clear_containers ← prompt_yes_no (u "Clear containers?") false
                                   (Some (u "clear_containers"));
  let command := build_command test_name cheetah_handler break_on_fail generate_config
                               clear_logs clear_containers in
  print (NL ++ repeat 0x3D 60);;
  print (u "Generated command:");;
  print (repeat 0x3D 60);;
  print command;;
  print (repeat 0x3D 60 ++ NL);;
  if (run_command : bool) then
    print (u "Running command..." ++ NL);;
    returncode ← run_bash command;
    mret (Some returncode)
  else
    print (u "Command not executed. Copy and paste to run manually.");;
    mret None.

End Main.

(** ** What the prompts understand *)

(** The answer a line gives to [prompt_yes_no], [prompt_yes_no_exclude] and
    [prompt_string]; [None] when the prompt asks again. *)
Definition yes_no_answer (default : bool) (line : str) : option bool :=
  let answer := lower (strip line) in
  if asks_help answer then None
  else if bool_decide (answer = []) then Some default
  else if bool_decide (answer ∈ [u "yes"; u "y"]) then Some true
  else if bool_decide (answer ∈ [u "no"; u "n"]) then Some false
  else None.

Definition yes_no_exclude_answer (line : str) : option str :=
  let answer := lower (strip line) in
  if asks_help answer then None
  else if bool_decide (answer ∈ [[]; u "exclude"; u "e"; u "x"]) then Some s_exclude
  else if bool_decide (answer ∈ [u "yes"; u "y"]) then Some s_yes
  else if bool_decide (answer ∈ [u "no"; u "n"]) then Some s_no
  else None.

Definition string_answer (required : bool) (line : str) : option str :=
  let answer := strip line in
  if asks_help (lower answer) then None
  else if truthy answer || negb required then Some answer
  else None.

(** [answered decide lines v rest]: the first line of [lines] that [decide]
    understands gives [v], and [rest] follows it. *)
Definition answered {A} (decide : str -> option A) (lines : list str) (v : A)
    (rest : list str) : Prop :=
  exists junk line,
    lines = junk ++ line :: rest
    /\ Forall (fun l => decide l = None) junk /\ decide line = Some v.

(** The terminal after a prompt: lines taken, texts printed. *)
Definition after (rest : list str) (texts : list str) (t : terminal) : terminal :=
  {| stdin := rest; stdout := stdout t ++ texts; ran := ran t |}.

Lemma after_after r1 l1 r2 l2 t : after r2 l2 (after r1 l1 t) = after r2 (l1 ++ l2) t.
Proof. unfold after. cbn. by rewrite app_assoc. Qed.

Lemma emit_after l t : emit l t = after (stdin t) l t.
Proof. done. Qed.

(** ** The loop of a prompt *)

Lemma until_S {A} turns (body : script (option A)) t :
  until (S turns) body t
  = match body t with
    | (Ok (Some a), t') => (Ok a, t')
    | (Ok None, t') => until turns body t'
    | (Raise e, t') => (Raise e, t')
    end.
Proof. cbn [until]. rewrite bind_run. by destruct (body t) as [[[a|]|e] t']. Qed.

Section Loop.
Context {A : Type} (prompt : str) (k : str -> script (option A)).
Context (decide : str -> option A).
Context (k_decides : forall line, exists texts, prints (k line) (decide line) texts).

Lemma turn line rest t :
  stdin t = line :: rest ->
  exists texts, (input prompt ≫= k) t = (Ok (decide line), after rest texts t).
Proof.
  intros Ht. rewrite bind_run. unfold input. rewrite Ht.
  destruct (k_decides line) as [texts ->]. exists (prompt :: texts).
  unfold after. cbn. unfold terminal_emit. cbn. by rewrite <- app_assoc.
Qed.

(** The loop asks again until a line is understood. *)
Lemma while_true_answered t v rest :
  answered decide (stdin t) v rest ->
  exists texts, while_true (input prompt ≫= k) t = (Ok v, after rest texts t).
Proof.
  intros (junk & line & Ht & Hj & Hv). revert t Ht.
  induction Hj as [|j junk Hd _ IH]; intros t Ht; unfold while_true;
    rewrite Ht, until_S; cbn [app].
  - destruct (turn line rest t Ht) as [texts ->]. rewrite Hv. by exists texts.
  - destruct (turn j (junk ++ line :: rest) t Ht) as [texts ->]. rewrite Hd.
    destruct (IH (after (junk ++ line :: rest) texts t) eq_refl) as [texts' E].
    unfold while_true in E. cbn [stdin after length] in *. rewrite E.
    exists (texts ++ texts'). by rewrite after_after.
Qed.

(** At the end of the input the loop raises [EOFError]. *)
Lemma while_true_eof t :
  Forall (fun l => decide l = None) (stdin t) ->
  exists texts, while_true (input prompt ≫= k) t = (Raise EOFError, after [] texts t).
Proof.
  remember (stdin t) as lines eqn:Ht. intros Hj. revert t Ht.
  induction Hj as [|j junk Hd _ IH]; intros t Ht; unfold while_true;
    rewrite <- Ht, until_S.
  - rewrite bind_run. unfold input. rewrite <- Ht. exists [prompt].
    unfold after. cbn. unfold terminal_emit. by rewrite <- Ht.
  - destruct (turn j junk t (eq_sym Ht)) as [texts ->]. rewrite Hd.
    destruct (IH (after junk texts t) eq_refl) as [texts' E].
    unfold while_true in E. cbn [stdin after length] in *. rewrite E.
    exists (texts ++ texts'). by rewrite after_after.
Qed.

(** The turns [while_true] allows are enough: with more of them the loop
    does the same. *)
Lemma until_enough (n : nat) t :
  (S (length (stdin t)) <= n)%nat ->
  until n (input prompt ≫= k) t = while_true (input prompt ≫= k) t.
Proof.
  unfold while_true. remember (stdin t) as lines eqn:Ht. revert n t Ht.
  induction lines as [|line rest IH]; intros [|n] t Ht Hn; try (cbn in Hn; lia);
    rewrite !until_S.
  - rewrite bind_run. unfold input. by rewrite <- Ht.
  - destruct (turn line rest t (eq_sym Ht)) as [texts ->].
    destruct (decide line); [done|]. apply IH; [done|]. cbn in *. lia.
Qed.

End Loop.

(** Either a line is understood, or none is. *)
Lemma answered_or_not {A} (decide : str -> option A) lines :
  (exists v rest, answered decide lines v rest) \/ Forall (fun l => decide l = None) lines.
Proof.
  induction lines as [|line lines [(v & rest & junk & l & -> & Hj & Hv)|IH]].
  - by right.
  - destruct (decide line) as [v'|] eqn:E.
    + left. exists v', (junk ++ l :: rest), [], line. by split_and!.
    + left. exists v, rest, (line :: junk), l. split_and!; [done| |done]. by constructor.
  - destruct (decide line) as [v'|] eqn:E.
    + left. exists v', lines, [], line. by split_and!.
    + right. by constructor.
Qed.

(** What a loop ends with. *)
Definition ends_with {A} (decide : str -> option A) (t : terminal)
    (out : result A * terminal) : Prop :=
  (exists v rest texts, answered decide (stdin t) v rest /\ out = (Ok v, after rest texts t))
  \/ Forall (fun l => decide l = None) (stdin t)
     /\ exists texts, out = (Raise EOFError, after [] texts t).

Lemma while_true_ends {A} prompt (k : str -> script (option A)) decide t :
  (forall line, exists texts, prints (k line) (decide line) texts) ->
  ends_with decide t (while_true (input prompt ≫= k) t).
Proof.
  intros Hk. destruct (answered_or_not decide (stdin t)) as [(v & rest & H)|H].
  - left. destruct (while_true_answered prompt k decide Hk t v rest H) as [texts E]. eauto.
  - right. split; [done|]. by apply (while_true_eof prompt k decide Hk).
Qed.

(** ** The bodies of the prompts *)

Lemma prints_then {A} (m : script unit) (v : A) :
  silent m -> exists texts, prints (m;; mret v) v texts.
Proof.
  intros [l Hm]. exists l. intros t. by rewrite bind_run, Hm.
Qed.

Lemma silent_show_help param_name : silent (show_help param_name).
Proof. unfold show_help. destruct (alookup _ _); apply silent_print. Qed.

Lemma silent_give_help help_key : silent (give_help help_key).
Proof.
  destruct help_key as [key|]; cbn; [|apply silent_print].
  destruct (truthy key); [apply silent_show_help|apply silent_print].
Qed.

#[export] Hint Resolve silent_show_help silent_give_help : console.

Ltac decided :=
  repeat case_match; first [eexists; apply prints_ret | apply prints_then; auto with console].

Lemma prompt_yes_no_spec question default help_key t v rest :
  answered (yes_no_answer default) (stdin t) v rest ->
  exists texts, prompt_yes_no question default help_key t = (Ok v, after rest texts t).
Proof.
  apply (while_true_answered _ _ (yes_no_answer default)).
  intros line. unfold yes_no_answer. cbv zeta. decided.
Qed.

Lemma prompt_yes_no_exclude_spec question help_key t v rest :
  answered yes_no_exclude_answer (stdin t) v rest ->
  exists texts, prompt_yes_no_exclude question help_key t = (Ok v, after rest texts t).
Proof.
  apply (while_true_answered _ _ yes_no_exclude_answer).
  intros line. unfold yes_no_exclude_answer. cbv zeta. decided.
Qed.

Lemma prompt_string_spec question required help_key t v rest :
  answered (string_answer required) (stdin t) v rest ->
  exists texts, prompt_string question required help_key t = (Ok v, after rest texts t).
Proof.
  apply (while_true_answered _ _ (string_answer required)).
  intros line. unfold string_answer. cbv zeta. decided.
Qed.

(** A prompt that is not answered before the input ends raises
    [EOFError]. *)
Lemma prompt_yes_no_eof question default help_key t :
  Forall (fun l => yes_no_answer default l = None) (stdin t) ->
  exists texts,
    prompt_yes_no question default help_key t = (Raise EOFError, after [] texts t).
Proof.
  apply (while_true_eof _ _ (yes_no_answer default)).
  intros line. unfold yes_no_answer. cbv zeta. decided.
Qed.

(** ** The shape of the command *)

(** What [build_command] puts before the name of the test and after it. *)
Definition command_prefix (clear_logs clear_containers : bool) : str :=
  build_command [] false s_exclude s_exclude clear_logs clear_containers.

Definition command_params (cheetah_handler : bool) (break_on_fail generate_config : str)
    : str :=
  drop (length (command_prefix false false))
       (build_command [] cheetah_handler break_on_fail generate_config false false).

(** The three values [prompt_yes_no_exclude] returns. *)
Definition choice (answer : str) : Prop := answer ∈ [s_yes; s_no; s_exclude].

Ltac choices :=
  repeat match goal with
         | H : choice _ |- _ =>
             unfold choice in H; rewrite !elem_of_cons, elem_of_nil in H;
             destruct H as [->|[->|[->|[]]]]
         end.

Lemma build_command_split test_name cheetah_handler break_on_fail generate_config
    clear_logs clear_containers :
  choice break_on_fail -> choice generate_config ->
  build_command test_name cheetah_handler break_on_fail generate_config clear_logs
                clear_containers
  = command_prefix clear_logs clear_containers ++ test_name
    ++ command_params cheetah_handler break_on_fail generate_config.
Proof.
  intros Hb Hg. unfold command_prefix, command_params, build_command.
  choices; destruct cheetah_handler, clear_logs, clear_containers;
    cbn -[u]; rewrite ?app_nil_r; reflexivity.
Qed.

(** The prefixes differ before the name of the test starts. *)
Lemma command_prefix_inj l1 c1 l2 c2 x y :
  command_prefix l1 c1 ++ x = command_prefix l2 c2 ++ y -> l1 = l2 /\ c1 = c2 /\ x = y.
Proof.
  destruct l1, c1, l2, c2; vm_compute; intros H; try discriminate;
    by injection H as ->.
Qed.

(** The parameters are empty or start with a space, and differ from one
    choice to another. *)
Lemma command_params_space h b g :
  choice b -> choice g ->
  command_params h b g = [] \/ exists rest, command_params h b g = 0x20 :: rest.
Proof. intros Hb Hg. choices; destruct h; vm_compute; eauto. Qed.

Lemma command_params_inj h1 b1 g1 h2 b2 g2 :
  choice b1 -> choice g1 -> choice b2 -> choice g2 ->
  command_params h1 b1 g1 = command_params h2 b2 g2 -> h1 = h2 /\ b1 = b2 /\ g1 = g2.
Proof. intros Hb1 Hg1 Hb2 Hg2. choices; destruct h1, h2; vm_compute; by intros [=]. Qed.

(** A name without a space ends where the parameters start. *)
Lemma name_then_params (n1 n2 p1 p2 : str) :
  ~ In 0x20 n1 -> ~ In 0x20 n2 ->
  (p1 = [] \/ exists rest, p1 = 0x20 :: rest) ->
  (p2 = [] \/ exists rest, p2 = 0x20 :: rest) ->
  n1 ++ p1 = n2 ++ p2 -> n1 = n2 /\ p1 = p2.
Proof.
  revert n2. induction n1 as [|a n1 IH]; intros [|b n2] H1 H2 Hp1 Hp2; cbn.
  - done.
  - intros ->. destruct Hp1 as [[=]|[rest [= -> _]]]. destruct H2. by left.
  - intros <-. destruct Hp2 as [[=]|[rest [= -> _]]]. destruct H1. by left.
  - intros [= -> E]. destruct (IH n2) as [-> ->]; try done.
    + intros ?. apply H1. by right.
    + intros ?. apply H2. by right.
Qed.

(** ** Properties *)

Section Properties.
Context (os : oracle).

(** C17: [main] asks its seven questions in order, each until it is
    answered, prints the command [build_command] makes of the answers,
    and, when asked to, runs it with [bash -c] and returns its status;
    otherwise nothing is run. *)
Theorem main_builds_command t cheetah_handler test_name run_command break_on_fail
    generate_config clear_logs clear_containers r1 r2 r3 r4 r5 r6 r7 :
  answered (yes_no_answer false) (stdin t) cheetah_handler r1 ->
  answered (string_answer true) r1 test_name r2 ->
  answered (yes_no_answer false) r2 run_command r3 ->
  answered yes_no_exclude_answer r3 break_on_fail r4 ->
  answered yes_no_exclude_answer r4 generate_config r5 ->
  answered (yes_no_answer false) r5 clear_logs r6 ->
  answered (yes_no_answer false) r6 clear_containers r7 ->
  let command := build_command test_name cheetah_handler break_on_fail generate_config
                               clear_logs clear_containers in
  exists texts,
    command ∈ texts
    /\ main os t
       = if run_command
         then (match os (ran t) [s_bash; s_dash_c; command] with
               | Completed _ _ returncode => Ok (Some returncode)
               | _ => Raise OSError
               end,
               {| stdin := r7; stdout := stdout t ++ texts;
                  ran := ran t ++ [[s_bash; s_dash_c; command]] |})
         else (Ok None, after r7 texts t).
Proof.
  intros H1 H2 H3 H4 H5 H6 H7 command. unfold main. rewrite 2!print_then, !emit_after.
  rewrite bind_run. edestruct prompt_yes_no_spec as [l1 ->]; [exact H1|].
  rewrite bind_run. edestruct prompt_string_spec as [l2 ->]; [exact H2|].
  rewrite bind_run. edestruct prompt_yes_no_spec as [l3 ->]; [exact H3|].
  rewrite bind_run. edestruct prompt_yes_no_exclude_spec as [l4 ->]; [exact H4|].
  rewrite bind_run. edestruct prompt_yes_no_exclude_spec as [l5 ->]; [exact H5|].
  rewrite bind_run. edestruct prompt_yes_no_spec as [l6 ->]; [exact H6|].
  rewrite bind_run. edestruct prompt_yes_no_spec as [l7 ->]; [exact H7|].
  cbv zeta. fold command. rewrite 5!print_then, !emit_after, !after_after.
  cbn [stdin after]. destruct run_command; rewrite print_then, emit_after, after_after.
  - rewrite bind_run. unfold run_bash, run_cmd. cbn [ran after stdin stdout].
    eexists. split; [|by destruct (os _ _)].
    rewrite !elem_of_app, !elem_of_cons. naive_solver.
  - eexists. split; [|done]. rewrite !elem_of_app, !elem_of_cons. naive_solver.
Qed.

(** The generated command tells the answers apart: two commands are
    the same only when the test names, which have no space, and the five
    choices are. *)
Theorem build_command_injective n1 h1 b1 g1 l1 c1 n2 h2 b2 g2 l2 c2 :
  ~ In 0x20 n1 -> ~ In 0x20 n2 ->
  choice b1 -> choice g1 -> choice b2 -> choice g2 ->
  build_command n1 h1 b1 g1 l1 c1 = build_command n2 h2 b2 g2 l2 c2 ->
  n1 = n2 /\ h1 = h2 /\ b1 = b2 /\ g1 = g2 /\ l1 = l2 /\ c1 = c2.
Proof.
  intros Hn1 Hn2 Hb1 Hg1 Hb2 Hg2. rewrite !build_command_split by done.
  intros (-> & -> & E)%command_prefix_inj.
  apply name_then_params in E as [-> E]; [|done|done|by apply command_params_space..].
  by apply command_params_inj in E as (-> & -> & ->).
Qed.

End Properties.

(** C18: Every prompt ends, after one turn for each line it reads at most:
    with the answer of the first line it understands, the lines after it
    left to the next prompt; or, when it understands none of the lines,
    with the [EOFError] of [input] once they are all read.  The loops of
    the model do not end for want of turns. *)
Theorem prompts_terminate question default required help_key t :
  ends_with (yes_no_answer default) t (prompt_yes_no question default help_key t)
  /\ ends_with yes_no_exclude_answer t (prompt_yes_no_exclude question help_key t)
  /\ ends_with (string_answer required) t (prompt_string question required help_key t).
Proof.
  split_and!; apply while_true_ends; intros line.
  - unfold yes_no_answer. cbv zeta. decided.
  - unfold yes_no_exclude_answer. cbv zeta. decided.
  - unfold string_answer. cbv zeta. decided.
Qed.

(** ** The script at work *)

(** A user who asks for help, mistypes once and leaves the name empty
    once. *)
Definition typed : list str :=
  Eval vm_compute in
  [u "what"; u " Y "; u ""; u "h"; u "my_test"; u "yes"; u "n"; u ""; u "y"; u ""].

Definition typing : terminal := {| stdin := typed; stdout := []; ran := [] |}.

(** A shell in which the command ends with status 3. *)
Definition status_3 : oracle := fun _ _ => Completed [] [] 3.

Ltac answer junk line :=
  exists junk, line; split; [reflexivity|split; [repeat constructor|]; by vm_compute].

Lemma main_builds_command_witness :
  let command := build_command (u "my_test") true s_no s_exclude true false in
  exists texts,
    command ∈ texts
    /\ main status_3 typing
       = if true
         then (match status_3 (ran typing) [s_bash; s_dash_c; command] with
               | Completed _ _ returncode => Ok (Some returncode)
               | _ => Raise OSError
               end,
               {| stdin := []; stdout := stdout typing ++ texts;
                  ran := ran typing ++ [[s_bash; s_dash_c; command]] |})
         else (Ok None, after [] texts typing).
Proof.
  apply (main_builds_command status_3 typing true (u "my_test") true s_no s_exclude true
           false (drop 2 typed) (drop 5 typed) (drop 6 typed) (drop 7 typed)
           (drop 8 typed) (drop 9 typed) []).
  - answer [u "what"] (u " Y ").
  - answer [u ""; u "h"] (u "my_test").
  - answer (@nil str) (u "yes").
  - answer (@nil str) (u "n").
  - answer (@nil str) (u "").
  - answer (@nil str) (u "y").
  - answer (@nil str) (u "").
Defined.

Lemma build_command_injective_witness :
  u "a" = u "a" /\ true = true /\ s_yes = s_yes /\ s_no = s_no /\ false = false
  /\ true = true.
Proof.
  apply (build_command_injective (u "a") true s_yes s_no false true
           (u "a") true s_yes s_no false true);
    try (vm_compute; intuition discriminate);
    try (unfold choice; rewrite !elem_of_cons; by auto).
Defined.

(** The command of the source's own example. *)
Example build_command_example :
  build_command (u "test_control_traffic") true s_yes s_no true true
  = u "cd ~/cheetah/src/tests ; clear_containers ; clear_logs ; make test_wbox.test_control_traffic BP_ON_FAIL=1 CHEETAH_HANDLER=remote GENERATE_CONFIG=0".
Proof. by vm_compute. Qed.

(** Every question of [main] has its help. *)
Example every_question_has_help :
  Forall (fun key => is_Some (alookup key PARAMETER_HELP))
         [u "cheetah_handler"; u "test_name"; u "run_command"; u "break_on_fail";
          u "generate_config"; u "clear_logs"; u "clear_containers"].
Proof. apply (bool_decide_unpack _). by vm_compute. Qed.

(** A test cannot be called [h], [help] or [?]: the prompt takes these for
    a request, and a name is put into the command as it is typed, spaces
    and separators of the shell included. *)
Example test_name_examples :
  string_answer true (u "h") = None
  /\ string_answer true (u "x ; rm -rf ~") = Some (u "x ; rm -rf ~")
  /\ build_command (u "x ; rm -rf ~") false s_exclude s_exclude false false
     = u "cd ~/cheetah/src/tests ; make test_wbox.x ; rm -rf ~".
Proof. by vm_compute. Qed.

(** Without the hypothesis on spaces two different answers give one
    command. *)
Example build_command_space :
  build_command (u "t BP_ON_FAIL=1") false s_exclude s_exclude false false
  = build_command (u "t") false s_yes s_exclude false false.
Proof. by vm_compute. Qed.
