(* ===== verification/DeployCheetah.v ===== *)
(** * DeployCheetah: the script [src/deploy_cheetah.py]

    The script finds the script files below the directory [cheetah] of the
    repository and copies them to a remote machine with [ssh] and [scp].

    - The local file system is a tree; [find_script_files] walks it with
      [rglob] and keeps the files that have the extension of a script, or
      no extension and a first line that starts with the two characters of
      a shebang; the result is in the order of [pathlib].
    - [ssh] and [scp] are commands of the operating system, which answers
      each command given the commands run before; a [deployment] holds what
      was printed and the commands that were run.
    - [scp_files] is the function of the source, with the body of its
      loop as [scp_file]; [deploy_main] is its [main], for the three
      values of the command line, and returns the status it gives to
      [sys.exit].

    The theorems show: which files [find_script_files] returns, and in
    which order; which commands [scp_files] runs, and when it returns
    [True]; the status and the commands of the script, the dry run
    included.  Every file of the tree can be read; the suffix of a name is
    that of Python 3.12. *)

From Stdlib Require Import Ascii String.
From stdpp Require Import base tactics option list numbers sorting.
From S2P Require Import Prelude PyStr Subprocess FileTree Console.

Local Open Scope N_scope.

(** ** Constants and literals of the source *)

Definition SCRIPT_EXTENSIONS : list str :=
  Eval vm_compute in [u ".py"; u ".sh"; u ".bash"; u ".pl"; u ".rb"; u ".js"; u ".ts"].

Definition REMOTE_PATH : str := Eval vm_compute in u "/home/dn/cheetah".

Definition s_cheetah : str := Eval vm_compute in u "cheetah".
Definition s_shebang : str := Eval vm_compute in u "#!".
Definition s_ssh : str := Eval vm_compute in u "ssh".
Definition s_scp : str := Eval vm_compute in u "scp".
Definition s_mkdir_p : str := Eval vm_compute in u "mkdir -p ".
Definition s_colon : str := Eval vm_compute in u ":".

Local Arguments u : simpl never.

(** ** Paths *)

(** [Path.suffix]: the last dot of the name and what follows it, when
    something stands before the dot and after it. *)
Definition suffix (name : str) : str :=
  let extension := rev (take_while (fun c => negb (c =? 0x2E)) (rev name)) in
  if bool_decide (0x2E ∈ name)
     && bool_decide (length extension + 1 < length name)%nat
     && bool_decide (0 < length extension)%nat
  then 0x2E :: extension
  else [].

(** The name of a path: its last component. *)
Definition name_of (p : path) : str := default [] (list.last p).

(** [Path.relative_to]. *)
Fixpoint relative_to (p base : path) {struct base} : result path :=
  match base, p with
  | [], _ => Ok p
  | b :: base', c :: p' => if str_eqb b c then relative_to p' base' else Raise ValueError
  | _ :: _, [] => Raise ValueError
  end.

(** [str] of a relative path. *)
Definition show_relative (p : path) : str :=
  match p with
  | [] => s_dot
  | _ => join s_slash p
  end.

(** ** Finding the scripts *)

(** The test of the loop of [find_script_files] on a file. *)
Definition is_script (name content : str) : bool :=
  if bool_decide (lower (suffix name) ∈ SCRIPT_EXTENSIONS) then true
  else if negb (truthy (suffix name)) then bool_decide (take 2 content = s_shebang)
  else false.

(** The test on what [rglob] found: a file that is a script. *)
Definition is_script_file (found : path * node) : bool :=
  match found.2 with
  | File content => is_script (name_of found.1) content
  | Dir _ => false
  end.

Definition find_script_files (root : node) (directory : path) : list path :=
  match get root directory with
  | None => []
  | Some n =>
      sort_by path_leb
        ((fun found => directory ++ found.1)
           <$> filter (fun found => is_script_file found) (rglob n))
  end.

(** ** Copying them *)

Record deployment := {
  shown : list str;
  launched : list command }.

Definition deployment_emit (lines : list str) (s : deployment) : deployment :=
  {| shown := shown s ++ lines; launched := launched s |}.

#[export, refine] Instance deployment_console : Console deployment :=
  {| emit := deployment_emit |}.
Proof.
  - intros []. unfold deployment_emit. cbn. by rewrite app_nil_r.
  - intros l1 l2 s. unfold deployment_emit. cbn. by rewrite app_assoc.
Defined.

Abbreviation deploy := (stex deployment).

Section Deploy.
Context (os : oracle) (root : node) (script_root : path).

(** [subprocess.run(cmd, capture_output=True, text=True)]: the return code
    and what the command wrote, or the exception of a program that cannot
    be run. *)
Definition subprocess_run (cmd : command) : deploy (Z * str * str) :=
  fun s =>
    let (outcome, log) := run_cmd os cmd (launched s) in
    let s' := {| shown := shown s; launched := log |} in
    match outcome with
    | Completed stdout stderr returncode => (Ok (returncode, stdout, stderr), s')
    | _ => (Raise OSError, s')
    end.

Definition mkdir_cmd (hostname directory : str) : command :=
  [s_ssh; hostname; s_mkdir_p ++ directory].

Definition scp_cmd (hostname : str) (file_path : path) (remote_file_path : str) : command :=
  [s_scp; show_path file_path; hostname ++ s_colon ++ remote_file_path].

(** The body of the loop of [scp_files] for one file: whether the file
    was copied. *)
Definition scp_file (hostname remote_path : str) (cheetah_dir file_path : path)
  : deploy bool :=
  relative_path ← lift (relative_to file_path cheetah_dir);
  let remote_file_path := remote_path ++ s_slash ++ show_relative relative_path in
  when (negb (bool_decide (removelast relative_path = [])))
       (subprocess_run
          (mkdir_cmd hostname
             (remote_path ++ s_slash ++ show_relative (removelast relative_path)));;
        mret tt);;
  print (u "Copying: " ++ show_relative relative_path ++ u " -> " ++ hostname
         ++ s_colon ++ remote_file_path);;
  '(returncode, _, stderr) ← subprocess_run (scp_cmd hostname file_path remote_file_path);
  if negb (returncode =? 0)%Z
  then print (u "  Error: " ++ strip stderr);;
       mret false
  else print (u "  Done");;
       mret true.

(** The loop, with the variable [success]. *)
Fixpoint scp_loop (hostname remote_path : str) (cheetah_dir : path)
    (files : list path) (success : bool) : deploy bool :=
  match files with
  | [] => mret success
  | file_path :: rest =>
      copied ← scp_file hostname remote_path cheetah_dir file_path;
      scp_loop hostname remote_path cheetah_dir rest (if copied : bool then success else false)
  end.

Definition scp_files (files : list path) (hostname remote_path : str)
    (cheetah_dir : path) : deploy bool :=
  if negb (truthy_list files) then
    print (u "No script files found to copy.");;
    mret true
  else
    print (u "Creating remote directory: " ++ remote_path);;
    '(returncode, _, stderr) ← subprocess_run (mkdir_cmd hostname remote_path);
    if negb (returncode =? 0)%Z
    then print (u "Error creating remote directory: " ++ stderr);;
         mret false
    else scp_loop hostname remote_path cheetah_dir files true.

Definition get_script_root : path := script_root.

Definition get_cheetah_dir : path := get_script_root ++ [s_cheetah].

(** The script, for the arguments [hostname], [--dry-run] and
    [--remote-path]; the value is the status given to [sys.exit]. *)
Definition deploy_main (hostname : str) (dry_run : bool) (remote_path : str) : deploy Z :=
  let cheetah_dir := get_cheetah_dir in
  if negb (bool_decide (is_Some (get root cheetah_dir))) then
    print (u "Error: Cheetah directory not found: " ++ show_path cheetah_dir);;
    print (u "Please create the 'cheetah' directory in the repository root.");;
    mret 1%Z
  else
    print (u "Source directory: " ++ show_path cheetah_dir);;
    print (u "Remote destination: " ++ hostname ++ s_colon ++ remote_path);;
    print [];;
    let script_files := find_script_files root cheetah_dir in
    if negb (truthy_list script_files) then
      print (u "No script files found in the cheetah directory.");;
      mret 0%Z
    else
      print (u "Found " ++ str_of_N (N.of_nat (length script_files))
             ++ u " script file(s):");;
      for_each (fun f =>
          relative_path ← lift (relative_to f cheetah_dir);
          print (u "  - " ++ show_relative relative_path))
        script_files;;
      print [];;
      if dry_run then
        print (u "Dry run mode - no files were copied.");;
        mret 0%Z
      else
        success ← scp_files script_files hostname remote_path cheetah_dir;
        if (success : bool) then
          print (NL ++ u "All files copied successfully!");;
          mret 0%Z
        else
          print (NL ++ u "Some files failed to copy.");;
          mret 1%Z.

End Deploy.

(** ** What the script promises *)

(** What [scp_files] runs for one file: [mkdir -p] for a file of a
    subdirectory, then [scp]. *)
Definition commands_for (hostname remote_path : str) (cheetah_dir file_path : path)
  : list command :=
  match relative_to file_path cheetah_dir with
  | Ok relative_path =>
      (if bool_decide (removelast relative_path = []) then []
       else [mkdir_cmd hostname
               (remote_path ++ s_slash ++ show_relative (removelast relative_path))])
      ++ [scp_cmd hostname file_path (remote_path ++ s_slash ++ show_relative relative_path)]
  | Raise _ => []
  end.

(** What [scp_files] runs after the first [mkdir -p]. *)
Definition scp_plan (hostname remote_path : str) (cheetah_dir : path) (files : list path)
  : list command :=
  flat_map (commands_for hostname remote_path cheetah_dir) files.

(** An operating system that runs every command to its end. *)
Definition responsive (os : oracle) : Prop :=
  forall log c, exists stdout stderr returncode, os log c = Completed stdout stderr returncode.

Definition returncode_of (o : proc_outcome) : Z :=
  match o with
  | Completed _ _ returncode => returncode
  | _ => (-1)%Z
  end.

(** Every [scp] of [plan], run after [before], returns 0. *)
Fixpoint succeeded (os : oracle) (before plan : list command) : bool :=
  match plan with
  | [] => true
  | c :: plan' =>
      (if bool_decide (head c = Some s_scp) then (returncode_of (os before c) =? 0)%Z
       else true)
      && succeeded os (before ++ [c]) plan'
  end.

(** ** A repository and two machines, for the examples *)

Definition s_run_sh : str := Eval vm_compute in u "run.sh".
Definition s_lib : str := Eval vm_compute in u "lib".
Definition s_util_py : str := Eval vm_compute in u "util.PY".
Definition s_start : str := Eval vm_compute in u "start".
Definition lab_host : str := Eval vm_compute in u "dn@lab7".

(** The directory [cheetah] with two scripts by their extension, one by
    its first line, and two files that are no scripts. *)
Definition cheetah_entries : list (str * node) :=
  Eval vm_compute in
  [(s_run_sh, File (u "#!/bin/sh"));
   (s_lib, Dir [(s_util_py, File (u "import os"));
                (u "notes.txt", File (u "#! no script"))]);
   (s_start, File (u "#!/usr/bin/env python3"));
   (u "README", File (u "read me"))].

Definition repository : node := Dir [(s_cheetah, Dir cheetah_entries)].

(** The same files, listed in another order. *)
Definition repository_relisted : node := Dir [(s_cheetah, Dir (rev cheetah_entries))].

(** A machine on which every command returns 0, and one that refuses the
    files of subdirectories. *)
Definition os_ok : oracle := fun _ _ => Completed [] [] 0.

Definition os_refuses_lib : oracle :=
  fun _ c =>
    if bool_decide (c !! 1%nat = Some (u "/cheetah/lib/util.PY"))
    then Completed [] (u "scp: permission denied") 1
    else Completed [] [] 0.

Definition nothing_yet : deployment := {| shown := []; launched := [] |}.

(** ** Paths *)

Lemma relative_to_app d rel : relative_to (d ++ rel) d = Ok rel.
Proof.
  induction d as [|c d IH]; [done|]. cbn. unfold str_eqb. by rewrite bool_decide_true.
Qed.

Lemma relative_to_Ok p d rel : relative_to p d = Ok rel -> p = d ++ rel.
Proof.
  revert p. induction d as [|c d IH]; intros p; [by intros [= ->]|].
  destruct p as [|c' p]; [done|]. cbn. unfold str_eqb. case_bool_decide; [|done].
  intros ->%IH. by subst.
Qed.

(** ** Finding the scripts *)

Section Find.
Context (root : node) (directory : path).
Implicit Types (p rel : path).

Lemma find_script_files_under p :
  p ∈ find_script_files root directory -> exists rel, p = directory ++ rel.
Proof.
  unfold find_script_files. destruct (get root directory) as [n|]; [|by intros ?%elem_of_nil].
  rewrite sort_by_elem. intros (found & -> & _)%list_elem_of_fmap. eauto.
Qed.

Lemma find_script_files_relative :
  Forall (fun p => is_Ok (relative_to p directory)) (find_script_files root directory).
Proof.
  apply Forall_forall. intros p [rel ->]%find_script_files_under.
  exists rel. apply relative_to_app.
Qed.

Context (Hwf : wf_tree root).

(** The scripts found are the files below the directory that pass the
    test. *)
Lemma find_script_files_elem p :
  p ∈ find_script_files root directory <->
  exists rel content,
    p = directory ++ rel /\ rel <> [] /\
    get root p = Some (File content) /\ is_script (name_of rel) content = true.
Proof.
  unfold find_script_files. split.
  - destruct (get root directory) as [n|] eqn:G; [|by intros ?%elem_of_nil].
    rewrite sort_by_elem.
    intros ([rel [content|es]] & -> & [Hs Hin]%list_elem_of_filter)%list_elem_of_fmap;
      [|done].
    apply rglob_get in Hin as [Hne Hget]; [|by eapply wf_tree_get].
    exists rel, content. rewrite get_app, G. split_and!; try done. by apply Is_true_true.
  - intros (rel & content & -> & Hne & Hget & Hs). rewrite get_app in Hget.
    destruct (get root directory) as [n|] eqn:G; [|done]. rewrite sort_by_elem.
    apply (list_elem_of_fmap_2' _ _ (rel, File content)); [|done].
    apply list_elem_of_filter. split; [by apply Is_true_true|].
    apply rglob_get; [by eapply wf_tree_get|done].
Qed.

Lemma find_script_files_NoDup : NoDup (find_script_files root directory).
Proof.
  unfold find_script_files. destruct (get root directory) as [n|] eqn:G; [|constructor].
  rewrite sort_by_Permutation.
  change (fun found : path * node => directory ++ found.1) with (app directory ∘ @fst path node).
  rewrite list_fmap_compose. apply (NoDup_fmap_2 _).
  apply (sublist_NoDup _ (rglob n).*1); [by eapply rglob_NoDup, wf_tree_get|].
  by apply fmap_sublist, sublist_filter.
Qed.

End Find.

(** ** Copying *)

Lemma succeeded_mkdir os before hostname directory plan :
  succeeded os before (mkdir_cmd hostname directory :: plan)
  = succeeded os (before ++ [mkdir_cmd hostname directory]) plan.
Proof. done. Qed.

Lemma succeeded_scp os before hostname file_path remote_file_path plan :
  succeeded os before (scp_cmd hostname file_path remote_file_path :: plan)
  = (returncode_of (os before (scp_cmd hostname file_path remote_file_path)) =? 0)%Z
    && succeeded os (before ++ [scp_cmd hostname file_path remote_file_path]) plan.
Proof. done. Qed.

(** A command that runs to its end returns its code and joins the log. *)
Lemma subprocess_run_responsive os (Hos : responsive os) c s :
  exists stdout stderr,
    subprocess_run os c s
    = (Ok (returncode_of (os (launched s) c), stdout, stderr),
       {| shown := shown s; launched := launched s ++ [c] |}).
Proof.
  unfold subprocess_run, run_cmd.
  destruct (Hos (launched s) c) as (stdout & stderr & returncode & ->). eauto.
Qed.

(** The next command runs to its end. *)
Ltac run_next :=
  rewrite ?bind_run;
  match goal with
  | H : responsive ?os |- context [subprocess_run ?os ?c ?s] =>
      let stdout := fresh "stdout" in
      let stderr := fresh "stderr" in
      destruct (subprocess_run_responsive os H c s) as (stdout & stderr & ->)
  end.

(** The state after the prints that are left. *)
Ltac shows :=
  rewrite ?print_then; unfold emit, deployment_console, deployment_emit;
  cbn [shown launched mret stex_mret stex_ret];
  rewrite <- ?app_assoc; eexists; reflexivity.

Section Scp.
Context (os : oracle) (Hos : responsive os).
Context (hostname remote_path : str) (cheetah_dir : path).


Lemma scp_plan_cons f files :
  scp_plan hostname remote_path cheetah_dir (f :: files)
  = commands_for hostname remote_path cheetah_dir f
    ++ scp_plan hostname remote_path cheetah_dir files.
Proof. done. Qed.

Lemma succeeded_app before plan1 plan2 :
  succeeded os before (plan1 ++ plan2)
  = succeeded os before plan1 && succeeded os (before ++ plan1) plan2.
Proof.
  revert before. induction plan1 as [|c plan1 IH]; intros before; cbn [app succeeded].
  - by rewrite app_nil_r.
  - by rewrite IH, <- app_assoc, andb_assoc.
Qed.

(** One file: the commands of [commands_for] run, and the file is copied
    when its [scp] returns 0. *)
Lemma scp_file_spec f s :
  is_Ok (relative_to f cheetah_dir) ->
  exists texts,
    scp_file os hostname remote_path cheetah_dir f s
    = (Ok (succeeded os (launched s) (commands_for hostname remote_path cheetah_dir f)),
       {| shown := shown s ++ texts;
          launched := launched s ++ commands_for hostname remote_path cheetah_dir f |}).
Proof.
  intros [rel Hrel]. unfold scp_file, commands_for. rewrite bind_run, Hrel. cbn [lift].
  case_bool_decide as Hp; cbn [negb when app].
  - rewrite bind_run. cbn [mret stex_mret stex_ret]. rewrite print_then. run_next.
    rewrite succeeded_scp, andb_true_r.
    destruct (_ =? 0)%Z; cbn [negb]; shows.
  - rewrite !bind_run. run_next. cbn [mret stex_mret stex_ret]. rewrite print_then. run_next.
    rewrite succeeded_mkdir, succeeded_scp, andb_true_r.
    destruct (_ =? 0)%Z; cbn [negb]; shows.
Qed.

Lemma scp_loop_spec files success s :
  Forall (fun f => is_Ok (relative_to f cheetah_dir)) files ->
  exists texts,
    scp_loop os hostname remote_path cheetah_dir files success s
    = (Ok (success
           && succeeded os (launched s) (scp_plan hostname remote_path cheetah_dir files)),
       {| shown := shown s ++ texts;
          launched := launched s ++ scp_plan hostname remote_path cheetah_dir files |}).
Proof.
  intros Hfiles. revert success s.
  induction Hfiles as [|f files Hf _ IH]; intros success s.
  - exists []. destruct s. cbn. by rewrite andb_true_r, !app_nil_r.
  - cbn [scp_loop]. rewrite bind_run, scp_plan_cons, succeeded_app.
    destruct (scp_file_spec f s Hf) as [texts ->].
    edestruct IH as [texts' ->]. cbn [shown launched]. exists (texts ++ texts').
    rewrite <- !app_assoc.
    by destruct (succeeded os (launched s) _), success.
Qed.

(** [scp_files] on files of the directory: the first [mkdir -p], and the
    loop when it returned 0. *)
Lemma scp_files_run files s :
  files <> [] ->
  Forall (fun f => is_Ok (relative_to f cheetah_dir)) files ->
  let first := mkdir_cmd hostname remote_path in
  let created := (returncode_of (os (launched s) first) =? 0)%Z in
  let plan := if created then scp_plan hostname remote_path cheetah_dir files else [] in
  exists texts,
    scp_files os files hostname remote_path cheetah_dir s
    = (Ok (created && succeeded os (launched s ++ [first]) plan),
       {| shown := shown s ++ texts; launched := launched s ++ first :: plan |}).
Proof.
  intros Hne Hfiles. cbv zeta. unfold scp_files.
  destruct files as [|f files]; [done|]. cbn [truthy_list negb].
  rewrite print_then. run_next.
  unfold emit, deployment_console, deployment_emit. cbn [shown launched].
  destruct (_ =? 0)%Z; cbn [negb andb]; [|shows].
  edestruct (scp_loop_spec (f :: files) true) as [texts ->]; [done|].
  unfold emit, deployment_console, deployment_emit. cbn [shown launched andb].
  rewrite <- !app_assoc. eexists. reflexivity.
Qed.

End Scp.


(** ** The script *)

(** The list of the files found prints one line for each of them. *)
Lemma listing_prints (cheetah_dir : path) files :
  Forall (fun f => is_Ok (relative_to f cheetah_dir)) files ->
  silent (for_each (fun f =>
            relative_path ← lift (relative_to f cheetah_dir);
            print (u "  - " ++ show_relative relative_path) : deploy unit)
          files).
Proof.
  intros Hfiles. apply silent_for_each_Forall. eapply list.Forall_impl; [done|].
  intros f [rel Hrel]. eexists. intros s. rewrite bind_run. unfold lift. by rewrite Hrel.
Qed.

(** [deploy_main] up to the choice between a dry run and the copy. *)
Lemma deploy_main_found os root script_root hostname dry_run remote_path s :
  let cheetah_dir := script_root ++ [s_cheetah] in
  let files := find_script_files root cheetah_dir in
  exists texts,
    deploy_main os root script_root hostname dry_run remote_path s
    = if bool_decide (is_Some (get root cheetah_dir)) && truthy_list files then
        (if dry_run then
           print (u "Dry run mode - no files were copied.");;
           mret 0%Z
         else
           success ← scp_files os files hostname remote_path cheetah_dir;
           if (success : bool) then
             print (NL ++ u "All files copied successfully!");;
             mret 0%Z
           else
             print (NL ++ u "Some files failed to copy.");;
             mret 1%Z)
          (emit texts s)
      else
        (Ok (if bool_decide (is_Some (get root cheetah_dir)) then 0 else 1)%Z,
         emit texts s).
Proof.
  cbv zeta. unfold deploy_main, get_cheetah_dir, get_script_root.
  case_bool_decide; cbn [negb andb]; [|rewrite !print_then, emit_emit; eauto].
  rewrite !print_then, !emit_emit.
  destruct (truthy_list _) eqn:Hfound; cbn [negb];
    [|rewrite !print_then, emit_emit; eauto].
  rewrite print_then, emit_emit.
  destruct (listing_prints _ _ (find_script_files_relative root (script_root ++ [s_cheetah])))
    as [lines Hlines].
  rewrite bind_run, Hlines, print_then, !emit_emit. eauto.
Qed.

(** The status and the commands of [deploy_main]. *)
Lemma deploy_main_run os root script_root hostname dry_run remote_path s :
  responsive os ->
  let cheetah_dir := script_root ++ [s_cheetah] in
  let files := find_script_files root cheetah_dir in
  let first := mkdir_cmd hostname remote_path in
  let created := (returncode_of (os (launched s) first) =? 0)%Z in
  let plan := if created then scp_plan hostname remote_path cheetah_dir files else [] in
  let copies := bool_decide (is_Some (get root cheetah_dir)) && truthy_list files
                && negb dry_run in
  let copied := created && succeeded os (launched s ++ [first]) plan in
  exists texts,
    deploy_main os root script_root hostname dry_run remote_path s
    = (Ok (if copies then (if copied then 0 else 1)
           else if bool_decide (is_Some (get root cheetah_dir)) then 0 else 1)%Z,
       {| shown := shown s ++ texts;
          launched := launched s ++ (if copies then first :: plan else []) |}).
Proof.
  intros Hos. cbv zeta.
  destruct (deploy_main_found os root script_root hostname dry_run remote_path s) as [texts ->].
  destruct (_ && truthy_list _) eqn:Hfound; cbn [andb negb];
    [|rewrite app_nil_r; eauto].
  apply andb_true_iff in Hfound as [-> Hfound].
  destruct dry_run; cbn [negb]; [rewrite app_nil_r; shows|].
  rewrite bind_run.
  edestruct (scp_files_run os Hos hostname remote_path (script_root ++ [s_cheetah]))
    as [texts' ->];
    [by intros E; rewrite E in Hfound|apply find_script_files_relative|].
  unfold emit, deployment_console, deployment_emit. cbn [shown launched].
  destruct (_ && succeeded _ _ _); shows.
Qed.

(** What [succeeded] says of the log. *)
Lemma succeeded_spec os before plan :
  succeeded os before plan = true <->
  forall done c rest,
    plan = done ++ c :: rest -> head c = Some s_scp ->
    returncode_of (os (before ++ done) c) = 0%Z.
Proof.
  revert before. induction plan as [|c plan IH]; intros before.
  - split; [|done]. intros _ done c rest E. by destruct done.
  - cbn [succeeded]. rewrite andb_true_iff, IH. split.
    + intros [Hc Hp] done c' rest E Hhead. destruct done as [|d done]; simplify_eq/=.
      * rewrite app_nil_r. rewrite bool_decide_true in Hc by done. by apply Z.eqb_eq.
      * rewrite cons_middle, app_assoc. by apply (Hp done c' rest).
    + intros H. split.
      * case_bool_decide; [|done]. apply Z.eqb_eq. rewrite <- (app_nil_r before).
        by apply (H [] c plan).
      * intros done c' rest -> Hh. rewrite <- app_assoc. by apply (H (c :: done) c' rest).
Qed.

(** ** The properties *)

Lemma path_Sorted_same_elements (l1 l2 : list path) :
  Sorted (fun p q => path_leb p q = true) l1 -> Sorted (fun p q => path_leb p q = true) l2 ->
  NoDup l1 -> NoDup l2 -> (forall p, p ∈ l1 <-> p ∈ l2) -> l1 = l2.
Proof. apply Sorted_same_elements; [apply path_leb_trans|apply path_leb_antisym]. Qed.

Lemma find_script_files_Sorted root directory :
  Sorted (fun p q => path_leb p q = true) (find_script_files root directory).
Proof.
  unfold find_script_files. destruct (get root directory); [|constructor].
  apply sort_by_Sorted, path_leb_total.
Qed.

(** C19: [find_script_files] returns the script files below the directory
    and no other path, each of them once, in the order of [pathlib]: a
    path is returned exactly when it leads from the directory to a file
    that has one of the extensions of [SCRIPT_EXTENSIONS], in any case of
    the letters, or has no extension and starts with a shebang. *)
Theorem find_script_files_spec root directory :
  wf_tree root ->
  Sorted (fun p q => path_leb p q = true) (find_script_files root directory)
  /\ NoDup (find_script_files root directory)
  /\ forall p,
       p ∈ find_script_files root directory <->
       exists rel content,
         p = directory ++ rel /\ rel <> [] /\
         get root p = Some (File content) /\ is_script (name_of rel) content = true.
Proof.
  intros Hwf. split_and!.
  - apply find_script_files_Sorted.
  - by apply find_script_files_NoDup.
  - intros p. by apply find_script_files_elem.
Qed.

Lemma repository_wf : wf_tree repository.
Proof.
  cbn [wf_tree repository cheetah_entries foldr snd].
  repeat split; try done; apply (bool_decide_unpack _); by vm_compute.
Qed.

Lemma repository_relisted_wf : wf_tree repository_relisted.
Proof.
  cbn [wf_tree repository_relisted cheetah_entries rev app foldr snd].
  repeat split; try done; apply (bool_decide_unpack _); by vm_compute.
Qed.

Lemma find_script_files_spec_witness :
  Sorted (fun p q => path_leb p q = true) (find_script_files repository [s_cheetah])
  /\ NoDup (find_script_files repository [s_cheetah])
  /\ forall p,
       p ∈ find_script_files repository [s_cheetah] <->
       exists rel content,
         p = [s_cheetah] ++ rel /\ rel <> [] /\
         get repository p = Some (File content) /\ is_script (name_of rel) content = true.
Proof. exact (find_script_files_spec repository [s_cheetah] repository_wf). Defined.

(** The result of [find_script_files] does not depend on the order in
    which the operating system lists the directories: two trees that hold
    the same files give the same list. *)
Theorem find_script_files_listing_order root1 root2 directory :
  wf_tree root1 -> wf_tree root2 ->
  (forall p content, get root1 p = Some (File content) <-> get root2 p = Some (File content)) ->
  find_script_files root1 directory = find_script_files root2 directory.
Proof.
  intros Hwf1 Hwf2 Hsame.
  apply path_Sorted_same_elements;
    auto using find_script_files_Sorted, find_script_files_NoDup.
  intros p. rewrite !find_script_files_elem by done.
  by setoid_rewrite Hsame.
Qed.

Lemma repository_same_files p content :
  get repository p = Some (File content) <-> get repository_relisted p = Some (File content).
Proof.
  destruct p as [|c [|d p]]; [done| |].
  - unfold repository, repository_relisted. cbn [get alookup]. by destruct (str_eqb _ _).
  - unfold repository, repository_relisted. cbn [get alookup].
    destruct (str_eqb _ _); [|done]. cbn [mbind option_bind].
    rewrite (alookup_Permutation d cheetah_entries (rev cheetah_entries));
      [done| |by symmetry; apply Permutation_rev].
    apply (bool_decide_unpack _). by vm_compute.
Qed.

Lemma find_script_files_listing_order_witness :
  find_script_files repository [s_cheetah] = find_script_files repository_relisted [s_cheetah].
Proof.
  exact (find_script_files_listing_order repository repository_relisted [s_cheetah]
           repository_wf repository_relisted_wf repository_same_files).
Defined.

(** [scp_files] on files of the directory, on a machine that runs
    every command to its end: it returns without raising, it has run
    [mkdir -p] for the remote directory and then, when that returned 0, the
    commands of every file in the order of the files; it returns [True]
    exactly when the first command and every [scp] after it returned 0. *)
Theorem scp_files_reports os files hostname remote_path cheetah_dir s :
  responsive os ->
  files <> [] ->
  Forall (fun f => is_Ok (relative_to f cheetah_dir)) files ->
  let first := mkdir_cmd hostname remote_path in
  let created := (returncode_of (os (launched s) first) =? 0)%Z in
  let plan := if created then scp_plan hostname remote_path cheetah_dir files else [] in
  exists ok texts,
    scp_files os files hostname remote_path cheetah_dir s
    = (Ok ok, {| shown := shown s ++ texts; launched := launched s ++ first :: plan |})
    /\ (ok = true <->
        created = true /\
        forall done c rest,
          plan = done ++ c :: rest -> head c = Some s_scp ->
          returncode_of (os (launched s ++ first :: done) c) = 0%Z).
Proof.
  intros Hos Hne Hfiles. cbv zeta.
  destruct (scp_files_run os Hos hostname remote_path cheetah_dir files s Hne Hfiles)
    as [texts ->].
  eexists _, texts. split; [done|].
  rewrite andb_true_iff, succeeded_spec. apply and_iff_compat_l.
  by setoid_rewrite <- app_assoc.
Qed.

Lemma scp_files_reports_witness :
  exists ok texts,
    scp_files os_refuses_lib (find_script_files repository [s_cheetah]) lab_host REMOTE_PATH
      [s_cheetah] nothing_yet
    = (Ok ok,
       {| shown := shown nothing_yet ++ texts;
          launched :=
            launched nothing_yet
            ++ mkdir_cmd lab_host REMOTE_PATH
               :: (if (returncode_of (os_refuses_lib (launched nothing_yet)
                                        (mkdir_cmd lab_host REMOTE_PATH)) =? 0)%Z
                   then scp_plan lab_host REMOTE_PATH [s_cheetah]
                          (find_script_files repository [s_cheetah])
                   else []) |})
    /\ (ok = true <->
        (returncode_of (os_refuses_lib (launched nothing_yet)
                          (mkdir_cmd lab_host REMOTE_PATH)) =? 0)%Z = true /\
        forall done c rest,
          (if (returncode_of (os_refuses_lib (launched nothing_yet)
                                (mkdir_cmd lab_host REMOTE_PATH)) =? 0)%Z
           then scp_plan lab_host REMOTE_PATH [s_cheetah]
                  (find_script_files repository [s_cheetah])
           else []) = done ++ c :: rest ->
          head c = Some s_scp ->
          returncode_of (os_refuses_lib (launched nothing_yet
                                         ++ mkdir_cmd lab_host REMOTE_PATH :: done) c) = 0%Z).
Proof.
  apply (scp_files_reports os_refuses_lib (find_script_files repository [s_cheetah])
           lab_host REMOTE_PATH [s_cheetah] nothing_yet).
  - intros log c. unfold os_refuses_lib. case_bool_decide; eauto.
  - by vm_compute.
  - apply find_script_files_relative.
Defined.

(** C20: The status and the commands of the script on a machine that runs
    every command to its end.  Without the directory [cheetah] the status
    is 1 and nothing runs; without scripts in it, or in a dry run, the
    status is 0 and nothing runs; otherwise the commands of [scp_files]
    run on the files found, and the status is 0 exactly when the first
    [mkdir -p] and every [scp] returned 0. *)
Theorem deploy_main_status os root script_root hostname dry_run remote_path s :
  responsive os ->
  let cheetah_dir := script_root ++ [s_cheetah] in
  let files := find_script_files root cheetah_dir in
  let first := mkdir_cmd hostname remote_path in
  let created := (returncode_of (os (launched s) first) =? 0)%Z in
  let plan := if created then scp_plan hostname remote_path cheetah_dir files else [] in
  exists status texts commands,
    deploy_main os root script_root hostname dry_run remote_path s
    = (Ok status, {| shown := shown s ++ texts; launched := launched s ++ commands |})
    /\ (commands =
        if bool_decide (is_Some (get root cheetah_dir)) && truthy_list files && negb dry_run
        then first :: plan else [])
    /\ (status = 0 \/ status = 1)%Z
    /\ (status = 0%Z <->
        is_Some (get root cheetah_dir) /\
        (files = [] \/ dry_run = true \/
         created && succeeded os (launched s ++ [first]) plan = true)).
Proof.
  intros Hos. cbv zeta.
  destruct (deploy_main_run os root script_root hostname dry_run remote_path s Hos) as [texts ->].
  eexists _, texts, _. split_and!; [done..| |].
  - repeat (case_bool_decide || destruct (_ && _) || destruct dry_run
            || destruct (truthy_list _)); auto.
  - destruct (find_script_files root _) as [|f files]; cbn [truthy_list andb];
      rewrite ?andb_false_r; cbn [andb].
    + case_bool_decide; intuition done.
    + case_bool_decide; destruct dry_run; cbn [andb negb];
        try destruct (_ && succeeded _ _ _); intuition done.
Qed.

Lemma deploy_main_status_witness :
  exists status texts commands,
    deploy_main os_refuses_lib repository [] lab_host false REMOTE_PATH nothing_yet
    = (Ok status,
       {| shown := shown nothing_yet ++ texts; launched := launched nothing_yet ++ commands |})
    /\ (commands =
        if bool_decide (is_Some (get repository ([] ++ [s_cheetah])))
           && truthy_list (find_script_files repository ([] ++ [s_cheetah])) && negb false
        then mkdir_cmd lab_host REMOTE_PATH
             :: (if (returncode_of (os_refuses_lib (launched nothing_yet)
                                      (mkdir_cmd lab_host REMOTE_PATH)) =? 0)%Z
                 then scp_plan lab_host REMOTE_PATH ([] ++ [s_cheetah])
                        (find_script_files repository ([] ++ [s_cheetah]))
                 else [])
        else [])
    /\ (status = 0 \/ status = 1)%Z
    /\ (status = 0%Z <->
        is_Some (get repository ([] ++ [s_cheetah])) /\
        (find_script_files repository ([] ++ [s_cheetah]) = [] \/ false = true \/
         (returncode_of (os_refuses_lib (launched nothing_yet)
                           (mkdir_cmd lab_host REMOTE_PATH)) =? 0)%Z
         && succeeded os_refuses_lib (launched nothing_yet ++ [mkdir_cmd lab_host REMOTE_PATH])
              (if (returncode_of (os_refuses_lib (launched nothing_yet)
                                    (mkdir_cmd lab_host REMOTE_PATH)) =? 0)%Z
               then scp_plan lab_host REMOTE_PATH ([] ++ [s_cheetah])
                      (find_script_files repository ([] ++ [s_cheetah]))
               else []) = true)).
Proof.
  apply (deploy_main_status os_refuses_lib repository [] lab_host false REMOTE_PATH nothing_yet).
  intros log c. unfold os_refuses_lib. case_bool_decide; eauto.
Defined.

(** ** The script at work *)

(** The suffix of [pathlib]: a name that starts with its only dot, or ends
    with a dot, has none. *)
Example suffix_examples :
  suffix (u "deploy.py") = u ".py"
  /\ suffix (u "archive.tar.gz") = u ".gz"
  /\ suffix (u ".bashrc") = []
  /\ suffix (u "notes.") = []
  /\ suffix (u "start") = [].
Proof. by vm_compute. Qed.

(** The scripts of the repository: [util.PY] by its extension in capitals,
    [start] by its first line; [notes.txt] starts with a shebang and has an
    extension, so it is none. *)
Example find_script_files_repository :
  find_script_files repository [s_cheetah]
  = [[s_cheetah; s_lib; s_util_py]; [s_cheetah; s_run_sh]; [s_cheetah; s_start]].
Proof. by vm_compute. Qed.

(** On the machine that refuses the file of [lib], the script runs every
    command all the same, and its status is 1. *)
Example deploy_main_refused :
  let run := deploy_main os_refuses_lib repository [] lab_host false REMOTE_PATH nothing_yet in
  run.1 = Ok 1%Z
  /\ launched run.2
     = [[s_ssh; lab_host; u "mkdir -p /home/dn/cheetah"];
        [s_ssh; lab_host; u "mkdir -p /home/dn/cheetah/lib"];
        [s_scp; u "/cheetah/lib/util.PY"; u "dn@lab7:/home/dn/cheetah/lib/util.PY"];
        [s_scp; u "/cheetah/run.sh"; u "dn@lab7:/home/dn/cheetah/run.sh"];
        [s_scp; u "/cheetah/start"; u "dn@lab7:/home/dn/cheetah/start"]].
Proof. by vm_compute. Qed.

(** A dry run of the same repository lists the scripts and runs nothing. *)
Example deploy_main_dry_run :
  deploy_main os_refuses_lib repository [] lab_host true REMOTE_PATH nothing_yet
  = (Ok 0%Z,
     {| shown := [u "Source directory: /cheetah";
                  u "Remote destination: dn@lab7:/home/dn/cheetah";
                  [];
                  u "Found 3 script file(s):";
                  u "  - lib/util.PY";
                  u "  - run.sh";
                  u "  - start";
                  [];
                  u "Dry run mode - no files were copied."];
        launched := [] |}).
Proof. by vm_compute. Qed.

(** The remote path is put into the command of the remote shell as it is:
    with a blank in it, [mkdir -p] gets two arguments. *)
Example mkdir_cmd_blank :
  mkdir_cmd lab_host (u "/home/dn/my scripts")
  = [s_ssh; lab_host; u "mkdir -p /home/dn/my scripts"]
  /\ split_ws (u "mkdir -p /home/dn/my scripts")
     = [u "mkdir"; u "-p"; u "/home/dn/my"; u "scripts"].
Proof. by vm_compute. Qed.
